(** * Buffer synchronisation and diagnostics scheduling

    A shallow embedding of [src/utils/resourceMap.ts] and
    [src/tsServer/bufferSyncSupport.ts], followed by the properties proved
    about them.

    Conventions of the embedding.
    - A JavaScript string is a [string]: a sequence of code units below 256
      (the Latin-1 range), on which [String.prototype.toLowerCase] is the
      character-wise map [JsString.toLowerCase].
    - A [vscode-uri] URI is identified by its string form; the code never
      inspects a URI except through the path normalizer it is given.
    - A JavaScript [Map] is an association list in insertion order.
    - Mutable objects are threaded explicitly: a method returns the new state
      of every object it writes, next to its result. *)

From Stdlib Require Import List String Ascii ZArith NArith Bool Lia.
From Stdlib Require Import Permutation Sorted.
Import ListNotations.
Local Open Scope string_scope.
Local Open Scope list_scope.

Set Implicit Arguments.

(** ** JavaScript strings *)

Module JsString.

Definition code (c : ascii) : N := N_of_ascii c.

(** Code units below 256 that have a distinct lower-case form:
    [A-Z], and the Latin-1 capitals U+00C0..U+00DE except U+00D7. *)
Definition isUpper (c : ascii) : bool :=
  let n := code c in
  ((65 <=? n) && (n <=? 90)
   || (192 <=? n) && (n <=? 222) && negb (n =? 215))%N.

Definition lowerChar (c : ascii) : ascii :=
  if isUpper c then ascii_of_N (code c + 32) else c.

Fixpoint toLowerCase (s : string) : string :=
  match s with
  | EmptyString => EmptyString
  | String c s' => String (lowerChar c) (toLowerCase s')
  end.

(** [!!s] for a string [s]: only the empty string is falsy. *)
Definition truthy (s : string) : bool :=
  match s with
  | EmptyString => false
  | String _ _ => true
  end.

(** The character class [[a-zA-Z]]. *)
Definition isAsciiLetter (c : ascii) : bool :=
  let n := code c in
  ((65 <=? n) && (n <=? 90) || (97 <=? n) && (n <=? 122))%N.

(** [s[0] === c]. *)
Definition startsWithChar (s : string) (c : ascii) : bool :=
  match s with
  | EmptyString => false
  | String c0 _ => Ascii.eqb c0 c
  end.

End JsString.

(** [/^[a-zA-Z]:[/\\]/.test(path)] *)
Definition isWindowsPath (path : string) : bool :=
  match path with
  | String c0 (String c1 (String c2 _)) =>
      JsString.isAsciiLetter c0
      && Ascii.eqb c1 ":"
      && (Ascii.eqb c2 "/" || Ascii.eqb c2 "\")
  | _ => false
  end.

(** ** JavaScript [Map<string, V>]: insertion-ordered *)

Module JsMap.
Section WithValue.
Context {V : Type}.

Definition t := list (string * V).

Definition empty : t := [].

Fixpoint get (m : t) (k : string) : option V :=
  match m with
  | [] => None
  | (k', v) :: m' => if String.eqb k' k then Some v else get m' k
  end.

Definition has (m : t) (k : string) : bool :=
  match get m k with
  | Some _ => true
  | None => false
  end.

(** An existing key keeps its position; a new key goes last. *)
Fixpoint set (m : t) (k : string) (v : V) : t :=
  match m with
  | [] => [(k, v)]
  | (k', v') :: m' =>
      if String.eqb k' k then (k', v) :: m' else (k', v') :: set m' k v
  end.

Fixpoint delete (m : t) (k : string) : t :=
  match m with
  | [] => []
  | (k', v') :: m' =>
      if String.eqb k' k then m' else (k', v') :: delete m' k
  end.

Definition values (m : t) : list V := map snd m.

Definition keys (m : t) : list string := map fst m.

Definition size (m : t) : nat := List.length m.

End WithValue.
Arguments t : clear implicits.
End JsMap.

(** ** [ResourceMap<T>] (utils/resourceMap.ts) *)

Definition Uri := string.

Record Config := { onCaseInsensitiveFileSystem : bool }.

Module ResourceMap.

Record Entry (T : Type) := mkEntry { resource : Uri; value : T }.
Arguments mkEntry {T}.

Record t (T : Type) := mk {
  _normalizePath : Uri -> option string;
  config : Config;
  _map : JsMap.t (Entry T)
}.
Arguments mk {T}.

Section Methods.
Context {T : Type}.

(** [new ResourceMap(normalizePath, config)] *)
Definition create (normalizePath : Uri -> option string) (cfg : Config)
  : t T :=
  mk normalizePath cfg JsMap.empty.

Definition with_map (m : t T) (entries' : JsMap.t (Entry T)) : t T :=
  mk (_normalizePath m) (config m) entries'.

Definition isCaseInsensitivePath (m : t T) (path : string) : bool :=
  if isWindowsPath path then true
  else JsString.startsWithChar path "/"
       && onCaseInsensitiveFileSystem (config m).

(** [None] is [undefined]; an empty key is returned as it is. *)
Definition toKey (m : t T) (resource : Uri) : option string :=
  match _normalizePath m resource with
  | None => None
  | Some key =>
      if negb (JsString.truthy key) then Some key
      else Some (if isCaseInsensitivePath m key
                 then JsString.toLowerCase key else key)
  end.

Definition size (m : t T) : nat := JsMap.size (_map m).

Definition has (m : t T) (resource : Uri) : bool :=
  match toKey m resource with
  | None => false
  | Some file => JsString.truthy file && JsMap.has (_map m) file
  end.

(** [None] is [undefined]: the result for a URI without an entry. *)
Definition get (m : t T) (resource : Uri) : option T :=
  match toKey m resource with
  | None => None
  | Some file =>
      if negb (JsString.truthy file) then None
      else match JsMap.get (_map m) file with
           | Some entry => Some (value entry)
           | None => None
           end
  end.

Definition set (m : t T) (resource : Uri) (v : T) : t T :=
  match toKey m resource with
  | None => m
  | Some file =>
      if negb (JsString.truthy file) then m
      else match JsMap.get (_map m) file with
           | Some entry =>
               with_map m
                 (JsMap.set (_map m) file (mkEntry (ResourceMap.resource entry) v))
           | None =>
               with_map m (JsMap.set (_map m) file (mkEntry resource v))
           end
  end.

Definition delete (m : t T) (resource : Uri) : t T :=
  match toKey m resource with
  | None => m
  | Some file =>
      if JsString.truthy file then with_map m (JsMap.delete (_map m) file)
      else m
  end.

Definition clear (m : t T) : t T := with_map m JsMap.empty.

Definition values (m : t T) : list T := map (@value T) (JsMap.values (_map m)).

Definition entries (m : t T) : list (Entry T) := JsMap.values (_map m).

End Methods.
End ResourceMap.

(** ** Collaborators that the two files import *)

(** Modelled from the spec: [utils/api.ts] is not among the sources; the spec
    describes [apiVersion] as an orderable version with the constants
    [v3.4.0] and [v4.4.0], compared with [gte]. *)
Module API.
Record t := mk { major : N; minor : N; patch : N }.

Definition gte (a b : t) : bool :=
  ((major b <? major a)
   || (major a =? major b)
      && ((minor b <? minor a)
          || (minor a =? minor b) && (patch b <=? patch a)))%N.

Definition v340 : t := mk 3 4 0.
Definition v440 : t := mk 4 4 0.
End API.

(** [lsp.Position], [lsp.Range] and [lsp.TextDocumentContentChangeEvent];
    [range = None] is an event without a [range] property. *)
Module lsp.
Record Position := mkPosition { line : Z; character : Z }.
Record Range := mkRange { start : Position; end_ : Position }.
Record TextDocumentContentChangeEvent := mkEvent {
  range : option Range;
  text : string
}.
End lsp.

(** The TS server protocol records that the synchronizer builds. *)
Module protocol.
Record Location := mkLocation { line : Z; offset : Z }.
Record CodeEdit := mkCodeEdit {
  newText : string;
  start : Location;
  end_ : Location
}.
Record FileCodeEdits := mkFileCodeEdits {
  fileName : string;
  textChanges : list CodeEdit
}.
Inductive ScriptKindName := TS | TSX | JS | JSX.
Record OpenRequestArgs := mkOpenRequestArgs {
  file : string;
  fileContent : string;
  projectRootPath : option string;
  scriptKindName : option ScriptKindName
}.
Record FormatRequestArgs := mkFormatRequestArgs {
  fmt_file : string;
  fmt_line : Z;
  fmt_offset : Z;
  fmt_endLine : Z;
  fmt_endOffset : Z
}.
Record ChangeRequestArgs := mkChangeRequestArgs {
  insertString : string;
  formatting : FormatRequestArgs
}.
Record UpdateOpenRequestArgs := mkUpdateOpenRequestArgs {
  changedFiles : list FileCodeEdits;
  closedFiles : list string;
  openFiles : list OpenRequestArgs
}.
End protocol.

(** Modelled from the spec: [utils/typeConverters.ts] is not among the
    sources; the spec says that a ranged content change is translated with
    1-based line and column positions, the LSP ones being 0-based. *)
Module typeConverters.
Module Position.
Definition toLocation (p : lsp.Position) : protocol.Location :=
  protocol.mkLocation (lsp.line p + 1) (lsp.character p + 1).
End Position.
Module Range.
Definition toFormattingRequestArgs (file : string) (r : lsp.Range)
  : protocol.FormatRequestArgs :=
  protocol.mkFormatRequestArgs file
    (lsp.line (lsp.start r) + 1) (lsp.character (lsp.start r) + 1)
    (lsp.line (lsp.end_ r) + 1) (lsp.character (lsp.end_ r) + 1).
End Range.
End typeConverters.

(** The commands that reach the TS server, as the client is asked to send
    them ([delay: 0] of the two geterr commands is left out). *)
Inductive Command :=
| Cmd_Open (args : protocol.OpenRequestArgs)
| Cmd_Close (file : string)
| Cmd_Change (args : protocol.ChangeRequestArgs)
| Cmd_UpdateOpen (args : protocol.UpdateOpenRequestArgs)
| Cmd_Geterr (files : list string)
| Cmd_GeterrForProject (file : string).

Inductive ClientCapability := Syntax | EnhancedSyntax | Semantic.

(** [ITypeScriptServiceClient]: what the two files read from the client, and
    [sent], the commands handed to [execute] and
    [executeWithoutWaitingForResponse] so far, oldest first. *)
Module Client.
Record t := mk {
  apiVersion : API.t;
  capabilities_has : ClientCapability -> bool;
  hasCapabilityForResource : Uri -> ClientCapability -> bool;
  enableProjectDiagnostics : bool;
  toTsFilePath : Uri -> option string;
  getWorkspaceRootForResource : Uri -> option string;
  sent : list Command
}.

Definition execute (c : t) (cmd : Command) : t :=
  mk (apiVersion c) (capabilities_has c) (hasCapabilityForResource c)
     (enableProjectDiagnostics c) (toTsFilePath c)
     (getWorkspaceRootForResource c) (sent c ++ [cmd]).

Definition executeWithoutWaitingForResponse := execute.
End Client.

(** ** [BufferOperation] and [BufferSynchronizer] *)

Inductive BufferOperationType := Close | Open | Change.

Inductive BufferOperation :=
| CloseOperation (args : string)
| OpenOperation (args : protocol.OpenRequestArgs)
| ChangeOperation (args : protocol.FileCodeEdits).

Definition BufferOperation_type (op : BufferOperation) : BufferOperationType :=
  match op with
  | CloseOperation _ => Close
  | OpenOperation _ => Open
  | ChangeOperation _ => Change
  end.

Module BufferSynchronizer.

Record t := mk {
  client : Client.t;
  _pending : ResourceMap.t BufferOperation
}.

Definition create (client : Client.t)
  (pathNormalizer : Uri -> option string)
  (onCaseInsensitiveFileSystem : bool) : t :=
  mk client
     (ResourceMap.create pathNormalizer
        {| onCaseInsensitiveFileSystem := onCaseInsensitiveFileSystem |}).

Definition with_pending (s : t) (p : ResourceMap.t BufferOperation) : t :=
  mk (client s) p.

Definition with_client (s : t) (c : Client.t) : t :=
  mk c (_pending s).

Definition supportsBatching (s : t) : bool :=
  API.gte (Client.apiVersion (client s)) API.v340.

(** One turn of the loop of [flush]: the operation is pushed to the list
    of its type. *)
Definition flush_push (acc : protocol.UpdateOpenRequestArgs)
  (change : BufferOperation) : protocol.UpdateOpenRequestArgs :=
  match change with
  | ChangeOperation args =>
      protocol.mkUpdateOpenRequestArgs
        (protocol.changedFiles acc ++ [args])
        (protocol.closedFiles acc) (protocol.openFiles acc)
  | OpenOperation args =>
      protocol.mkUpdateOpenRequestArgs
        (protocol.changedFiles acc) (protocol.closedFiles acc)
        (protocol.openFiles acc ++ [args])
  | CloseOperation args =>
      protocol.mkUpdateOpenRequestArgs
        (protocol.changedFiles acc)
        (protocol.closedFiles acc ++ [args]) (protocol.openFiles acc)
  end.

Definition flush_collect (ops : list BufferOperation)
  : protocol.UpdateOpenRequestArgs :=
  fold_left flush_push ops (protocol.mkUpdateOpenRequestArgs [] [] []).

Definition flush (s : t) : t :=
  if negb (supportsBatching s) then
    with_pending s (ResourceMap.clear (_pending s))
  else if (0 <? ResourceMap.size (_pending s))%nat then
    let args := flush_collect (ResourceMap.values (_pending s)) in
    mk (Client.execute (client s) (Cmd_UpdateOpen args))
       (ResourceMap.clear (_pending s))
  else s.

Definition updatePending (s : t) (resource : Uri) (op : BufferOperation)
  : t * bool :=
  let openThenClose :=
    match BufferOperation_type op with
    | Close =>
        match ResourceMap.get (_pending s) resource with
        | Some existing =>
            match BufferOperation_type existing with
            | Open => true
            | _ => false
            end
        | None => false
        end
    | _ => false
    end in
  if openThenClose then
    (with_pending s (ResourceMap.delete (_pending s) resource), false)
  else
    let s1 := if ResourceMap.has (_pending s) resource then flush s else s in
    (with_pending s1 (ResourceMap.set (_pending s1) resource op), true).

Definition open (s : t) (resource : Uri) (args : protocol.OpenRequestArgs)
  : t :=
  if supportsBatching s then
    fst (updatePending s resource (OpenOperation args))
  else
    with_client s
      (Client.executeWithoutWaitingForResponse (client s) (Cmd_Open args)).

Definition close (s : t) (resource : Uri) (filepath : string) : t * bool :=
  if supportsBatching s then
    updatePending s resource (CloseOperation filepath)
  else
    (with_client s
       (Client.executeWithoutWaitingForResponse (client s)
          (Cmd_Close filepath)),
     true).

(** One turn of the loop that builds [edits] in the batching branch of
    [change]: an event without a range is skipped. *)
Definition change_push (edits : list protocol.CodeEdit)
  (change : lsp.TextDocumentContentChangeEvent) : list protocol.CodeEdit :=
  match lsp.range change with
  | None => edits
  | Some range =>
      edits ++
      [protocol.mkCodeEdit (lsp.text change)
         (typeConverters.Position.toLocation (lsp.start range))
         (typeConverters.Position.toLocation (lsp.end_ range))]
  end.

Definition change_edits (events : list lsp.TextDocumentContentChangeEvent)
  : list protocol.CodeEdit :=
  fold_left change_push events [].

(** One turn of the loop of the other branch: a [Change] command for a
    ranged event. *)
Definition change_send (filepath : string) (c : Client.t)
  (change : lsp.TextDocumentContentChangeEvent) : Client.t :=
  match lsp.range change with
  | None => c
  | Some range =>
      Client.executeWithoutWaitingForResponse c
        (Cmd_Change
           (protocol.mkChangeRequestArgs (lsp.text change)
              (typeConverters.Range.toFormattingRequestArgs filepath range)))
  end.

Definition change_eager (c : Client.t) (filepath : string)
  (events : list lsp.TextDocumentContentChangeEvent) : Client.t :=
  fold_left (change_send filepath) events c.

Definition change (s : t) (resource : Uri) (filepath : string)
  (events : list lsp.TextDocumentContentChangeEvent) : t :=
  match events with
  | [] => s
  | _ :: _ =>
      if supportsBatching s then
        fst (updatePending s resource
               (ChangeOperation
                  (protocol.mkFileCodeEdits filepath
                     (rev (change_edits events)))))
      else
        with_client s (change_eager (client s) filepath events)
  end.

Definition reset (s : t) : t :=
  with_pending s (ResourceMap.clear (_pending s)).

Definition beforeCommand (s : t) (command : string) : t :=
  if String.eqb command "updateOpen" then s else flush s.

End BufferSynchronizer.

(** ** [SyncedBuffer] *)

(** [const enum BufferKind]. *)
Inductive BufferKind := TypeScript | JavaScript.

(** [const enum BufferState], with the numeric values the source gives to
    its three members; a [const enum] member is its number. *)
Module BufferState.
Definition Initial : Z := 1.
Definition Open : Z := 2.
Definition Closed : Z := 2.
End BufferState.

(** The language id of a document. The four constants of
    [utils/languageIds.ts] are not among the sources: an id is one of them
    or any other string. *)
Inductive LanguageId :=
| typescript
| typescriptreact
| javascript
| javascriptreact
| otherLanguage (id : string).

Definition mode2ScriptKind (mode : LanguageId)
  : option protocol.ScriptKindName :=
  match mode with
  | typescript => Some protocol.TS
  | typescriptreact => Some protocol.TSX
  | javascript => Some protocol.JS
  | javascriptreact => Some protocol.JSX
  | otherLanguage _ => None
  end.

Record TextDocument := mkTextDocument {
  uri : Uri;
  languageId : LanguageId;
  getText : string;
  doc_lineCount : Z
}.

(** A buffer reads the client through its synchronizer: the orchestrator
    gives both the same client object. *)
Module SyncedBuffer.

Record t := mk {
  document : TextDocument;
  filepath : string;
  state : Z
}.

(** [new SyncedBuffer(document, filepath, client, synchronizer)] *)
Definition create (document : TextDocument) (filepath : string) : t :=
  mk document filepath BufferState.Initial.

Definition with_state (b : t) (st : Z) : t :=
  mk (document b) (filepath b) st.

(** [Uri.parse(this.document.uri)] *)
Definition resource (b : t) : Uri := uri (document b).

Definition lineCount (b : t) : Z := doc_lineCount (document b).

Definition kind (b : t) : BufferKind :=
  match languageId (document b) with
  | javascript | javascriptreact => JavaScript
  | typescript | typescriptreact | otherLanguage _ => TypeScript
  end.

Definition open (b : t) (sync : BufferSynchronizer.t)
  : t * BufferSynchronizer.t :=
  let args :=
    protocol.mkOpenRequestArgs (filepath b) (getText (document b))
      (Client.getWorkspaceRootForResource (BufferSynchronizer.client sync)
         (uri (document b)))
      (mode2ScriptKind (languageId (document b))) in
  (with_state b BufferState.Open,
   BufferSynchronizer.open sync (resource b) args).

(** Returns the buffer, the synchronizer and "was the buffer open?". *)
Definition close (b : t) (sync : BufferSynchronizer.t)
  : t * BufferSynchronizer.t * bool :=
  if negb (state b =? BufferState.Open)%Z then
    (with_state b BufferState.Closed, sync, false)
  else
    let '(sync', wasOpen) :=
      BufferSynchronizer.close sync (resource b) (filepath b) in
    (with_state b BufferState.Closed, sync', wasOpen).

(** The last component tells whether [console.error] was called. *)
Definition onContentChanged (b : t) (sync : BufferSynchronizer.t)
  (events : list lsp.TextDocumentContentChangeEvent)
  : BufferSynchronizer.t * bool :=
  (BufferSynchronizer.change sync (resource b) (filepath b) events,
   negb (state b =? BufferState.Open)%Z).

End SyncedBuffer.

(** ** [PendingDiagnostics] *)

(** [Array.prototype.sort(compareFn)]: a stable sort, in which [x] stays in
    front of a later [y] unless [compareFn x y > 0]. *)
Module JsArray.
Section Sort.
Context {A : Type}.
Variable compareFn : A -> A -> Z.

Fixpoint insert (x : A) (l : list A) : list A :=
  match l with
  | [] => [x]
  | y :: l' =>
      if (0 <? compareFn x y)%Z then y :: insert x l' else x :: l
  end.

Definition sort (l : list A) : list A := fold_right insert [] l.
End Sort.
End JsArray.

(** A time stamp ([Date.now()]) is an integer number of milliseconds. *)
Module PendingDiagnostics.

Definition t := ResourceMap.t Z.

Definition byValue (a b : ResourceMap.Entry Z) : Z :=
  ResourceMap.value a - ResourceMap.value b.

Definition orderedResources (m : t) : list Uri :=
  map (@ResourceMap.resource Z) (JsArray.sort byValue (ResourceMap.entries m)).

Definition getOrderedFileSet (m : t) : ResourceMap.t unit :=
  fold_left
    (fun map resource => ResourceMap.set map resource tt)
    (orderedResources m)
    (ResourceMap.create (ResourceMap._normalizePath m) (ResourceMap.config m)).

End PendingDiagnostics.

(** ** [GetErrRequest] *)

(** Modelled from the spec: [utils/arrays.ts] is not among the sources; the
    spec says of the mapped file list: drop nones. *)
Fixpoint coalesce {A : Type} (array : list (option A)) : list A :=
  match array with
  | [] => []
  | Some x :: rest => x :: coalesce rest
  | None :: rest => coalesce rest
  end.

(** [lsp.CancellationTokenSource], as far as the request uses it. *)
Module CancellationTokenSource.
Record t := mk { cancelled : bool; disposed : bool }.
Definition create : t := mk false false.
Definition cancel (s : t) : t := mk true (disposed s).
Definition dispose (s : t) : t := mk (cancelled s) true.
End CancellationTokenSource.

(** A request object together with what the scheduler holds for it:
    [immediate] is the [onDone] queued by [setImmediate] and not yet run,
    [request] the [executeAsync] request that has not settled yet, to which
    the [finally] callback is attached. [onDoneCalls] counts the calls of
    [onDone]. *)
Module GetErrRequest.

Record t := mk {
  files : ResourceMap.t unit;
  _done : bool;
  _token : CancellationTokenSource.t;
  immediate : bool;
  request : option Command;
  onDoneCalls : nat
}.

Definition isErrorReportingEnabled (client : Client.t) : bool :=
  if API.gte (Client.apiVersion client) API.v440 then true
  else Client.capabilities_has client Semantic.

Definition areProjectDiagnosticsEnabled (client : Client.t) : bool :=
  Client.enableProjectDiagnostics client
  && Client.capabilities_has client Semantic.

Definition allFiles (client : Client.t) (files : ResourceMap.t unit)
  : list string :=
  let supportsSyntaxGetErr := API.gte (Client.apiVersion client) API.v440 in
  coalesce
    (map (fun entry => Client.toTsFilePath client (ResourceMap.resource entry))
       (filter
          (fun entry =>
             supportsSyntaxGetErr
             || Client.hasCapabilityForResource client
                  (ResourceMap.resource entry) Semantic)
          (ResourceMap.entries files))).

(** The constructor; [onDone] is the counter. *)
Definition executeGetErrRequest (client : Client.t)
  (files : ResourceMap.t unit) : t :=
  if negb (isErrorReportingEnabled client) then
    mk files true CancellationTokenSource.create true None 0
  else
    match allFiles client files with
    | [] => mk files true CancellationTokenSource.create true None 0
    | (file0 :: _) as all =>
        let request :=
          if areProjectDiagnosticsEnabled client
          then Cmd_GeterrForProject file0
          else Cmd_Geterr all in
        mk files false CancellationTokenSource.create false (Some request) 0
    end.

Definition cancel (r : t) : t :=
  let token :=
    if negb (_done r) then CancellationTokenSource.cancel (_token r)
    else _token r in
  mk (files r) (_done r) (CancellationTokenSource.dispose token)
     (immediate r) (request r) (onDoneCalls r).

(** The callback given to [request.finally]. *)
Definition onSettled (r : t) : t :=
  if _done r then
    mk (files r) (_done r) (_token r) (immediate r) None (onDoneCalls r)
  else
    mk (files r) true (_token r) (immediate r) None (S (onDoneCalls r)).

(** The callback given to [setImmediate]: [onDone] itself. *)
Definition onImmediate (r : t) : t :=
  mk (files r) (_done r) (_token r) false (request r) (S (onDoneCalls r)).

Inductive Outcome := Succeeded | Failed | Cancelled.

(** What can happen to a request after its construction: its owner calls
    [cancel], the scheduler runs the queued immediate, or the back-end
    request settles. A callback that is not pending cannot run. *)
Inductive Event :=
| Ev_cancel
| Ev_immediate
| Ev_settled (outcome : Outcome).

Definition step (r : t) (e : Event) : t :=
  match e with
  | Ev_cancel => cancel r
  | Ev_immediate => if immediate r then onImmediate r else r
  | Ev_settled _ =>
      match request r with
      | Some _ => onSettled r
      | None => r
      end
  end.

Definition run (r : t) (events : list Event) : t := fold_left step events r.

(** The event that completes a freshly built request [r]. *)
Definition completes (r : t) (e : Event) : bool :=
  match e with
  | Ev_cancel => false
  | Ev_immediate => immediate r
  | Ev_settled _ => match request r with Some _ => true | None => false end
  end.

End GetErrRequest.

(** ** [TabResourceTracker] *)

Inductive TabInput :=
| TabInputText (uri : Uri)
| TabInputTextDiff (original modified : Uri)
| TabInputNotebook (uri : Uri)
| TabInputOther.

(** A tab object; [tab_id] stands for its identity. *)
Record Tab := mkTab { tab_id : nat; input : TabInput }.

(** [Set<vscode.Tab>]: tabs by identity, in insertion order. *)
Module TabSet.
Definition t := list nat.

Definition has (s : t) (tab : Tab) : bool :=
  existsb (Nat.eqb (tab_id tab)) s.

Definition add (s : t) (tab : Tab) : t :=
  if has s tab then s else s ++ [tab_id tab].

Definition delete (s : t) (tab : Tab) : t :=
  filter (fun i => negb (Nat.eqb (tab_id tab) i)) s.

Definition size (s : t) : nat := List.length s.

Definition singleton (tab : Tab) : t := [tab_id tab].
End TabSet.

Module TabResourceTracker.

Record TabsEntry := mkTabsEntry { tabs : TabSet.t }.

Record t := mk { _tabResources : ResourceMap.t TabsEntry }.

Definition getResourcesForTab (tab : Tab) : list Uri :=
  match input tab with
  | TabInputText uri => [uri]
  | TabInputTextDiff original modified => [original; modified]
  | TabInputNotebook uri => [uri]
  | TabInputOther => []
  end.

Definition has (tr : t) (resource : Uri) : bool :=
  match ResourceMap.get (_tabResources tr) resource with
  | Some entry => (0 <? TabSet.size (tabs entry))%nat
  | None => false
  end.

(** One turn of the loop of [add]. Writing to [entry.tabs] changes the
    value that the map holds for the key of [uri]. *)
Definition add_uri (tab : Tab) (acc : t * list Uri) (uri : Uri)
  : t * list Uri :=
  let '(tr, addedResources) := acc in
  match ResourceMap.get (_tabResources tr) uri with
  | Some entry =>
      (mk (ResourceMap.set (_tabResources tr) uri
             (mkTabsEntry (TabSet.add (tabs entry) tab))),
       addedResources)
  | None =>
      (mk (ResourceMap.set (_tabResources tr) uri
             (mkTabsEntry (TabSet.singleton tab))),
       addedResources ++ [uri])
  end.

Definition add (tr : t) (tab : Tab) : t * list Uri :=
  fold_left (add_uri tab) (getResourcesForTab tab) (tr, []).

(** One turn of the loop of [delete]. *)
Definition delete_uri (tab : Tab) (acc : t * list Uri) (uri : Uri)
  : t * list Uri :=
  let '(tr, closedResources) := acc in
  match ResourceMap.get (_tabResources tr) uri with
  | None => acc
  | Some entry =>
      let tabs' := TabSet.delete (tabs entry) tab in
      if (TabSet.size tabs' =? 0)%nat then
        (mk (ResourceMap.delete (_tabResources tr) uri),
         closedResources ++ [uri])
      else
        (mk (ResourceMap.set (_tabResources tr) uri (mkTabsEntry tabs')),
         closedResources)
  end.

Definition delete (tr : t) (tab : Tab) : t * list Uri :=
  fold_left (delete_uri tab) (getResourcesForTab tab) (tr, []).

(** The constructor: a tracker on an empty map, to which the tabs of all
    tab groups are added. *)
Definition create (normalizePath : Uri -> option string) (cfg : Config)
  (allTabs : list Tab) : t :=
  fold_left (fun tr tab => fst (add tr tab)) allTabs
    (mk (ResourceMap.create normalizePath cfg)).

Record TabChangeEvent := mkTabChangeEvent {
  ev_opened : list Tab;
  ev_closed : list Tab
}.

Record ChangeEvent := mkChangeEvent {
  closed : list Uri;
  opened : list Uri
}.

Definition flatMap_tabs (f : t -> Tab -> t * list Uri) (tr : t)
  (l : list Tab) : t * list Uri :=
  fold_left
    (fun acc tab =>
       let '(tr', uris) := f (fst acc) tab in (tr', snd acc ++ uris))
    l (tr, []).

(** The listener on [onDidChangeTabs]; the event is fired when one of the
    two lists is not empty. *)
Definition onDidChangeTabs (tr : t) (e : TabChangeEvent)
  : t * option ChangeEvent :=
  let '(tr1, closed) := flatMap_tabs delete tr (ev_closed e) in
  let '(tr2, opened) := flatMap_tabs add tr1 (ev_opened e) in
  (tr2,
   match closed, opened with
   | [], [] => None
   | _, _ => Some (mkChangeEvent closed opened)
   end).

End TabResourceTracker.

(** ** [BufferSyncSupport]: eligibility and scheduling of diagnostics *)

(** Modelled from the spec: [utils/async.ts] is not among the sources; the
    spec says that [trigger(action, delay)] schedules the action after the
    delay and that a later call replaces both. The orchestrator has one
    action, [sendPendingDiagnostics], so the delay is what is kept. *)
Module Delayer.
Record t := mk { defaultDelay : Z; scheduled : option Z }.
Definition create (defaultDelay : Z) : t := mk defaultDelay None.
Definition trigger (d : t) (delay : Z) : t := mk (defaultDelay d) (Some delay).
End Delayer.

(** [Math.ceil(n / d)] for integers [n] and [d > 0]. *)
Module Math.
Definition ceil_div (n d : Z) : Z := (- ((- n) / d))%Z.
Definition max := Z.max.
Definition min := Z.min.
End Math.

Module BufferSyncSupport.

(** The fields that [shouldValidate] and [requestDiagnostic] read and
    write. *)
Record t := mk {
  client : Client.t;
  _validateJavaScript : bool;
  _validateTypeScript : bool;
  pendingDiagnostics : PendingDiagnostics.t;
  diagnosticDelayer : Delayer.t;
  _tabResources : TabResourceTracker.t
}.

Definition shouldValidate (s : t) (buffer : SyncedBuffer.t) : bool :=
  if negb (Client.enableProjectDiagnostics (client s))
     && negb (TabResourceTracker.has (_tabResources s)
                (SyncedBuffer.resource buffer))
  then false
  else match SyncedBuffer.kind buffer with
       | JavaScript => _validateJavaScript s
       | TypeScript => _validateTypeScript s
       end.

Definition triggerDiagnostics (s : t) (delay : Z) : t :=
  mk (client s) (_validateJavaScript s) (_validateTypeScript s)
     (pendingDiagnostics s) (Delayer.trigger (diagnosticDelayer s) delay)
     (_tabResources s).

Definition with_pendingDiagnostics (s : t) (p : PendingDiagnostics.t) : t :=
  mk (client s) (_validateJavaScript s) (_validateTypeScript s)
     p (diagnosticDelayer s) (_tabResources s).

Definition requestDiagnostic_delay (buffer : SyncedBuffer.t) : Z :=
  Math.min (Math.max (Math.ceil_div (SyncedBuffer.lineCount buffer) 20) 300)
    800.

(** [now] is the value of [Date.now()]. *)
Definition requestDiagnostic (s : t) (buffer : SyncedBuffer.t) (now : Z)
  : t * bool :=
  if negb (shouldValidate s buffer) then (s, false)
  else
    let s1 :=
      with_pendingDiagnostics s
        (ResourceMap.set (pendingDiagnostics s)
           (SyncedBuffer.resource buffer) now) in
    (triggerDiagnostics s1 (requestDiagnostic_delay buffer), true).

End BufferSyncSupport.

(** ** Sequences of operations *)

(** The calls that change a [ResourceMap]. *)
Module ResourceMapOps.
Inductive Op (T : Type) :=
| Op_set (resource : Uri) (v : T)
| Op_delete (resource : Uri)
| Op_clear.
Arguments Op_set {T}.
Arguments Op_delete {T}.
Arguments Op_clear {T}.

Definition apply {T : Type} (m : ResourceMap.t T) (op : Op T)
  : ResourceMap.t T :=
  match op with
  | Op_set resource v => ResourceMap.set m resource v
  | Op_delete resource => ResourceMap.delete m resource
  | Op_clear => ResourceMap.clear m
  end.

Definition run {T : Type} (m : ResourceMap.t T) (ops : list (Op T))
  : ResourceMap.t T :=
  fold_left apply ops m.

(** The value that a run of [set] calls leaves under the key [file], when
    it held [v] before. *)
Definition lastValue {T : Type} (m : ResourceMap.t T) (file : string)
  (later : list (Uri * T)) (v : T) : T :=
  fold_left
    (fun acc p =>
       match ResourceMap.toKey m (fst p) with
       | Some file' => if String.eqb file' file then snd p else acc
       | None => acc
       end)
    later v.

Definition setAll {T : Type} (m : ResourceMap.t T) (later : list (Uri * T))
  : ResourceMap.t T :=
  fold_left (fun m p => ResourceMap.set m (fst p) (snd p)) later m.
End ResourceMapOps.

(** The calls that change a [TabResourceTracker]. *)
Module TabOps.
Inductive Op :=
| Op_add (tab : Tab)
| Op_delete (tab : Tab).

Definition apply (tr : TabResourceTracker.t) (op : Op)
  : TabResourceTracker.t :=
  match op with
  | Op_add tab => fst (TabResourceTracker.add tr tab)
  | Op_delete tab => fst (TabResourceTracker.delete tr tab)
  end.

Definition run (tr : TabResourceTracker.t) (ops : list Op)
  : TabResourceTracker.t :=
  fold_left apply ops tr.
End TabOps.

(** ** Invariant of a [ResourceMap] *)

(** Every key is a non-empty string, is the key of the URI stored under it,
    and occurs once. *)
Definition keyed {T : Type} (m : ResourceMap.t T) : Prop :=
  Forall
    (fun kv =>
       JsString.truthy (fst kv) = true
       /\ ResourceMap.toKey m (ResourceMap.resource (snd kv)) = Some (fst kv))
    (ResourceMap._map m).

Definition wf {T : Type} (m : ResourceMap.t T) : Prop :=
  NoDup (JsMap.keys (ResourceMap._map m)) /\ keyed m.

(** ** The words of the specification *)

(** [clamp(x, lo, hi)] *)
Definition spec_clamp (x lo hi : Z) : Z :=
  if (x <? lo)%Z then lo else if (hi <? x)%Z then hi else x.

(** The edit of a content change that carries a range: 1-based positions. *)
Definition spec_edit (text : string) (r : lsp.Range) : protocol.CodeEdit :=
  protocol.mkCodeEdit text
    (protocol.mkLocation (lsp.line (lsp.start r) + 1)
       (lsp.character (lsp.start r) + 1))
    (protocol.mkLocation (lsp.line (lsp.end_ r) + 1)
       (lsp.character (lsp.end_ r) + 1)).

(** The edits of the ranged content changes, in editor event order. *)
Definition spec_edits (events : list lsp.TextDocumentContentChangeEvent)
  : list protocol.CodeEdit :=
  flat_map
    (fun ev =>
       match lsp.range ev with
       | Some r => [spec_edit (lsp.text ev) r]
       | None => []
       end)
    events.

(** The arguments of the [Change], [Close] and [Open] operations of a
    batch, in the order of the batch. *)
Definition spec_changedFiles (ops : list BufferOperation)
  : list protocol.FileCodeEdits :=
  flat_map (fun op => match op with ChangeOperation a => [a] | _ => [] end) ops.

Definition spec_closedFiles (ops : list BufferOperation) : list string :=
  flat_map (fun op => match op with CloseOperation a => [a] | _ => [] end) ops.

Definition spec_openFiles (ops : list BufferOperation)
  : list protocol.OpenRequestArgs :=
  flat_map (fun op => match op with OpenOperation a => [a] | _ => [] end) ops.

(** The one pair that [updatePending] elides: a pending [Open] met by a
    [Close]. *)
Definition isOpenThenClose (existing op : BufferOperation) : bool :=
  match existing, op with
  | OpenOperation _, CloseOperation _ => true
  | _, _ => false
  end.

(** The number of [onDone] calls after [events], for a request [r] that
    has one callback pending. *)
Definition calls_after (r : GetErrRequest.t)
  (events : list GetErrRequest.Event) : nat :=
  if existsb (GetErrRequest.completes r) events
  then S (GetErrRequest.onDoneCalls r)
  else GetErrRequest.onDoneCalls r.

(** [a] was enqueued no later than [b]. *)
Definition older (a b : ResourceMap.Entry Z) : Prop :=
  (ResourceMap.value a <= ResourceMap.value b)%Z.

(** The key of [u] resolves: the normalizer gives a non-empty path. *)
Definition resolves {T : Type} (m : ResourceMap.t T) (u : Uri) : Prop :=
  exists file,
    ResourceMap.toKey m u = Some file /\ JsString.truthy file = true.

(** [u] is a key of the tracker's resource map. *)
Definition present (tr : TabResourceTracker.t) (u : Uri) : bool :=
  ResourceMap.has (TabResourceTracker._tabResources tr) u.

(** Every URI in the tracker's resource map has a tab. *)
Definition tabs_nonempty (tr : TabResourceTracker.t) : Prop :=
  Forall
    (fun e => TabResourceTracker.tabs (ResourceMap.value e) <> [])
    (ResourceMap.entries (TabResourceTracker._tabResources tr)).

Definition tracker_inv (tr : TabResourceTracker.t) : Prop :=
  wf (TabResourceTracker._tabResources tr) /\ tabs_nonempty tr.

(** ** Sample data *)

Module Sample.

(** A path normalizer in the manner of [toTsFilePath]: the path of a
    [file:] URI, without the slash in front of a drive letter; the empty
    string for [empty:] URIs; nothing for any other scheme. *)
Definition normalize (u : Uri) : option string :=
  if String.prefix "file://" u then
    let path := String.substring 7 (String.length u - 7) u in
    let rest := String.substring 1 (String.length path - 1) path in
    if isWindowsPath rest then Some rest else Some path
  else if String.prefix "empty:" u then Some ""
  else None.

Definition caseSensitive : Config := {| onCaseInsensitiveFileSystem := false |}.

Definition client (version : API.t) : Client.t :=
  Client.mk version (fun _ => true) (fun _ _ => true) false normalize
    (fun _ => None) [].

Definition batching : BufferSynchronizer.t :=
  BufferSynchronizer.create (client API.v440) normalize false.

Definition legacy : BufferSynchronizer.t :=
  BufferSynchronizer.create (client (API.mk 3 3 0)) normalize false.

Definition doc (u : Uri) (lines : Z) : TextDocument :=
  mkTextDocument u typescript "let x = 1;" lines.

Definition openArgs (file : string) : protocol.OpenRequestArgs :=
  protocol.mkOpenRequestArgs file "let x = 1;" None (Some protocol.TS).

Definition fileA : Uri := "file:///src/a.ts".
Definition fileB : Uri := "file:///src/b.ts".
Definition fileC : Uri := "file:///src/c.ts".
Definition untitled : Uri := "untitled:Untitled-1".

(** S4: pending diagnostics enqueued at 100, 200 and 150. *)
Definition pendingS4 : PendingDiagnostics.t :=
  ResourceMapOps.setAll (ResourceMap.create normalize caseSensitive)
    [(fileA, 100%Z); (fileB, 200%Z); (fileC, 150%Z)].

Definition event (line0 : Z) (txt : string)
  : lsp.TextDocumentContentChangeEvent :=
  lsp.mkEvent
    (Some (lsp.mkRange (lsp.mkPosition line0 0) (lsp.mkPosition line0 1)))
    txt.


(** One tab, showing [fileA]. *)
Definition tabs : TabResourceTracker.t :=
  TabResourceTracker.create normalize caseSensitive
    [mkTab 1 (TabInputText fileA)].

(** An orchestrator with project diagnostics disabled and validation
    enabled for both kinds. *)
Definition support : BufferSyncSupport.t :=
  BufferSyncSupport.mk (client API.v440) true true
    (ResourceMap.create normalize caseSensitive) (Delayer.create 300) tabs.

Definition buffer (u : Uri) (path : string) (lines : Z) : SyncedBuffer.t :=
  SyncedBuffer.create (doc u lines) path.


Definition noTabs : TabResourceTracker.t :=
  TabResourceTracker.create normalize caseSensitive [].

Definition untitledTab : Tab := mkTab 7 (TabInputText untitled).

End Sample.

(** ** Further sequences of operations and sample data *)

(** [resolves], as a test. *)
Definition resolvesb {T : Type} (m : ResourceMap.t T) (u : Uri) : bool :=
  match ResourceMap.toKey m u with
  | Some file => JsString.truthy file
  | None => false
  end.

(** The calls that change a [BufferSynchronizer]. *)
Module SyncOps.
Inductive Op :=
| Op_open (resource : Uri) (args : protocol.OpenRequestArgs)
| Op_close (resource : Uri) (filepath : string)
| Op_change (resource : Uri) (filepath : string)
    (events : list lsp.TextDocumentContentChangeEvent)
| Op_reset
| Op_beforeCommand (command : string).

Definition apply (s : BufferSynchronizer.t) (op : Op) : BufferSynchronizer.t :=
  match op with
  | Op_open resource args => BufferSynchronizer.open s resource args
  | Op_close resource filepath =>
      fst (BufferSynchronizer.close s resource filepath)
  | Op_change resource filepath events =>
      BufferSynchronizer.change s resource filepath events
  | Op_reset => BufferSynchronizer.reset s
  | Op_beforeCommand command => BufferSynchronizer.beforeCommand s command
  end.

Definition run (s : BufferSynchronizer.t) (ops : list Op)
  : BufferSynchronizer.t :=
  fold_left apply ops s.

(** A run of [updatePending] calls. *)
Definition updateAll (s : BufferSynchronizer.t)
  (l : list (Uri * BufferOperation)) : BufferSynchronizer.t :=
  fold_left (fun s p => fst (BufferSynchronizer.updatePending s (fst p) (snd p)))
    l s.
End SyncOps.

(** The [UpdateOpen] command for a batch of operations. *)
Definition spec_updateOpen (ops : list BufferOperation) : Command :=
  Cmd_UpdateOpen
    (protocol.mkUpdateOpenRequestArgs (spec_changedFiles ops)
       (spec_closedFiles ops) (spec_openFiles ops)).

(** The [Change] commands of the ranged content changes, in editor event
    order. *)
Definition spec_changeCommands (filepath : string)
  (events : list lsp.TextDocumentContentChangeEvent) : list Command :=
  flat_map
    (fun ev =>
       match lsp.range ev with
       | Some r =>
           [Cmd_Change
              (protocol.mkChangeRequestArgs (lsp.text ev)
                 (typeConverters.Range.toFormattingRequestArgs filepath r))]
       | None => []
       end)
    events.

(** What every call of the synchronizer keeps: the invariant of the pending
    map, the mode, an empty pending map in the eager mode, the commands
    sent so far, and the keys of the URIs. *)
Definition sync_kept (s s' : BufferSynchronizer.t) : Prop :=
  (wf (BufferSynchronizer._pending s) -> wf (BufferSynchronizer._pending s'))
  /\ BufferSynchronizer.supportsBatching s'
     = BufferSynchronizer.supportsBatching s
  /\ (ResourceMap._map (BufferSynchronizer._pending s) = [] ->
      BufferSynchronizer.supportsBatching s = false ->
      ResourceMap._map (BufferSynchronizer._pending s') = [])
  /\ (exists more,
        Client.sent (BufferSynchronizer.client s')
        = Client.sent (BufferSynchronizer.client s) ++ more)
  /\ (forall r,
        ResourceMap.toKey (BufferSynchronizer._pending s') r
        = ResourceMap.toKey (BufferSynchronizer._pending s) r).

(** [cancel] is called before the back-end request settles. *)
Fixpoint cancelledBefore (events : list GetErrRequest.Event) : bool :=
  match events with
  | [] => false
  | GetErrRequest.Ev_cancel :: _ => true
  | GetErrRequest.Ev_settled _ :: _ => false
  | GetErrRequest.Ev_immediate :: rest => cancelledBefore rest
  end.

Definition isCancel (e : GetErrRequest.Event) : bool :=
  match e with
  | GetErrRequest.Ev_cancel => true
  | _ => false
  end.

(** The arguments with which [SyncedBuffer.open] opens a buffer. *)
Definition spec_openArgs (b : SyncedBuffer.t) (client : Client.t)
  : protocol.OpenRequestArgs :=
  protocol.mkOpenRequestArgs (SyncedBuffer.filepath b)
    (getText (SyncedBuffer.document b))
    (Client.getWorkspaceRootForResource client (uri (SyncedBuffer.document b)))
    (mode2ScriptKind (languageId (SyncedBuffer.document b))).

(** The tabs that the tracker holds for [u]; none when it has no entry. *)
Definition tabsOf (tr : TabResourceTracker.t) (u : Uri) : TabSet.t :=
  match ResourceMap.get (TabResourceTracker._tabResources tr) u with
  | Some entry => TabResourceTracker.tabs entry
  | None => []
  end.

(** [u] and [u'] have the same key, or both have none. *)
Definition sameKey {T : Type} (m : ResourceMap.t T) (u u' : Uri) : bool :=
  match ResourceMap.toKey m u, ResourceMap.toKey m u' with
  | Some k, Some k' => String.eqb k k'
  | None, None => true
  | _, _ => false
  end.

(** The URI [u0] of a tab stands for [u]: its key resolves and is the key
    of [u]. *)
Definition coversb {T : Type} (m : ResourceMap.t T) (u0 u : Uri) : bool :=
  resolvesb m u0 && sameKey m u u0.

(** The tab shows [u]: one of its URIs stands for [u]. *)
Definition showsb {T : Type} (m : ResourceMap.t T) (tab : Tab) (u : Uri)
  : bool :=
  existsb (fun u0 => coversb m u0 u) (TabResourceTracker.getResourcesForTab tab).

(** ** The orchestrator: the whole of [BufferSyncSupport] *)

Definition LanguageId_eqb (a b : LanguageId) : bool :=
  match a, b with
  | typescript, typescript => true
  | typescriptreact, typescriptreact => true
  | javascript, javascript => true
  | javascriptreact, javascriptreact => true
  | otherLanguage x, otherLanguage y => String.eqb x y
  | _, _ => false
  end.

(** The state of a [BufferSyncSupport] object. The client is the one of the
    synchronizer, which the constructor gives the same client object;
    [BufferSyncSupport.t] is the part of the state that [shouldValidate] and
    [requestDiagnostic] use ([core]). A request object is held with a
    number that stands for its identity. [fired] lists the [onDelete] and
    [onWillChange] events fired so far. [Date.now()] is an argument: one
    value for a method that reads the clock once, a reading for each turn of
    the loop for a method that reads it in a loop. *)
Module Orchestrator.

Inductive Fired :=
| Fired_onDelete (resource : Uri)
| Fired_onWillChange (resource : Uri).

Record t := mk {
  synchronizer : BufferSynchronizer.t;
  _validateJavaScript : bool;
  _validateTypeScript : bool;
  modeIds : list LanguageId;
  syncedBuffers : ResourceMap.t SyncedBuffer.t;
  pendingDiagnostics : PendingDiagnostics.t;
  diagnosticDelayer : Delayer.t;
  pendingGetErr : option (nat * GetErrRequest.t);
  requestCount : nat;
  listening : bool;
  _tabResources : TabResourceTracker.t;
  fired : list Fired
}.

Definition client (s : t) : Client.t :=
  BufferSynchronizer.client (synchronizer s).

Definition core (s : t) : BufferSyncSupport.t :=
  BufferSyncSupport.mk (client s) (_validateJavaScript s)
    (_validateTypeScript s) (pendingDiagnostics s) (diagnosticDelayer s)
    (_tabResources s).

Definition with_synchronizer (s : t) (x : BufferSynchronizer.t) : t :=
  mk x (_validateJavaScript s) (_validateTypeScript s) (modeIds s)
    (syncedBuffers s) (pendingDiagnostics s) (diagnosticDelayer s)
    (pendingGetErr s) (requestCount s) (listening s) (_tabResources s)
    (fired s).

Definition with_syncedBuffers (s : t) (x : ResourceMap.t SyncedBuffer.t) : t :=
  mk (synchronizer s) (_validateJavaScript s) (_validateTypeScript s)
    (modeIds s) x (pendingDiagnostics s) (diagnosticDelayer s)
    (pendingGetErr s) (requestCount s) (listening s) (_tabResources s)
    (fired s).

Definition with_pendingDiagnostics (s : t) (x : PendingDiagnostics.t) : t :=
  mk (synchronizer s) (_validateJavaScript s) (_validateTypeScript s)
    (modeIds s) (syncedBuffers s) x (diagnosticDelayer s)
    (pendingGetErr s) (requestCount s) (listening s) (_tabResources s)
    (fired s).

Definition with_diagnosticDelayer (s : t) (x : Delayer.t) : t :=
  mk (synchronizer s) (_validateJavaScript s) (_validateTypeScript s)
    (modeIds s) (syncedBuffers s) (pendingDiagnostics s) x
    (pendingGetErr s) (requestCount s) (listening s) (_tabResources s)
    (fired s).

Definition with_pendingGetErr (s : t) (x : option (nat * GetErrRequest.t))
  : t :=
  mk (synchronizer s) (_validateJavaScript s) (_validateTypeScript s)
    (modeIds s) (syncedBuffers s) (pendingDiagnostics s) (diagnosticDelayer s)
    x (requestCount s) (listening s) (_tabResources s) (fired s).

Definition with_tabResources (s : t) (x : TabResourceTracker.t) : t :=
  mk (synchronizer s) (_validateJavaScript s) (_validateTypeScript s)
    (modeIds s) (syncedBuffers s) (pendingDiagnostics s) (diagnosticDelayer s)
    (pendingGetErr s) (requestCount s) (listening s) x (fired s).

Definition fire (s : t) (e : Fired) : t :=
  mk (synchronizer s) (_validateJavaScript s) (_validateTypeScript s)
    (modeIds s) (syncedBuffers s) (pendingDiagnostics s) (diagnosticDelayer s)
    (pendingGetErr s) (requestCount s) (listening s) (_tabResources s)
    (fired s ++ [e]).

(** The part of the state that a call on [core] can change. *)
Definition with_core (s : t) (c : BufferSyncSupport.t) : t :=
  with_diagnosticDelayer
    (with_pendingDiagnostics s (BufferSyncSupport.pendingDiagnostics c))
    (BufferSyncSupport.diagnosticDelayer c).

(** [updateConfiguration], with the two [validate.enable] settings. *)
Definition updateConfiguration (s : t) (js ts : bool) : t :=
  mk (synchronizer s) js ts (modeIds s) (syncedBuffers s)
    (pendingDiagnostics s) (diagnosticDelayer s) (pendingGetErr s)
    (requestCount s) (listening s) (_tabResources s) (fired s).

(** The constructor, with the tabs of the tab groups and the two settings
    that [updateConfiguration] reads. *)
Definition create (client : Client.t) (modeIds : list LanguageId)
  (onCaseInsensitiveFileSystem : bool) (allTabs : list Tab) (js ts : bool)
  : t :=
  let pathNormalizer := Client.toTsFilePath client in
  let cfg := {| onCaseInsensitiveFileSystem := onCaseInsensitiveFileSystem |} in
  mk (BufferSynchronizer.create client pathNormalizer
        onCaseInsensitiveFileSystem)
     js ts modeIds
     (ResourceMap.create pathNormalizer cfg)
     (ResourceMap.create pathNormalizer cfg)
     (Delayer.create 300)
     None 0 false
     (TabResourceTracker.create pathNormalizer cfg allTabs)
     [].

Definition handles (s : t) (resource : Uri) : bool :=
  ResourceMap.has (syncedBuffers s) resource.

Definition hasPendingDiagnostics (s : t) (resource : Uri) : bool :=
  ResourceMap.has (pendingDiagnostics s) resource.

Definition shouldValidate (s : t) (buffer : SyncedBuffer.t) : bool :=
  BufferSyncSupport.shouldValidate (core s) buffer.

Definition triggerDiagnostics (s : t) (delay : Z) : t :=
  with_core s (BufferSyncSupport.triggerDiagnostics (core s) delay).

Definition requestDiagnostic (s : t) (buffer : SyncedBuffer.t) (now : Z)
  : t * bool :=
  let '(c, didTrigger) := BufferSyncSupport.requestDiagnostic (core s) buffer now in
  (with_core s c, didTrigger).

(** [this.pendingGetErr?.cancel()] *)
Definition cancelGetErr (s : t) : t :=
  match pendingGetErr s with
  | Some (id, request) =>
      with_pendingGetErr s (Some (id, GetErrRequest.cancel request))
  | None => s
  end.

(** [this.pendingGetErr?.files.delete(resource)] *)
Definition dropFromGetErr (s : t) (resource : Uri) : t :=
  match pendingGetErr s with
  | Some (id, request) =>
      with_pendingGetErr s
        (Some (id,
               GetErrRequest.mk
                 (ResourceMap.delete (GetErrRequest.files request) resource)
                 (GetErrRequest._done request) (GetErrRequest._token request)
                 (GetErrRequest.immediate request)
                 (GetErrRequest.request request)
                 (GetErrRequest.onDoneCalls request)))
  | None => s
  end.

(** One turn of the loop of [requestAllDiagnostics]; [i] counts the turns. *)
Definition requestAll_step (times : nat -> Z) (acc : t * nat)
  (buffer : SyncedBuffer.t) : t * nat :=
  let '(s, i) := acc in
  (if shouldValidate s buffer
   then with_pendingDiagnostics s
          (ResourceMap.set (pendingDiagnostics s)
             (SyncedBuffer.resource buffer) (times i))
   else s,
   S i).

Definition requestAllDiagnostics (s : t) (times : nat -> Z) : t :=
  triggerDiagnostics
    (fst (fold_left (requestAll_step times)
            (ResourceMap.values (syncedBuffers s)) (s, 0%nat)))
    200.

Definition getErr_step (times : nat -> Z) (acc : t * nat) (resource : Uri)
  : t * nat :=
  let '(s, i) := acc in
  (with_pendingDiagnostics s
     (ResourceMap.set (pendingDiagnostics s) resource (times i)),
   S i).

Definition getErr (s : t) (resources : list Uri) (times : nat -> Z) : t :=
  match filter (handles s) resources with
  | [] => s
  | handledResources =>
      triggerDiagnostics
        (fst (fold_left (getErr_step times) handledResources (s, 0%nat)))
        200
  end.

Definition reset (s : t) : t :=
  with_synchronizer
    (with_pendingDiagnostics (cancelGetErr s)
       (ResourceMap.clear (pendingDiagnostics s)))
    (BufferSynchronizer.reset (synchronizer s)).

(** One turn of the loop of [reinitialize]: the buffer of an entry is
    opened, which writes its state and the synchronizer. *)
Definition reopen_step
  (acc : JsMap.t (ResourceMap.Entry SyncedBuffer.t) * BufferSynchronizer.t)
  (kv : string * ResourceMap.Entry SyncedBuffer.t)
  : JsMap.t (ResourceMap.Entry SyncedBuffer.t) * BufferSynchronizer.t :=
  let '(done, sync) := acc in
  let '(buffer, sync') := SyncedBuffer.open (ResourceMap.value (snd kv)) sync in
  (done ++ [(fst kv, ResourceMap.mkEntry (ResourceMap.resource (snd kv)) buffer)],
   sync').

Definition reinitialize (s : t) : t :=
  let s1 := reset s in
  let '(buffers, sync) :=
    fold_left reopen_step (ResourceMap._map (syncedBuffers s1))
      ([], synchronizer s1) in
  with_synchronizer
    (with_syncedBuffers s1 (ResourceMap.with_map (syncedBuffers s1) buffers))
    sync.

Definition openTextDocument (s : t) (document : TextDocument) (now : Z)
  : t * bool :=
  if negb (existsb (LanguageId_eqb (languageId document)) (modeIds s)) then
    (s, false)
  else
    let resource := uri document in
    match Client.toTsFilePath (client s) resource with
    | None => (s, false)
    | Some filepath =>
        if negb (JsString.truthy filepath) then (s, false)
        else if ResourceMap.has (syncedBuffers s) resource then (s, true)
        else
          let '(syncedBuffer, sync) :=
            SyncedBuffer.open (SyncedBuffer.create document filepath)
              (synchronizer s) in
          let s1 :=
            with_synchronizer
              (with_syncedBuffers s
                 (ResourceMap.set (syncedBuffers s) resource syncedBuffer))
              sync in
          (fst (requestDiagnostic s1 syncedBuffer now), true)
    end.

Definition closeResource (s : t) (resource : Uri) (times : nat -> Z) : t :=
  match ResourceMap.get (syncedBuffers s) resource with
  | None => s
  | Some syncedBuffer =>
      let s1 :=
        with_pendingDiagnostics s
          (ResourceMap.delete (pendingDiagnostics s) resource) in
      let s2 := dropFromGetErr s1 resource in
      let s3 :=
        with_syncedBuffers s2 (ResourceMap.delete (syncedBuffers s2) resource) in
      let '(_, sync, wasBufferOpen) :=
        SyncedBuffer.close syncedBuffer (synchronizer s3) in
      let s4 := fire (with_synchronizer s3 sync) (Fired_onDelete resource) in
      if wasBufferOpen then requestAllDiagnostics s4 times else s4
  end.

(** [f] is the callback: it runs on the state and gives its result. *)
Definition interruptGetErr {R : Type} (s : t) (f : t -> t * R) : t * R :=
  match pendingGetErr s with
  | None => f s
  | Some _ =>
      if Client.enableProjectDiagnostics (client s) then f s
      else
        let '(s1, result) := f (with_pendingGetErr (cancelGetErr s) None) in
        (triggerDiagnostics s1 200, result)
  end.

Definition beforeCommand (s : t) (command : string) : t :=
  with_synchronizer s
    (BufferSynchronizer.beforeCommand (synchronizer s) command).

Definition onDidCloseTextDocument (s : t) (document : TextDocument)
  (times : nat -> Z) : t :=
  closeResource s (uri document) times.

(** The argument is the URI of the changed document and its content
    changes. *)
Definition onDidChangeTextDocument (s : t) (documentUri : Uri)
  (contentChanges : list lsp.TextDocumentContentChangeEvent) (now : Z) : t :=
  match ResourceMap.get (syncedBuffers s) documentUri with
  | None => s
  | Some syncedBuffer =>
      let s1 := fire s (Fired_onWillChange (SyncedBuffer.resource syncedBuffer)) in
      let sync :=
        fst (SyncedBuffer.onContentChanged syncedBuffer (synchronizer s1)
               contentChanges) in
      let '(s2, didTrigger) :=
        requestDiagnostic (with_synchronizer s1 sync) syncedBuffer now in
      if didTrigger then s2
      else
        match pendingGetErr s2 with
        | Some _ =>
            triggerDiagnostics (with_pendingGetErr (cancelGetErr s2) None) 200
        | None => s2
        end
  end.

(** The files of the request that [sendPendingDiagnostics] builds. *)
Definition orderedFileSet (s : t) : ResourceMap.t unit :=
  let ordered0 := PendingDiagnostics.getOrderedFileSet (pendingDiagnostics s) in
  let ordered1 :=
    match pendingGetErr s with
    | Some (_, request) =>
        fold_left
          (fun ordered entry =>
             match ResourceMap.get (syncedBuffers s)
                     (ResourceMap.resource entry) with
             | Some _ => ResourceMap.set ordered (ResourceMap.resource entry) tt
             | None => ordered
             end)
          (ResourceMap.entries (GetErrRequest.files request)) ordered0
    | None => ordered0
    end in
  fold_left
    (fun ordered buffer =>
       ResourceMap.set ordered (SyncedBuffer.resource buffer) tt)
    (ResourceMap.values (syncedBuffers s)) ordered1.

(** The request that is pending is cancelled and let go; the new one, if
    any, takes the next identity. *)
Definition sendPendingDiagnostics (s : t) : t :=
  let ordered := orderedFileSet s in
  let s1 := with_pendingGetErr (cancelGetErr s) None in
  let s2 :=
    if (0 <? ResourceMap.size ordered)%nat then
      mk (synchronizer s1) (_validateJavaScript s1) (_validateTypeScript s1)
        (modeIds s1) (syncedBuffers s1) (pendingDiagnostics s1)
        (diagnosticDelayer s1)
        (Some (requestCount s1,
               GetErrRequest.executeGetErrRequest (client s1) ordered))
        (S (requestCount s1)) (listening s1) (_tabResources s1) (fired s1)
    else s1 in
  with_pendingDiagnostics s2 (ResourceMap.clear (pendingDiagnostics s2)).

(** The [onDone] callback of the request of identity [id]. *)
Definition onGetErrDone (s : t) (id : nat) : t :=
  match pendingGetErr s with
  | Some (id', _) => if Nat.eqb id' id then with_pendingGetErr s None else s
  | None => s
  end.

(** The listener on the tab tracker's [onDidChange]. *)
Definition tabs_closed_step (s : t) (closed : Uri) : t :=
  match ResourceMap.get (syncedBuffers s) closed with
  | Some _ =>
      dropFromGetErr
        (with_pendingDiagnostics s
           (ResourceMap.delete (pendingDiagnostics s) closed))
        closed
  | None => s
  end.

Definition tabs_opened_step (times : nat -> Z) (acc : t * nat) (opened : Uri)
  : t * nat :=
  let '(s, i) := acc in
  (match ResourceMap.get (syncedBuffers s) opened with
   | Some syncedBuffer => fst (requestDiagnostic s syncedBuffer (times i))
   | None => s
   end,
   S i).

Definition onTabsChanged (s : t) (e : TabResourceTracker.ChangeEvent)
  (times : nat -> Z) : t :=
  if Client.enableProjectDiagnostics (client s) then s
  else
    let s1 := fold_left tabs_closed_step (TabResourceTracker.closed e) s in
    fst (fold_left (tabs_opened_step times) (TabResourceTracker.opened e)
           (s1, 0%nat)).

(** A change of the editor's tabs: the tracker's listener, then the
    orchestrator's when the tracker fires. *)
Definition onDidChangeTabs (s : t) (e : TabResourceTracker.TabChangeEvent)
  (times : nat -> Z) : t :=
  let '(tabs, fired) :=
    TabResourceTracker.onDidChangeTabs (_tabResources s) e in
  let s1 := with_tabResources s tabs in
  match fired with
  | Some change => onTabsChanged s1 change times
  | None => s1
  end.

(** The listener on [onDidChangeVisibleTextEditors], with the URIs of the
    documents of the editors. *)
Definition onDidChangeVisibleTextEditors (s : t) (documents : list Uri)
  (times : nat -> Z) : t :=
  fst (fold_left (tabs_opened_step times) documents (s, 0%nat)).

(** One turn of [textDocuments.forEach(this.openTextDocument, this)]. *)
Definition listen_step (times : nat -> Z) (acc : t * nat)
  (document : TextDocument) : t * nat :=
  let '(s, i) := acc in
  (fst (openTextDocument s document (times i)), S i).

(** [listen], with the text documents of the workspace. *)
Definition listen (s : t) (textDocuments : list TextDocument)
  (times : nat -> Z) : t :=
  if listening s then s
  else
    let s1 :=
      mk (synchronizer s) (_validateJavaScript s) (_validateTypeScript s)
        (modeIds s) (syncedBuffers s) (pendingDiagnostics s)
        (diagnosticDelayer s) (pendingGetErr s) (requestCount s) true
        (_tabResources s) (fired s) in
    fst (fold_left (listen_step times) textDocuments (s1, 0%nat)).


Definition toVsCodeResource (s : t) (resource : Uri) : Uri :=
  match Client.toTsFilePath (client s) resource with
  | None => resource
  | Some filepath =>
      match
        find (fun buffer => String.eqb (SyncedBuffer.filepath buffer) filepath)
          (ResourceMap.values (syncedBuffers s))
      with
      | Some buffer => SyncedBuffer.resource buffer
      | None => resource
      end
  end.

End Orchestrator.

(** The events that reach the orchestrator. *)
Module OrchOps.
Inductive Event :=
| E_open (document : TextDocument) (now : Z)
| E_close (resource : Uri) (times : nat -> Z)
| E_change (documentUri : Uri)
    (contentChanges : list lsp.TextDocumentContentChangeEvent) (now : Z)
| E_reset
| E_reinitialize
| E_beforeCommand (command : string)
| E_requestAllDiagnostics (times : nat -> Z)
| E_getErr (resources : list Uri) (times : nat -> Z)
| E_sendPendingDiagnostics
| E_getErrDone (id : nat)
| E_tabs (e : TabResourceTracker.TabChangeEvent) (times : nat -> Z)
| E_visibleEditors (documents : list Uri) (times : nat -> Z)
| E_listen (textDocuments : list TextDocument) (times : nat -> Z)
| E_updateConfiguration (js ts : bool).

Definition apply (s : Orchestrator.t) (e : Event) : Orchestrator.t :=
  match e with
  | E_open document now => fst (Orchestrator.openTextDocument s document now)
  | E_close resource times => Orchestrator.closeResource s resource times
  | E_change documentUri contentChanges now =>
      Orchestrator.onDidChangeTextDocument s documentUri contentChanges now
  | E_reset => Orchestrator.reset s
  | E_reinitialize => Orchestrator.reinitialize s
  | E_beforeCommand command => Orchestrator.beforeCommand s command
  | E_requestAllDiagnostics times => Orchestrator.requestAllDiagnostics s times
  | E_getErr resources times => Orchestrator.getErr s resources times
  | E_sendPendingDiagnostics => Orchestrator.sendPendingDiagnostics s
  | E_getErrDone id => Orchestrator.onGetErrDone s id
  | E_tabs e times => Orchestrator.onDidChangeTabs s e times
  | E_visibleEditors documents times =>
      Orchestrator.onDidChangeVisibleTextEditors s documents times
  | E_listen textDocuments times => Orchestrator.listen s textDocuments times
  | E_updateConfiguration js ts => Orchestrator.updateConfiguration s js ts
  end.

Definition run (s : Orchestrator.t) (events : list Event) : Orchestrator.t :=
  fold_left apply events s.
End OrchOps.

(** The two clients differ in the commands sent only. *)
Definition same_client (c c' : Client.t) : Prop :=
  Client.apiVersion c' = Client.apiVersion c
  /\ Client.capabilities_has c' = Client.capabilities_has c
  /\ Client.hasCapabilityForResource c' = Client.hasCapabilityForResource c
  /\ Client.enableProjectDiagnostics c' = Client.enableProjectDiagnostics c
  /\ Client.toTsFilePath c' = Client.toTsFilePath c
  /\ Client.getWorkspaceRootForResource c'
     = Client.getWorkspaceRootForResource c.

(** The map is keyed by the client's [toTsFilePath] under [cfg]. *)
Definition keyed_by {T : Type} (c : Client.t) (cfg : Config)
  (m : ResourceMap.t T) : Prop :=
  ResourceMap._normalizePath m = Client.toTsFilePath c
  /\ ResourceMap.config m = cfg.

(** A tracked buffer: stored under its own URI, with the TS path of that
    URI as its file path, and open. *)
Definition tracked_ok (c : Client.t) (e : ResourceMap.Entry SyncedBuffer.t)
  : Prop :=
  SyncedBuffer.resource (ResourceMap.value e) = ResourceMap.resource e
  /\ Client.toTsFilePath c (ResourceMap.resource e)
     = Some (SyncedBuffer.filepath (ResourceMap.value e))
  /\ JsString.truthy (SyncedBuffer.filepath (ResourceMap.value e)) = true
  /\ SyncedBuffer.state (ResourceMap.value e) = BufferState.Open.

(** What the orchestrator keeps. *)
Definition orch_inv (cfg : Config) (s : Orchestrator.t) : Prop :=
  let c := Orchestrator.client s in
  keyed_by c cfg (Orchestrator.syncedBuffers s)
  /\ keyed_by c cfg (Orchestrator.pendingDiagnostics s)
  /\ keyed_by c cfg (BufferSynchronizer._pending (Orchestrator.synchronizer s))
  /\ keyed_by c cfg
       (TabResourceTracker._tabResources (Orchestrator._tabResources s))
  /\ wf (Orchestrator.syncedBuffers s)
  /\ wf (Orchestrator.pendingDiagnostics s)
  /\ wf (BufferSynchronizer._pending (Orchestrator.synchronizer s))
  /\ tracker_inv (Orchestrator._tabResources s)
  /\ Forall (tracked_ok c) (ResourceMap.entries (Orchestrator.syncedBuffers s))
  /\ match Orchestrator.pendingGetErr s with
     | Some (id, request) =>
         (id < Orchestrator.requestCount s)%nat
         /\ keyed_by c cfg (GetErrRequest.files request)
         /\ wf (GetErrRequest.files request)
     | None => True
     end.

(** What the calls of a synchronizer keep, for the orchestrator: the client
    up to the commands sent, the keying and the invariant of the pending
    map. *)
Definition sync_inv (c0 : Client.t) (cfg : Config) (x : BufferSynchronizer.t)
  : Prop :=
  same_client c0 (BufferSynchronizer.client x)
  /\ keyed_by c0 cfg (BufferSynchronizer._pending x)
  /\ wf (BufferSynchronizer._pending x).

(** * Properties *)

Unset Implicit Arguments.

(** ** Strings *)

Section StringFacts.

Lemma toLowerCase_truthy (s : string) :
  JsString.truthy (JsString.toLowerCase s) = JsString.truthy s.
Proof. destruct s; reflexivity. Qed.

Lemma lowerChar_letter (c : ascii) :
  JsString.isAsciiLetter (JsString.lowerChar c) = JsString.isAsciiLetter c.
Proof. destruct c as [[] [] [] [] [] [] [] []]; reflexivity. Qed.

Lemma lowerChar_colon (c : ascii) :
  Ascii.eqb (JsString.lowerChar c) ":" = Ascii.eqb c ":".
Proof. destruct c as [[] [] [] [] [] [] [] []]; reflexivity. Qed.

Lemma lowerChar_slash (c : ascii) :
  Ascii.eqb (JsString.lowerChar c) "/" = Ascii.eqb c "/".
Proof. destruct c as [[] [] [] [] [] [] [] []]; reflexivity. Qed.

Lemma lowerChar_backslash (c : ascii) :
  Ascii.eqb (JsString.lowerChar c) "\" = Ascii.eqb c "\".
Proof. destruct c as [[] [] [] [] [] [] [] []]; reflexivity. Qed.

Lemma isWindowsPath_toLowerCase (p : string) :
  isWindowsPath (JsString.toLowerCase p) = isWindowsPath p.
Proof.
  destruct p as [|c0 [|c1 [|c2 p]]]; try reflexivity.
  cbn [JsString.toLowerCase isWindowsPath].
  now rewrite lowerChar_letter, lowerChar_colon, lowerChar_slash,
    lowerChar_backslash.
Qed.

Lemma isWindowsPath_same_fold (p p' : string) :
  JsString.toLowerCase p' = JsString.toLowerCase p ->
  isWindowsPath p' = isWindowsPath p.
Proof.
  intros H.
  rewrite <- (isWindowsPath_toLowerCase p'), H.
  apply isWindowsPath_toLowerCase.
Qed.

Lemma isWindowsPath_truthy (p : string) :
  isWindowsPath p = true -> JsString.truthy p = true.
Proof. destruct p; [discriminate | reflexivity]. Qed.

End StringFacts.

(** ** JavaScript maps *)

Section JsMapFacts.
Context {V : Type}.
Implicit Types (m : JsMap.t V) (k : string) (v : V).

Lemma JsMap_get_set_same m k v : JsMap.get (JsMap.set m k v) k = Some v.
Proof.
  induction m as [|[k' v'] m IH]; cbn.
  - now rewrite String.eqb_refl.
  - destruct (String.eqb k' k) eqn:E; cbn; rewrite E; auto.
Qed.

Lemma JsMap_get_set_other m k k' v :
  k <> k' -> JsMap.get (JsMap.set m k v) k' = JsMap.get m k'.
Proof.
  intros Hne. induction m as [|[k0 v0] m IH]; cbn.
  - destruct (String.eqb k k') eqn:E; [apply String.eqb_eq in E; tauto | reflexivity].
  - destruct (String.eqb k0 k) eqn:E; cbn.
    + apply String.eqb_eq in E. subst k0.
      apply String.eqb_neq in Hne. now rewrite Hne.
    + now rewrite IH.
Qed.

Lemma JsMap_get_none m k : JsMap.get m k = None <-> ~ In k (JsMap.keys m).
Proof.
  induction m as [|[k' v'] m IH]; cbn.
  - tauto.
  - destruct (String.eqb k' k) eqn:E.
    + apply String.eqb_eq in E. split; [discriminate | tauto].
    + apply String.eqb_neq in E. rewrite IH. tauto.
Qed.

Lemma JsMap_get_in m k v : JsMap.get m k = Some v -> In (k, v) m.
Proof.
  induction m as [|[k' v'] m IH]; cbn; [discriminate|].
  destruct (String.eqb k' k) eqn:E.
  - apply String.eqb_eq in E. intros [= ->]. subst. now left.
  - auto.
Qed.

Lemma JsMap_keys_set_old m k v :
  JsMap.get m k <> None -> JsMap.keys (JsMap.set m k v) = JsMap.keys m.
Proof.
  induction m as [|[k' v'] m IH]; cbn; [congruence|].
  destruct (String.eqb k' k) eqn:E; cbn; [reflexivity|].
  intros H. f_equal. now apply IH.
Qed.

Lemma JsMap_set_new m k v :
  JsMap.get m k = None -> JsMap.set m k v = m ++ [(k, v)].
Proof.
  induction m as [|[k' v'] m IH]; cbn; [reflexivity|].
  destruct (String.eqb k' k) eqn:E; [discriminate|].
  intros H. now rewrite (IH H).
Qed.

Lemma JsMap_delete_absent m k : JsMap.get m k = None -> JsMap.delete m k = m.
Proof.
  induction m as [|[k' v'] m IH]; cbn; [reflexivity|].
  destruct (String.eqb k' k) eqn:E; [discriminate|].
  intros H. now rewrite (IH H).
Qed.

Lemma JsMap_delete_set_new m k v :
  JsMap.get m k = None -> JsMap.delete (JsMap.set m k v) k = m.
Proof.
  induction m as [|[k' v'] m IH]; cbn.
  - now rewrite String.eqb_refl.
  - destruct (String.eqb k' k) eqn:E; [discriminate|].
    intros H. cbn. rewrite E. now rewrite (IH H).
Qed.

Lemma JsMap_delete_incl m k e : In e (JsMap.delete m k) -> In e m.
Proof.
  induction m as [|[k' v'] m IH]; cbn; [tauto|].
  destruct (String.eqb k' k); cbn; intuition.
Qed.

Lemma JsMap_keys_delete_incl m k k' :
  In k' (JsMap.keys (JsMap.delete m k)) -> In k' (JsMap.keys m).
Proof.
  induction m as [|[k0 v0] m IH]; cbn; [tauto|].
  destruct (String.eqb k0 k); cbn; intuition.
Qed.

Lemma JsMap_delete_NoDup m k :
  NoDup (JsMap.keys m) -> NoDup (JsMap.keys (JsMap.delete m k)).
Proof.
  induction m as [|[k0 v0] m IH]; cbn; [auto|].
  intros H. inversion H as [|? ? Hn Hd]; subst.
  destruct (String.eqb k0 k); cbn; [assumption|].
  constructor; [|auto].
  intros Hin. apply Hn. eapply JsMap_keys_delete_incl; eauto.
Qed.

Lemma JsMap_get_delete_same m k :
  NoDup (JsMap.keys m) -> JsMap.get (JsMap.delete m k) k = None.
Proof.
  induction m as [|[k0 v0] m IH]; cbn; [reflexivity|].
  intros H. inversion H as [|? ? Hn Hd]; subst.
  destruct (String.eqb k0 k) eqn:E; cbn.
  - apply String.eqb_eq in E. subst. now apply JsMap_get_none.
  - rewrite E. auto.
Qed.

Lemma JsMap_get_delete_other m k k' :
  k <> k' -> JsMap.get (JsMap.delete m k) k' = JsMap.get m k'.
Proof.
  intros Hne. induction m as [|[k0 v0] m IH]; cbn; [reflexivity|].
  destruct (String.eqb k0 k) eqn:E; cbn.
  - apply String.eqb_eq in E. subst.
    destruct (String.eqb k k') eqn:E'; [apply String.eqb_eq in E'; tauto | reflexivity].
  - now rewrite IH.
Qed.

Lemma JsMap_set_in m k v e :
  In e (JsMap.set m k v) -> In e m \/ e = (k, v).
Proof.
  induction m as [|[k0 v0] m IH]; cbn.
  - intuition.
  - destruct (String.eqb k0 k) eqn:E; cbn.
    + apply String.eqb_eq in E. subst. intuition.
    + intuition.
Qed.

Lemma JsMap_set_NoDup m k v :
  NoDup (JsMap.keys m) -> NoDup (JsMap.keys (JsMap.set m k v)).
Proof.
  intros H. destruct (JsMap.get m k) eqn:G.
  - rewrite JsMap_keys_set_old; [assumption | congruence].
  - rewrite JsMap_set_new by assumption.
    unfold JsMap.keys. rewrite map_app. cbn.
    apply Permutation_NoDup with (l := k :: map fst m).
    + apply Permutation_cons_append.
    + constructor; [now apply JsMap_get_none | assumption].
Qed.

End JsMapFacts.

(** ** Resource maps *)

Section ResourceMapFacts.
Context {T : Type}.
Implicit Types (m : ResourceMap.t T) (u : Uri) (v : T) (file : string).

Lemma toKey_set m u v r :
  ResourceMap.toKey (ResourceMap.set m u v) r = ResourceMap.toKey m r.
Proof.
  unfold ResourceMap.set.
  destruct (ResourceMap.toKey m u) as [file|]; [|reflexivity].
  destruct (negb (JsString.truthy file)); [reflexivity|].
  destruct (JsMap.get (ResourceMap._map m) file); reflexivity.
Qed.

Lemma toKey_delete m u r :
  ResourceMap.toKey (ResourceMap.delete m u) r = ResourceMap.toKey m r.
Proof.
  unfold ResourceMap.delete.
  destruct (ResourceMap.toKey m u) as [file|]; [|reflexivity].
  destruct (JsString.truthy file); reflexivity.
Qed.

Lemma has_get m u :
  ResourceMap.has m u
  = match ResourceMap.get m u with Some _ => true | None => false end.
Proof.
  unfold ResourceMap.has, ResourceMap.get, JsMap.has.
  destruct (ResourceMap.toKey m u) as [file|]; [|reflexivity].
  destruct (JsString.truthy file); cbn; [|reflexivity].
  destruct (JsMap.get (ResourceMap._map m) file); reflexivity.
Qed.

(** What [set] does to the underlying map, for a key that resolves. *)
Lemma set_resolved m u v file :
  ResourceMap.toKey m u = Some file -> JsString.truthy file = true ->
  ResourceMap._map (ResourceMap.set m u v)
  = JsMap.set (ResourceMap._map m) file
      (ResourceMap.mkEntry
         match JsMap.get (ResourceMap._map m) file with
         | Some entry => ResourceMap.resource entry
         | None => u
         end v).
Proof.
  intros K Ht. unfold ResourceMap.set. rewrite K, Ht. cbn.
  destruct (JsMap.get (ResourceMap._map m) file); reflexivity.
Qed.

(** [set] is a no-op for a key that does not resolve. *)
Lemma set_unresolved m u v :
  (forall file, ResourceMap.toKey m u = Some file ->
                JsString.truthy file = false) ->
  ResourceMap.set m u v = m.
Proof.
  intros H. unfold ResourceMap.set.
  destruct (ResourceMap.toKey m u) as [file|]; [|reflexivity].
  now rewrite (H file eq_refl).
Qed.

Lemma get_resolved m u file :
  ResourceMap.toKey m u = Some file -> JsString.truthy file = true ->
  ResourceMap.get m u
  = option_map (@ResourceMap.value T) (JsMap.get (ResourceMap._map m) file).
Proof.
  intros K Ht. unfold ResourceMap.get. rewrite K, Ht. cbn.
  destruct (JsMap.get (ResourceMap._map m) file); reflexivity.
Qed.

Lemma get_unresolved m u :
  (forall file, ResourceMap.toKey m u = Some file ->
                JsString.truthy file = false) ->
  ResourceMap.get m u = None.
Proof.
  intros H. unfold ResourceMap.get.
  destruct (ResourceMap.toKey m u) as [file|]; [|reflexivity].
  now rewrite (H file eq_refl).
Qed.

Lemma delete_resolved m u file :
  ResourceMap.toKey m u = Some file -> JsString.truthy file = true ->
  ResourceMap._map (ResourceMap.delete m u)
  = JsMap.delete (ResourceMap._map m) file.
Proof.
  intros K Ht. unfold ResourceMap.delete. now rewrite K, Ht.
Qed.

Lemma toKey_truthy m u file :
  ResourceMap.toKey m u = Some file ->
  forall p, ResourceMap._normalizePath m u = Some p ->
  JsString.truthy file = JsString.truthy p.
Proof.
  unfold ResourceMap.toKey. intros K p Hp. rewrite Hp in K.
  destruct (JsString.truthy p) eqn:E; cbn in K; injection K as <-.
  - destruct (ResourceMap.isCaseInsensitivePath m p);
      [now rewrite toLowerCase_truthy | assumption].
  - assumption.
Qed.

(** Two Windows-style paths that differ in case only have one key. *)
Lemma toKey_windows m u u' p p' :
  ResourceMap._normalizePath m u = Some p ->
  ResourceMap._normalizePath m u' = Some p' ->
  isWindowsPath p = true ->
  JsString.toLowerCase p' = JsString.toLowerCase p ->
  ResourceMap.toKey m u' = ResourceMap.toKey m u
  /\ ResourceMap.toKey m u = Some (JsString.toLowerCase p).
Proof.
  intros Hp Hp' Hw Hl.
  assert (Hw' : isWindowsPath p' = true)
    by now rewrite (isWindowsPath_same_fold _ _ Hl).
  unfold ResourceMap.toKey, ResourceMap.isCaseInsensitivePath.
  rewrite Hp, Hp', Hw, Hw'.
  rewrite (isWindowsPath_truthy _ Hw), (isWindowsPath_truthy _ Hw'). cbn.
  now rewrite Hl.
Qed.

(** *** The invariant holds in every map that the operations build. *)

Lemma wf_create normalizePath cfg :
  wf (ResourceMap.create (T := T) normalizePath cfg).
Proof. split; constructor. Qed.

Lemma wf_clear m : wf (ResourceMap.clear m).
Proof. split; constructor. Qed.

Lemma wf_set m u v : wf m -> wf (ResourceMap.set m u v).
Proof.
  intros [Hn Hk]. unfold ResourceMap.set.
  destruct (ResourceMap.toKey m u) as [file|] eqn:K; [|now split].
  destruct (JsString.truthy file) eqn:Ht; cbn; [|now split].
  assert (Hin : forall e, JsMap.get (ResourceMap._map m) file = Some e ->
                ResourceMap.toKey m (ResourceMap.resource e) = Some file).
  { intros e G. apply JsMap_get_in in G.
    unfold keyed in Hk. rewrite Forall_forall in Hk.
    now destruct (Hk _ G). }
  destruct (JsMap.get (ResourceMap._map m) file) as [entry|] eqn:G;
    (split; [now apply JsMap_set_NoDup|]);
    unfold keyed in *; rewrite Forall_forall in *; cbn;
    intros kv Hkv; apply JsMap_set_in in Hkv as [Hold | ->];
    try (exact (Hk _ Hold)); cbn; split; auto.
  exact (Hin entry eq_refl).
Qed.

Lemma wf_delete m u : wf m -> wf (ResourceMap.delete m u).
Proof.
  intros [Hn Hk]. unfold ResourceMap.delete.
  destruct (ResourceMap.toKey m u) as [file|] eqn:K; [|now split].
  destruct (JsString.truthy file) eqn:Ht; [|now split].
  split; cbn; [now apply JsMap_delete_NoDup|].
  unfold keyed in *. rewrite Forall_forall in *. cbn.
  intros kv Hkv. apply Hk. eapply JsMap_delete_incl; eauto.
Qed.

Lemma wf_apply m op : wf m -> wf (ResourceMapOps.apply m op).
Proof.
  destruct op; cbn; auto using wf_set, wf_delete, wf_clear.
Qed.

Lemma wf_run ops : forall m, wf m -> wf (ResourceMapOps.run m ops).
Proof.
  induction ops as [|op ops IH]; cbn; intros m H; [assumption|].
  apply IH. now apply wf_apply.
Qed.

Lemma wf_setAll later : forall m, wf m -> wf (ResourceMapOps.setAll m later).
Proof.
  induction later as [|[u v] later IH]; cbn; intros m H; [assumption|].
  apply IH. now apply wf_set.
Qed.

End ResourceMapFacts.

Section OriginalUri.
Context {T : Type}.
Implicit Types (m : ResourceMap.t T) (u : Uri) (v w : T) (file : string).

Lemma lastValue_set m u v file later : forall w,
  ResourceMapOps.lastValue (ResourceMap.set m u v) file later w
  = ResourceMapOps.lastValue m file later w.
Proof.
  unfold ResourceMapOps.lastValue.
  induction later as [|p later IH]; cbn; intros w; [reflexivity|].
  now rewrite toKey_set, IH.
Qed.

(** A [set] leaves the URI of an existing entry alone, and replaces its
    value exactly when the keys agree. *)
Lemma binding_set m u w file u' v' :
  JsString.truthy file = true ->
  JsMap.get (ResourceMap._map m) file = Some (ResourceMap.mkEntry u w) ->
  JsMap.get (ResourceMap._map (ResourceMap.set m u' v')) file
  = Some (ResourceMap.mkEntry u
            match ResourceMap.toKey m u' with
            | Some file' => if String.eqb file' file then v' else w
            | None => w
            end).
Proof.
  intros Ht G.
  destruct (ResourceMap.toKey m u') as [file'|] eqn:K.
  - destruct (JsString.truthy file') eqn:Ht'.
    + rewrite (set_resolved _ _ _ _ K Ht').
      destruct (String.eqb file' file) eqn:E.
      * apply String.eqb_eq in E. subst file'.
        rewrite G. cbn. apply JsMap_get_set_same.
      * apply String.eqb_neq in E.
        now rewrite JsMap_get_set_other.
    + rewrite set_unresolved.
      * destruct (String.eqb file' file) eqn:E; [|assumption].
        apply String.eqb_eq in E. congruence.
      * intros f Hf. congruence.
  - rewrite set_unresolved; [assumption|]. intros f Hf. congruence.
Qed.

Lemma binding_setAll later : forall m u w file,
  JsString.truthy file = true ->
  JsMap.get (ResourceMap._map m) file = Some (ResourceMap.mkEntry u w) ->
  JsMap.get (ResourceMap._map (ResourceMapOps.setAll m later)) file
  = Some (ResourceMap.mkEntry u (ResourceMapOps.lastValue m file later w)).
Proof.
  induction later as [|[u' v'] later IH]; intros m u w file Ht G;
    [exact G|].
  cbn [ResourceMapOps.setAll fold_left fst snd].
  change (fold_left _ later ?x) with (ResourceMapOps.setAll x later).
  rewrite (IH _ u _ file Ht (binding_set _ _ _ _ u' v' Ht G)).
  now rewrite lastValue_set.
Qed.

Lemma binding_entries m file e :
  JsMap.get (ResourceMap._map m) file = Some e ->
  In e (ResourceMap.entries m).
Proof.
  intros G. apply JsMap_get_in in G.
  unfold ResourceMap.entries, JsMap.values.
  now apply (in_map snd) in G.
Qed.

End OriginalUri.

(** C3. Once [set] has inserted a URI [u] under a key that was not in the
    map, the entry of that key keeps [u] as its resource through every later
    [set]: iteration yields [u] itself, not its key, with the value that was
    set last under the key, and every URI that has the same key reads that
    value. Two URIs whose paths are Windows-style paths that differ in case
    only have the same key. *)
Theorem C3_original_uri_preserved (T : Type) (m : ResourceMap.t T) (u : Uri)
  (v : T) (file : string) (later : list (Uri * T)) :
  ResourceMap.toKey m u = Some file ->
  JsString.truthy file = true ->
  ResourceMap.has m u = false ->
  let m' := ResourceMapOps.setAll (ResourceMap.set m u v) later in
  let w := ResourceMapOps.lastValue m file later v in
  In (ResourceMap.mkEntry u w) (ResourceMap.entries m')
  /\ (forall u', ResourceMap.toKey m u' = Some file ->
                 ResourceMap.get m' u' = Some w)
  /\ (forall u' v',
        ResourceMap.toKey m u' = Some file ->
        let m2 := ResourceMap.set (ResourceMap.set m u v) u' v' in
        In (ResourceMap.mkEntry u v') (ResourceMap.entries m2)
        /\ ResourceMap.get m2 u = Some v'
        /\ map (@ResourceMap.resource T) (ResourceMap.entries m2)
           = map (@ResourceMap.resource T)
               (ResourceMap.entries (ResourceMap.set m u v)))
  /\ (forall u' p p',
        ResourceMap._normalizePath m u = Some p ->
        ResourceMap._normalizePath m u' = Some p' ->
        isWindowsPath p = true ->
        JsString.toLowerCase p' = JsString.toLowerCase p ->
        ResourceMap.get m' u' = Some w).
Proof.
  intros K Ht Hhas m' w.
  assert (G0 : JsMap.get (ResourceMap._map m) file = None).
  { unfold ResourceMap.has in Hhas. rewrite K, Ht in Hhas. cbn in Hhas.
    unfold JsMap.has in Hhas.
    destruct (JsMap.get (ResourceMap._map m) file); [discriminate|reflexivity]. }
  assert (G1 : JsMap.get (ResourceMap._map (ResourceMap.set m u v)) file
               = Some (ResourceMap.mkEntry u v)).
  { rewrite (set_resolved _ _ _ _ K Ht), G0. apply JsMap_get_set_same. }
  assert (G : JsMap.get (ResourceMap._map m') file
              = Some (ResourceMap.mkEntry u w)).
  { unfold m', w. rewrite (binding_setAll _ _ _ _ _ Ht G1).
    now rewrite lastValue_set. }
  assert (Kall : forall r, ResourceMap.toKey m' r = ResourceMap.toKey m r).
  { intros r. unfold m'. clear.
    generalize (ResourceMap.set m u v) (toKey_set m u v r).
    induction later as [|[u' v'] later IH]; intros m0 H0; [exact H0|].
    cbn. apply IH. now rewrite toKey_set. }
  assert (Rd : forall u', ResourceMap.toKey m u' = Some file ->
                          ResourceMap.get m' u' = Some w).
  { intros u' K'. rewrite <- Kall in K'.
    now rewrite (get_resolved _ _ _ K' Ht), G. }
  split; [exact (binding_entries _ _ _ G)|].
  split; [exact Rd|].
  split.
  - intros u' v' K' m2.
    assert (K1 : ResourceMap.toKey (ResourceMap.set m u v) u' = Some file)
      by now rewrite toKey_set.
    assert (G2 : JsMap.get (ResourceMap._map m2) file
                 = Some (ResourceMap.mkEntry u v')).
    { unfold m2. rewrite (binding_set _ _ _ _ u' v' Ht G1), K1.
      now rewrite String.eqb_refl. }
    split; [exact (binding_entries _ _ _ G2)|].
    split.
    + assert (K2 : ResourceMap.toKey m2 u = Some file)
        by (unfold m2; now rewrite !toKey_set).
      now rewrite (get_resolved _ _ _ K2 Ht), G2.
    + unfold m2, ResourceMap.entries, JsMap.values.
      rewrite (set_resolved _ _ _ _ K1 Ht), G1. cbn [ResourceMap.resource].
      generalize (ResourceMap._map (ResourceMap.set m u v)) G1.
      clear. intros l. induction l as [|[k e] l IH]; cbn; [discriminate|].
      destruct (String.eqb k file) eqn:E; cbn.
      * intros [= ->]. reflexivity.
      * intros H. f_equal. now apply IH.
  - intros u' p p' Hp Hp' Hw Hl.
    apply Rd.
    destruct (toKey_windows m u u' p p' Hp Hp' Hw Hl) as [-> _]. exact K.
Qed.

Lemma C3_original_uri_preserved_witness :
  let m := ResourceMap.create (T := Z) Sample.normalize Sample.caseSensitive in
  let m' :=
    ResourceMapOps.setAll (ResourceMap.set m "file:///C:/A/B.ts" 1%Z)
      [("file:///c:/a/b.ts", 2%Z)] in
  ResourceMap.toKey m "file:///C:/A/B.ts" = Some "c:/a/b.ts"
  /\ In (ResourceMap.mkEntry "file:///C:/A/B.ts" 2%Z) (ResourceMap.entries m')
  /\ ResourceMap.get m' "file:///c:/A/b.ts" = Some 2%Z.
Proof.
  intros m m'. split; [reflexivity|].
  destruct
    (C3_original_uri_preserved Z m "file:///C:/A/B.ts" 1%Z "c:/a/b.ts"
       [("file:///c:/a/b.ts", 2%Z)] eq_refl eq_refl eq_refl)
    as (H1 & _ & _ & H4).
  split; [exact H1|].
  exact (H4 "file:///c:/A/b.ts" "C:/A/B.ts" "c:/A/b.ts"
           eq_refl eq_refl eq_refl eq_refl).
Defined.

Section EmptyKey.
Context {T : Type}.

Lemma keys_set_in {V : Type} (l : JsMap.t V) (k k0 : string) (e : V) :
  In k (JsMap.keys (JsMap.set l k0 e)) -> In k (JsMap.keys l) \/ k = k0.
Proof.
  unfold JsMap.keys. rewrite !in_map_iff.
  intros [[k1 e1] [Hk Hin]]. cbn in Hk. subst k1.
  apply JsMap_set_in in Hin as [Hin | [= -> ->]]; [left | now right].
  now exists (k, e1).
Qed.

Lemma no_empty_key_apply (m : ResourceMap.t T) (op : ResourceMapOps.Op T) :
  ~ In "" (JsMap.keys (ResourceMap._map m)) ->
  ~ In "" (JsMap.keys (ResourceMap._map (ResourceMapOps.apply m op))).
Proof.
  intros H. destruct op as [u v | u |]; cbn.
  - unfold ResourceMap.set.
    destruct (ResourceMap.toKey m u) as [file|]; [|assumption].
    destruct (JsString.truthy file) eqn:Ht; cbn; [|assumption].
    destruct (JsMap.get (ResourceMap._map m) file); cbn;
      intros Hin; apply keys_set_in in Hin as [Hin | <-];
      auto; discriminate.
  - unfold ResourceMap.delete.
    destruct (ResourceMap.toKey m u) as [file|]; [|assumption].
    destruct (JsString.truthy file); cbn; [|assumption].
    intros Hin. apply H. eapply JsMap_keys_delete_incl; eauto.
  - tauto.
Qed.

Lemma no_empty_key_run (ops : list (ResourceMapOps.Op T)) :
  forall m : ResourceMap.t T,
    ~ In "" (JsMap.keys (ResourceMap._map m)) ->
    ~ In "" (JsMap.keys (ResourceMap._map (ResourceMapOps.run m ops))).
Proof.
  induction ops as [|op ops IH]; cbn; intros m H; [assumption|].
  apply IH. now apply no_empty_key_apply.
Qed.

End EmptyKey.

(** C10. When the path normalizer returns the empty string for a URI, the
    map treats the URI as one without a key: [has] is false, [get] is
    undefined, [set] and [delete] leave the map as it is; and no sequence
    of [set], [delete] and [clear] calls, on any URIs, creates an entry
    whose key is the empty string. *)
Theorem C10_empty_path_is_unresolvable (T : Type) (m : ResourceMap.t T)
  (u : Uri) (v : T) (ops : list (ResourceMapOps.Op T)) :
  ResourceMap._normalizePath m u = Some "" ->
  ResourceMap.has m u = false
  /\ ResourceMap.get m u = None
  /\ ResourceMap.set m u v = m
  /\ ResourceMap.delete m u = m
  /\ (~ In "" (JsMap.keys (ResourceMap._map m)) ->
      ~ In "" (JsMap.keys (ResourceMap._map (ResourceMapOps.run m ops)))).
Proof.
  intros Hn.
  assert (K : ResourceMap.toKey m u = Some "")
    by (unfold ResourceMap.toKey; now rewrite Hn).
  unfold ResourceMap.has, ResourceMap.get, ResourceMap.set, ResourceMap.delete.
  rewrite K. cbn.
  repeat split. apply no_empty_key_run.
Qed.

Lemma C10_empty_path_is_unresolvable_witness :
  let m := ResourceMap.set
             (ResourceMap.create (T := Z) Sample.normalize Sample.caseSensitive)
             Sample.fileA 1%Z in
  Sample.normalize "empty:doc" = Some ""
  /\ ResourceMap.set m "empty:doc" 7%Z = m
  /\ ResourceMap.has m "empty:doc" = false.
Proof.
  intros m. split; [reflexivity|].
  destruct
    (C10_empty_path_is_unresolvable Z m "empty:doc" 7%Z
       [ResourceMapOps.Op_set "empty:doc" 7%Z] eq_refl)
    as (H1 & _ & H3 & _).
  split; [exact H3 | exact H1].
Defined.

(** ** The buffer state machine *)

(** C1. On the code, [close()] sends a buffer to [Closed] and returns false
    without touching the synchronizer when its state is [Initial]; but when
    its state is [Closed] the call is delegated to the synchronizer, because
    [Closed] and [Open] are the same number: a synchronizer without
    batching sends a [Close] command and answers true. *)
Theorem C1_close_delegates_when_closed (b : SyncedBuffer.t)
  (sync : BufferSynchronizer.t) :
  (SyncedBuffer.state b = BufferState.Initial ->
   SyncedBuffer.close b sync
   = (SyncedBuffer.with_state b BufferState.Closed, sync, false))
  /\ (SyncedBuffer.state b = BufferState.Closed ->
      SyncedBuffer.close b sync
      = (SyncedBuffer.with_state b BufferState.Closed,
         fst (BufferSynchronizer.close sync (SyncedBuffer.resource b)
                (SyncedBuffer.filepath b)),
         snd (BufferSynchronizer.close sync (SyncedBuffer.resource b)
                (SyncedBuffer.filepath b))))
  /\ (SyncedBuffer.state b = BufferState.Closed ->
      BufferSynchronizer.supportsBatching sync = false ->
      SyncedBuffer.close b sync
      = (SyncedBuffer.with_state b BufferState.Closed,
         BufferSynchronizer.with_client sync
           (Client.execute (BufferSynchronizer.client sync)
              (Cmd_Close (SyncedBuffer.filepath b))),
         true)).
Proof.
  unfold SyncedBuffer.close. repeat split.
  - intros ->. reflexivity.
  - intros ->. cbn.
    now destruct (BufferSynchronizer.close sync _ _).
  - intros -> Hb. cbn. unfold BufferSynchronizer.close. now rewrite Hb.
Qed.

Lemma C1_close_delegates_when_closed_witness :
  let b0 := SyncedBuffer.create (Sample.doc Sample.fileA 10) "/src/a.ts" in
  let b1 := SyncedBuffer.with_state b0 BufferState.Closed in
  SyncedBuffer.close b0 Sample.legacy = (b1, Sample.legacy, false)
  /\ SyncedBuffer.state b1 = BufferState.Closed
  /\ BufferSynchronizer.supportsBatching Sample.legacy = false
  /\ SyncedBuffer.close b1 Sample.legacy
     = (b1,
        BufferSynchronizer.with_client Sample.legacy
          (Client.execute (BufferSynchronizer.client Sample.legacy)
             (Cmd_Close "/src/a.ts")),
        true).
Proof.
  intros b0 b1.
  split; [exact (proj1 (C1_close_delegates_when_closed b0 Sample.legacy) eq_refl)|].
  split; [reflexivity|].
  split; [reflexivity|].
  exact (proj2 (proj2 (C1_close_delegates_when_closed b1 Sample.legacy))
           eq_refl eq_refl).
Defined.

(** ** The synchronizer *)

Section SynchronizerFacts.

Lemma flush_push_all (ops : list BufferOperation) :
  forall acc,
    fold_left BufferSynchronizer.flush_push ops acc
    = protocol.mkUpdateOpenRequestArgs
        (protocol.changedFiles acc ++ spec_changedFiles ops)
        (protocol.closedFiles acc ++ spec_closedFiles ops)
        (protocol.openFiles acc ++ spec_openFiles ops).
Proof.
  induction ops as [|op ops IH]; intros acc; cbn.
  - rewrite !app_nil_r. now destruct acc.
  - rewrite IH. destruct op; cbn; now rewrite <- ?app_assoc.
Qed.

Lemma flush_collect_spec (ops : list BufferOperation) :
  BufferSynchronizer.flush_collect ops
  = protocol.mkUpdateOpenRequestArgs (spec_changedFiles ops)
      (spec_closedFiles ops) (spec_openFiles ops).
Proof. unfold BufferSynchronizer.flush_collect. now rewrite flush_push_all. Qed.

(** [flush] in batching mode, on a batch that is not empty. *)
Lemma flush_batching (s : BufferSynchronizer.t) :
  BufferSynchronizer.supportsBatching s = true ->
  ResourceMap._map (BufferSynchronizer._pending s) <> [] ->
  BufferSynchronizer.flush s
  = BufferSynchronizer.mk
      (Client.execute (BufferSynchronizer.client s)
         (Cmd_UpdateOpen
            (BufferSynchronizer.flush_collect
               (ResourceMap.values (BufferSynchronizer._pending s)))))
      (ResourceMap.clear (BufferSynchronizer._pending s)).
Proof.
  intros Hb Hne. unfold BufferSynchronizer.flush. rewrite Hb. cbn [negb].
  unfold ResourceMap.size, JsMap.size.
  destruct (ResourceMap._map (BufferSynchronizer._pending s)); [congruence|].
  reflexivity.
Qed.

Lemma get_some_nonempty {T : Type} (m : ResourceMap.t T) (u : Uri) (x : T) :
  ResourceMap.get m u = Some x ->
  ResourceMap._map m <> []
  /\ exists file, ResourceMap.toKey m u = Some file
                  /\ JsString.truthy file = true.
Proof.
  unfold ResourceMap.get.
  destruct (ResourceMap.toKey m u) as [file|]; [|discriminate].
  destruct (JsString.truthy file) eqn:Ht; cbn; [|discriminate].
  destruct (ResourceMap._map m); cbn; [discriminate|].
  intros _. split; [discriminate|]. now exists file.
Qed.

Lemma has_delete_same {T : Type} (m : ResourceMap.t T) (u : Uri) :
  wf m -> ResourceMap.has (ResourceMap.delete m u) u = false.
Proof.
  intros [Hn _]. unfold ResourceMap.has. rewrite toKey_delete.
  destruct (ResourceMap.toKey m u) as [file|] eqn:K; [|reflexivity].
  destruct (JsString.truthy file) eqn:Ht; [|reflexivity].
  rewrite (delete_resolved _ _ _ K Ht). cbn.
  unfold JsMap.has. now rewrite JsMap_get_delete_same.
Qed.

(** [set] followed by [delete] gives back a map that had no entry for
    the key. *)
Lemma delete_set_absent {T : Type} (m : ResourceMap.t T) (u : Uri) (x : T) :
  ResourceMap.has m u = false ->
  ResourceMap.delete (ResourceMap.set m u x) u = m.
Proof.
  intros Hhas. unfold ResourceMap.delete. rewrite toKey_set.
  unfold ResourceMap.set, ResourceMap.has in *.
  destruct (ResourceMap.toKey m u) as [file|] eqn:K; [|reflexivity].
  destruct (JsString.truthy file) eqn:Ht; cbn in *; [|reflexivity].
  unfold JsMap.has in Hhas.
  destruct (JsMap.get (ResourceMap._map m) file) eqn:G; [discriminate|].
  unfold ResourceMap.with_map. cbn.
  rewrite JsMap_delete_set_new by assumption.
  now destruct m.
Qed.

End SynchronizerFacts.

(** C2. In batching mode, when [updatePending] finds a pending [Open] for
    the resource and is given a [Close], it deletes the pending entry and
    returns false, sends nothing, and the resource has no pending operation
    left; so [open] followed by [close] leaves the synchronizer as it was.
    For every other pair of a pending and a new operation, the whole batch
    is sent in one [UpdateOpen], the batch is emptied, the new operation is
    stored as its only entry, and the result is true. *)
Theorem C2_updatePending_coalesces (s : BufferSynchronizer.t) (r : Uri) :
  BufferSynchronizer.supportsBatching s = true ->
  wf (BufferSynchronizer._pending s) ->
  (forall a fp,
     ResourceMap.get (BufferSynchronizer._pending s) r = Some (OpenOperation a) ->
     BufferSynchronizer.updatePending s r (CloseOperation fp)
     = (BufferSynchronizer.with_pending s
          (ResourceMap.delete (BufferSynchronizer._pending s) r),
        false)
     /\ ResourceMap.has
          (BufferSynchronizer._pending
             (fst (BufferSynchronizer.updatePending s r (CloseOperation fp))))
          r = false
     /\ Client.sent
          (BufferSynchronizer.client
             (fst (BufferSynchronizer.updatePending s r (CloseOperation fp))))
        = Client.sent (BufferSynchronizer.client s))
  /\ (forall existing op,
        ResourceMap.get (BufferSynchronizer._pending s) r = Some existing ->
        isOpenThenClose existing op = false ->
        let batch := ResourceMap.values (BufferSynchronizer._pending s) in
        BufferSynchronizer.updatePending s r op
        = (BufferSynchronizer.mk
             (Client.execute (BufferSynchronizer.client s)
                (Cmd_UpdateOpen
                   (protocol.mkUpdateOpenRequestArgs (spec_changedFiles batch)
                      (spec_closedFiles batch) (spec_openFiles batch))))
             (ResourceMap.set
                (ResourceMap.clear (BufferSynchronizer._pending s)) r op),
           true)
        /\ ResourceMap.entries
             (BufferSynchronizer._pending
                (fst (BufferSynchronizer.updatePending s r op)))
           = [ResourceMap.mkEntry r op])
  /\ (forall a fp,
        ResourceMap.has (BufferSynchronizer._pending s) r = false ->
        (exists file,
           ResourceMap.toKey (BufferSynchronizer._pending s) r = Some file
           /\ JsString.truthy file = true) ->
        BufferSynchronizer.close (BufferSynchronizer.open s r a) r fp
        = (s, false)).
Proof.
  intros Hb Hwf. split; [|split].
  - intros a fp G.
    assert (E : BufferSynchronizer.updatePending s r (CloseOperation fp)
                = (BufferSynchronizer.with_pending s
                     (ResourceMap.delete (BufferSynchronizer._pending s) r),
                   false)).
    { unfold BufferSynchronizer.updatePending. cbn. now rewrite G. }
    rewrite E. cbn. split; [reflexivity|]. split; [|reflexivity].
    now apply has_delete_same.
  - intros existing op G Hne batch.
    destruct (get_some_nonempty _ _ _ G) as (Hnil & file & K & Ht).
    assert (E : BufferSynchronizer.updatePending s r op
                = (BufferSynchronizer.mk
                     (Client.execute (BufferSynchronizer.client s)
                        (Cmd_UpdateOpen
                           (protocol.mkUpdateOpenRequestArgs
                              (spec_changedFiles batch)
                              (spec_closedFiles batch) (spec_openFiles batch))))
                     (ResourceMap.set
                        (ResourceMap.clear (BufferSynchronizer._pending s)) r op),
                   true)).
    { unfold BufferSynchronizer.updatePending.
      rewrite G, has_get, G.
      replace (match BufferOperation_type op with
               | Close =>
                   match BufferOperation_type existing with
                   | Open => true
                   | _ => false
                   end
               | _ => false
               end) with false
        by (destruct existing, op; cbn in *; congruence).
      rewrite (flush_batching _ Hb Hnil), flush_collect_spec. reflexivity. }
    rewrite E. split; [reflexivity|]. cbn.
    unfold ResourceMap.entries.
    assert (K' : ResourceMap.toKey
                   (ResourceMap.clear (BufferSynchronizer._pending s)) r
                 = Some file) by exact K.
    now rewrite (set_resolved _ _ _ _ K' Ht).
  - intros a fp Hhas (file & K & Ht).
    unfold BufferSynchronizer.open, BufferSynchronizer.close. rewrite Hb.
    assert (E : BufferSynchronizer.updatePending s r (OpenOperation a)
                = (BufferSynchronizer.with_pending s
                     (ResourceMap.set (BufferSynchronizer._pending s) r
                        (OpenOperation a)),
                   true)).
    { unfold BufferSynchronizer.updatePending. cbn. now rewrite Hhas. }
    rewrite E. cbn [fst].
    replace (BufferSynchronizer.supportsBatching
               (BufferSynchronizer.with_pending s
                  (ResourceMap.set (BufferSynchronizer._pending s) r
                     (OpenOperation a)))) with true by (symmetry; exact Hb).
    unfold BufferSynchronizer.updatePending. cbn.
    assert (G : ResourceMap.get
                  (ResourceMap.set (BufferSynchronizer._pending s) r
                     (OpenOperation a)) r = Some (OpenOperation a)).
    { assert (K1 : ResourceMap.toKey
                     (ResourceMap.set (BufferSynchronizer._pending s) r
                        (OpenOperation a)) r = Some file)
        by now rewrite toKey_set.
      rewrite (get_resolved _ _ _ K1 Ht), (set_resolved _ _ _ _ K Ht).
      now rewrite JsMap_get_set_same. }
    rewrite G. cbn.
    rewrite delete_set_absent by assumption.
    now destruct s.
Qed.

Lemma C2_updatePending_coalesces_witness :
  let args := Sample.openArgs "/src/a.ts" in
  let s := BufferSynchronizer.open Sample.batching Sample.fileA args in
  BufferSynchronizer.supportsBatching s = true
  /\ ResourceMap.get (BufferSynchronizer._pending s) Sample.fileA
     = Some (OpenOperation args)
  /\ BufferSynchronizer.updatePending s Sample.fileA (CloseOperation "/src/a.ts")
     = (Sample.batching, false)
  /\ ResourceMap.entries
       (BufferSynchronizer._pending
          (fst (BufferSynchronizer.updatePending s Sample.fileA
                  (OpenOperation args))))
     = [ResourceMap.mkEntry Sample.fileA (OpenOperation args)]
  /\ BufferSynchronizer.close s Sample.fileA "/src/a.ts"
     = (Sample.batching, false).
Proof.
  intros args s.
  assert (Hwf0 : wf (BufferSynchronizer._pending Sample.batching))
    by apply wf_create.
  assert (Hwf : wf (BufferSynchronizer._pending s))
    by exact (wf_set _ Sample.fileA (OpenOperation args) Hwf0).
  destruct (C2_updatePending_coalesces s Sample.fileA eq_refl Hwf)
    as (H1 & H2 & _).
  destruct (C2_updatePending_coalesces Sample.batching Sample.fileA
              eq_refl Hwf0) as (_ & _ & H3).
  split; [reflexivity|].
  split; [reflexivity|].
  split; [exact (proj1 (H1 args "/src/a.ts" eq_refl))|].
  split; [exact (proj2 (H2 (OpenOperation args) (OpenOperation args)
                          eq_refl eq_refl))|].
  exact (H3 args "/src/a.ts" eq_refl
           (ex_intro _ "/src/a.ts" (conj eq_refl eq_refl))).
Defined.

Section ChangeFacts.

Lemma change_push_all (events : list lsp.TextDocumentContentChangeEvent) :
  forall edits,
    fold_left BufferSynchronizer.change_push events edits
    = edits ++ spec_edits events.
Proof.
  induction events as [|ev events IH]; intros edits; cbn.
  - now rewrite app_nil_r.
  - rewrite IH. unfold BufferSynchronizer.change_push.
    destruct (lsp.range ev); cbn; [|reflexivity].
    now rewrite <- app_assoc.
Qed.

Lemma change_edits_spec (events : list lsp.TextDocumentContentChangeEvent) :
  BufferSynchronizer.change_edits events = spec_edits events.
Proof. unfold BufferSynchronizer.change_edits. now rewrite change_push_all. Qed.

(** What [updatePending] stores: the operation it is given, unless it
    elides; here for an operation that is not a [Close]. *)
Lemma updatePending_stores (s : BufferSynchronizer.t) (r : Uri)
  (op : BufferOperation) (file : string) :
  BufferOperation_type op <> Close ->
  ResourceMap.toKey (BufferSynchronizer._pending s) r = Some file ->
  JsString.truthy file = true ->
  ResourceMap.get
    (BufferSynchronizer._pending (fst (BufferSynchronizer.updatePending s r op)))
    r = Some op.
Proof.
  intros Hop K Ht. unfold BufferSynchronizer.updatePending.
  replace (match BufferOperation_type op with
           | Close =>
               match ResourceMap.get (BufferSynchronizer._pending s) r with
               | Some existing =>
                   match BufferOperation_type existing with
                   | Open => true
                   | _ => false
                   end
               | None => false
               end
           | _ => false
           end) with false
    by (destruct (BufferOperation_type op); congruence).
  cbn [fst BufferSynchronizer._pending BufferSynchronizer.with_pending].
  set (s1 := if ResourceMap.has (BufferSynchronizer._pending s) r
             then BufferSynchronizer.flush s else s).
  assert (K1 : ResourceMap.toKey (BufferSynchronizer._pending s1) r
               = Some file).
  { unfold s1. destruct (ResourceMap.has _ r); [|exact K].
    unfold BufferSynchronizer.flush.
    destruct (negb (BufferSynchronizer.supportsBatching s)); [exact K|].
    destruct (0 <? ResourceMap.size (BufferSynchronizer._pending s))%nat;
      exact K. }
  assert (K2 : ResourceMap.toKey
                 (ResourceMap.set (BufferSynchronizer._pending s1) r op) r
               = Some file) by now rewrite toKey_set.
  rewrite (get_resolved _ _ _ K2 Ht), (set_resolved _ _ _ _ K1 Ht).
  now rewrite JsMap_get_set_same.
Qed.

End ChangeFacts.

(** C6. In batching mode, [change] with at least one event, for a resource
    whose key resolves, leaves as the pending operation of the resource a
    [Change] whose [textChanges] are the edits of the ranged events, with
    1-based positions, in the reverse of the editor's event order. Two
    events on lines 1 and 5 are sent with the edit of line 5 first. *)
Theorem C6_change_reverses_edits (s : BufferSynchronizer.t) (resource : Uri)
  (filepath : string) (events : list lsp.TextDocumentContentChangeEvent)
  (file : string) :
  BufferSynchronizer.supportsBatching s = true ->
  events <> [] ->
  ResourceMap.toKey (BufferSynchronizer._pending s) resource = Some file ->
  JsString.truthy file = true ->
  ResourceMap.get
    (BufferSynchronizer._pending
       (BufferSynchronizer.change s resource filepath events))
    resource
  = Some (ChangeOperation
            (protocol.mkFileCodeEdits filepath (rev (spec_edits events))))
  /\ Client.sent
       (BufferSynchronizer.client
          (BufferSynchronizer.flush
             (BufferSynchronizer.change Sample.batching Sample.fileA
                "/src/a.ts" [Sample.event 0 "x"; Sample.event 4 "y"])))
     = [Cmd_UpdateOpen
          (protocol.mkUpdateOpenRequestArgs
             [protocol.mkFileCodeEdits "/src/a.ts"
                [protocol.mkCodeEdit "y" (protocol.mkLocation 5 1)
                   (protocol.mkLocation 5 2);
                 protocol.mkCodeEdit "x" (protocol.mkLocation 1 1)
                   (protocol.mkLocation 1 2)]]
             [] [])].
Proof.
  intros Hb Hne K Ht. split; [|reflexivity].
  unfold BufferSynchronizer.change.
  destruct events as [|ev events]; [congruence|].
  rewrite Hb, change_edits_spec.
  apply (updatePending_stores _ _ _ file); [discriminate | exact K | exact Ht].
Qed.

Lemma C6_change_reverses_edits_witness :
  ResourceMap.get
    (BufferSynchronizer._pending
       (BufferSynchronizer.change Sample.batching Sample.fileA "/src/a.ts"
          [Sample.event 0 "x"; Sample.event 4 "y"]))
    Sample.fileA
  = Some (ChangeOperation
            (protocol.mkFileCodeEdits "/src/a.ts"
               [protocol.mkCodeEdit "y" (protocol.mkLocation 5 1)
                  (protocol.mkLocation 5 2);
                protocol.mkCodeEdit "x" (protocol.mkLocation 1 1)
                  (protocol.mkLocation 1 2)])).
Proof.
  refine (proj1
            (C6_change_reverses_edits Sample.batching Sample.fileA "/src/a.ts"
               [Sample.event 0 "x"; Sample.event 4 "y"] "/src/a.ts"
               eq_refl _ eq_refl eq_refl)).
  discriminate.
Defined.

(** ** Eligibility and scheduling *)

(** C7. [shouldValidate] is false when project diagnostics are disabled and
    the tab tracker does not have the resource of the buffer; in every other
    case it is the flag of the kind of the buffer, [validateJavaScript] for
    a JavaScript buffer and [validateTypeScript] for a TypeScript one, where
    the JavaScript buffers are those of the two JavaScript language ids. *)
Theorem C7_shouldValidate_gates_on_visibility (s : BufferSyncSupport.t)
  (b : SyncedBuffer.t) :
  let visible :=
    TabResourceTracker.has (BufferSyncSupport._tabResources s)
      (SyncedBuffer.resource b) in
  let projectDiagnostics :=
    Client.enableProjectDiagnostics (BufferSyncSupport.client s) in
  (projectDiagnostics = false -> visible = false ->
   BufferSyncSupport.shouldValidate s b = false)
  /\ (projectDiagnostics = true \/ visible = true ->
      (SyncedBuffer.kind b = JavaScript ->
       BufferSyncSupport.shouldValidate s b
       = BufferSyncSupport._validateJavaScript s)
      /\ (SyncedBuffer.kind b = TypeScript ->
          BufferSyncSupport.shouldValidate s b
          = BufferSyncSupport._validateTypeScript s))
  /\ (projectDiagnostics = false ->
      BufferSyncSupport.shouldValidate s b = true -> visible = true)
  /\ (SyncedBuffer.kind b = JavaScript <->
      languageId (SyncedBuffer.document b) = javascript
      \/ languageId (SyncedBuffer.document b) = javascriptreact).
Proof.
  intros visible projectDiagnostics.
  unfold BufferSyncSupport.shouldValidate.
  fold visible projectDiagnostics.
  split; [|split; [|split; [|split]]].
  - now intros -> ->.
  - intros H.
    assert (E : negb projectDiagnostics && negb visible = false)
      by (destruct H as [-> | ->]; [reflexivity | apply andb_false_r]).
    rewrite E. split; now intros ->.
  - intros ->. destruct visible; [reflexivity | discriminate].
  - unfold SyncedBuffer.kind.
    destruct (languageId (SyncedBuffer.document b)); auto; discriminate.
  - unfold SyncedBuffer.kind.
    intros [-> | ->]; reflexivity.
Qed.

Lemma C7_shouldValidate_gates_on_visibility_witness :
  BufferSyncSupport.shouldValidate Sample.support
    (Sample.buffer Sample.fileB "/src/b.ts" 10) = false
  /\ BufferSyncSupport.shouldValidate Sample.support
       (Sample.buffer Sample.fileA "/src/a.ts" 10) = true.
Proof.
  split.
  - exact (proj1
             (C7_shouldValidate_gates_on_visibility Sample.support
                (Sample.buffer Sample.fileB "/src/b.ts" 10))
             eq_refl eq_refl).
  - exact (proj2
             (proj1
                (proj2
                   (C7_shouldValidate_gates_on_visibility Sample.support
                      (Sample.buffer Sample.fileA "/src/a.ts" 10)))
                (or_intror eq_refl))
             eq_refl).
Defined.

Section Delay.

Lemma ceil_div_20 (n : Z) :
  (20 * (Math.ceil_div n 20 - 1) < n <= 20 * Math.ceil_div n 20)%Z.
Proof.
  unfold Math.ceil_div.
  pose proof (Z.div_mod (- n) 20 ltac:(lia)).
  pose proof (Z.mod_pos_bound (- n) 20 ltac:(lia)).
  lia.
Qed.

Lemma ceil_div_20_unique (n c : Z) :
  (20 * (c - 1) < n <= 20 * c)%Z -> c = Math.ceil_div n 20.
Proof. pose proof (ceil_div_20 n). lia. Qed.

Lemma min_max_clamp (x : Z) :
  Math.min (Math.max x 300) 800 = spec_clamp x 300 800.
Proof.
  unfold Math.min, Math.max, spec_clamp.
  destruct (Z.ltb_spec x 300), (Z.ltb_spec 800 x); lia.
Qed.

End Delay.

(** C8. [requestDiagnostic] returns false, and changes nothing, for a buffer
    that is not validatable. Otherwise it calls [set] of the pending
    diagnostics with the resource of the buffer and the current time,
    triggers the delayer with the ceiling of [lineCount / 20] clamped to
    [[300, 800]], and returns true; the pending time stamp of the resource
    is then the current time when the key of the resource resolves. *)
Theorem C8_requestDiagnostic_schedules (s : BufferSyncSupport.t)
  (b : SyncedBuffer.t) (now : Z) :
  (BufferSyncSupport.shouldValidate s b = false ->
   BufferSyncSupport.requestDiagnostic s b now = (s, false))
  /\ (BufferSyncSupport.shouldValidate s b = true ->
      let s' := fst (BufferSyncSupport.requestDiagnostic s b now) in
      snd (BufferSyncSupport.requestDiagnostic s b now) = true
      /\ BufferSyncSupport.pendingDiagnostics s'
         = ResourceMap.set (BufferSyncSupport.pendingDiagnostics s)
             (SyncedBuffer.resource b) now
      /\ (forall file,
            ResourceMap.toKey (BufferSyncSupport.pendingDiagnostics s)
              (SyncedBuffer.resource b) = Some file ->
            JsString.truthy file = true ->
            ResourceMap.get (BufferSyncSupport.pendingDiagnostics s')
              (SyncedBuffer.resource b) = Some now)
      /\ (exists c delay : Z,
            (20 * (c - 1) < SyncedBuffer.lineCount b <= 20 * c)%Z
            /\ delay = spec_clamp c 300 800
            /\ (300 <= delay <= 800)%Z
            /\ Delayer.scheduled (BufferSyncSupport.diagnosticDelayer s')
               = Some delay)
      /\ BufferSyncSupport.client s' = BufferSyncSupport.client s
      /\ BufferSyncSupport._tabResources s' = BufferSyncSupport._tabResources s).
Proof.
  unfold BufferSyncSupport.requestDiagnostic. split.
  - now intros ->.
  - intros ->. cbn.
    split; [reflexivity|]. split; [reflexivity|]. split; [|split].
    + intros file K Ht.
      assert (K' : ResourceMap.toKey
                     (ResourceMap.set (BufferSyncSupport.pendingDiagnostics s)
                        (SyncedBuffer.resource b) now)
                     (SyncedBuffer.resource b) = Some file)
        by now rewrite toKey_set.
      rewrite (get_resolved _ _ _ K' Ht), (set_resolved _ _ _ _ K Ht).
      now rewrite JsMap_get_set_same.
    + exists (Math.ceil_div (SyncedBuffer.lineCount b) 20).
      exists (spec_clamp (Math.ceil_div (SyncedBuffer.lineCount b) 20) 300 800).
      split; [apply ceil_div_20|]. split; [reflexivity|].
      split.
      * unfold spec_clamp.
        destruct (Z.ltb_spec (Math.ceil_div (SyncedBuffer.lineCount b) 20) 300),
          (Z.ltb_spec 800 (Math.ceil_div (SyncedBuffer.lineCount b) 20)); lia.
      * unfold BufferSyncSupport.requestDiagnostic_delay.
        now rewrite min_max_clamp.
    + split; reflexivity.
Qed.

Lemma C8_requestDiagnostic_schedules_witness :
  let hidden := Sample.buffer Sample.fileB "/src/b.ts" 10 in
  let shown := Sample.buffer Sample.fileA "/src/a.ts" 10000 in
  BufferSyncSupport.requestDiagnostic Sample.support hidden 1000
  = (Sample.support, false)
  /\ snd (BufferSyncSupport.requestDiagnostic Sample.support shown 1000) = true
  /\ ResourceMap.get
       (BufferSyncSupport.pendingDiagnostics
          (fst (BufferSyncSupport.requestDiagnostic Sample.support shown 1000)))
       Sample.fileA = Some 1000%Z.
Proof.
  intros hidden shown.
  split.
  - exact (proj1 (C8_requestDiagnostic_schedules Sample.support hidden 1000)
             eq_refl).
  - destruct (proj2 (C8_requestDiagnostic_schedules Sample.support shown 1000)
                eq_refl) as (H1 & _ & H3 & _).
    split; [exact H1|].
    exact (H3 "/src/a.ts" eq_refl eq_refl).
Defined.

(** ** The get-error request *)

Section GetErrFacts.
Import GetErrRequest.

(** Nothing is pending: no event calls [onDone]. *)
Lemma run_settled (events : list Event) :
  forall r, immediate r = false -> request r = None ->
            onDoneCalls (run r events) = onDoneCalls r.
Proof.
  induction events as [|e events IH]; intros r Hi Hr; [reflexivity|].
  cbn [run fold_left]. change (fold_left step events ?x) with (run x events).
  destruct e; cbn [step]; rewrite ?Hi, ?Hr; rewrite IH; auto.
Qed.

(** The immediate is queued. *)
Lemma run_immediate (events : list Event) :
  forall r, immediate r = true -> request r = None ->
            onDoneCalls (run r events) = calls_after r events.
Proof.
  unfold calls_after.
  induction events as [|e events IH]; intros r Hi Hr; [reflexivity|].
  cbn [run fold_left existsb].
  change (fold_left step events ?x) with (run x events).
  destruct e; cbn [step completes]; rewrite ?Hi, ?Hr; cbn [orb].
  - rewrite IH by assumption. cbn [cancel immediate request onDoneCalls].
    unfold completes. cbn. now rewrite Hi, Hr.
  - now rewrite run_settled.
  - now rewrite IH.
Qed.

(** The back-end request is in flight. *)
Lemma run_in_flight (events : list Event) :
  forall r, immediate r = false -> request r <> None -> _done r = false ->
            onDoneCalls (run r events) = calls_after r events.
Proof.
  unfold calls_after.
  induction events as [|e events IH]; intros r Hi Hr Hd; [reflexivity|].
  cbn [run fold_left existsb].
  change (fold_left step events ?x) with (run x events).
  destruct (request r) as [cmd|] eqn:Er; [clear Hr | congruence].
  destruct e; cbn [step completes]; rewrite ?Hi, ?Er; cbn [orb].
  - rewrite IH; cbn [cancel immediate request onDoneCalls _done];
      rewrite ?Er; try assumption; try discriminate.
    unfold completes. cbn. now rewrite Hi, Er.
  - rewrite IH; rewrite ?Er; try assumption; try discriminate.
    unfold completes. now rewrite Hi, Er.
  - unfold onSettled. rewrite Hd.
    rewrite run_settled; [reflexivity | exact Hi | reflexivity].
Qed.

(** The constructor leaves exactly one callback pending. *)
Lemma executeGetErrRequest_pending (client : Client.t)
  (files : ResourceMap.t unit) :
  let r0 := executeGetErrRequest client files in
  onDoneCalls r0 = 0%nat
  /\ (immediate r0 = true /\ request r0 = None /\ _done r0 = true
      \/ immediate r0 = false /\ request r0 <> None /\ _done r0 = false).
Proof.
  unfold executeGetErrRequest.
  destruct (negb (isErrorReportingEnabled client)); cbn; [auto|].
  destruct (allFiles client files); cbn; [auto|].
  split; [reflexivity|]. right. repeat split. discriminate.
Qed.

End GetErrFacts.

(** C4. Over any sequence of [cancel] calls, runs of the queued immediate and
    settlements of the back-end request, [onDone] is called at most once;
    it has been called exactly once as soon as the callback that the
    constructor left pending has run, which is the immediate on the two
    early paths and the settlement of the request, with any outcome,
    otherwise; [cancel] itself never calls [onDone] and calling it twice is
    calling it once. *)
Theorem C4_onDone_exactly_once (client : Client.t) (files : ResourceMap.t unit)
  (events : list GetErrRequest.Event) :
  let r0 := GetErrRequest.executeGetErrRequest client files in
  let r := GetErrRequest.run r0 events in
  (GetErrRequest.onDoneCalls r <= 1)%nat
  /\ (existsb (GetErrRequest.completes r0) events = true ->
      GetErrRequest.onDoneCalls r = 1%nat)
  /\ (existsb (GetErrRequest.completes r0) events = false ->
      GetErrRequest.onDoneCalls r = 0%nat)
  /\ GetErrRequest.onDoneCalls (GetErrRequest.cancel r)
     = GetErrRequest.onDoneCalls r
  /\ GetErrRequest.cancel (GetErrRequest.cancel r) = GetErrRequest.cancel r
  /\ (GetErrRequest.immediate r0 = true /\ GetErrRequest.request r0 = None
      \/ GetErrRequest.immediate r0 = false /\ GetErrRequest.request r0 <> None).
Proof.
  intros r0 r.
  destruct (executeGetErrRequest_pending client files) as [H0 Hp].
  fold r0 in H0, Hp.
  assert (E : GetErrRequest.onDoneCalls r = calls_after r0 events).
  { destruct Hp as [(Hi & Hr & _) | (Hi & Hr & Hd)].
    - now apply run_immediate.
    - now apply run_in_flight. }
  unfold calls_after in E. rewrite H0 in E.
  split; [|split; [|split; [|split; [|split]]]].
  - rewrite E. destruct (existsb _ events); lia.
  - intros Hc. now rewrite E, Hc.
  - intros Hc. now rewrite E, Hc.
  - reflexivity.
  - unfold GetErrRequest.cancel. cbn.
    destruct (GetErrRequest._done r); reflexivity.
  - destruct Hp as [(Hi & Hr & _) | (Hi & Hr & _)]; auto.
Qed.

Lemma C4_onDone_exactly_once_witness :
  let files :=
    ResourceMap.set (ResourceMap.create Sample.normalize Sample.caseSensitive)
      Sample.fileA tt in
  let r0 := GetErrRequest.executeGetErrRequest (Sample.client API.v440) files in
  GetErrRequest.request r0 = Some (Cmd_Geterr ["/src/a.ts"])
  /\ GetErrRequest.onDoneCalls
       (GetErrRequest.run r0
          [GetErrRequest.Ev_cancel; GetErrRequest.Ev_cancel;
           GetErrRequest.Ev_settled GetErrRequest.Cancelled;
           GetErrRequest.Ev_cancel])
     = 1%nat.
Proof.
  intros files r0. split; [reflexivity|].
  exact (proj1
           (proj2
              (C4_onDone_exactly_once (Sample.client API.v440) files
                 [GetErrRequest.Ev_cancel; GetErrRequest.Ev_cancel;
                  GetErrRequest.Ev_settled GetErrRequest.Cancelled;
                  GetErrRequest.Ev_cancel]))
           eq_refl).
Defined.

(** ** Ordering of the pending diagnostics *)

Section SortFacts.
Import PendingDiagnostics.

Lemma insert_perm (x : ResourceMap.Entry Z) (l : list (ResourceMap.Entry Z)) :
  Permutation (JsArray.insert byValue x l) (x :: l).
Proof.
  induction l as [|y l IH]; cbn; [reflexivity|].
  destruct (0 <? byValue x y)%Z; [|reflexivity].
  rewrite IH. apply perm_swap.
Qed.

Lemma sort_perm (l : list (ResourceMap.Entry Z)) : Permutation (JsArray.sort byValue l) l.
Proof.
  induction l as [|x l IH]; cbn; [reflexivity|].
  change (fold_right (JsArray.insert byValue) [] l)
    with (JsArray.sort byValue l).
  rewrite insert_perm. now constructor.
Qed.

Lemma insert_sorted (x : ResourceMap.Entry Z) (l : list (ResourceMap.Entry Z)) :
  StronglySorted older l ->
  StronglySorted older (JsArray.insert byValue x l).
Proof.
  induction l as [|y l IH]; cbn; intros Hs.
  - repeat constructor.
  - inversion Hs as [|? ? Hs' Hall]; subst.
    destruct (Z.ltb_spec 0 (byValue x y)) as [Hlt | Hge];
      unfold byValue, older in *.
    + constructor; [now apply IH|].
      apply (Permutation_Forall (Permutation_sym (insert_perm x l))).
      constructor; [unfold older; lia | assumption].
    + constructor; [assumption|].
      constructor; [unfold older; lia|].
      eapply Forall_impl; [|exact Hall].
      unfold older. intros a Ha. cbn in Ha. lia.
Qed.

Lemma sort_sorted (l : list (ResourceMap.Entry Z)) :
  StronglySorted older (JsArray.sort byValue l).
Proof.
  induction l as [|x l IH]; cbn; [constructor|].
  now apply insert_sorted.
Qed.

(** Stability: the entries of one time stamp keep their order. *)
Lemma insert_stable (t : Z) (x : ResourceMap.Entry Z) (l : list (ResourceMap.Entry Z)) :
  filter (fun e => (ResourceMap.value e =? t)%Z) (JsArray.insert byValue x l)
  = filter (fun e => (ResourceMap.value e =? t)%Z) (x :: l).
Proof.
  induction l as [|y l IH]; [reflexivity|].
  cbn [JsArray.insert].
  destruct (Z.ltb_spec 0 (byValue x y)) as [Hlt | Hge]; [|reflexivity].
  unfold byValue in Hlt.
  cbn [filter] in *. rewrite IH.
  destruct (Z.eqb_spec (ResourceMap.value x) t), (Z.eqb_spec (ResourceMap.value y) t);
    try reflexivity; lia.
Qed.

Lemma sort_stable (t : Z) (l : list (ResourceMap.Entry Z)) :
  filter (fun e => (ResourceMap.value e =? t)%Z) (JsArray.sort byValue l)
  = filter (fun e => (ResourceMap.value e =? t)%Z) l.
Proof.
  induction l as [|x l IH]; [reflexivity|].
  cbn [JsArray.sort fold_right].
  change (fold_right (JsArray.insert byValue) [] l)
    with (JsArray.sort byValue l).
  rewrite insert_stable. cbn [filter]. now rewrite IH.
Qed.

End SortFacts.

Section OrderedFileSet.

Lemma JsMap_get_of_in {V : Type} (l : JsMap.t V) (k : string) (v : V) :
  NoDup (JsMap.keys l) -> In (k, v) l -> JsMap.get l k = Some v.
Proof.
  induction l as [|[k0 v0] l IH]; cbn; [tauto|].
  intros Hn Hin. inversion Hn as [|? ? Hnot Hn']; subst.
  destruct Hin as [[= -> ->] | Hin].
  - now rewrite String.eqb_refl.
  - destruct (String.eqb_spec k0 k) as [-> | _]; [|auto].
    exfalso. apply Hnot. now apply (in_map fst) in Hin.
Qed.

(** In a well-formed map every entry is read back through its URI. *)
Lemma get_entry {T : Type} (m : ResourceMap.t T) (e : ResourceMap.Entry T) :
  wf m -> In e (ResourceMap.entries m) ->
  ResourceMap.get m (ResourceMap.resource e) = Some (ResourceMap.value e)
  /\ exists k, ResourceMap.toKey m (ResourceMap.resource e) = Some k
               /\ JsString.truthy k = true.
Proof.
  intros [Hn Hk] Hin.
  unfold ResourceMap.entries, JsMap.values in Hin.
  apply in_map_iff in Hin as [[k e'] [He Hin]]. cbn in He. subst e'.
  unfold keyed in Hk. rewrite Forall_forall in Hk.
  destruct (Hk _ Hin) as [Ht K]. cbn in Ht, K.
  split; [|now exists k].
  rewrite (get_resolved _ _ _ K Ht).
  now rewrite (JsMap_get_of_in _ _ _ Hn Hin).
Qed.

Lemma keys_of_entries {T : Type} (m : ResourceMap.t T) :
  wf m ->
  map (fun e => ResourceMap.toKey m (ResourceMap.resource e))
    (ResourceMap.entries m)
  = map Some (JsMap.keys (ResourceMap._map m)).
Proof.
  intros [_ Hk]. unfold keyed in Hk.
  unfold ResourceMap.entries, JsMap.values, JsMap.keys.
  induction Hk as [|[k e] l [_ K] _ IH]; cbn; [reflexivity|].
  cbn in K. now rewrite K, IH.
Qed.

(** Setting URIs whose keys are new and distinct appends them in order. *)
Lemma set_fresh_all (rs : list Uri) :
  forall m0 : ResourceMap.t unit,
    (forall r, In r rs ->
               exists k, ResourceMap.toKey m0 r = Some k
                         /\ JsString.truthy k = true) ->
    NoDup (map Some (JsMap.keys (ResourceMap._map m0))
           ++ map (ResourceMap.toKey m0) rs) ->
    ResourceMap.entries
      (fold_left (fun map resource => ResourceMap.set map resource tt) rs m0)
    = ResourceMap.entries m0 ++ map (fun r => ResourceMap.mkEntry r tt) rs.
Proof.
  induction rs as [|r rs IH]; intros m0 Hres Hnd; cbn.
  - now rewrite app_nil_r.
  - destruct (Hres r (or_introl eq_refl)) as (k & K & Ht).
    assert (G : JsMap.get (ResourceMap._map m0) k = None).
    { apply JsMap_get_none. intros Hin.
      cbn in Hnd. rewrite K in Hnd.
      apply NoDup_remove_2 in Hnd. apply Hnd.
      apply in_or_app. left. now apply in_map. }
    assert (M : ResourceMap._map (ResourceMap.set m0 r tt)
                = ResourceMap._map m0 ++ [(k, ResourceMap.mkEntry r tt)]).
    { rewrite (set_resolved _ _ _ _ K Ht), G. now apply JsMap_set_new. }
    rewrite IH.
    + unfold ResourceMap.entries, JsMap.values. rewrite M, map_app. cbn.
      now rewrite <- app_assoc.
    + intros r' Hin. destruct (Hres r' (or_intror Hin)) as (k' & K' & Ht').
      exists k'. now rewrite toKey_set.
    + rewrite M. unfold JsMap.keys. rewrite !map_app. cbn.
      rewrite <- app_assoc. cbn.
      rewrite (map_ext (ResourceMap.toKey (ResourceMap.set m0 r tt))
                 (ResourceMap.toKey m0)) by (intros; apply toKey_set).
      cbn in Hnd. now rewrite K in Hnd.
Qed.

Lemma set_params {T : Type} (m : ResourceMap.t T) (u : Uri) (v : T) :
  ResourceMap._normalizePath (ResourceMap.set m u v)
  = ResourceMap._normalizePath m
  /\ ResourceMap.config (ResourceMap.set m u v) = ResourceMap.config m.
Proof.
  unfold ResourceMap.set.
  destruct (ResourceMap.toKey m u) as [file|]; [|now split].
  destruct (negb (JsString.truthy file)); [now split|].
  destruct (JsMap.get (ResourceMap._map m) file); now split.
Qed.

Lemma set_all_params (rs : list Uri) :
  forall m0 : ResourceMap.t unit,
    let m1 :=
      fold_left (fun map resource => ResourceMap.set map resource tt) rs m0 in
    ResourceMap._normalizePath m1 = ResourceMap._normalizePath m0
    /\ ResourceMap.config m1 = ResourceMap.config m0.
Proof.
  induction rs as [|r rs IH]; intros m0; cbn; [now split|].
  destruct (IH (ResourceMap.set m0 r tt)) as [H1 H2].
  destruct (set_params m0 r tt) as [H3 H4].
  split; congruence.
Qed.

End OrderedFileSet.

(** C5. For a pending-diagnostics map built by the map's operations,
    [getOrderedFileSet] returns a new map, with the same normalizer and
    configuration, whose iteration yields the resources of the pending
    entries, each once, in non-decreasing order of their time stamps, the
    entries of equal time stamp in their order of insertion. Entries
    enqueued at 100, 200 and 150 for A, B and C are yielded as A, C, B. *)
Theorem C5_ordered_file_set (m : PendingDiagnostics.t) :
  wf m ->
  let out := PendingDiagnostics.getOrderedFileSet m in
  let sorted := JsArray.sort PendingDiagnostics.byValue (ResourceMap.entries m) in
  ResourceMap.entries out
  = map (fun e => ResourceMap.mkEntry (ResourceMap.resource e) tt) sorted
  /\ ResourceMap._normalizePath out = ResourceMap._normalizePath m
  /\ ResourceMap.config out = ResourceMap.config m
  /\ Permutation sorted (ResourceMap.entries m)
  /\ StronglySorted older sorted
  /\ (forall t : Z,
        filter (fun e => (ResourceMap.value e =? t)%Z) sorted
        = filter (fun e => (ResourceMap.value e =? t)%Z) (ResourceMap.entries m))
  /\ map (fun e => ResourceMap.get m (ResourceMap.resource e))
       (ResourceMap.entries out)
     = map (fun e => Some (ResourceMap.value e)) sorted
  /\ map (@ResourceMap.resource unit)
       (ResourceMap.entries
          (PendingDiagnostics.getOrderedFileSet Sample.pendingS4))
     = [Sample.fileA; Sample.fileC; Sample.fileB].
Proof.
  intros Hwf out sorted.
  assert (Hperm : Permutation sorted (ResourceMap.entries m))
    by apply sort_perm.
  assert (Hin : forall e, In e sorted -> In e (ResourceMap.entries m))
    by (intros e; apply Permutation_in; exact Hperm).
  assert (Hout : ResourceMap.entries out
                 = map (fun e => ResourceMap.mkEntry (ResourceMap.resource e) tt)
                     sorted).
  { unfold out, PendingDiagnostics.getOrderedFileSet,
      PendingDiagnostics.orderedResources.
    fold sorted.
    rewrite set_fresh_all.
    - cbn. now rewrite map_map.
    - intros r Hr. apply in_map_iff in Hr as (e & <- & He).
      exact (proj2 (get_entry m e Hwf (Hin e He))).
    - cbn. rewrite map_map.
      change (map (fun x => ResourceMap.toKey
                              (ResourceMap.create (ResourceMap._normalizePath m)
                                 (ResourceMap.config m))
                              (ResourceMap.resource x)) sorted)
        with (map (fun e => ResourceMap.toKey m (ResourceMap.resource e)) sorted).
      apply (Permutation_NoDup
               (l := map (fun e => ResourceMap.toKey m (ResourceMap.resource e))
                       (ResourceMap.entries m))).
      + apply Permutation_map. now symmetry.
      + rewrite (keys_of_entries m Hwf).
        generalize (JsMap.keys (ResourceMap._map m)) (proj1 Hwf).
        intros ks Hks. induction Hks as [|k ks Hnot _ IH]; cbn; constructor;
          [|exact IH].
        rewrite in_map_iff. intros (k' & [= ->] & Hk'). contradiction. }
  split; [exact Hout|].
  split; [exact (proj1 (set_all_params _ _))|].
  split; [exact (proj2 (set_all_params _ _))|].
  split; [exact Hperm|].
  split; [apply sort_sorted|].
  split; [intros t; apply sort_stable|].
  split; [|reflexivity].
  rewrite Hout, map_map. cbn.
  apply map_ext_in. intros e He.
  exact (proj1 (get_entry m e Hwf (Hin e He))).
Qed.

Lemma C5_ordered_file_set_witness :
  wf Sample.pendingS4
  /\ ResourceMap.entries (PendingDiagnostics.getOrderedFileSet Sample.pendingS4)
     = [ResourceMap.mkEntry Sample.fileA tt; ResourceMap.mkEntry Sample.fileC tt;
        ResourceMap.mkEntry Sample.fileB tt].
Proof.
  assert (Hwf : wf Sample.pendingS4)
    by (apply wf_setAll; apply wf_create).
  split; [exact Hwf|].
  exact (proj1 (C5_ordered_file_set Sample.pendingS4 Hwf)).
Defined.

(** ** The tab tracker *)

Section PresenceFacts.
Context {T : Type}.
Implicit Types (m : ResourceMap.t T) (u : Uri) (v : T).

Lemma has_set_mono m u u' v :
  ResourceMap.has m u = true -> ResourceMap.has (ResourceMap.set m u' v) u = true.
Proof.
  unfold ResourceMap.has at 2. rewrite toKey_set.
  unfold ResourceMap.has.
  destruct (ResourceMap.toKey m u) as [file|] eqn:K; [|discriminate].
  destruct (JsString.truthy file) eqn:Ht; cbn; [|discriminate].
  unfold JsMap.has. intros H.
  destruct (ResourceMap.toKey m u') as [file'|] eqn:K'.
  - destruct (JsString.truthy file') eqn:Ht'.
    + rewrite (set_resolved _ _ _ _ K' Ht').
      destruct (String.eqb_spec file' file) as [-> | Hne].
      * now rewrite JsMap_get_set_same.
      * now rewrite JsMap_get_set_other.
    + rewrite set_unresolved; [assumption|]. intros f Hf. congruence.
  - rewrite set_unresolved; [assumption|]. intros f Hf. congruence.
Qed.

Lemma has_set_same m u v file :
  ResourceMap.toKey m u = Some file -> JsString.truthy file = true ->
  ResourceMap.has (ResourceMap.set m u v) u = true.
Proof.
  intros K Ht. unfold ResourceMap.has. rewrite toKey_set, K, Ht. cbn.
  rewrite (set_resolved _ _ _ _ K Ht). unfold JsMap.has.
  now rewrite JsMap_get_set_same.
Qed.

(** A [set] on a URI that the map has adds no key. *)
Lemma has_set_existing m u u' v :
  ResourceMap.has m u' = true ->
  ResourceMap.has (ResourceMap.set m u' v) u = ResourceMap.has m u.
Proof.
  intros H'. unfold ResourceMap.has in *. rewrite toKey_set.
  destruct (ResourceMap.toKey m u') as [file'|] eqn:K'; [|discriminate].
  destruct (JsString.truthy file') eqn:Ht'; cbn in H'; [|discriminate].
  destruct (ResourceMap.toKey m u) as [file|] eqn:K; [|reflexivity].
  destruct (JsString.truthy file) eqn:Ht; cbn; [|reflexivity].
  rewrite (set_resolved _ _ _ _ K' Ht'). unfold JsMap.has in *.
  destruct (String.eqb_spec file' file) as [-> | Hne].
  - rewrite JsMap_get_set_same.
    now destruct (JsMap.get (ResourceMap._map m) file).
  - now rewrite JsMap_get_set_other.
Qed.

Lemma has_delete_anti m u u' :
  wf m ->
  ResourceMap.has (ResourceMap.delete m u') u = true ->
  ResourceMap.has m u = true.
Proof.
  intros Hwf. unfold ResourceMap.has. rewrite toKey_delete.
  destruct (ResourceMap.toKey m u) as [file|] eqn:K; [|discriminate].
  destruct (JsString.truthy file) eqn:Ht; cbn; [|discriminate].
  destruct (ResourceMap.toKey m u') as [file'|] eqn:K'.
  - destruct (JsString.truthy file') eqn:Ht'.
    + rewrite (delete_resolved _ _ _ K' Ht'). unfold JsMap.has.
      destruct (String.eqb_spec file' file) as [-> | Hne].
      * now rewrite (JsMap_get_delete_same _ _ (proj1 Hwf)).
      * now rewrite JsMap_get_delete_other.
    + unfold ResourceMap.delete. now rewrite K', Ht'.
  - unfold ResourceMap.delete. now rewrite K'.
Qed.

Lemma get_in_entries m u v :
  ResourceMap.get m u = Some v ->
  exists e, In e (ResourceMap.entries m) /\ ResourceMap.value e = v.
Proof.
  unfold ResourceMap.get.
  destruct (ResourceMap.toKey m u) as [file|]; [|discriminate].
  destruct (negb (JsString.truthy file)); [discriminate|].
  destruct (JsMap.get (ResourceMap._map m) file) as [e|] eqn:G;
    [|discriminate].
  intros [= <-]. exists e. split; [|reflexivity].
  now apply (binding_entries _ file).
Qed.

Lemma entries_set_in m u v e :
  In e (ResourceMap.entries (ResourceMap.set m u v)) ->
  In e (ResourceMap.entries m) \/ ResourceMap.value e = v.
Proof.
  unfold ResourceMap.set.
  destruct (ResourceMap.toKey m u) as [file|]; [|auto].
  destruct (negb (JsString.truthy file)); [auto|].
  unfold ResourceMap.entries, JsMap.values.
  destruct (JsMap.get (ResourceMap._map m) file); cbn;
    rewrite !in_map_iff; intros ([k e'] & <- & Hin);
    apply JsMap_set_in in Hin as [Hin | [= -> ->]];
    try (right; reflexivity); left; now exists (k, e').
Qed.

Lemma entries_delete_in m u e :
  In e (ResourceMap.entries (ResourceMap.delete m u)) ->
  In e (ResourceMap.entries m).
Proof.
  unfold ResourceMap.delete.
  destruct (ResourceMap.toKey m u) as [file|]; [|auto].
  destruct (JsString.truthy file); [|auto].
  unfold ResourceMap.entries, JsMap.values. cbn.
  rewrite !in_map_iff. intros (ke & <- & Hin).
  exists ke. split; [reflexivity|]. eapply JsMap_delete_incl; eauto.
Qed.

End PresenceFacts.

Section TrackerFacts.
Import TabResourceTracker.

Lemma TabSet_add_nonempty (s : TabSet.t) (tab : Tab) : TabSet.add s tab <> [].
Proof.
  unfold TabSet.add. destruct (TabSet.has s tab) eqn:H.
  - destruct s; [discriminate H | discriminate].
  - destruct s; discriminate.
Qed.

Lemma TabSet_size_zero (s : TabSet.t) :
  (TabSet.size s =? 0)%nat = false -> s <> [].
Proof. destruct s; [discriminate | discriminate]. Qed.

Lemma nonempty_set (tr : t) (u : Uri) (entry : TabsEntry) :
  tabs_nonempty tr -> tabs entry <> [] ->
  tabs_nonempty (mk (ResourceMap.set (_tabResources tr) u entry)).
Proof.
  unfold tabs_nonempty. rewrite !Forall_forall. cbn.
  intros H Hne e He.
  apply entries_set_in in He as [He | ->]; auto.
Qed.

Lemma has_present (tr : t) (u : Uri) :
  tabs_nonempty tr -> has tr u = present tr u.
Proof.
  intros Hne. unfold has, present. rewrite has_get.
  destruct (ResourceMap.get (_tabResources tr) u) as [entry|] eqn:G;
    [|reflexivity].
  apply get_in_entries in G as (e & He & <-).
  unfold tabs_nonempty in Hne. rewrite Forall_forall in Hne.
  specialize (Hne e He).
  destruct (tabs (ResourceMap.value e)); [congruence | reflexivity].
Qed.

Lemma add_uri_step (tab : Tab) (tr : t) (acc : list Uri) (u0 : Uri) :
  tracker_inv tr ->
  let res := add_uri tab (tr, acc) u0 in
  tracker_inv (fst res)
  /\ (forall u, ResourceMap.toKey (_tabResources (fst res)) u
                = ResourceMap.toKey (_tabResources tr) u)
  /\ (forall u, present tr u = true -> present (fst res) u = true)
  /\ (snd res = acc
      \/ snd res = acc ++ [u0]
         /\ present tr u0 = false
         /\ (resolves (_tabResources tr) u0 -> present (fst res) u0 = true)).
Proof.
  intros [Hwf Hne]. unfold add_uri, present. rewrite (has_get _ u0).
  destruct (ResourceMap.get (_tabResources tr) u0) as [entry|]; cbn.
  - split; [split; [now apply wf_set|]|].
    + apply nonempty_set; [assumption | apply TabSet_add_nonempty].
    + split; [intros; apply toKey_set|].
      split; [intros; now apply has_set_mono | now left].
  - split; [split; [now apply wf_set|]|].
    + apply nonempty_set; [assumption | discriminate].
    + split; [intros; apply toKey_set|].
      split; [intros; now apply has_set_mono|].
      right. split; [reflexivity|]. split; [reflexivity|].
      intros (file & K & Ht). now apply (has_set_same _ _ _ file).
Qed.

Lemma delete_uri_step (tab : Tab) (tr : t) (acc : list Uri) (u0 : Uri) :
  tracker_inv tr ->
  let res := delete_uri tab (tr, acc) u0 in
  tracker_inv (fst res)
  /\ (forall u, present (fst res) u = true -> present tr u = true)
  /\ (snd res = acc
      \/ snd res = acc ++ [u0]
         /\ present tr u0 = true /\ present (fst res) u0 = false).
Proof.
  intros [Hwf Hne]. unfold delete_uri, present.
  pose proof (has_get (_tabResources tr) u0) as Hhas.
  destruct (ResourceMap.get (_tabResources tr) u0) as [entry|]; cbn.
  - destruct (TabSet.size (TabSet.delete (tabs entry) tab) =? 0)%nat eqn:Hz;
      cbn.
    + split; [split; [now apply wf_delete|]|].
      * unfold tabs_nonempty in *. rewrite Forall_forall in *. cbn.
        intros e He. apply Hne. now apply entries_delete_in in He.
      * split; [intros u; now apply has_delete_anti|].
        right. split; [reflexivity|]. split; [assumption|].
        now apply has_delete_same.
    + split; [split; [now apply wf_set|]|].
      * apply nonempty_set; [assumption | now apply TabSet_size_zero].
      * split; [|now left].
        intros u. now rewrite has_set_existing.
  - split; [now split|]. split; [auto | now left].
Qed.

End TrackerFacts.

Section TrackerRuns.
Import TabResourceTracker.

Lemma add_all (tab : Tab) (uris : list Uri) :
  forall (tr : t) (acc : list Uri),
    tracker_inv tr ->
    let res := fold_left (add_uri tab) uris (tr, acc) in
    tracker_inv (fst res)
    /\ (forall u, ResourceMap.toKey (_tabResources (fst res)) u
                  = ResourceMap.toKey (_tabResources tr) u)
    /\ (forall u, present tr u = true -> present (fst res) u = true)
    /\ (forall u, In u (snd res) ->
          In u acc
          \/ present tr u = false
             /\ (resolves (_tabResources tr) u -> present (fst res) u = true)).
Proof.
  induction uris as [|u0 uris IH]; intros tr acc Hinv; cbn zeta.
  - cbn. split; [assumption|]. split; [reflexivity|]. split; [auto|].
    intros u Hu. now left.
  - cbn [fold_left].
    destruct (add_uri_step tab tr acc u0 Hinv) as (Hinv1 & Hkey1 & Hmono1 & Hacc1).
    destruct (add_uri tab (tr, acc) u0) as [tr1 acc1]. cbn [fst snd] in *.
    destruct (IH tr1 acc1 Hinv1) as (Hinv2 & Hkey2 & Hmono2 & Hacc2).
    split; [assumption|].
    split; [intros u; now rewrite Hkey2|].
    split; [auto|].
    intros u Hu. destruct (Hacc2 u Hu) as [Hin | [Habs Hnew]].
    + destruct Hacc1 as [-> | (-> & Habs0 & Hnew0)]; [now left|].
      apply in_app_or in Hin as [Hin | [<- | []]]; [now left|].
      right. split; [assumption|]. auto.
    + right. split.
      * destruct (present tr u) eqn:E; [|reflexivity].
        rewrite (Hmono1 u E) in Habs. discriminate.
      * intros (file & K & Ht). apply Hnew. exists file.
        now rewrite Hkey1.
Qed.

Lemma delete_all (tab : Tab) (uris : list Uri) :
  forall (tr : t) (acc : list Uri),
    tracker_inv tr ->
    let res := fold_left (delete_uri tab) uris (tr, acc) in
    tracker_inv (fst res)
    /\ (forall u, present (fst res) u = true -> present tr u = true)
    /\ (forall u, In u (snd res) ->
          In u acc \/ present tr u = true /\ present (fst res) u = false).
Proof.
  induction uris as [|u0 uris IH]; intros tr acc Hinv; cbn zeta.
  - cbn. split; [assumption|]. split; [auto|].
    intros u Hu. now left.
  - cbn [fold_left].
    destruct (delete_uri_step tab tr acc u0 Hinv) as (Hinv1 & Hanti1 & Hacc1).
    destruct (delete_uri tab (tr, acc) u0) as [tr1 acc1]. cbn [fst snd] in *.
    destruct (IH tr1 acc1 Hinv1) as (Hinv2 & Hanti2 & Hacc2).
    split; [assumption|].
    split; [auto|].
    intros u Hu. destruct (Hacc2 u Hu) as [Hin | [Hpre Habs]].
    + destruct Hacc1 as [-> | (-> & Hpre0 & Habs0)]; [now left|].
      apply in_app_or in Hin as [Hin | [<- | []]]; [now left|].
      right. split; [assumption|].
      destruct (present (fst (fold_left (delete_uri tab) uris (tr1, acc ++ [u0]))) u0)
        eqn:E; [|reflexivity].
      rewrite (Hanti2 u0 E) in Habs0. discriminate.
    + right. split; [auto | assumption].
Qed.

Lemma tracker_inv_apply (tr : t) (op : TabOps.Op) :
  tracker_inv tr -> tracker_inv (TabOps.apply tr op).
Proof.
  intros Hinv. destruct op as [tab | tab]; cbn.
  - exact (proj1 (add_all tab _ tr [] Hinv)).
  - exact (proj1 (delete_all tab _ tr [] Hinv)).
Qed.

Lemma tracker_inv_run (ops : list TabOps.Op) :
  forall tr, tracker_inv tr -> tracker_inv (TabOps.run tr ops).
Proof.
  induction ops as [|op ops IH]; cbn; intros tr Hinv; [assumption|].
  apply IH. now apply tracker_inv_apply.
Qed.

Lemma tracker_inv_empty normalizePath cfg :
  tracker_inv (mk (ResourceMap.create normalizePath cfg)).
Proof. split; [apply wf_create | constructor]. Qed.

End TrackerRuns.

(** C9, as the code has it. After any sequence of [add] and [delete] calls
    on a new tracker, every URI in the resource map has a non-empty tab set,
    so [has] is true exactly for the URIs that the map has; a URI whose key
    resolves is reported by [add] as newly opened only when the call takes it
    from absent to present; a URI is reported by [delete] as newly closed
    only when the call takes it from present to absent. *)
Theorem C9_tracker_reports_transitions
  (normalizePath : Uri -> option string) (cfg : Config)
  (ops : list TabOps.Op) :
  let tr :=
    TabOps.run (TabResourceTracker.mk (ResourceMap.create normalizePath cfg))
      ops in
  tabs_nonempty tr
  /\ (forall u,
        TabResourceTracker.has tr u
        = ResourceMap.has (TabResourceTracker._tabResources tr) u)
  /\ (forall tab u,
        In u (snd (TabResourceTracker.add tr tab)) ->
        resolves (TabResourceTracker._tabResources tr) u ->
        TabResourceTracker.has tr u = false
        /\ TabResourceTracker.has (fst (TabResourceTracker.add tr tab)) u = true)
  /\ (forall tab u,
        In u (snd (TabResourceTracker.delete tr tab)) ->
        TabResourceTracker.has tr u = true
        /\ TabResourceTracker.has (fst (TabResourceTracker.delete tr tab)) u
           = false).
Proof.
  intros tr.
  assert (Hinv : tracker_inv tr)
    by (apply tracker_inv_run, tracker_inv_empty).
  split; [exact (proj2 Hinv)|].
  split; [intros u; exact (has_present tr u (proj2 Hinv))|].
  split.
  - intros tab u Hin Hres. unfold TabResourceTracker.add in *.
    destruct (add_all tab (TabResourceTracker.getResourcesForTab tab) tr []
                Hinv) as (Hinv' & _ & _ & Hrep).
    destruct (Hrep u Hin) as [[] | [Habs Hnew]].
    rewrite (has_present _ _ (proj2 Hinv)), (has_present _ _ (proj2 Hinv')).
    auto.
  - intros tab u Hin. unfold TabResourceTracker.delete in *.
    destruct (delete_all tab (TabResourceTracker.getResourcesForTab tab) tr []
                Hinv) as (Hinv' & _ & Hrep).
    destruct (Hrep u Hin) as [[] | [Hpre Habs]].
    rewrite (has_present _ _ (proj2 Hinv)), (has_present _ _ (proj2 Hinv')).
    auto.
Qed.

Lemma C9_tracker_reports_transitions_witness :
  let tab := mkTab 1 (TabInputTextDiff Sample.fileA Sample.fileB) in
  let tr := TabOps.run Sample.noTabs [TabOps.Op_add tab] in
  In Sample.fileB (snd (TabResourceTracker.add Sample.noTabs tab))
  /\ TabResourceTracker.has Sample.noTabs Sample.fileB = false
  /\ TabResourceTracker.has tr Sample.fileB = true
  /\ In Sample.fileB (snd (TabResourceTracker.delete tr tab))
  /\ TabResourceTracker.has (fst (TabResourceTracker.delete tr tab)) Sample.fileB
     = false.
Proof.
  intros tab tr.
  destruct (C9_tracker_reports_transitions Sample.normalize Sample.caseSensitive [])
    as (_ & _ & Hadd & _).
  destruct (C9_tracker_reports_transitions Sample.normalize Sample.caseSensitive
              [TabOps.Op_add tab]) as (_ & _ & _ & Hdel).
  assert (Ha : In Sample.fileB (snd (TabResourceTracker.add Sample.noTabs tab)))
    by (right; left; reflexivity).
  assert (Hd : In Sample.fileB (snd (TabResourceTracker.delete tr tab)))
    by (right; left; reflexivity).
  destruct (Hadd tab Sample.fileB Ha
              (ex_intro _ "/src/b.ts" (conj eq_refl eq_refl))) as [H1 H2].
  destruct (Hdel tab Sample.fileB Hd) as [H3 H4].
  split; [exact Ha|]. split; [exact H1|]. split; [exact H2|].
  split; [exact Hd | exact H4].
Defined.

(** C9, as stated, fails: [add] reports a URI for which the normalizer gives
    no path as newly opened, and the URI is not present afterwards. *)
Lemma C9_add_reports_without_transition :
  ~ (forall u,
       In u (snd (TabResourceTracker.add Sample.noTabs Sample.untitledTab)) ->
       TabResourceTracker.has Sample.noTabs u = false
       /\ TabResourceTracker.has
            (fst (TabResourceTracker.add Sample.noTabs Sample.untitledTab)) u
          = true).
Proof.
  intros H.
  destruct (H Sample.untitled (or_introl eq_refl)) as [_ Hafter].
  discriminate Hafter.
Qed.


(** * Further properties of the resource map *)

Section ResourceMapLaws.
Context {T : Type}.
Implicit Types (m : ResourceMap.t T) (u : Uri) (v : T).

Lemma get_set_other_key m u u' v :
  ResourceMap.toKey m u' <> ResourceMap.toKey m u ->
  ResourceMap.get (ResourceMap.set m u v) u' = ResourceMap.get m u'.
Proof.
  intros Hne. unfold ResourceMap.get at 1. rewrite toKey_set.
  unfold ResourceMap.get.
  destruct (ResourceMap.toKey m u') as [file'|] eqn:K'; [|reflexivity].
  destruct (JsString.truthy file') eqn:Ht'; cbn; [|reflexivity].
  destruct (ResourceMap.toKey m u) as [file|] eqn:K.
  - destruct (JsString.truthy file) eqn:Ht.
    + rewrite (set_resolved _ _ _ _ K Ht).
      rewrite JsMap_get_set_other; [reflexivity|]. congruence.
    + rewrite set_unresolved; [reflexivity|]. intros f Hf. congruence.
  - rewrite set_unresolved; [reflexivity|]. intros f Hf. congruence.
Qed.

Lemma get_set_same_key m u u' v :
  resolves m u ->
  ResourceMap.toKey m u' = ResourceMap.toKey m u ->
  ResourceMap.get (ResourceMap.set m u v) u' = Some v.
Proof.
  intros (file & K & Ht) K'. rewrite K in K'.
  assert (K1 : ResourceMap.toKey (ResourceMap.set m u v) u' = Some file)
    by now rewrite toKey_set.
  rewrite (get_resolved _ _ _ K1 Ht), (set_resolved _ _ _ _ K Ht).
  now rewrite JsMap_get_set_same.
Qed.

Lemma get_delete_other_key m u u' :
  ResourceMap.toKey m u' <> ResourceMap.toKey m u ->
  ResourceMap.get (ResourceMap.delete m u) u' = ResourceMap.get m u'.
Proof.
  intros Hne. unfold ResourceMap.get at 1. rewrite toKey_delete.
  unfold ResourceMap.get.
  destruct (ResourceMap.toKey m u') as [file'|] eqn:K'; [|reflexivity].
  destruct (JsString.truthy file') eqn:Ht'; cbn; [|reflexivity].
  unfold ResourceMap.delete.
  destruct (ResourceMap.toKey m u) as [file|] eqn:K; [|reflexivity].
  destruct (JsString.truthy file) eqn:Ht; [|reflexivity].
  cbn. rewrite JsMap_get_delete_other; [reflexivity|]. congruence.
Qed.

Lemma delete_absent m u :
  ResourceMap.has m u = false -> ResourceMap.delete m u = m.
Proof.
  unfold ResourceMap.has, ResourceMap.delete.
  destruct (ResourceMap.toKey m u) as [file|]; [|reflexivity].
  destruct (JsString.truthy file); cbn; [|reflexivity].
  unfold JsMap.has.
  destruct (JsMap.get (ResourceMap._map m) file) eqn:G; [discriminate|].
  intros _. rewrite JsMap_delete_absent by assumption. now destruct m.
Qed.

Lemma JsMap_length_delete (l : JsMap.t (ResourceMap.Entry T)) (k : string) :
  List.length (JsMap.delete l k)
  = if JsMap.has l k then pred (List.length l) else List.length l.
Proof.
  unfold JsMap.has.
  induction l as [|[k0 e0] l IH]; cbn; [reflexivity|].
  destruct (String.eqb k0 k); cbn; [reflexivity|].
  rewrite IH. destruct (JsMap.get l k) eqn:G; [|reflexivity].
  destruct l; [discriminate G | reflexivity].
Qed.

Lemma JsMap_length_set (l : JsMap.t (ResourceMap.Entry T)) (k : string)
  (e : ResourceMap.Entry T) :
  List.length (JsMap.set l k e)
  = if JsMap.has l k then List.length l else S (List.length l).
Proof.
  unfold JsMap.has.
  induction l as [|[k0 e0] l IH]; cbn; [reflexivity|].
  destruct (String.eqb k0 k); cbn; [reflexivity|].
  rewrite IH. now destruct (JsMap.get l k).
Qed.

Lemma has_resolved m u file :
  ResourceMap.toKey m u = Some file -> JsString.truthy file = true ->
  ResourceMap.has m u = JsMap.has (ResourceMap._map m) file.
Proof. intros K Ht. unfold ResourceMap.has. now rewrite K, Ht. Qed.

Lemma has_unresolved m u :
  resolvesb m u = false -> ResourceMap.has m u = false.
Proof.
  unfold resolvesb, ResourceMap.has.
  destruct (ResourceMap.toKey m u); [|reflexivity]. now intros ->.
Qed.

Lemma resolvesb_spec m u : resolvesb m u = true <-> resolves m u.
Proof.
  unfold resolvesb, resolves. split.
  - destruct (ResourceMap.toKey m u) as [file|]; [|discriminate].
    intros Ht. now exists file.
  - intros (file & -> & Ht). exact Ht.
Qed.

End ResourceMapLaws.

(** X1. Insert and look up. After [set(u, v)] on a URI whose key resolves,
    [get] gives [v] for [u] and for every URI of the same key, [has(u)] is
    true, and [get] is unchanged for every URI of another key. *)
Theorem X1_get_after_set (T : Type) (m : ResourceMap.t T) (u : Uri) (v : T) :
  resolves m u ->
  ResourceMap.get (ResourceMap.set m u v) u = Some v
  /\ ResourceMap.has (ResourceMap.set m u v) u = true
  /\ (forall u', ResourceMap.toKey m u' = ResourceMap.toKey m u ->
                 ResourceMap.get (ResourceMap.set m u v) u' = Some v)
  /\ (forall u', ResourceMap.toKey m u' <> ResourceMap.toKey m u ->
                 ResourceMap.get (ResourceMap.set m u v) u'
                 = ResourceMap.get m u').
Proof.
  intros Hres.
  split; [now apply get_set_same_key|].
  split; [destruct Hres as (file & K & Ht); now apply (has_set_same _ _ _ file)|].
  split; [intros u'; now apply get_set_same_key|].
  intros u'. apply get_set_other_key.
Qed.

Lemma X1_get_after_set_witness :
  let m := ResourceMap.set
             (ResourceMap.create (T := Z) Sample.normalize Sample.caseSensitive)
             Sample.fileA 1%Z in
  ResourceMap.get (ResourceMap.set m Sample.fileB 2%Z) Sample.fileB = Some 2%Z
  /\ ResourceMap.get (ResourceMap.set m Sample.fileB 2%Z) Sample.fileA
     = Some 1%Z.
Proof.
  intros m.
  destruct (X1_get_after_set Z m Sample.fileB 2%Z
              (ex_intro _ "/src/b.ts" (conj eq_refl eq_refl)))
    as (H1 & _ & _ & H4).
  split; [exact H1|].
  refine (H4 Sample.fileA _). discriminate.
Defined.

(** X2. A URI for which the path normalizer gives nothing is invisible to
    the map: [has] is false, [get] is undefined, and [set] and [delete]
    return the map unchanged, whatever the map holds. *)
Theorem X2_unresolvable_uri (T : Type) (m : ResourceMap.t T) (u : Uri) (v : T) :
  ResourceMap._normalizePath m u = None ->
  ResourceMap.has m u = false
  /\ ResourceMap.get m u = None
  /\ ResourceMap.set m u v = m
  /\ ResourceMap.delete m u = m
  /\ ResourceMap.entries (ResourceMap.set m u v) = ResourceMap.entries m.
Proof.
  intros Hn.
  assert (K : ResourceMap.toKey m u = None)
    by (unfold ResourceMap.toKey; now rewrite Hn).
  unfold ResourceMap.has, ResourceMap.get, ResourceMap.set, ResourceMap.delete.
  rewrite K. repeat split.
Qed.

Lemma X2_unresolvable_uri_witness :
  let m := ResourceMap.set
             (ResourceMap.create (T := Z) Sample.normalize Sample.caseSensitive)
             Sample.fileA 1%Z in
  ResourceMap.set m Sample.untitled 5%Z = m
  /\ ResourceMap.has m Sample.untitled = false.
Proof.
  intros m.
  destruct (X2_unresolvable_uri Z m Sample.untitled 5%Z eq_refl)
    as (H1 & _ & H3 & _).
  split; [exact H3 | exact H1].
Defined.

(** X3. Delete. In a map built by the map's operations, after [delete(u)]
    the map has no value for [u] nor for any URI of the same key, the value
    of every URI of another key is unchanged, and the iteration is the old
    one without the entry of the key; deleting a URI that the map does not
    have returns the map unchanged. *)
Theorem X3_delete_removes_one_key (T : Type) (m : ResourceMap.t T) (u : Uri) :
  wf m ->
  ResourceMap.has (ResourceMap.delete m u) u = false
  /\ ResourceMap.get (ResourceMap.delete m u) u = None
  /\ (forall u', ResourceMap.toKey m u' = ResourceMap.toKey m u ->
                 ResourceMap.get (ResourceMap.delete m u) u' = None)
  /\ (forall u', ResourceMap.toKey m u' <> ResourceMap.toKey m u ->
                 ResourceMap.get (ResourceMap.delete m u) u'
                 = ResourceMap.get m u')
  /\ (forall e, In e (ResourceMap.entries (ResourceMap.delete m u)) ->
                In e (ResourceMap.entries m))
  /\ (ResourceMap.has m u = false -> ResourceMap.delete m u = m)
  /\ wf (ResourceMap.delete m u).
Proof.
  intros Hwf.
  assert (Hsame : forall u', ResourceMap.toKey m u' = ResourceMap.toKey m u ->
                  ResourceMap.get (ResourceMap.delete m u) u' = None).
  { intros u' K'.
    pose proof (has_delete_same m u' Hwf) as H.
    rewrite has_get in H.
    replace (ResourceMap.delete m u) with (ResourceMap.delete m u').
    - now destruct (ResourceMap.get (ResourceMap.delete m u') u').
    - unfold ResourceMap.delete. now rewrite K'. }
  split; [now apply has_delete_same|].
  split; [now apply Hsame|].
  split; [exact Hsame|].
  split; [intros u'; apply get_delete_other_key|].
  split; [intros e; apply entries_delete_in|].
  split; [apply delete_absent | now apply wf_delete].
Qed.

Lemma X3_delete_removes_one_key_witness :
  let m := ResourceMapOps.setAll
             (ResourceMap.create (T := Z) Sample.normalize Sample.caseSensitive)
             [(Sample.fileA, 1%Z); (Sample.fileB, 2%Z)] in
  ResourceMap.get (ResourceMap.delete m Sample.fileA) Sample.fileA = None
  /\ ResourceMap.get (ResourceMap.delete m Sample.fileA) Sample.fileB
     = Some 2%Z.
Proof.
  intros m.
  assert (Hwf : wf m) by (apply wf_setAll, wf_create).
  destruct (X3_delete_removes_one_key Z m Sample.fileA Hwf)
    as (_ & H2 & _ & H4 & _).
  split; [exact H2|].
  refine (H4 Sample.fileB _). discriminate.
Defined.

(** X4. Size. [set] adds one to the size exactly when the key of the URI
    resolves and is new, [delete] takes one away exactly when the map has
    the URI, [clear] leaves size zero and a map that has no URI; the size
    is the number of entries that iteration yields. *)
Theorem X4_size_accounting (T : Type) (m : ResourceMap.t T) (u : Uri) (v : T) :
  ResourceMap.size (ResourceMap.set m u v)
  = (if resolvesb m u && negb (ResourceMap.has m u)
     then S (ResourceMap.size m) else ResourceMap.size m)
  /\ ResourceMap.size (ResourceMap.delete m u)
     = (if ResourceMap.has m u
        then pred (ResourceMap.size m) else ResourceMap.size m)
  /\ ResourceMap.size (ResourceMap.clear m) = 0%nat
  /\ (forall u', ResourceMap.has (ResourceMap.clear m) u' = false)
  /\ ResourceMap.size m = List.length (ResourceMap.entries m)
  /\ ResourceMap.size m = List.length (ResourceMap.values m).
Proof.
  split; [|split; [|split; [|split; [|split]]]].
  - unfold resolvesb.
    destruct (ResourceMap.toKey m u) as [file|] eqn:K.
    + destruct (JsString.truthy file) eqn:Ht; cbn.
      * unfold ResourceMap.size, JsMap.size.
        rewrite (set_resolved _ _ _ _ K Ht), JsMap_length_set.
        rewrite (has_resolved _ _ _ K Ht).
        now destruct (JsMap.has (ResourceMap._map m) file).
      * rewrite set_unresolved; [reflexivity|]. intros f Hf. congruence.
    + rewrite set_unresolved; [reflexivity|]. intros f Hf. congruence.
  - destruct (ResourceMap.toKey m u) as [file|] eqn:K.
    + destruct (JsString.truthy file) eqn:Ht.
      * unfold ResourceMap.size, JsMap.size.
        rewrite (delete_resolved _ _ _ K Ht), JsMap_length_delete.
        now rewrite (has_resolved _ _ _ K Ht).
      * unfold ResourceMap.delete, ResourceMap.has. now rewrite K, Ht.
    + unfold ResourceMap.delete, ResourceMap.has. now rewrite K.
  - reflexivity.
  - intros u'. unfold ResourceMap.has.
    change (ResourceMap.toKey (ResourceMap.clear m) u')
      with (ResourceMap.toKey m u').
    destruct (ResourceMap.toKey m u') as [file|]; [|reflexivity].
    now destruct (JsString.truthy file).
  - unfold ResourceMap.size, ResourceMap.entries, JsMap.size, JsMap.values.
    now rewrite length_map.
  - unfold ResourceMap.size, ResourceMap.values, JsMap.size, JsMap.values.
    now rewrite !length_map.
Qed.

Section CaseFolding.
Context {T : Type}.
Implicit Types (m : ResourceMap.t T) (u : Uri) (p : string).

Lemma startsWithSlash_toLowerCase p :
  JsString.startsWithChar (JsString.toLowerCase p) "/"
  = JsString.startsWithChar p "/".
Proof. destruct p; [reflexivity|]. cbn. apply lowerChar_slash. Qed.

Lemma isCaseInsensitivePath_same_fold m p p' :
  JsString.toLowerCase p' = JsString.toLowerCase p ->
  ResourceMap.isCaseInsensitivePath m p' = ResourceMap.isCaseInsensitivePath m p.
Proof.
  intros H. unfold ResourceMap.isCaseInsensitivePath.
  rewrite (isWindowsPath_same_fold _ _ H).
  now rewrite <- (startsWithSlash_toLowerCase p'), H, startsWithSlash_toLowerCase.
Qed.

Lemma toKey_of_path m u p :
  ResourceMap._normalizePath m u = Some p -> JsString.truthy p = true ->
  ResourceMap.toKey m u
  = Some (if ResourceMap.isCaseInsensitivePath m p
          then JsString.toLowerCase p else p).
Proof. intros Hp Ht. unfold ResourceMap.toKey. now rewrite Hp, Ht. Qed.

Lemma toLowerCase_same_truthy p p' :
  JsString.toLowerCase p' = JsString.toLowerCase p ->
  JsString.truthy p' = JsString.truthy p.
Proof.
  intros H. now rewrite <- (toLowerCase_truthy p'), H, toLowerCase_truthy.
Qed.

End CaseFolding.

(** X5. Case folding of keys. On a file system flagged case-insensitive,
    two absolute POSIX paths that differ in case only are one key: a value
    set through one URI is read through the other. Without the flag, and in
    any case for paths that neither start with a slash nor are Windows-style
    paths, different paths are different keys: a [set] through one URI
    leaves the value of the other alone. *)
Theorem X5_case_folding_of_keys (T : Type) (m : ResourceMap.t T) (u u' : Uri)
  (p p' : string) (v : T) :
  ResourceMap._normalizePath m u = Some p ->
  ResourceMap._normalizePath m u' = Some p' ->
  JsString.truthy p = true ->
  (onCaseInsensitiveFileSystem (ResourceMap.config m) = true ->
   JsString.startsWithChar p "/" = true ->
   JsString.toLowerCase p' = JsString.toLowerCase p ->
   ResourceMap.get (ResourceMap.set m u v) u' = Some v)
  /\ (onCaseInsensitiveFileSystem (ResourceMap.config m) = false
      \/ JsString.startsWithChar p "/" = false ->
      isWindowsPath p = false -> isWindowsPath p' = false -> p' <> p ->
      ResourceMap.get (ResourceMap.set m u v) u' = ResourceMap.get m u').
Proof.
  intros Hp Hp' Ht. split.
  - intros Hflag Hslash Hl.
    assert (Ht' : JsString.truthy p' = true)
      by now rewrite (toLowerCase_same_truthy _ _ Hl).
    assert (Hci : ResourceMap.isCaseInsensitivePath m p = true).
    { unfold ResourceMap.isCaseInsensitivePath. rewrite Hslash, Hflag.
      now destruct (isWindowsPath p). }
    apply get_set_same_key.
    + exists (JsString.toLowerCase p).
      rewrite (toKey_of_path m u p Hp Ht), Hci.
      now rewrite toLowerCase_truthy.
    + rewrite (toKey_of_path m u p Hp Ht), (toKey_of_path m u' p' Hp' Ht').
      rewrite (isCaseInsensitivePath_same_fold m _ _ Hl), Hci. now rewrite Hl.
  - intros Hcs Hw Hw' Hne.
    apply get_set_other_key.
    rewrite (toKey_of_path m u p Hp Ht).
    assert (Hci : ResourceMap.isCaseInsensitivePath m p = false).
    { unfold ResourceMap.isCaseInsensitivePath. rewrite Hw.
      destruct Hcs as [-> | ->]; [apply andb_false_r | reflexivity]. }
    rewrite Hci.
    destruct (JsString.truthy p') eqn:Ht'.
    + rewrite (toKey_of_path m u' p' Hp' Ht').
      destruct (ResourceMap.isCaseInsensitivePath m p') eqn:Hci';
        [|congruence].
      intros [= Heq].
      unfold ResourceMap.isCaseInsensitivePath in Hci'. rewrite Hw' in Hci'.
      apply andb_prop in Hci' as [Hs' Hf'].
      destruct Hcs as [Hf | Hs]; [congruence|].
      rewrite <- Heq, startsWithSlash_toLowerCase in Hs. congruence.
    + unfold ResourceMap.toKey. rewrite Hp', Ht'. cbn.
      intros [= Heq]. subst p'. congruence.
Qed.

Lemma X5_case_folding_of_keys_witness :
  let folding :=
    ResourceMap.create (T := Z) Sample.normalize
      {| onCaseInsensitiveFileSystem := true |} in
  let exact := ResourceMap.create (T := Z) Sample.normalize Sample.caseSensitive in
  ResourceMap.get (ResourceMap.set folding "file:///src/A.ts" 1%Z)
    "file:///SRC/a.ts" = Some 1%Z
  /\ ResourceMap.get (ResourceMap.set exact "file:///src/A.ts" 1%Z)
       "file:///SRC/a.ts" = None.
Proof.
  intros folding exact. split.
  - exact (proj1
             (X5_case_folding_of_keys Z folding "file:///src/A.ts"
                "file:///SRC/a.ts" "/src/A.ts" "/SRC/a.ts" 1%Z
                eq_refl eq_refl eq_refl)
             eq_refl eq_refl eq_refl).
  - refine (proj2
              (X5_case_folding_of_keys Z exact "file:///src/A.ts"
                 "file:///SRC/a.ts" "/src/A.ts" "/SRC/a.ts" 1%Z
                 eq_refl eq_refl eq_refl)
              (or_introl eq_refl) eq_refl eq_refl _).
    discriminate.
Defined.

Section InsertionOrder.
Context {T : Type}.

(** Setting URIs whose keys are new and distinct appends their entries in
    the order of the calls. *)
Lemma setAll_fresh (l : list (Uri * T)) :
  forall m0 : ResourceMap.t T,
    (forall u, In u (map fst l) -> resolves m0 u) ->
    NoDup (map Some (JsMap.keys (ResourceMap._map m0))
           ++ map (ResourceMap.toKey m0) (map fst l)) ->
    ResourceMap.entries (ResourceMapOps.setAll m0 l)
    = ResourceMap.entries m0
      ++ map (fun p => ResourceMap.mkEntry (fst p) (snd p)) l.
Proof.
  induction l as [|[r x] l IH]; intros m0 Hres Hnd; cbn.
  - now rewrite app_nil_r.
  - destruct (Hres r (or_introl eq_refl)) as (k & K & Ht).
    assert (G : JsMap.get (ResourceMap._map m0) k = None).
    { apply JsMap_get_none. intros Hin.
      cbn in Hnd. rewrite K in Hnd.
      apply NoDup_remove_2 in Hnd. apply Hnd.
      apply in_or_app. left. now apply in_map. }
    assert (M : ResourceMap._map (ResourceMap.set m0 r x)
                = ResourceMap._map m0 ++ [(k, ResourceMap.mkEntry r x)]).
    { rewrite (set_resolved _ _ _ _ K Ht), G. now apply JsMap_set_new. }
    change (fold_left _ l ?m) with (ResourceMapOps.setAll m l).
    rewrite IH.
    + unfold ResourceMap.entries, JsMap.values. rewrite M, map_app. cbn.
      now rewrite <- app_assoc.
    + intros r' Hin. destruct (Hres r' (or_intror Hin)) as (k' & K' & Ht').
      exists k'. now rewrite toKey_set.
    + rewrite M. unfold JsMap.keys. rewrite !map_app. cbn.
      rewrite <- app_assoc. cbn.
      rewrite (map_ext (ResourceMap.toKey (ResourceMap.set m0 r x))
                 (ResourceMap.toKey m0)) by (intros; apply toKey_set).
      cbn in Hnd. now rewrite K in Hnd.
Qed.

End InsertionOrder.

(** X6. Iteration order is insertion order. A run of [set] calls on URIs
    whose keys resolve, are pairwise distinct and are not in the map appends
    their entries to the iteration in the order of the calls, each with the
    URI and the value it was set with; so do [values]. *)
Theorem X6_iteration_is_insertion_order (T : Type) (m0 : ResourceMap.t T)
  (l : list (Uri * T)) :
  (forall u, In u (map fst l) -> resolves m0 u) ->
  NoDup (map Some (JsMap.keys (ResourceMap._map m0))
         ++ map (ResourceMap.toKey m0) (map fst l)) ->
  ResourceMap.entries (ResourceMapOps.setAll m0 l)
  = ResourceMap.entries m0
    ++ map (fun p => ResourceMap.mkEntry (fst p) (snd p)) l
  /\ ResourceMap.values (ResourceMapOps.setAll m0 l)
     = ResourceMap.values m0 ++ map snd l.
Proof.
  intros Hres Hnd.
  pose proof (setAll_fresh l m0 Hres Hnd) as E.
  split; [exact E|].
  unfold ResourceMap.values.
  change (JsMap.values (ResourceMap._map ?m)) with (ResourceMap.entries m).
  rewrite E, map_app, map_map. reflexivity.
Qed.

Lemma X6_iteration_is_insertion_order_witness :
  ResourceMap.values Sample.pendingS4 = [100%Z; 200%Z; 150%Z].
Proof.
  refine (proj2
            (X6_iteration_is_insertion_order Z
               (ResourceMap.create Sample.normalize Sample.caseSensitive)
               [(Sample.fileA, 100%Z); (Sample.fileB, 200%Z);
                (Sample.fileC, 150%Z)] _ _)).
  - intros u [<- | [<- | [<- | []]]];
      [exists "/src/a.ts" | exists "/src/b.ts" | exists "/src/c.ts"];
      split; reflexivity.
  - cbn. repeat constructor; cbn; intuition discriminate.
Defined.


(** * Further properties of the synchronizer *)

Section SynchronizerLaws.
Import BufferSynchronizer.

Lemma flush_supportsBatching (s : t) :
  supportsBatching (flush s) = supportsBatching s.
Proof.
  unfold flush.
  destruct (negb (supportsBatching s)); [reflexivity|].
  now destruct (0 <? ResourceMap.size (_pending s))%nat.
Qed.

Lemma flush_pending_empty (s : t) : ResourceMap._map (_pending (flush s)) = [].
Proof.
  unfold flush.
  destruct (negb (supportsBatching s)); [reflexivity|].
  unfold ResourceMap.size, JsMap.size.
  destruct (ResourceMap._map (_pending s)) eqn:E; cbn; [exact E | reflexivity].
Qed.

Lemma flush_toKey (s : t) (r : Uri) :
  ResourceMap.toKey (_pending (flush s)) r = ResourceMap.toKey (_pending s) r.
Proof.
  unfold flush.
  destruct (negb (supportsBatching s)); [reflexivity|].
  now destruct (0 <? ResourceMap.size (_pending s))%nat.
Qed.

Lemma flush_of_empty (s : t) :
  ResourceMap._map (_pending s) = [] -> flush s = s.
Proof.
  intros E. unfold flush, ResourceMap.size, JsMap.size. rewrite E. cbn.
  destruct (negb (supportsBatching s)); [|reflexivity].
  destruct s as [c [n cfg l]]. cbn in E. subst l. reflexivity.
Qed.

Lemma flush_sent (s : t) :
  Client.sent (client (flush s))
  = Client.sent (client s)
    ++ (if supportsBatching s && (0 <? ResourceMap.size (_pending s))%nat
        then [spec_updateOpen (ResourceMap.values (_pending s))] else []).
Proof.
  unfold flush.
  destruct (supportsBatching s); cbn [negb andb].
  - destruct (0 <? ResourceMap.size (_pending s))%nat.
    + cbn [client]. now rewrite flush_collect_spec.
    + symmetry. apply app_nil_r.
  - symmetry. apply app_nil_r.
Qed.

Lemma flush_wf (s : t) : wf (_pending (flush s)).
Proof.
  split.
  - rewrite flush_pending_empty. constructor.
  - unfold keyed. rewrite flush_pending_empty. constructor.
Qed.

(** [updatePending] on a resource that has nothing pending stores the
    operation and sends nothing. *)
Lemma updatePending_fresh (s : t) (r : Uri) (op : BufferOperation) :
  ResourceMap.has (_pending s) r = false ->
  updatePending s r op
  = (with_pending s (ResourceMap.set (_pending s) r op), true).
Proof.
  intros Hhas. unfold updatePending. rewrite Hhas.
  rewrite has_get in Hhas.
  destruct (ResourceMap.get (_pending s) r); [discriminate|].
  now destruct (BufferOperation_type op).
Qed.

(** [updatePending] on a resource that has a pending operation, when the
    pair is not elided: the batch is sent and the operation stored alone. *)
Lemma updatePending_flushes (s : t) (r : Uri) (existing op : BufferOperation) :
  supportsBatching s = true ->
  ResourceMap.get (_pending s) r = Some existing ->
  isOpenThenClose existing op = false ->
  updatePending s r op
  = (mk (Client.execute (client s)
           (spec_updateOpen (ResourceMap.values (_pending s))))
        (ResourceMap.set (ResourceMap.clear (_pending s)) r op),
     true).
Proof.
  intros Hb G Hne.
  destruct (get_some_nonempty _ _ _ G) as (Hnil & _).
  unfold updatePending. rewrite G, has_get, G.
  replace (match BufferOperation_type op with
           | Close =>
               match BufferOperation_type existing with
               | Open => true
               | _ => false
               end
           | _ => false
           end) with false
    by (destruct existing, op; cbn in *; congruence).
  rewrite (flush_batching _ Hb Hnil), flush_collect_spec. reflexivity.
Qed.

Lemma updatePending_elides (s : t) (r : Uri) (a : protocol.OpenRequestArgs)
  (fp : string) :
  ResourceMap.get (_pending s) r = Some (OpenOperation a) ->
  updatePending s r (CloseOperation fp)
  = (with_pending s (ResourceMap.delete (_pending s) r), false).
Proof. intros G. unfold updatePending. cbn. now rewrite G. Qed.

Lemma sync_kept_refl (s : t) : sync_kept s s.
Proof.
  split; [auto|]. split; [reflexivity|]. split; [auto|].
  split; [exists []; now rewrite app_nil_r | reflexivity].
Qed.

Lemma sync_kept_trans (s1 s2 s3 : t) :
  sync_kept s1 s2 -> sync_kept s2 s3 -> sync_kept s1 s3.
Proof.
  intros (W1 & B1 & E1 & (m1 & S1) & K1) (W2 & B2 & E2 & (m2 & S2) & K2).
  split; [auto|]. split; [congruence|].
  split; [intros He Hb; apply E2; [auto | congruence]|].
  split; [exists (m1 ++ m2); now rewrite S2, S1, app_assoc|].
  intros r. now rewrite K2.
Qed.

Lemma sync_kept_flush (s : t) : sync_kept s (flush s).
Proof.
  split; [intros _; apply flush_wf|].
  split; [apply flush_supportsBatching|].
  split; [intros _ _; apply flush_pending_empty|].
  split; [eexists; apply flush_sent | apply flush_toKey].
Qed.

Lemma sync_kept_updatePending (s : t) (r : Uri) (op : BufferOperation) :
  supportsBatching s = true -> sync_kept s (fst (updatePending s r op)).
Proof.
  intros Hb. unfold updatePending.
  match goal with |- context [if ?c then _ else _] => destruct c end;
    cbn [fst].
  - split; [apply wf_delete|]. split; [reflexivity|].
    split; [congruence|].
    split; [exists []; now rewrite app_nil_r | intros; apply toKey_delete].
  - apply (sync_kept_trans s
             (if ResourceMap.has (_pending s) r then flush s else s)).
    + destruct (ResourceMap.has (_pending s) r);
        [apply sync_kept_flush | apply sync_kept_refl].
    + set (s1 := if ResourceMap.has (_pending s) r then flush s else s).
      assert (Hb1 : supportsBatching s1 = true).
      { unfold s1. destruct (ResourceMap.has (_pending s) r);
          [now rewrite flush_supportsBatching | assumption]. }
      split; [apply wf_set|]. split; [reflexivity|].
      split; [congruence|].
      split; [exists []; now rewrite app_nil_r | intros; apply toKey_set].
Qed.

Lemma change_eager_sent (c : Client.t) (filepath : string)
  (events : list lsp.TextDocumentContentChangeEvent) :
  Client.sent (change_eager c filepath events)
  = Client.sent c ++ spec_changeCommands filepath events
  /\ Client.apiVersion (change_eager c filepath events) = Client.apiVersion c.
Proof.
  unfold change_eager. revert c.
  induction events as [|ev events IH]; intros c; cbn.
  - now rewrite app_nil_r.
  - destruct (IH (change_send filepath c ev)) as [-> ->].
    unfold change_send. destruct (lsp.range ev); cbn; [|auto].
    now rewrite <- app_assoc.
Qed.

Lemma sync_kept_apply (s : t) (op : SyncOps.Op) :
  sync_kept s (SyncOps.apply s op).
Proof.
  destruct op as [r a | r fp | r fp events | | cmd]; cbn.
  - unfold open. destruct (supportsBatching s) eqn:Hb.
    + now apply sync_kept_updatePending.
    + split; [auto|].
      split; [unfold supportsBatching in *; exact eq_refl|].
      split; [auto|].
      split; [eexists; reflexivity | reflexivity].
  - unfold close. destruct (supportsBatching s) eqn:Hb.
    + now apply sync_kept_updatePending.
    + split; [auto|].
      split; [unfold supportsBatching in *; exact eq_refl|].
      split; [auto|].
      split; [eexists; reflexivity | reflexivity].
  - unfold change. destruct events as [|ev events]; [apply sync_kept_refl|].
    destruct (supportsBatching s) eqn:Hb.
    + now apply sync_kept_updatePending.
    + destruct (change_eager_sent (client s) fp (ev :: events)) as [Hs Ha].
      split; [auto|].
      split; [unfold supportsBatching, with_client; cbn [client];
              now rewrite Ha|].
      split; [auto|].
      split; [eexists; exact Hs | reflexivity].
  - split; [intros _; apply wf_clear|]. split; [reflexivity|].
    split; [reflexivity|].
    split; [exists []; now rewrite app_nil_r | reflexivity].
  - unfold beforeCommand. destruct (String.eqb cmd "updateOpen");
      [apply sync_kept_refl | apply sync_kept_flush].
Qed.

Lemma sync_kept_run (ops : list SyncOps.Op) :
  forall s, sync_kept s (SyncOps.run s ops).
Proof.
  induction ops as [|op ops IH]; intros s; cbn; [apply sync_kept_refl|].
  eapply sync_kept_trans; [apply sync_kept_apply | apply IH].
Qed.

End SynchronizerLaws.

(** X7. At most one pending operation. After any sequence of [open],
    [close], [change], [reset] and [beforeCommand] calls on a new
    synchronizer, no two pending operations belong to URIs of one key, the
    mode is the one the synchronizer started in, nothing is pending in the
    eager mode, and the commands sent earlier are a prefix of the commands
    sent. *)
Theorem X7_at_most_one_pending_operation (client : Client.t)
  (pathNormalizer : Uri -> option string) (onCaseInsensitiveFileSystem : bool)
  (ops : list SyncOps.Op) :
  let s0 :=
    BufferSynchronizer.create client pathNormalizer onCaseInsensitiveFileSystem in
  let s := SyncOps.run s0 ops in
  NoDup
    (map (fun e => ResourceMap.toKey (BufferSynchronizer._pending s)
                     (ResourceMap.resource e))
       (ResourceMap.entries (BufferSynchronizer._pending s)))
  /\ (forall e, In e (ResourceMap.entries (BufferSynchronizer._pending s)) ->
        ResourceMap.get (BufferSynchronizer._pending s) (ResourceMap.resource e)
        = Some (ResourceMap.value e))
  /\ BufferSynchronizer.supportsBatching s
     = BufferSynchronizer.supportsBatching s0
  /\ (BufferSynchronizer.supportsBatching s0 = false ->
      ResourceMap.entries (BufferSynchronizer._pending s) = [])
  /\ (exists more,
        Client.sent (BufferSynchronizer.client s) = Client.sent client ++ more).
Proof.
  intros s0 s.
  destruct (sync_kept_run ops s0) as (Hwf & Hb & He & Hs & _).
  fold s in Hwf, Hb, He, Hs.
  assert (W : wf (BufferSynchronizer._pending s))
    by (apply Hwf; apply wf_create).
  split.
  - rewrite (keys_of_entries _ W).
    generalize (JsMap.keys (ResourceMap._map (BufferSynchronizer._pending s)))
      (proj1 W).
    intros ks Hks. induction Hks as [|k ks Hnot _ IH]; cbn; constructor;
      [|exact IH].
    rewrite in_map_iff. intros (k' & [= ->] & Hk'). contradiction.
  - split; [intros e He'; exact (proj1 (get_entry _ e W He'))|].
    split; [exact Hb|]. split; [|exact Hs].
    intros Hb0. unfold ResourceMap.entries. now rewrite He.
Qed.

(** X8. The eager mode. On a client that does not support batching, [open]
    sends one [Open] command, [close] sends one [Close] command and answers
    true, and [change] sends one [Change] command for each content change
    that carries a range, in the editor's order, and none for the others;
    none of them leaves a pending operation. *)
Theorem X8_eager_mode_forwards (s : BufferSynchronizer.t) (r : Uri)
  (args : protocol.OpenRequestArgs) (filepath : string)
  (events : list lsp.TextDocumentContentChangeEvent) :
  BufferSynchronizer.supportsBatching s = false ->
  let sent0 := Client.sent (BufferSynchronizer.client s) in
  Client.sent (BufferSynchronizer.client (BufferSynchronizer.open s r args))
  = sent0 ++ [Cmd_Open args]
  /\ Client.sent
       (BufferSynchronizer.client (fst (BufferSynchronizer.close s r filepath)))
     = sent0 ++ [Cmd_Close filepath]
  /\ snd (BufferSynchronizer.close s r filepath) = true
  /\ Client.sent
       (BufferSynchronizer.client (BufferSynchronizer.change s r filepath events))
     = sent0 ++ spec_changeCommands filepath events
  /\ (List.length (spec_changeCommands filepath events) <= List.length events)%nat
  /\ BufferSynchronizer._pending (BufferSynchronizer.open s r args)
     = BufferSynchronizer._pending s
  /\ BufferSynchronizer._pending (fst (BufferSynchronizer.close s r filepath))
     = BufferSynchronizer._pending s
  /\ BufferSynchronizer._pending (BufferSynchronizer.change s r filepath events)
     = BufferSynchronizer._pending s.
Proof.
  intros Hb sent0.
  unfold BufferSynchronizer.open, BufferSynchronizer.close,
    BufferSynchronizer.change.
  rewrite Hb. cbn.
  split; [reflexivity|]. split; [reflexivity|]. split; [reflexivity|].
  split; [|split; [|split; [reflexivity|split; [reflexivity|]]]].
  - destruct events as [|ev events]; [cbn; now rewrite app_nil_r|].
    exact (proj1 (change_eager_sent _ filepath (ev :: events))).
  - unfold spec_changeCommands.
    induction events as [|ev events IH]; cbn [flat_map List.length]; [lia|].
    rewrite length_app. destruct (lsp.range ev); cbn [List.length]; lia.
  - now destruct events.
Qed.

Lemma X8_eager_mode_forwards_witness :
  Client.sent
    (BufferSynchronizer.client
       (BufferSynchronizer.change Sample.legacy Sample.fileA "/src/a.ts"
          [Sample.event 0 "x"; lsp.mkEvent None "whole"; Sample.event 4 "y"]))
  = [Cmd_Change
       (protocol.mkChangeRequestArgs "x"
          (protocol.mkFormatRequestArgs "/src/a.ts" 1 1 1 2));
     Cmd_Change
       (protocol.mkChangeRequestArgs "y"
          (protocol.mkFormatRequestArgs "/src/a.ts" 5 1 5 2))].
Proof.
  exact (proj1
           (proj2
              (proj2
                 (proj2
                    (X8_eager_mode_forwards Sample.legacy Sample.fileA
                       (Sample.openArgs "/src/a.ts") "/src/a.ts"
                       [Sample.event 0 "x"; lsp.mkEvent None "whole";
                        Sample.event 4 "y"]
                       eq_refl))))).
Defined.

(** X9. Flushing before a command. [beforeCommand("updateOpen")] does
    nothing. Before any other command the pending map is emptied, and one
    [UpdateOpen] with the whole batch is sent exactly when the client
    supports batching and something was pending; a second [beforeCommand]
    then does nothing. *)
Theorem X9_beforeCommand_flushes (s : BufferSynchronizer.t) (command : string) :
  BufferSynchronizer.beforeCommand s "updateOpen" = s
  /\ (command <> "updateOpen" ->
      let s' := BufferSynchronizer.beforeCommand s command in
      ResourceMap.size (BufferSynchronizer._pending s') = 0%nat
      /\ Client.sent (BufferSynchronizer.client s')
         = Client.sent (BufferSynchronizer.client s)
           ++ (if BufferSynchronizer.supportsBatching s
                  && (0 <? ResourceMap.size (BufferSynchronizer._pending s))%nat
               then [spec_updateOpen
                       (ResourceMap.values (BufferSynchronizer._pending s))]
               else [])
      /\ BufferSynchronizer.beforeCommand s' command = s').
Proof.
  split; [reflexivity|].
  intros Hne s'. unfold s', BufferSynchronizer.beforeCommand.
  apply String.eqb_neq in Hne. rewrite Hne.
  split; [unfold ResourceMap.size; now rewrite flush_pending_empty|].
  split; [apply flush_sent|].
  apply flush_of_empty, flush_pending_empty.
Qed.

Lemma X9_beforeCommand_flushes_witness :
  let s :=
    BufferSynchronizer.open Sample.batching Sample.fileA
      (Sample.openArgs "/src/a.ts") in
  Client.sent
    (BufferSynchronizer.client (BufferSynchronizer.beforeCommand s "geterr"))
  = [Cmd_UpdateOpen
       (protocol.mkUpdateOpenRequestArgs [] [] [Sample.openArgs "/src/a.ts"])].
Proof.
  intros s.
  refine (proj1 (proj2 (proj2 (X9_beforeCommand_flushes s "geterr") _))).
  discriminate.
Defined.

(** X10. Reset discards. [reset] sends nothing and empties the pending map,
    so the operations that were pending never reach the back-end: a flush
    that follows sends nothing. *)
Theorem X10_reset_discards_pending (s : BufferSynchronizer.t)
  (command : string) :
  Client.sent (BufferSynchronizer.client (BufferSynchronizer.reset s))
  = Client.sent (BufferSynchronizer.client s)
  /\ ResourceMap.entries
       (BufferSynchronizer._pending (BufferSynchronizer.reset s)) = []
  /\ BufferSynchronizer.beforeCommand (BufferSynchronizer.reset s) command
     = BufferSynchronizer.reset s
  /\ Client.sent
       (BufferSynchronizer.client
          (BufferSynchronizer.beforeCommand (BufferSynchronizer.reset s) command))
     = Client.sent (BufferSynchronizer.client s).
Proof.
  assert (E : BufferSynchronizer.beforeCommand (BufferSynchronizer.reset s)
                command = BufferSynchronizer.reset s).
  { unfold BufferSynchronizer.beforeCommand.
    destruct (String.eqb command "updateOpen"); [reflexivity|].
    now apply flush_of_empty. }
  split; [reflexivity|]. split; [reflexivity|]. split; [exact E|].
  now rewrite E.
Qed.

Section Batches.
Import BufferSynchronizer.

Lemma fresh_head {T : Type} (m0 : ResourceMap.t T) (r : Uri) (x : T)
  (rs : list Uri) :
  (forall u, In u (r :: rs) -> resolves m0 u) ->
  NoDup (map Some (JsMap.keys (ResourceMap._map m0))
         ++ map (ResourceMap.toKey m0) (r :: rs)) ->
  ResourceMap.has m0 r = false
  /\ (forall u, In u rs -> resolves (ResourceMap.set m0 r x) u)
  /\ NoDup (map Some (JsMap.keys (ResourceMap._map (ResourceMap.set m0 r x)))
            ++ map (ResourceMap.toKey (ResourceMap.set m0 r x)) rs).
Proof.
  intros Hres Hnd.
  destruct (Hres r (or_introl eq_refl)) as (k & K & Ht).
  assert (G : JsMap.get (ResourceMap._map m0) k = None).
  { apply JsMap_get_none. intros Hin.
    cbn in Hnd. rewrite K in Hnd.
    apply NoDup_remove_2 in Hnd. apply Hnd.
    apply in_or_app. left. now apply in_map. }
  split; [|split].
  - rewrite (has_resolved _ _ _ K Ht). unfold JsMap.has. now rewrite G.
  - intros u Hu. destruct (Hres u (or_intror Hu)) as (k' & K' & Ht').
    exists k'. now rewrite toKey_set.
  - rewrite (set_resolved _ _ _ _ K Ht), G, JsMap_set_new by assumption.
    unfold JsMap.keys. rewrite !map_app. cbn.
    rewrite <- app_assoc. cbn.
    rewrite (map_ext (ResourceMap.toKey (ResourceMap.set m0 r x))
               (ResourceMap.toKey m0)) by (intros; apply toKey_set).
    cbn in Hnd. now rewrite K in Hnd.
Qed.

Lemma updateAll_fresh (l : list (Uri * BufferOperation)) :
  forall s : t,
    (forall u, In u (map fst l) -> resolves (_pending s) u) ->
    NoDup (map Some (JsMap.keys (ResourceMap._map (_pending s)))
           ++ map (ResourceMap.toKey (_pending s)) (map fst l)) ->
    SyncOps.updateAll s l
    = with_pending s (ResourceMapOps.setAll (_pending s) l).
Proof.
  induction l as [|[r op] l IH]; intros s Hres Hnd.
  - now destruct s.
  - destruct (fresh_head (_pending s) r op (map fst l) Hres Hnd)
      as (Hhas & Hres' & Hnd').
    cbn [SyncOps.updateAll fold_left fst snd].
    change (fold_left _ l ?x) with (SyncOps.updateAll x l).
    rewrite (updatePending_fresh s r op Hhas). cbn [fst].
    rewrite IH; [reflexivity | exact Hres' | exact Hnd'].
Qed.

(** [open] followed by [close], with nothing pending for the resource. *)
Lemma open_close_elided (s : t) (r : Uri) (a : protocol.OpenRequestArgs)
  (fp : string) :
  supportsBatching s = true ->
  ResourceMap.has (_pending s) r = false ->
  resolves (_pending s) r ->
  close (open s r a) r fp = (s, false).
Proof.
  intros Hb Hhas Hres. unfold open, close. rewrite Hb.
  rewrite (updatePending_fresh s r (OpenOperation a) Hhas). cbn [fst].
  replace (supportsBatching
             (with_pending s (ResourceMap.set (_pending s) r (OpenOperation a))))
    with true by (symmetry; exact Hb).
  rewrite (updatePending_elides _ r a fp).
  - cbn. rewrite delete_set_absent by assumption. now destruct s.
  - cbn. now apply get_set_same_key.
Qed.

End Batches.

(** X11. Coalescing. In batching mode, operations on URIs whose keys
    resolve and are pairwise distinct, given to a synchronizer with nothing
    pending, send nothing; they are all pending, in call order, and the next
    flush sends them as one [UpdateOpen] and leaves nothing pending. *)
Theorem X11_distinct_resources_coalesce (s : BufferSynchronizer.t)
  (l : list (Uri * BufferOperation)) :
  BufferSynchronizer.supportsBatching s = true ->
  ResourceMap._map (BufferSynchronizer._pending s) = [] ->
  l <> [] ->
  (forall u, In u (map fst l) -> resolves (BufferSynchronizer._pending s) u) ->
  NoDup (map (ResourceMap.toKey (BufferSynchronizer._pending s)) (map fst l)) ->
  let s' := SyncOps.updateAll s l in
  Client.sent (BufferSynchronizer.client s')
  = Client.sent (BufferSynchronizer.client s)
  /\ ResourceMap.entries (BufferSynchronizer._pending s')
     = map (fun p => ResourceMap.mkEntry (fst p) (snd p)) l
  /\ Client.sent (BufferSynchronizer.client (BufferSynchronizer.flush s'))
     = Client.sent (BufferSynchronizer.client s)
       ++ [spec_updateOpen (map snd l)]
  /\ ResourceMap.entries
       (BufferSynchronizer._pending (BufferSynchronizer.flush s')) = [].
Proof.
  intros Hb He Hl Hres Hnd s'.
  assert (Hnd' : NoDup
                   (map Some (JsMap.keys
                                (ResourceMap._map (BufferSynchronizer._pending s)))
                    ++ map (ResourceMap.toKey (BufferSynchronizer._pending s))
                         (map fst l)))
    by (rewrite He; exact Hnd).
  assert (E : s' = BufferSynchronizer.with_pending s
                     (ResourceMapOps.setAll (BufferSynchronizer._pending s) l))
    by (apply updateAll_fresh; assumption).
  assert (En : ResourceMap.entries (BufferSynchronizer._pending s')
               = map (fun p => ResourceMap.mkEntry (fst p) (snd p)) l).
  { rewrite E. cbn. rewrite (setAll_fresh l _ Hres Hnd').
    unfold ResourceMap.entries at 1. now rewrite He. }
  split; [now rewrite E|]. split; [exact En|].
  split.
  - rewrite flush_sent.
    replace (BufferSynchronizer.supportsBatching s') with true
      by (rewrite E; symmetry; exact Hb).
    replace (ResourceMap.size (BufferSynchronizer._pending s'))
      with (List.length l).
    + replace (ResourceMap.values (BufferSynchronizer._pending s'))
        with (map snd l).
      * replace (Client.sent (BufferSynchronizer.client s'))
          with (Client.sent (BufferSynchronizer.client s)) by now rewrite E.
        destruct l; [congruence | reflexivity].
      * unfold ResourceMap.values.
        change (JsMap.values (ResourceMap._map ?m)) with (ResourceMap.entries m).
        now rewrite En, map_map.
    + rewrite <- (length_map (fun p => ResourceMap.mkEntry (fst p) (snd p)) l).
      rewrite <- En. unfold ResourceMap.size, ResourceMap.entries, JsMap.size,
        JsMap.values. now rewrite length_map.
  - unfold ResourceMap.entries. now rewrite flush_pending_empty.
Qed.

Lemma X11_distinct_resources_coalesce_witness :
  let l :=
    [(Sample.fileA, OpenOperation (Sample.openArgs "/src/a.ts"));
     (Sample.fileB, CloseOperation "/src/b.ts");
     (Sample.fileC, OpenOperation (Sample.openArgs "/src/c.ts"))] in
  Client.sent
    (BufferSynchronizer.client
       (BufferSynchronizer.flush (SyncOps.updateAll Sample.batching l)))
  = [Cmd_UpdateOpen
       (protocol.mkUpdateOpenRequestArgs [] ["/src/b.ts"]
          [Sample.openArgs "/src/a.ts"; Sample.openArgs "/src/c.ts"])].
Proof.
  intros l.
  refine (proj1 (proj2 (proj2
            (X11_distinct_resources_coalesce Sample.batching l
               eq_refl eq_refl _ _ _)))).
  - discriminate.
  - intros u [<- | [<- | [<- | []]]];
      [exists "/src/a.ts" | exists "/src/b.ts" | exists "/src/c.ts"];
      split; reflexivity.
  - cbn. repeat constructor; cbn; intuition discriminate.
Defined.

(** X12. Order for one resource. In batching mode, when an operation
    arrives for a resource that has a pending operation, and the pair is not
    an [Open] met by a [Close], the back-end gets the batch that holds the
    earlier operation first and the later operation in a batch of its own
    at the next flush. *)
Theorem X12_same_resource_in_order (s : BufferSynchronizer.t) (r : Uri)
  (existing op : BufferOperation) :
  BufferSynchronizer.supportsBatching s = true ->
  ResourceMap.get (BufferSynchronizer._pending s) r = Some existing ->
  isOpenThenClose existing op = false ->
  let s' := fst (BufferSynchronizer.updatePending s r op) in
  In existing (ResourceMap.values (BufferSynchronizer._pending s))
  /\ Client.sent (BufferSynchronizer.client (BufferSynchronizer.flush s'))
     = Client.sent (BufferSynchronizer.client s)
       ++ [spec_updateOpen (ResourceMap.values (BufferSynchronizer._pending s));
           spec_updateOpen [op]].
Proof.
  intros Hb G Hne s'.
  destruct (get_some_nonempty _ _ _ G) as (_ & file & K & Ht).
  split.
  - apply get_in_entries in G as (e & He & <-).
    unfold ResourceMap.values. now apply in_map.
  - unfold s'. rewrite (updatePending_flushes s r existing op Hb G Hne).
    cbn [fst]. rewrite flush_sent.
    assert (K' : ResourceMap.toKey
                   (ResourceMap.clear (BufferSynchronizer._pending s)) r
                 = Some file) by exact K.
    unfold ResourceMap.size, ResourceMap.values, JsMap.size. cbn.
    rewrite (set_resolved _ _ _ _ K' Ht). cbn.
    unfold BufferSynchronizer.supportsBatching in *. cbn. rewrite Hb. cbn.
    now rewrite <- app_assoc.
Qed.

Lemma X12_same_resource_in_order_witness :
  let s :=
    BufferSynchronizer.open Sample.batching Sample.fileA
      (Sample.openArgs "/src/a.ts") in
  Client.sent
    (BufferSynchronizer.client
       (BufferSynchronizer.flush
          (BufferSynchronizer.change s Sample.fileA "/src/a.ts"
             [Sample.event 0 "x"])))
  = [Cmd_UpdateOpen
       (protocol.mkUpdateOpenRequestArgs [] [] [Sample.openArgs "/src/a.ts"]);
     Cmd_UpdateOpen
       (protocol.mkUpdateOpenRequestArgs
          [protocol.mkFileCodeEdits "/src/a.ts"
             [protocol.mkCodeEdit "x" (protocol.mkLocation 1 1)
                (protocol.mkLocation 1 2)]]
          [] [])].
Proof.
  intros s.
  exact (proj2
           (X12_same_resource_in_order s Sample.fileA
              (OpenOperation (Sample.openArgs "/src/a.ts"))
              (ChangeOperation
                 (protocol.mkFileCodeEdits "/src/a.ts"
                    [protocol.mkCodeEdit "x" (protocol.mkLocation 1 1)
                       (protocol.mkLocation 1 2)]))
              eq_refl eq_refl eq_refl)).
Defined.


(** * Further properties of the buffers *)

(** X13. Open, then close. [open] puts the buffer in state [Open] and
    [close] then puts it in state [Closed]. With batching, when nothing was
    pending for the resource and its key resolves, the two calls leave the
    synchronizer as it was and [close] answers false: the back-end never
    hears of the buffer. Without batching the back-end gets the [Open]
    command, with the file path, the text, the workspace root and the
    script kind of the language, then the [Close] command, and [close]
    answers true. *)
Theorem X13_buffer_open_then_close (b : SyncedBuffer.t)
  (sync : BufferSynchronizer.t) :
  let opened := SyncedBuffer.open b sync in
  let closed := SyncedBuffer.close (fst opened) (snd opened) in
  SyncedBuffer.state (fst opened) = BufferState.Open
  /\ SyncedBuffer.state (fst (fst closed)) = BufferState.Closed
  /\ (BufferSynchronizer.supportsBatching sync = true ->
      ResourceMap.has (BufferSynchronizer._pending sync)
        (SyncedBuffer.resource b) = false ->
      resolves (BufferSynchronizer._pending sync) (SyncedBuffer.resource b) ->
      snd (fst closed) = sync /\ snd closed = false)
  /\ (BufferSynchronizer.supportsBatching sync = false ->
      Client.sent (BufferSynchronizer.client (snd (fst closed)))
      = Client.sent (BufferSynchronizer.client sync)
        ++ [Cmd_Open (spec_openArgs b (BufferSynchronizer.client sync));
            Cmd_Close (SyncedBuffer.filepath b)]
      /\ snd closed = true).
Proof.
  intros opened closed.
  split; [reflexivity|].
  assert (Hc : closed
               = (SyncedBuffer.with_state b BufferState.Closed,
                  fst (BufferSynchronizer.close (snd opened)
                         (SyncedBuffer.resource b) (SyncedBuffer.filepath b)),
                  snd (BufferSynchronizer.close (snd opened)
                         (SyncedBuffer.resource b) (SyncedBuffer.filepath b)))).
  { unfold closed, SyncedBuffer.close. cbn.
    now destruct (BufferSynchronizer.close _ _ _). }
  rewrite Hc. cbn [fst snd].
  split; [reflexivity|]. split.
  - intros Hb Hhas Hres. unfold opened, SyncedBuffer.open. cbn [snd].
    now rewrite (open_close_elided sync _ _ _ Hb Hhas Hres).
  - intros Hb. unfold opened, SyncedBuffer.open. cbn [snd].
    unfold BufferSynchronizer.open, BufferSynchronizer.close. rewrite Hb.
    unfold BufferSynchronizer.supportsBatching in *. cbn. rewrite Hb. cbn.
    split; [|reflexivity]. now rewrite <- app_assoc.
Qed.

Lemma X13_buffer_open_then_close_witness :
  let b := Sample.buffer Sample.fileA "/src/a.ts" 10 in
  let viaBatch := SyncedBuffer.open b Sample.batching in
  let viaEager := SyncedBuffer.open b Sample.legacy in
  (snd (fst (SyncedBuffer.close (fst viaBatch) (snd viaBatch))) = Sample.batching
   /\ snd (SyncedBuffer.close (fst viaBatch) (snd viaBatch)) = false)
  /\ Client.sent
       (BufferSynchronizer.client
          (snd (fst (SyncedBuffer.close (fst viaEager) (snd viaEager)))))
     = [Cmd_Open (Sample.openArgs "/src/a.ts"); Cmd_Close "/src/a.ts"].
Proof.
  intros b viaBatch viaEager.
  destruct (X13_buffer_open_then_close b Sample.batching)
    as (_ & _ & H3 & _).
  destruct (X13_buffer_open_then_close b Sample.legacy) as (_ & _ & _ & H4).
  split; [|exact (proj1 (H4 eq_refl))].
  exact (H3 eq_refl eq_refl (ex_intro _ "/src/a.ts" (conj eq_refl eq_refl))).
Defined.

(** X14. Content changes. [onContentChanged] reports an unexpected state
    for a buffer that was never opened and not for an open one; in both
    cases the change reaches the synchronizer: with batching, for a
    non-empty event list and a resource whose key resolves, it is the
    pending operation of the resource afterwards. An empty event list
    leaves the synchronizer as it was. *)
Theorem X14_content_change_is_forwarded (b : SyncedBuffer.t)
  (sync : BufferSynchronizer.t)
  (events : list lsp.TextDocumentContentChangeEvent) :
  (SyncedBuffer.state b = BufferState.Initial ->
   snd (SyncedBuffer.onContentChanged b sync events) = true)
  /\ (SyncedBuffer.state b = BufferState.Open ->
      snd (SyncedBuffer.onContentChanged b sync events) = false)
  /\ fst (SyncedBuffer.onContentChanged b sync []) = sync
  /\ (BufferSynchronizer.supportsBatching sync = true ->
      events <> [] ->
      resolves (BufferSynchronizer._pending sync) (SyncedBuffer.resource b) ->
      ResourceMap.get
        (BufferSynchronizer._pending
           (fst (SyncedBuffer.onContentChanged b sync events)))
        (SyncedBuffer.resource b)
      = Some (ChangeOperation
                (protocol.mkFileCodeEdits (SyncedBuffer.filepath b)
                   (rev (spec_edits events))))).
Proof.
  unfold SyncedBuffer.onContentChanged. cbn [fst snd].
  split; [now intros ->|]. split; [now intros ->|].
  split; [reflexivity|].
  intros Hb Hne (file & K & Ht).
  unfold BufferSynchronizer.change.
  destruct events as [|ev events]; [congruence|].
  rewrite Hb, change_edits_spec.
  apply (updatePending_stores _ _ _ file); [discriminate | exact K | exact Ht].
Qed.

Lemma X14_content_change_is_forwarded_witness :
  let b := Sample.buffer Sample.fileA "/src/a.ts" 10 in
  snd (SyncedBuffer.onContentChanged b Sample.batching [Sample.event 0 "x"])
  = true
  /\ ResourceMap.get
       (BufferSynchronizer._pending
          (fst (SyncedBuffer.onContentChanged b Sample.batching
                  [Sample.event 0 "x"])))
       Sample.fileA
     = Some (ChangeOperation
               (protocol.mkFileCodeEdits "/src/a.ts"
                  [protocol.mkCodeEdit "x" (protocol.mkLocation 1 1)
                     (protocol.mkLocation 1 2)])).
Proof.
  intros b.
  destruct (X14_content_change_is_forwarded b Sample.batching
              [Sample.event 0 "x"]) as (H1 & _ & _ & H4).
  split; [exact (H1 eq_refl)|].
  refine (H4 eq_refl _ (ex_intro _ "/src/a.ts" (conj eq_refl eq_refl))).
  discriminate.
Defined.


(** * Further properties of the get-error request *)

Section GetErrToken.
Import GetErrRequest.

Lemma step_done (r : t) (e : Event) : _done r = true -> _done (step r e) = true.
Proof.
  intros Hd. destruct e; cbn.
  - exact Hd.
  - now destruct (immediate r).
  - destruct (request r); [|exact Hd]. unfold onSettled. now rewrite Hd.
Qed.

(** Once done, no [cancel] signals cancellation. *)
Lemma run_done_token (events : list Event) :
  forall r, _done r = true ->
    CancellationTokenSource.cancelled (_token (run r events))
    = CancellationTokenSource.cancelled (_token r).
Proof.
  induction events as [|e events IH]; intros r Hd; [reflexivity|].
  cbn [run fold_left]. change (fold_left step events ?x) with (run x events).
  rewrite IH by now apply step_done.
  destruct e; cbn.
  - unfold cancel. rewrite Hd. reflexivity.
  - now destruct (immediate r).
  - destruct (request r); [|reflexivity]. unfold onSettled. now rewrite Hd.
Qed.

Lemma run_cancelled_sticky (events : list Event) :
  forall r, CancellationTokenSource.cancelled (_token r) = true ->
    CancellationTokenSource.cancelled (_token (run r events)) = true.
Proof.
  induction events as [|e events IH]; intros r Hc; [exact Hc|].
  cbn [run fold_left]. change (fold_left step events ?x) with (run x events).
  apply IH. destruct e; cbn.
  - unfold cancel. cbn. now destruct (_done r).
  - now destruct (immediate r).
  - destruct (request r); [|exact Hc]. unfold onSettled.
    now destruct (_done r).
Qed.

Lemma run_in_flight_token (events : list Event) :
  forall r, immediate r = false -> request r <> None -> _done r = false ->
    CancellationTokenSource.cancelled (_token r) = false ->
    CancellationTokenSource.cancelled (_token (run r events))
    = cancelledBefore events.
Proof.
  induction events as [|e events IH]; intros r Hi Hr Hd Hc; [exact Hc|].
  cbn [run fold_left]. change (fold_left step events ?x) with (run x events).
  destruct e; cbn [step cancelledBefore].
  - apply run_cancelled_sticky. unfold cancel. now rewrite Hd.
  - rewrite Hi. now apply IH.
  - destruct (request r) as [cmd|]; [|congruence].
    rewrite run_done_token; unfold onSettled; rewrite Hd; [exact Hc|reflexivity].
Qed.

Lemma run_disposed (events : list Event) :
  forall r,
    CancellationTokenSource.disposed (_token (run r events))
    = CancellationTokenSource.disposed (_token r) || existsb isCancel events.
Proof.
  induction events as [|e events IH]; intros r; cbn [run fold_left existsb].
  - now rewrite orb_false_r.
  - change (fold_left step events ?x) with (run x events). rewrite IH.
    destruct e; cbn.
    + now rewrite orb_true_r.
    + now destruct (immediate r).
    + destruct (request r); [|reflexivity]. unfold onSettled.
      now destruct (_done r).
Qed.

End GetErrToken.

(** X15. The command of a request. A request sends [Geterr] with a list of
    files that is never empty, or [GeterrForProject] with the first file
    when project diagnostics are enabled on a semantic server, or nothing:
    nothing exactly when error reporting is disabled or no file of the set
    has a path. From version 4.4.0 on, the files are the paths of all the
    resources of the set that have one, in the order of iteration; below
    it, a client without the semantic capability sends nothing. *)
Theorem X15_getErr_command (client : Client.t) (files : ResourceMap.t unit) :
  let r0 := GetErrRequest.executeGetErrRequest client files in
  let all := GetErrRequest.allFiles client files in
  (forall fs, GetErrRequest.request r0 = Some (Cmd_Geterr fs) ->
              fs = all /\ fs <> []
              /\ GetErrRequest.areProjectDiagnosticsEnabled client = false)
  /\ (forall f, GetErrRequest.request r0 = Some (Cmd_GeterrForProject f) ->
                hd_error all = Some f
                /\ Client.enableProjectDiagnostics client = true
                /\ Client.capabilities_has client Semantic = true)
  /\ (GetErrRequest.request r0 = None <->
      GetErrRequest.isErrorReportingEnabled client = false \/ all = [])
  /\ (forall cmd, GetErrRequest.request r0 = Some cmd ->
        (exists fs, cmd = Cmd_Geterr fs)
        \/ (exists f, cmd = Cmd_GeterrForProject f))
  /\ (API.gte (Client.apiVersion client) API.v440 = true ->
      GetErrRequest.isErrorReportingEnabled client = true
      /\ all = coalesce
                 (map (fun e => Client.toTsFilePath client (ResourceMap.resource e))
                    (ResourceMap.entries files)))
  /\ (API.gte (Client.apiVersion client) API.v440 = false ->
      Client.capabilities_has client Semantic = false ->
      GetErrRequest.request r0 = None).
Proof.
  intros r0 all. unfold r0, GetErrRequest.executeGetErrRequest.
  fold all.
  unfold GetErrRequest.areProjectDiagnosticsEnabled.
  destruct (GetErrRequest.isErrorReportingEnabled client) eqn:He; cbn [negb].
  - destruct all as [|f0 rest] eqn:Ea; cbn.
    + split; [discriminate|]. split; [discriminate|].
      split; [split; auto|]. split; [discriminate|].
      split.
      * intros Hv. split; [reflexivity|].
        rewrite <- Ea. unfold all, GetErrRequest.allFiles. rewrite Hv. cbn.
        now rewrite filter_true.
      * intros Hv Hs. unfold GetErrRequest.isErrorReportingEnabled in He.
        rewrite Hv in He. congruence.
    + destruct (Client.enableProjectDiagnostics client
                && Client.capabilities_has client Semantic) eqn:Hp; cbn.
      * split; [discriminate|].
        split; [intros f [= <-]; apply andb_prop in Hp; tauto|].
        split; [split; [discriminate | intros [H | H]; discriminate]|].
        split; [intros cmd [= <-]; right; eauto|].
        split.
        -- intros Hv. split; [reflexivity|].
           rewrite <- Ea. unfold all, GetErrRequest.allFiles. rewrite Hv. cbn.
           now rewrite filter_true.
        -- intros Hv Hs. unfold GetErrRequest.isErrorReportingEnabled in He.
           rewrite Hv in He. congruence.
      * split; [intros fs [= <-]; repeat split; discriminate|].
        split; [discriminate|].
        split; [split; [discriminate | intros [H | H]; discriminate]|].
        split; [intros cmd [= <-]; left; eauto|].
        split.
        -- intros Hv. split; [reflexivity|].
           rewrite <- Ea. unfold all, GetErrRequest.allFiles. rewrite Hv. cbn.
           now rewrite filter_true.
        -- intros Hv Hs. unfold GetErrRequest.isErrorReportingEnabled in He.
           rewrite Hv in He. congruence.
  - cbn. split; [discriminate|]. split; [discriminate|].
    split; [split; auto|]. split; [discriminate|].
    split.
    + intros Hv. unfold GetErrRequest.isErrorReportingEnabled in He.
      rewrite Hv in He. discriminate.
    + reflexivity.
Qed.

Lemma X15_getErr_command_witness :
  let files :=
    ResourceMapOps.setAll
      (ResourceMap.create Sample.normalize Sample.caseSensitive)
      [(Sample.fileB, tt); (Sample.fileA, tt)] in
  GetErrRequest.request
    (GetErrRequest.executeGetErrRequest (Sample.client API.v440) files)
  = Some (Cmd_Geterr ["/src/b.ts"; "/src/a.ts"])
  /\ GetErrRequest.allFiles (Sample.client API.v440) files
     = ["/src/b.ts"; "/src/a.ts"].
Proof.
  intros files. split; [reflexivity|].
  destruct (X15_getErr_command (Sample.client API.v440) files)
    as (H1 & _).
  symmetry. exact (proj1 (H1 ["/src/b.ts"; "/src/a.ts"] eq_refl)).
Defined.

(** X16. The cancellation token. A request that was done at construction
    never signals cancellation, whatever is called on it. A request that
    went to the back-end signals cancellation exactly when [cancel] is
    called before the request settles; a [cancel] after that only releases
    the token. The token is released exactly when [cancel] was called. *)
Theorem X16_cancellation_token (client : Client.t) (files : ResourceMap.t unit)
  (events : list GetErrRequest.Event) :
  let r0 := GetErrRequest.executeGetErrRequest client files in
  let token := GetErrRequest._token (GetErrRequest.run r0 events) in
  (GetErrRequest.request r0 = None ->
   CancellationTokenSource.cancelled token = false)
  /\ (GetErrRequest.request r0 <> None ->
      CancellationTokenSource.cancelled token = cancelledBefore events)
  /\ CancellationTokenSource.disposed token = existsb isCancel events.
Proof.
  intros r0 token.
  destruct (executeGetErrRequest_pending client files) as [_ Hp].
  fold r0 in Hp.
  assert (Ht : GetErrRequest._token r0 = CancellationTokenSource.create).
  { unfold r0, GetErrRequest.executeGetErrRequest.
    destruct (negb _); [reflexivity|].
    now destruct (GetErrRequest.allFiles client files). }
  split; [|split].
  - intros Hn. destruct Hp as [(_ & _ & Hd) | (_ & Hr & _)]; [|congruence].
    unfold token. rewrite run_done_token by assumption. now rewrite Ht.
  - intros Hr. destruct Hp as [(_ & Hn & _) | (Hi & _ & Hd)]; [congruence|].
    unfold token. apply run_in_flight_token; auto. now rewrite Ht.
  - unfold token. rewrite run_disposed. now rewrite Ht.
Qed.

Lemma X16_cancellation_token_witness :
  let files :=
    ResourceMap.set (ResourceMap.create Sample.normalize Sample.caseSensitive)
      Sample.fileA tt in
  let r0 := GetErrRequest.executeGetErrRequest (Sample.client API.v440) files in
  CancellationTokenSource.cancelled
    (GetErrRequest._token
       (GetErrRequest.run r0
          [GetErrRequest.Ev_settled GetErrRequest.Succeeded;
           GetErrRequest.Ev_cancel]))
  = false
  /\ CancellationTokenSource.cancelled
       (GetErrRequest._token
          (GetErrRequest.run r0
             [GetErrRequest.Ev_cancel;
              GetErrRequest.Ev_settled GetErrRequest.Cancelled]))
     = true.
Proof.
  intros files r0. split.
  - refine (proj1 (proj2
              (X16_cancellation_token (Sample.client API.v440) files
                 [GetErrRequest.Ev_settled GetErrRequest.Succeeded;
                  GetErrRequest.Ev_cancel])) _).
    discriminate.
  - refine (proj1 (proj2
              (X16_cancellation_token (Sample.client API.v440) files
                 [GetErrRequest.Ev_cancel;
                  GetErrRequest.Ev_settled GetErrRequest.Cancelled])) _).
    discriminate.
Defined.


(** * Further properties of the tab tracker *)

Section TabSets.

Lemma TabSet_add_add (s : TabSet.t) (tab : Tab) :
  TabSet.add (TabSet.add s tab) tab = TabSet.add s tab.
Proof.
  unfold TabSet.add at 2 3. destruct (TabSet.has s tab) eqn:H.
  - unfold TabSet.add. now rewrite H.
  - unfold TabSet.add, TabSet.has. rewrite existsb_app. cbn.
    now rewrite Nat.eqb_refl, orb_true_r.
Qed.

Lemma TabSet_delete_delete (s : TabSet.t) (tab : Tab) :
  TabSet.delete (TabSet.delete s tab) tab = TabSet.delete s tab.
Proof.
  unfold TabSet.delete. induction s as [|i s IH]; cbn; [reflexivity|].
  destruct (Nat.eqb (tab_id tab) i) eqn:E; cbn; [exact IH|].
  now rewrite E, IH.
Qed.

Lemma TabSet_delete_fresh (s : TabSet.t) (tab : Tab) :
  TabSet.has s tab = false -> TabSet.delete s tab = s.
Proof.
  unfold TabSet.has, TabSet.delete. induction s as [|i s IH]; cbn;
    [reflexivity|].
  destruct (Nat.eqb (tab_id tab) i); cbn; [discriminate|].
  intros H. now rewrite IH.
Qed.

Lemma TabSet_delete_add (s : TabSet.t) (tab : Tab) :
  TabSet.has s tab = false -> TabSet.delete (TabSet.add s tab) tab = s.
Proof.
  intros H. unfold TabSet.add. rewrite H.
  unfold TabSet.delete. rewrite filter_app. cbn.
  rewrite Nat.eqb_refl. cbn. rewrite app_nil_r.
  now apply TabSet_delete_fresh.
Qed.

Lemma TabSet_has_delete (s : TabSet.t) (tab : Tab) :
  TabSet.has (TabSet.delete s tab) tab = false.
Proof.
  unfold TabSet.has, TabSet.delete. induction s as [|i s IH]; cbn;
    [reflexivity|].
  destruct (Nat.eqb (tab_id tab) i) eqn:E; cbn; [exact IH|].
  now rewrite E, IH.
Qed.

End TabSets.

Section TrackerView.
Import TabResourceTracker.

Lemma get_same_key {T : Type} (m : ResourceMap.t T) (u u' : Uri) :
  ResourceMap.toKey m u = ResourceMap.toKey m u' ->
  ResourceMap.get m u = ResourceMap.get m u'.
Proof. intros K. unfold ResourceMap.get. now rewrite K. Qed.

Lemma sameKey_true {T : Type} (m : ResourceMap.t T) (u u' : Uri) :
  sameKey m u u' = true -> ResourceMap.toKey m u = ResourceMap.toKey m u'.
Proof.
  unfold sameKey.
  destruct (ResourceMap.toKey m u), (ResourceMap.toKey m u');
    try discriminate; [|reflexivity].
  intros H. apply String.eqb_eq in H. now subst.
Qed.

Lemma sameKey_false {T : Type} (m : ResourceMap.t T) (u u' : Uri) :
  sameKey m u u' = false -> ResourceMap.toKey m u <> ResourceMap.toKey m u'.
Proof.
  unfold sameKey.
  destruct (ResourceMap.toKey m u), (ResourceMap.toKey m u');
    try discriminate.
  intros H [= ->]. now rewrite String.eqb_refl in H.
Qed.

Lemma get_delete_same_key {T : Type} (m : ResourceMap.t T) (u u' : Uri) :
  wf m -> ResourceMap.toKey m u' = ResourceMap.toKey m u ->
  ResourceMap.get (ResourceMap.delete m u) u' = None.
Proof.
  intros Hwf K'.
  pose proof (has_delete_same m u' Hwf) as H.
  rewrite has_get in H.
  replace (ResourceMap.delete m u) with (ResourceMap.delete m u').
  - now destruct (ResourceMap.get (ResourceMap.delete m u') u').
  - unfold ResourceMap.delete. now rewrite K'.
Qed.

Lemma get_unresolved_b {T : Type} (m : ResourceMap.t T) (u : Uri) :
  resolvesb m u = false -> ResourceMap.get m u = None.
Proof.
  unfold resolvesb, ResourceMap.get.
  destruct (ResourceMap.toKey m u); [|reflexivity]. now intros ->.
Qed.

Lemma set_unresolved_b {T : Type} (m : ResourceMap.t T) (u : Uri) (v : T) :
  resolvesb m u = false -> ResourceMap.set m u v = m.
Proof.
  unfold resolvesb. intros H. apply set_unresolved.
  intros file K. now rewrite K in H.
Qed.

Lemma tabsOf_add_uri (tab : Tab) (tr : t) (acc : list Uri) (u0 u : Uri) :
  tabsOf (fst (add_uri tab (tr, acc) u0)) u
  = if coversb (_tabResources tr) u0 u
    then TabSet.add (tabsOf tr u) tab else tabsOf tr u.
Proof.
  unfold coversb.
  destruct (resolvesb (_tabResources tr) u0) eqn:Hr; cbn [andb].
  - apply resolvesb_spec in Hr.
    destruct (sameKey (_tabResources tr) u u0) eqn:Hk.
    + apply sameKey_true in Hk.
      unfold tabsOf at 2. rewrite (get_same_key _ _ _ Hk).
      unfold add_uri, tabsOf.
      destruct (ResourceMap.get (_tabResources tr) u0) as [entry|]; cbn;
        now rewrite (get_set_same_key _ _ _ _ Hr Hk).
    + apply sameKey_false in Hk.
      unfold add_uri, tabsOf.
      destruct (ResourceMap.get (_tabResources tr) u0) as [entry|]; cbn;
        now rewrite (get_set_other_key _ _ _ _ Hk).
  - unfold add_uri. rewrite (get_unresolved_b _ _ Hr). cbn.
    now rewrite (set_unresolved_b _ _ _ Hr).
Qed.

Lemma tabsOf_delete_uri (tab : Tab) (tr : t) (acc : list Uri) (u0 u : Uri) :
  tracker_inv tr ->
  tabsOf (fst (delete_uri tab (tr, acc) u0)) u
  = if coversb (_tabResources tr) u0 u
    then TabSet.delete (tabsOf tr u) tab else tabsOf tr u.
Proof.
  intros [Hwf _]. unfold coversb.
  destruct (resolvesb (_tabResources tr) u0) eqn:Hr; cbn [andb].
  - apply resolvesb_spec in Hr.
    destruct (sameKey (_tabResources tr) u u0) eqn:Hk.
    + apply sameKey_true in Hk.
      unfold tabsOf at 2. rewrite (get_same_key _ _ _ Hk).
      unfold delete_uri, tabsOf.
      destruct (ResourceMap.get (_tabResources tr) u0) as [entry|] eqn:G; cbn.
      * destruct (TabSet.delete (tabs entry) tab) as [|i rest] eqn:Ed; cbn.
        -- now rewrite (get_delete_same_key _ _ _ Hwf Hk).
        -- now rewrite (get_set_same_key _ _ _ _ Hr Hk).
      * now rewrite (get_same_key _ _ _ Hk), G.
    + apply sameKey_false in Hk.
      unfold delete_uri, tabsOf.
      destruct (ResourceMap.get (_tabResources tr) u0) as [entry|]; cbn;
        [|reflexivity].
      destruct (TabSet.size (TabSet.delete (tabs entry) tab) =? 0)%nat; cbn.
      * now rewrite (get_delete_other_key _ _ _ Hk).
      * now rewrite (get_set_other_key _ _ _ _ Hk).
  - unfold delete_uri. now rewrite (get_unresolved_b _ _ Hr).
Qed.

Lemma delete_uri_toKey (tab : Tab) (tr : t) (acc : list Uri) (u0 u : Uri) :
  ResourceMap.toKey (_tabResources (fst (delete_uri tab (tr, acc) u0))) u
  = ResourceMap.toKey (_tabResources tr) u.
Proof.
  unfold delete_uri.
  destruct (ResourceMap.get (_tabResources tr) u0) as [entry|]; cbn;
    [|reflexivity].
  destruct (TabSet.size (TabSet.delete (tabs entry) tab) =? 0)%nat; cbn;
    [apply toKey_delete | apply toKey_set].
Qed.

Lemma coversb_ext {T : Type} (m m' : ResourceMap.t T) (u0 u : Uri) :
  (forall r, ResourceMap.toKey m' r = ResourceMap.toKey m r) ->
  coversb m' u0 u = coversb m u0 u.
Proof.
  intros K. unfold coversb, resolvesb, sameKey. now rewrite !K.
Qed.

Lemma existsb_pointwise {A : Type} (f g : A -> bool) (l : list A) :
  (forall a, f a = g a) -> existsb f l = existsb g l.
Proof.
  intros H. induction l as [|a l IH]; cbn; [reflexivity|]. now rewrite H, IH.
Qed.

Lemma tabsOf_add_all (tab : Tab) (uris : list Uri) (u : Uri) :
  forall (tr : t) (acc : list Uri),
    tracker_inv tr ->
    tabsOf (fst (fold_left (add_uri tab) uris (tr, acc))) u
    = if existsb (fun u0 => coversb (_tabResources tr) u0 u) uris
      then TabSet.add (tabsOf tr u) tab else tabsOf tr u.
Proof.
  induction uris as [|u0 uris IH]; intros tr acc Hinv; [reflexivity|].
  cbn [fold_left existsb].
  pose proof (tabsOf_add_uri tab tr acc u0 u) as Hv.
  destruct (add_uri_step tab tr acc u0 Hinv) as (Hinv1 & Hkey1 & _).
  destruct (add_uri tab (tr, acc) u0) as [tr1 acc1]. cbn [fst] in *.
  rewrite (IH tr1 acc1 Hinv1), Hv.
  rewrite (existsb_pointwise _ _ uris (fun u0' => coversb_ext _ _ u0' u Hkey1)).
  destruct (coversb (_tabResources tr) u0 u); cbn [orb];
    [|reflexivity].
  destruct (existsb _ uris); [apply TabSet_add_add | reflexivity].
Qed.

Lemma tabsOf_delete_all (tab : Tab) (uris : list Uri) (u : Uri) :
  forall (tr : t) (acc : list Uri),
    tracker_inv tr ->
    tabsOf (fst (fold_left (delete_uri tab) uris (tr, acc))) u
    = if existsb (fun u0 => coversb (_tabResources tr) u0 u) uris
      then TabSet.delete (tabsOf tr u) tab else tabsOf tr u.
Proof.
  induction uris as [|u0 uris IH]; intros tr acc Hinv; [reflexivity|].
  cbn [fold_left existsb].
  pose proof (tabsOf_delete_uri tab tr acc u0 u Hinv) as Hv.
  pose proof (fun r => delete_uri_toKey tab tr acc u0 r) as Hkey1.
  destruct (delete_uri_step tab tr acc u0 Hinv) as (Hinv1 & _).
  destruct (delete_uri tab (tr, acc) u0) as [tr1 acc1]. cbn [fst] in *.
  rewrite (IH tr1 acc1 Hinv1), Hv.
  rewrite (existsb_pointwise _ _ uris (fun u0' => coversb_ext _ _ u0' u Hkey1)).
  destruct (coversb (_tabResources tr) u0 u); cbn [orb];
    [|reflexivity].
  destruct (existsb _ uris); [apply TabSet_delete_delete | reflexivity].
Qed.

Lemma has_tabsOf (tr : t) (u : Uri) :
  has tr u = (0 <? List.length (tabsOf tr u))%nat.
Proof.
  unfold has, tabsOf. now destruct (ResourceMap.get (_tabResources tr) u).
Qed.

End TrackerView.

Section TrackerViewRuns.
Import TabResourceTracker.

Lemma showsb_ext {T : Type} (m m' : ResourceMap.t T) (tab : Tab) (u : Uri) :
  (forall r, ResourceMap.toKey m' r = ResourceMap.toKey m r) ->
  showsb m' tab u = showsb m tab u.
Proof.
  intros K. unfold showsb. apply existsb_pointwise.
  intros u0. now apply coversb_ext.
Qed.

Lemma delete_all_toKey (tab : Tab) (uris : list Uri) (r : Uri) :
  forall (tr : t) (acc : list Uri),
    ResourceMap.toKey
      (_tabResources (fst (fold_left (delete_uri tab) uris (tr, acc)))) r
    = ResourceMap.toKey (_tabResources tr) r.
Proof.
  induction uris as [|u0 uris IH]; intros tr acc; [reflexivity|].
  cbn [fold_left].
  pose proof (delete_uri_toKey tab tr acc u0 r) as H.
  destruct (delete_uri tab (tr, acc) u0) as [tr1 acc1]. cbn [fst] in H.
  now rewrite IH.
Qed.

Lemma apply_toKey (tr : t) (op : TabOps.Op) (r : Uri) :
  tracker_inv tr ->
  ResourceMap.toKey (_tabResources (TabOps.apply tr op)) r
  = ResourceMap.toKey (_tabResources tr) r.
Proof.
  intros Hinv. destruct op as [tab | tab]; cbn.
  - exact (proj1 (proj2 (add_all tab _ tr [] Hinv)) r).
  - apply delete_all_toKey.
Qed.

Lemma run_toKey (ops : list TabOps.Op) (r : Uri) :
  forall tr, tracker_inv tr ->
    ResourceMap.toKey (_tabResources (TabOps.run tr ops)) r
    = ResourceMap.toKey (_tabResources tr) r.
Proof.
  induction ops as [|op ops IH]; intros tr Hinv; [reflexivity|].
  cbn [TabOps.run fold_left].
  change (fold_left TabOps.apply ops ?x) with (TabOps.run x ops).
  rewrite IH by now apply tracker_inv_apply. now apply apply_toKey.
Qed.

Lemma tabsOf_add (tr : t) (tab : Tab) (u : Uri) :
  tracker_inv tr ->
  tabsOf (fst (add tr tab)) u
  = if showsb (_tabResources tr) tab u
    then TabSet.add (tabsOf tr u) tab else tabsOf tr u.
Proof. intros Hinv. now apply tabsOf_add_all. Qed.

Lemma tabsOf_delete (tr : t) (tab : Tab) (u : Uri) :
  tracker_inv tr ->
  tabsOf (fst (delete tr tab)) u
  = if showsb (_tabResources tr) tab u
    then TabSet.delete (tabsOf tr u) tab else tabsOf tr u.
Proof. intros Hinv. now apply tabsOf_delete_all. Qed.

Lemma nonempty_add (s : TabSet.t) (tab : Tab) :
  (0 <? List.length (TabSet.add s tab))%nat = true.
Proof.
  pose proof (TabSet_add_nonempty s tab).
  destruct (TabSet.add s tab); [congruence | reflexivity].
Qed.

Lemma visible_after_adds (tabs : list Tab) (u : Uri) :
  forall tr, tracker_inv tr ->
    has (fold_left (fun tr tab => fst (add tr tab)) tabs tr) u
    = has tr u || existsb (fun tab => showsb (_tabResources tr) tab u) tabs.
Proof.
  induction tabs as [|tab tabs IH]; intros tr Hinv; cbn [fold_left existsb].
  - now rewrite orb_false_r.
  - destruct (add_all tab (getResourcesForTab tab) tr [] Hinv)
      as (Hinv1 & Hkey1 & _).
    fold (add tr tab) in Hinv1, Hkey1.
    rewrite (IH _ Hinv1).
    rewrite (existsb_pointwise _ _ tabs
               (fun tab' => showsb_ext _ _ tab' u Hkey1)).
    rewrite (has_tabsOf (fst (add tr tab))), (tabsOf_add tr tab u Hinv).
    rewrite (has_tabsOf tr).
    destruct (showsb (_tabResources tr) tab u); cbn [orb].
    + now rewrite nonempty_add, orb_true_r.
    + reflexivity.
Qed.

End TrackerViewRuns.

(** X17. The tracker as tab sets. After any sequence of [add] and [delete]
    calls on a new tracker: [add(tab)] puts the tab into the set of every
    URI that the tab shows (a URI with the key, which resolves, of one of
    the tab's URIs) and changes no other set; [delete(tab)] takes the tab out
    of exactly those sets; [has(u)] is true exactly when the set of [u] is
    not empty; and no call changes the key of a URI. *)
Theorem X17_tracker_tab_sets (normalizePath : Uri -> option string)
  (cfg : Config) (ops : list TabOps.Op) (tab : Tab) (u : Uri) :
  let tr :=
    TabOps.run (TabResourceTracker.mk (ResourceMap.create normalizePath cfg))
      ops in
  let m := TabResourceTracker._tabResources tr in
  tabsOf (fst (TabResourceTracker.add tr tab)) u
  = (if showsb m tab u then TabSet.add (tabsOf tr u) tab else tabsOf tr u)
  /\ tabsOf (fst (TabResourceTracker.delete tr tab)) u
     = (if showsb m tab u then TabSet.delete (tabsOf tr u) tab
        else tabsOf tr u)
  /\ TabResourceTracker.has tr u = (0 <? List.length (tabsOf tr u))%nat
  /\ ResourceMap.toKey m u
     = ResourceMap.toKey
         (ResourceMap.create (T := TabResourceTracker.TabsEntry)
            normalizePath cfg) u.
Proof.
  intros tr m.
  assert (Hinv : tracker_inv tr) by (apply tracker_inv_run, tracker_inv_empty).
  split; [now apply tabsOf_add|].
  split; [now apply tabsOf_delete|].
  split; [apply has_tabsOf|].
  unfold m, tr. now rewrite run_toKey by apply tracker_inv_empty.
Qed.

(** X18. Opening and closing a tab. After any sequence of [add] and
    [delete] calls on a new tracker: adding a tab that the set of a URI does
    not hold and deleting it again gives the URI the set, and the
    visibility, it had; adding a tab twice is adding it once; after
    [delete(tab)] no set of a URI that the tab shows holds the tab; and
    deleting a tab that the set of a URI does not hold leaves that set
    alone. *)
Theorem X18_tab_open_close_round_trip (normalizePath : Uri -> option string)
  (cfg : Config) (ops : list TabOps.Op) (tab : Tab) (u : Uri) :
  let tr :=
    TabOps.run (TabResourceTracker.mk (ResourceMap.create normalizePath cfg))
      ops in
  let added := fst (TabResourceTracker.add tr tab) in
  (TabSet.has (tabsOf tr u) tab = false ->
   tabsOf (fst (TabResourceTracker.delete added tab)) u = tabsOf tr u
   /\ TabResourceTracker.has (fst (TabResourceTracker.delete added tab)) u
      = TabResourceTracker.has tr u)
  /\ tabsOf (fst (TabResourceTracker.add added tab)) u = tabsOf added u
  /\ TabSet.has (tabsOf (fst (TabResourceTracker.delete tr tab)) u) tab
     = (if showsb (TabResourceTracker._tabResources tr) tab u then false
        else TabSet.has (tabsOf tr u) tab)
  /\ (TabSet.has (tabsOf tr u) tab = false ->
      tabsOf (fst (TabResourceTracker.delete tr tab)) u = tabsOf tr u).
Proof.
  intros tr added.
  assert (Hinv : tracker_inv tr) by (apply tracker_inv_run, tracker_inv_empty).
  destruct (add_all tab (TabResourceTracker.getResourcesForTab tab) tr [] Hinv)
    as (Hinv1 & Hkey1 & _).
  fold (TabResourceTracker.add tr tab) in Hinv1, Hkey1. fold added in Hinv1, Hkey1.
  assert (Hshow : showsb (TabResourceTracker._tabResources added) tab u
                  = showsb (TabResourceTracker._tabResources tr) tab u)
    by now apply showsb_ext.
  assert (Ha : tabsOf added u
               = if showsb (TabResourceTracker._tabResources tr) tab u
                 then TabSet.add (tabsOf tr u) tab else tabsOf tr u)
    by now apply tabsOf_add.
  assert (Hrt : TabSet.has (tabsOf tr u) tab = false ->
                tabsOf (fst (TabResourceTracker.delete added tab)) u
                = tabsOf tr u).
  { intros Hf. rewrite (tabsOf_delete added tab u Hinv1), Hshow, Ha.
    destruct (showsb (TabResourceTracker._tabResources tr) tab u);
      [now apply TabSet_delete_add | reflexivity]. }
  split; [|split; [|split]].
  - intros Hf. split; [now apply Hrt|].
    now rewrite !has_tabsOf, Hrt.
  - rewrite (tabsOf_add added tab u Hinv1), Hshow, Ha.
    destruct (showsb (TabResourceTracker._tabResources tr) tab u);
      [apply TabSet_add_add | reflexivity].
  - rewrite (tabsOf_delete tr tab u Hinv).
    destruct (showsb (TabResourceTracker._tabResources tr) tab u);
      [apply TabSet_has_delete | reflexivity].
  - intros Hf. rewrite (tabsOf_delete tr tab u Hinv).
    destruct (showsb (TabResourceTracker._tabResources tr) tab u);
      [now apply TabSet_delete_fresh | reflexivity].
Qed.

Lemma X18_tab_open_close_round_trip_witness :
  let diff := mkTab 2 (TabInputTextDiff Sample.fileA Sample.fileB) in
  let tr := TabOps.run Sample.noTabs [TabOps.Op_add (mkTab 1 (TabInputText Sample.fileA))] in
  let there_and_back :=
    fst (TabResourceTracker.delete (fst (TabResourceTracker.add tr diff)) diff) in
  tabsOf (fst (TabResourceTracker.add tr diff)) Sample.fileA = [1; 2]%nat
  /\ tabsOf there_and_back Sample.fileA = [1]%nat
  /\ TabResourceTracker.has there_and_back Sample.fileB = false.
Proof.
  intros diff tr there_and_back.
  destruct (X18_tab_open_close_round_trip Sample.normalize Sample.caseSensitive
              [TabOps.Op_add (mkTab 1 (TabInputText Sample.fileA))]
              diff Sample.fileA) as (HA & _).
  destruct (X18_tab_open_close_round_trip Sample.normalize Sample.caseSensitive
              [TabOps.Op_add (mkTab 1 (TabInputText Sample.fileA))]
              diff Sample.fileB) as (HB & _).
  split; [reflexivity|].
  split; [exact (proj1 (HA eq_refl))|].
  exact (proj2 (HB eq_refl)).
Defined.

(** X19. The tabs at construction. A new tracker has a URI exactly when one
    of the tabs it was given shows the URI: a text or notebook tab through
    its URI, a diff tab through its original and its modified URI, any other
    tab through none. *)
Theorem X19_tracker_constructor (normalizePath : Uri -> option string)
  (cfg : Config) (allTabs : list Tab) (u : Uri) :
  TabResourceTracker.has
    (TabResourceTracker.create normalizePath cfg allTabs) u
  = existsb
      (fun tab =>
         showsb
           (ResourceMap.create (T := TabResourceTracker.TabsEntry)
              normalizePath cfg)
           tab u)
      allTabs.
Proof.
  unfold TabResourceTracker.create.
  rewrite visible_after_adds by apply tracker_inv_empty.
  replace (TabResourceTracker.has
             (TabResourceTracker.mk (ResourceMap.create normalizePath cfg)) u)
    with false; [reflexivity|].
  unfold TabResourceTracker.has, ResourceMap.get. cbn.
  destruct (ResourceMap.toKey _ u) as [file|]; [|reflexivity].
  now destruct (JsString.truthy file).
Qed.


(** * Properties of the orchestrator *)

Section ClientKept.

Lemma same_client_refl (c : Client.t) : same_client c c.
Proof. repeat split. Qed.

Lemma same_client_trans (c1 c2 c3 : Client.t) :
  same_client c1 c2 -> same_client c2 c3 -> same_client c1 c3.
Proof.
  intros (A1 & B1 & C1 & D1 & E1 & F1) (A2 & B2 & C2 & D2 & E2 & F2).
  repeat split; congruence.
Qed.


Lemma same_client_execute (c : Client.t) (cmd : Command) :
  same_client c (Client.execute c cmd).
Proof. repeat split. Qed.

Lemma keyed_by_same_client {T : Type} (c c' : Client.t) (cfg : Config)
  (m : ResourceMap.t T) :
  same_client c c' -> keyed_by c cfg m -> keyed_by c' cfg m.
Proof.
  intros (_ & _ & _ & _ & E & _) [Hn Hc]. split; [congruence | assumption].
Qed.

Lemma keyed_by_set {T : Type} (c : Client.t) (cfg : Config)
  (m : ResourceMap.t T) (u : Uri) (v : T) :
  keyed_by c cfg m -> keyed_by c cfg (ResourceMap.set m u v).
Proof.
  intros [Hn Hc]. destruct (set_params m u v) as [E1 E2].
  split; congruence.
Qed.

Lemma keyed_by_delete {T : Type} (c : Client.t) (cfg : Config)
  (m : ResourceMap.t T) (u : Uri) :
  keyed_by c cfg m -> keyed_by c cfg (ResourceMap.delete m u).
Proof.
  intros H. unfold ResourceMap.delete.
  destruct (ResourceMap.toKey m u) as [file|]; [|exact H].
  destruct (JsString.truthy file); exact H.
Qed.

Lemma keyed_by_toKey {T T' : Type} (c : Client.t) (cfg : Config)
  (m : ResourceMap.t T) (m' : ResourceMap.t T') (r : Uri) :
  keyed_by c cfg m -> keyed_by c cfg m' ->
  ResourceMap.toKey m' r = ResourceMap.toKey m r.
Proof.
  intros [Hn Hc] [Hn' Hc'].
  unfold ResourceMap.toKey, ResourceMap.isCaseInsensitivePath.
  now rewrite Hn, Hn', Hc, Hc'.
Qed.

Lemma keyed_by_resolves {T : Type} (c : Client.t) (cfg : Config)
  (m : ResourceMap.t T) (r : Uri) (filepath : string) :
  keyed_by c cfg m ->
  Client.toTsFilePath c r = Some filepath ->
  JsString.truthy filepath = true ->
  resolves m r.
Proof.
  intros [Hn _] Hp Ht.
  assert (Hp' : ResourceMap._normalizePath m r = Some filepath)
    by now rewrite Hn.
  exists (if ResourceMap.isCaseInsensitivePath m filepath
          then JsString.toLowerCase filepath else filepath).
  split; [now apply toKey_of_path|].
  destruct (ResourceMap.isCaseInsensitivePath m filepath);
    [now rewrite toLowerCase_truthy | assumption].
Qed.

End ClientKept.

Section SyncInv.
Import BufferSynchronizer.

Lemma sync_inv_flush c0 cfg (x : t) : sync_inv c0 cfg x -> sync_inv c0 cfg (flush x).
Proof.
  intros (Hc & Hk & Hw). unfold flush.
  destruct (negb (supportsBatching x)).
  - split; [exact Hc|]. split; [exact Hk | apply wf_clear].
  - destruct (0 <? ResourceMap.size (_pending x))%nat.
    + split; [|split; [exact Hk | apply wf_clear]].
      eapply same_client_trans; [exact Hc | apply same_client_execute].
    + now split.
Qed.

Lemma sync_inv_updatePending c0 cfg (x : t) (r : Uri) (op : BufferOperation) :
  sync_inv c0 cfg x -> sync_inv c0 cfg (fst (updatePending x r op)).
Proof.
  intros H. unfold updatePending.
  match goal with |- context [if ?c then _ else _] => destruct c end;
    cbn [fst].
  - destruct H as (Hc & Hk & Hw).
    split; [exact Hc|]. split; [now apply keyed_by_delete | now apply wf_delete].
  - assert (H1 : sync_inv c0 cfg
                   (if ResourceMap.has (_pending x) r then flush x else x))
      by (destruct (ResourceMap.has (_pending x) r);
          [now apply sync_inv_flush | exact H]).
    destruct H1 as (Hc & Hk & Hw).
    split; [exact Hc|]. split; [now apply keyed_by_set | now apply wf_set].
Qed.

Lemma sync_inv_open c0 cfg (x : t) (r : Uri) (a : protocol.OpenRequestArgs) :
  sync_inv c0 cfg x -> sync_inv c0 cfg (open x r a).
Proof.
  intros H. unfold open. destruct (supportsBatching x).
  - now apply sync_inv_updatePending.
  - destruct H as (Hc & Hk & Hw). split; [|now split].
    eapply same_client_trans; [exact Hc | apply same_client_execute].
Qed.

Lemma sync_inv_close c0 cfg (x : t) (r : Uri) (fp : string) :
  sync_inv c0 cfg x -> sync_inv c0 cfg (fst (close x r fp)).
Proof.
  intros H. unfold close. destruct (supportsBatching x).
  - now apply sync_inv_updatePending.
  - destruct H as (Hc & Hk & Hw). split; [|now split].
    eapply same_client_trans; [exact Hc | apply same_client_execute].
Qed.

Lemma same_client_change_eager (c : Client.t) (fp : string)
  (events : list lsp.TextDocumentContentChangeEvent) :
  same_client c (change_eager c fp events).
Proof.
  unfold change_eager. revert c.
  induction events as [|ev events IH]; intros c; [apply same_client_refl|].
  cbn. eapply same_client_trans; [|apply IH].
  unfold change_send. destruct (lsp.range ev);
    [apply same_client_execute | apply same_client_refl].
Qed.

Lemma sync_inv_change c0 cfg (x : t) (r : Uri) (fp : string)
  (events : list lsp.TextDocumentContentChangeEvent) :
  sync_inv c0 cfg x -> sync_inv c0 cfg (change x r fp events).
Proof.
  intros H. unfold change. destruct events as [|ev events]; [exact H|].
  destruct (supportsBatching x).
  - now apply sync_inv_updatePending.
  - destruct H as (Hc & Hk & Hw). split; [|now split].
    eapply same_client_trans; [exact Hc | apply same_client_change_eager].
Qed.

Lemma sync_inv_reset c0 cfg (x : t) : sync_inv c0 cfg x -> sync_inv c0 cfg (reset x).
Proof.
  intros (Hc & Hk & Hw). split; [exact Hc|]. split; [exact Hk | apply wf_clear].
Qed.

Lemma sync_inv_beforeCommand c0 cfg (x : t) (command : string) :
  sync_inv c0 cfg x -> sync_inv c0 cfg (beforeCommand x command).
Proof.
  intros H. unfold beforeCommand.
  destruct (String.eqb command "updateOpen"); [exact H | now apply sync_inv_flush].
Qed.

Lemma sync_inv_buffer_open c0 cfg (x : t) (b : SyncedBuffer.t) :
  sync_inv c0 cfg x -> sync_inv c0 cfg (snd (SyncedBuffer.open b x)).
Proof. intros H. unfold SyncedBuffer.open. cbn. now apply sync_inv_open. Qed.

Lemma sync_inv_buffer_close c0 cfg (x : t) (b : SyncedBuffer.t) :
  sync_inv c0 cfg x -> sync_inv c0 cfg (snd (fst (SyncedBuffer.close b x))).
Proof.
  intros H. unfold SyncedBuffer.close.
  destruct (negb (SyncedBuffer.state b =? BufferState.Open)%Z); [exact H|].
  pose proof (sync_inv_close c0 cfg x (SyncedBuffer.resource b)
                (SyncedBuffer.filepath b) H) as H'.
  now destruct (close x (SyncedBuffer.resource b) (SyncedBuffer.filepath b)).
Qed.

End SyncInv.

Section OrchestratorFrames.
Import Orchestrator.

Lemma tracked_ok_same_client (c c' : Client.t)
  (e : ResourceMap.Entry SyncedBuffer.t) :
  same_client c c' -> tracked_ok c e -> tracked_ok c' e.
Proof.
  intros (_ & _ & _ & _ & E & _) (A & B & C & D).
  repeat split; try assumption. now rewrite E.
Qed.

Lemma inv_pendingDiagnostics cfg (s : t) (x : PendingDiagnostics.t) :
  orch_inv cfg s -> keyed_by (client s) cfg x -> wf x ->
  orch_inv cfg (with_pendingDiagnostics s x).
Proof.
  intros (A & B & C & D & E & F & G & H & I & J) Hk Hw.
  unfold orch_inv. cbn. repeat (split; [assumption|]). exact J.
Qed.

Lemma inv_syncedBuffers cfg (s : t) (x : ResourceMap.t SyncedBuffer.t) :
  orch_inv cfg s -> keyed_by (client s) cfg x -> wf x ->
  Forall (tracked_ok (client s)) (ResourceMap.entries x) ->
  orch_inv cfg (with_syncedBuffers s x).
Proof.
  intros (A & B & C & D & E & F & G & H & I & J) Hk Hw Hf.
  unfold orch_inv. cbn. repeat (split; [assumption|]). exact J.
Qed.

Lemma inv_tabResources cfg (s : t) (x : TabResourceTracker.t) :
  orch_inv cfg s ->
  keyed_by (client s) cfg (TabResourceTracker._tabResources x) ->
  tracker_inv x ->
  orch_inv cfg (with_tabResources s x).
Proof.
  intros (A & B & C & D & E & F & G & H & I & J) Hk Hw.
  unfold orch_inv. cbn. repeat (split; [assumption|]). exact J.
Qed.

Lemma inv_diagnosticDelayer cfg (s : t) (x : Delayer.t) :
  orch_inv cfg s -> orch_inv cfg (with_diagnosticDelayer s x).
Proof. intros H. exact H. Qed.

Lemma inv_fire cfg (s : t) (e : Fired) : orch_inv cfg s -> orch_inv cfg (fire s e).
Proof. intros H. exact H. Qed.

Lemma inv_pendingGetErr cfg (s : t) (x : option (nat * GetErrRequest.t)) :
  orch_inv cfg s ->
  match x with
  | Some (id, request) =>
      (id < requestCount s)%nat
      /\ keyed_by (client s) cfg (GetErrRequest.files request)
      /\ wf (GetErrRequest.files request)
  | None => True
  end ->
  orch_inv cfg (with_pendingGetErr s x).
Proof.
  intros (A & B & C & D & E & F & G & H & I & J) Hx.
  unfold orch_inv. cbn. repeat (split; [assumption|]). exact Hx.
Qed.

Lemma inv_synchronizer cfg (s : t) (x : BufferSynchronizer.t) :
  orch_inv cfg s -> sync_inv (client s) cfg x ->
  orch_inv cfg (with_synchronizer s x).
Proof.
  intros (A & B & C & D & E & F & G & H & I & J) (Hc & Hk & Hw).
  unfold orch_inv. cbn. change (Orchestrator.client _) with (BufferSynchronizer.client x).
  split; [now apply (keyed_by_same_client (client s))|].
  split; [now apply (keyed_by_same_client (client s))|].
  split; [now apply (keyed_by_same_client (client s))|].
  split; [now apply (keyed_by_same_client (client s))|].
  repeat (split; [assumption|]).
  split.
  - eapply Forall_impl; [|exact I].
    intros e. now apply tracked_ok_same_client.
  - destruct (pendingGetErr s) as [[id request]|]; [|exact I0 || exact J].
    destruct J as (J1 & J2 & J3).
    split; [assumption|]. split; [|assumption].
    now apply (keyed_by_same_client (client s)).
Qed.

Lemma inv_sync_of cfg (s : t) :
  orch_inv cfg s -> sync_inv (client s) cfg (synchronizer s).
Proof.
  intros (A & B & C & D & E & F & G & H & I & J).
  split; [apply same_client_refl|]. now split.
Qed.

Lemma inv_core cfg (s : t) (b : SyncedBuffer.t) (now : Z) :
  orch_inv cfg s -> orch_inv cfg (fst (requestDiagnostic s b now)).
Proof.
  intros Hinv. unfold requestDiagnostic, BufferSyncSupport.requestDiagnostic.
  destruct (negb (BufferSyncSupport.shouldValidate (core s) b)); cbn.
  - destruct Hinv as (A & B & C & D & E & F & G & H & I & J).
    unfold orch_inv. cbn. repeat (split; [assumption|]). exact J.
  - apply inv_diagnosticDelayer. apply inv_pendingDiagnostics; [exact Hinv | |].
    + apply keyed_by_set. exact (proj1 (proj2 Hinv)).
    + apply wf_set.
      destruct Hinv as (A & B & C & D & E & F & G & H & I & J). exact F.
Qed.

Lemma inv_triggerDiagnostics cfg (s : t) (delay : Z) :
  orch_inv cfg s -> orch_inv cfg (triggerDiagnostics s delay).
Proof.
  intros (A & B & C & D & E & F & G & H & I & J).
  unfold orch_inv. cbn. repeat (split; [assumption|]). exact J.
Qed.

Lemma inv_cancelGetErr cfg (s : t) :
  orch_inv cfg s -> orch_inv cfg (cancelGetErr s).
Proof.
  intros Hinv. unfold cancelGetErr.
  destruct (pendingGetErr s) as [[id request]|] eqn:E; [|exact Hinv].
  apply inv_pendingGetErr; [exact Hinv|].
  destruct Hinv as (_ & _ & _ & _ & _ & _ & _ & _ & _ & J).
  rewrite E in J. exact J.
Qed.

Lemma inv_dropFromGetErr cfg (s : t) (r : Uri) :
  orch_inv cfg s -> orch_inv cfg (dropFromGetErr s r).
Proof.
  intros Hinv. unfold dropFromGetErr.
  destruct (pendingGetErr s) as [[id request]|] eqn:E; [|exact Hinv].
  apply inv_pendingGetErr; [exact Hinv|].
  destruct Hinv as (_ & _ & _ & _ & _ & _ & _ & _ & _ & J).
  rewrite E in J. destruct J as (J1 & J2 & J3). cbn.
  split; [assumption|].
  split; [now apply keyed_by_delete | now apply wf_delete].
Qed.

Lemma inv_clearGetErr cfg (s : t) :
  orch_inv cfg s -> orch_inv cfg (with_pendingGetErr s None).
Proof. intros Hinv. now apply inv_pendingGetErr. Qed.

End OrchestratorFrames.

Section TrackerKeyed.
Import TabResourceTracker.

Lemma keyed_by_add_uri c cfg (tab : Tab) (tr : t) (acc : list Uri) (u : Uri) :
  keyed_by c cfg (_tabResources tr) ->
  keyed_by c cfg (_tabResources (fst (add_uri tab (tr, acc) u))).
Proof.
  intros H. unfold add_uri.
  destruct (ResourceMap.get (_tabResources tr) u); cbn; now apply keyed_by_set.
Qed.

Lemma keyed_by_delete_uri c cfg (tab : Tab) (tr : t) (acc : list Uri) (u : Uri) :
  keyed_by c cfg (_tabResources tr) ->
  keyed_by c cfg (_tabResources (fst (delete_uri tab (tr, acc) u))).
Proof.
  intros H. unfold delete_uri.
  destruct (ResourceMap.get (_tabResources tr) u) as [entry|]; cbn; [|exact H].
  destruct (TabSet.size (TabSet.delete (tabs entry) tab) =? 0)%nat; cbn;
    [now apply keyed_by_delete | now apply keyed_by_set].
Qed.

Lemma keyed_by_add c cfg (tr : t) (tab : Tab) :
  keyed_by c cfg (_tabResources tr) ->
  keyed_by c cfg (_tabResources (fst (add tr tab))).
Proof.
  unfold add. generalize (@nil Uri). revert tr.
  induction (getResourcesForTab tab) as [|u uris IH]; intros tr acc H;
    [exact H|].
  cbn [fold_left].
  pose proof (keyed_by_add_uri c cfg tab tr acc u H) as H1.
  destruct (add_uri tab (tr, acc) u) as [tr1 acc1]. now apply IH.
Qed.

Lemma keyed_by_delete_tab c cfg (tr : t) (tab : Tab) :
  keyed_by c cfg (_tabResources tr) ->
  keyed_by c cfg (_tabResources (fst (delete tr tab))).
Proof.
  unfold delete. generalize (@nil Uri). revert tr.
  induction (getResourcesForTab tab) as [|u uris IH]; intros tr acc H;
    [exact H|].
  cbn [fold_left].
  pose proof (keyed_by_delete_uri c cfg tab tr acc u H) as H1.
  destruct (delete_uri tab (tr, acc) u) as [tr1 acc1]. now apply IH.
Qed.

Lemma flatMap_tabs_inv c cfg (f : t -> Tab -> t * list Uri) (l : list Tab) :
  (forall tr tab,
     tracker_inv tr /\ keyed_by c cfg (_tabResources tr) ->
     tracker_inv (fst (f tr tab))
     /\ keyed_by c cfg (_tabResources (fst (f tr tab)))) ->
  forall tr,
    tracker_inv tr /\ keyed_by c cfg (_tabResources tr) ->
    tracker_inv (fst (flatMap_tabs f tr l))
    /\ keyed_by c cfg (_tabResources (fst (flatMap_tabs f tr l))).
Proof.
  intros Hf. unfold flatMap_tabs. generalize (@nil Uri).
  induction l as [|tab l IH]; intros acc tr H; [exact H|].
  cbn [fold_left fst snd].
  pose proof (Hf tr tab H) as H1.
  destruct (f tr tab) as [tr1 uris]. cbn [fst] in H1. now apply IH.
Qed.

Lemma onDidChangeTabs_inv c cfg (tr : t) (e : TabChangeEvent) :
  tracker_inv tr -> keyed_by c cfg (_tabResources tr) ->
  tracker_inv (fst (onDidChangeTabs tr e))
  /\ keyed_by c cfg (_tabResources (fst (onDidChangeTabs tr e))).
Proof.
  intros Hi Hk. unfold onDidChangeTabs.
  pose proof (flatMap_tabs_inv c cfg delete (ev_closed e)
                (fun tr' tab H =>
                   conj (proj1 (delete_all tab _ tr' [] (proj1 H)))
                        (keyed_by_delete_tab c cfg tr' tab (proj2 H)))
                tr (conj Hi Hk)) as H1.
  destruct (flatMap_tabs delete tr (ev_closed e)) as [tr1 closed].
  cbn [fst] in H1.
  pose proof (flatMap_tabs_inv c cfg add (ev_opened e)
                (fun tr' tab H =>
                   conj (proj1 (add_all tab _ tr' [] (proj1 H)))
                        (keyed_by_add c cfg tr' tab (proj2 H)))
                tr1 H1) as H2.
  destruct (flatMap_tabs add tr1 (ev_opened e)) as [tr2 opened].
  exact H2.
Qed.

Lemma create_tracker_inv c cfg (allTabs : list Tab) :
  tracker_inv (create (Client.toTsFilePath c) cfg allTabs)
  /\ keyed_by c cfg (_tabResources (create (Client.toTsFilePath c) cfg allTabs)).
Proof.
  unfold create.
  assert (H0 : tracker_inv (mk (ResourceMap.create (Client.toTsFilePath c) cfg))
               /\ keyed_by c cfg
                    (_tabResources
                       (mk (ResourceMap.create (Client.toTsFilePath c) cfg))))
    by (split; [apply tracker_inv_empty | now split]).
  revert H0. generalize (mk (ResourceMap.create (Client.toTsFilePath c) cfg)).
  induction allTabs as [|tab l IH]; intros tr H; [exact H|].
  cbn [fold_left]. apply IH. split.
  - exact (proj1 (add_all tab _ tr [] (proj1 H))).
  - exact (keyed_by_add c cfg tr tab (proj2 H)).
Qed.

End TrackerKeyed.

Section OrchestratorInvariant.
Import Orchestrator.

Lemma fold_inv {A : Type} cfg (step : t * nat -> A -> t * nat) (l : list A) :
  (forall s i a, orch_inv cfg s -> orch_inv cfg (fst (step (s, i) a))) ->
  forall s i, orch_inv cfg s -> orch_inv cfg (fst (fold_left step l (s, i))).
Proof.
  intros Hstep. induction l as [|a l IH]; intros s i H; [exact H|].
  cbn [fold_left]. pose proof (Hstep s i a H) as H1.
  destruct (step (s, i) a) as [s1 i1]. now apply IH.
Qed.

Lemma inv_pending_set cfg (s : t) (r : Uri) (time : Z) :
  orch_inv cfg s ->
  orch_inv cfg
    (with_pendingDiagnostics s (ResourceMap.set (pendingDiagnostics s) r time)).
Proof.
  intros Hinv. apply inv_pendingDiagnostics; [exact Hinv | |].
  - apply keyed_by_set. exact (proj1 (proj2 Hinv)).
  - apply wf_set. destruct Hinv as (A & B & C & D & E & F & _). exact F.
Qed.

Lemma inv_pending_delete cfg (s : t) (r : Uri) :
  orch_inv cfg s ->
  orch_inv cfg
    (with_pendingDiagnostics s (ResourceMap.delete (pendingDiagnostics s) r)).
Proof.
  intros Hinv. apply inv_pendingDiagnostics; [exact Hinv | |].
  - apply keyed_by_delete. exact (proj1 (proj2 Hinv)).
  - apply wf_delete. destruct Hinv as (A & B & C & D & E & F & _). exact F.
Qed.

Lemma inv_pending_clear cfg (s : t) :
  orch_inv cfg s ->
  orch_inv cfg
    (with_pendingDiagnostics s (ResourceMap.clear (pendingDiagnostics s))).
Proof.
  intros Hinv. apply inv_pendingDiagnostics; [exact Hinv | | apply wf_clear].
  exact (proj1 (proj2 Hinv)).
Qed.

Lemma inv_requestAllDiagnostics cfg (s : t) (times : nat -> Z) :
  orch_inv cfg s -> orch_inv cfg (requestAllDiagnostics s times).
Proof.
  intros Hinv. unfold requestAllDiagnostics.
  apply inv_triggerDiagnostics. apply fold_inv; [|exact Hinv].
  intros s' i b H. unfold requestAll_step. cbn [fst].
  destruct (shouldValidate s' b); [now apply inv_pending_set | exact H].
Qed.

Lemma inv_getErr cfg (s : t) (resources : list Uri) (times : nat -> Z) :
  orch_inv cfg s -> orch_inv cfg (getErr s resources times).
Proof.
  intros Hinv. unfold getErr.
  destruct (filter (handles s) resources) as [|r rs]; [exact Hinv|].
  apply inv_triggerDiagnostics. apply fold_inv; [|exact Hinv].
  intros s' i r' H. unfold getErr_step. cbn [fst]. now apply inv_pending_set.
Qed.

Lemma inv_reset cfg (s : t) : orch_inv cfg s -> orch_inv cfg (reset s).
Proof.
  intros Hinv. unfold reset.
  assert (E1 : pendingDiagnostics (cancelGetErr s) = pendingDiagnostics s)
    by (unfold cancelGetErr; now destruct (pendingGetErr s) as [[? ?]|]).
  assert (E2 : synchronizer (cancelGetErr s) = synchronizer s)
    by (unfold cancelGetErr; now destruct (pendingGetErr s) as [[? ?]|]).
  rewrite <- E1.
  apply inv_synchronizer.
  - apply inv_pending_clear. now apply inv_cancelGetErr.
  - apply sync_inv_reset. unfold client. cbn [synchronizer with_pendingDiagnostics].
    rewrite E2. now apply inv_sync_of.
Qed.

Lemma inv_beforeCommand cfg (s : t) (command : string) :
  orch_inv cfg s -> orch_inv cfg (beforeCommand s command).
Proof.
  intros Hinv. apply inv_synchronizer; [exact Hinv|].
  apply sync_inv_beforeCommand. now apply inv_sync_of.
Qed.

Lemma inv_onGetErrDone cfg (s : t) (id : nat) :
  orch_inv cfg s -> orch_inv cfg (onGetErrDone s id).
Proof.
  intros Hinv. unfold onGetErrDone.
  destruct (pendingGetErr s) as [[id' request]|]; [|exact Hinv].
  destruct (Nat.eqb id' id); [now apply inv_clearGetErr | exact Hinv].
Qed.

Lemma inv_updateConfiguration cfg (s : t) (js ts : bool) :
  orch_inv cfg s -> orch_inv cfg (updateConfiguration s js ts).
Proof. intros H. exact H. Qed.

End OrchestratorInvariant.

Section OrchestratorHandlers.
Import Orchestrator.

Lemma entries_set_new {T : Type} (m : ResourceMap.t T) (u : Uri) (v : T) :
  ResourceMap.has m u = false -> resolves m u ->
  ResourceMap.entries (ResourceMap.set m u v)
  = ResourceMap.entries m ++ [ResourceMap.mkEntry u v].
Proof.
  intros Hhas (file & K & Ht).
  rewrite (has_resolved _ _ _ K Ht) in Hhas. unfold JsMap.has in Hhas.
  destruct (JsMap.get (ResourceMap._map m) file) eqn:G; [discriminate|].
  unfold ResourceMap.entries, JsMap.values.
  rewrite (set_resolved _ _ _ _ K Ht), G, JsMap_set_new by assumption.
  now rewrite map_app.
Qed.

(** [openTextDocument] on a document that is accepted and new. *)
Lemma openTextDocument_new (s : t) (d : TextDocument) (now : Z)
  (filepath : string) :
  existsb (LanguageId_eqb (languageId d)) (modeIds s) = true ->
  Client.toTsFilePath (client s) (uri d) = Some filepath ->
  JsString.truthy filepath = true ->
  ResourceMap.has (syncedBuffers s) (uri d) = false ->
  let b0 := SyncedBuffer.create d filepath in
  let opened := SyncedBuffer.with_state b0 BufferState.Open in
  openTextDocument s d now
  = (fst (requestDiagnostic
            (with_synchronizer
               (with_syncedBuffers s
                  (ResourceMap.set (syncedBuffers s) (uri d) opened))
               (BufferSynchronizer.open (synchronizer s) (uri d)
                  (spec_openArgs b0 (client s))))
            opened now),
     true).
Proof.
  intros Hm Hp Ht Hh b0 opened. unfold openTextDocument.
  rewrite Hm, Hp, Ht, Hh. reflexivity.
Qed.

Lemma inv_openTextDocument cfg (s : t) (d : TextDocument) (now : Z) :
  orch_inv cfg s -> orch_inv cfg (fst (openTextDocument s d now)).
Proof.
  intros Hinv.
  destruct (existsb (LanguageId_eqb (languageId d)) (modeIds s)) eqn:Hm;
    [|unfold openTextDocument; now rewrite Hm].
  destruct (Client.toTsFilePath (client s) (uri d)) as [filepath|] eqn:Hp;
    [|unfold openTextDocument; now rewrite Hm, Hp].
  destruct (JsString.truthy filepath) eqn:Ht;
    [|unfold openTextDocument; now rewrite Hm, Hp, Ht].
  destruct (ResourceMap.has (syncedBuffers s) (uri d)) eqn:Hh;
    [unfold openTextDocument; now rewrite Hm, Hp, Ht, Hh|].
  rewrite (openTextDocument_new s d now filepath Hm Hp Ht Hh). cbn [fst].
  apply inv_core. apply inv_synchronizer.
  - pose proof Hinv as (A & _ & _ & _ & E & _ & _ & _ & I & _).
    apply inv_syncedBuffers; [exact Hinv | now apply keyed_by_set
                             | now apply wf_set |].
    rewrite entries_set_new;
      [|exact Hh | exact (keyed_by_resolves _ _ _ _ _ A Hp Ht)].
    apply Forall_app. split; [exact I|].
    constructor; [|constructor]. now repeat split.
  - apply sync_inv_open. exact (inv_sync_of cfg s Hinv).
Qed.

(** [closeResource] on a resource that is tracked. *)
Lemma closeResource_tracked (s : t) (r : Uri) (times : nat -> Z)
  (b : SyncedBuffer.t) :
  ResourceMap.get (syncedBuffers s) r = Some b ->
  let s2 :=
    dropFromGetErr
      (with_pendingDiagnostics s
         (ResourceMap.delete (pendingDiagnostics s) r)) r in
  let s3 := with_syncedBuffers s2 (ResourceMap.delete (syncedBuffers s2) r) in
  let closed := SyncedBuffer.close b (synchronizer s3) in
  let s4 := fire (with_synchronizer s3 (snd (fst closed))) (Fired_onDelete r) in
  closeResource s r times
  = if snd closed then requestAllDiagnostics s4 times else s4.
Proof.
  intros G s2 s3 closed s4. unfold closeResource. rewrite G.
  fold s2. fold s3. unfold s4, closed.
  now destruct (SyncedBuffer.close b (synchronizer s3)) as [[b' sync] w].
Qed.

Lemma inv_closeResource cfg (s : t) (r : Uri) (times : nat -> Z) :
  orch_inv cfg s -> orch_inv cfg (closeResource s r times).
Proof.
  intros Hinv.
  destruct (ResourceMap.get (syncedBuffers s) r) as [b|] eqn:G;
    [|unfold closeResource; now rewrite G].
  rewrite (closeResource_tracked s r times b G).
  set (s2 := dropFromGetErr _ r).
  assert (H2 : orch_inv cfg s2)
    by (apply inv_dropFromGetErr; now apply inv_pending_delete).
  set (s3 := with_syncedBuffers s2 _).
  assert (H3 : orch_inv cfg s3).
  { pose proof H2 as (A & _ & _ & _ & E & _ & _ & _ & I & _).
    apply inv_syncedBuffers; [exact H2 | now apply keyed_by_delete
                             | now apply wf_delete |].
    rewrite Forall_forall in *. intros e He. apply I.
    now apply entries_delete_in in He. }
  assert (H4 : orch_inv cfg
                 (fire (with_synchronizer s3
                          (snd (fst (SyncedBuffer.close b (synchronizer s3)))))
                    (Fired_onDelete r))).
  { apply inv_fire. apply inv_synchronizer; [exact H3|].
    apply sync_inv_buffer_close. now apply inv_sync_of. }
  destruct (snd (SyncedBuffer.close b (synchronizer s3)));
    [now apply inv_requestAllDiagnostics | exact H4].
Qed.

Lemma inv_onDidChangeTextDocument cfg (s : t) (u : Uri)
  (changes : list lsp.TextDocumentContentChangeEvent) (now : Z) :
  orch_inv cfg s -> orch_inv cfg (onDidChangeTextDocument s u changes now).
Proof.
  intros Hinv. unfold onDidChangeTextDocument.
  destruct (ResourceMap.get (syncedBuffers s) u) as [b|]; [|exact Hinv].
  set (s1 := with_synchronizer _ _).
  assert (H1 : orch_inv cfg s1).
  { apply inv_synchronizer; [now apply inv_fire|].
    unfold SyncedBuffer.onContentChanged. cbn [fst].
    apply sync_inv_change. now apply (inv_sync_of cfg (fire s _)). }
  pose proof (inv_core cfg s1 b now H1) as H2.
  destruct (requestDiagnostic s1 b now) as [s2 didTrigger]. cbn [fst] in H2.
  destruct didTrigger; [exact H2|].
  destruct (pendingGetErr s2) as [[id request]|] eqn:E; [|exact H2].
  apply inv_triggerDiagnostics, inv_clearGetErr. now apply inv_cancelGetErr.
Qed.

Lemma inv_tabs_opened_step cfg (times : nat -> Z) (s : t) (i : nat) (u : Uri) :
  orch_inv cfg s -> orch_inv cfg (fst (tabs_opened_step times (s, i) u)).
Proof.
  intros H. unfold tabs_opened_step. cbn [fst].
  destruct (ResourceMap.get (syncedBuffers s) u); [now apply inv_core | exact H].
Qed.

Lemma inv_onDidChangeVisibleTextEditors cfg (s : t) (docs : list Uri)
  (times : nat -> Z) :
  orch_inv cfg s -> orch_inv cfg (onDidChangeVisibleTextEditors s docs times).
Proof.
  intros H. unfold onDidChangeVisibleTextEditors.
  apply fold_inv; [|exact H]. intros. now apply inv_tabs_opened_step.
Qed.

Lemma inv_onTabsChanged cfg (s : t) (e : TabResourceTracker.ChangeEvent)
  (times : nat -> Z) :
  orch_inv cfg s -> orch_inv cfg (onTabsChanged s e times).
Proof.
  intros H. unfold onTabsChanged.
  destruct (Client.enableProjectDiagnostics (client s)); [exact H|].
  apply fold_inv; [intros; now apply inv_tabs_opened_step|].
  revert s H. induction (TabResourceTracker.closed e) as [|u l IH];
    intros s H; [exact H|].
  cbn [fold_left]. apply IH. unfold tabs_closed_step.
  destruct (ResourceMap.get (syncedBuffers s) u); [|exact H].
  apply inv_dropFromGetErr. now apply inv_pending_delete.
Qed.

Lemma inv_onDidChangeTabs cfg (s : t) (e : TabResourceTracker.TabChangeEvent)
  (times : nat -> Z) :
  orch_inv cfg s -> orch_inv cfg (onDidChangeTabs s e times).
Proof.
  intros Hinv. unfold onDidChangeTabs.
  pose proof Hinv as (_ & _ & _ & D & _ & _ & _ & H & _).
  pose proof (onDidChangeTabs_inv (client s) cfg (_tabResources s) e H D)
    as [H1 H2].
  destruct (TabResourceTracker.onDidChangeTabs (_tabResources s) e)
    as [tabs fired']. cbn [fst] in H1, H2.
  assert (H3 : orch_inv cfg (with_tabResources s tabs))
    by now apply inv_tabResources.
  destruct fired'; [now apply inv_onTabsChanged | exact H3].
Qed.

Lemma inv_listen cfg (s : t) (docs : list TextDocument) (times : nat -> Z) :
  orch_inv cfg s -> orch_inv cfg (listen s docs times).
Proof.
  intros H. unfold listen. destruct (listening s); [exact H|].
  apply fold_inv; [|exact H].
  intros s' i d H'. unfold listen_step. cbn [fst].
  now apply inv_openTextDocument.
Qed.

End OrchestratorHandlers.

Section OrchestratorInvariantRun.
Import Orchestrator.

Lemma fold_keeps {A : Type} c cfg
  (f : ResourceMap.t unit -> A -> ResourceMap.t unit) (l : list A) :
  (forall o a, keyed_by c cfg o /\ wf o -> keyed_by c cfg (f o a) /\ wf (f o a)) ->
  forall o, keyed_by c cfg o /\ wf o ->
            keyed_by c cfg (fold_left f l o) /\ wf (fold_left f l o).
Proof.
  intros Hf. induction l as [|a l IH]; intros o H; [exact H|].
  cbn [fold_left]. apply IH. now apply Hf.
Qed.

Lemma set_keeps c cfg (o : ResourceMap.t unit) (r : Uri) :
  keyed_by c cfg o /\ wf o ->
  keyed_by c cfg (ResourceMap.set o r tt) /\ wf (ResourceMap.set o r tt).
Proof. intros [Hk Hw]. split; [now apply keyed_by_set | now apply wf_set]. Qed.

Lemma getOrderedFileSet_ok c cfg (m : PendingDiagnostics.t) :
  keyed_by c cfg m ->
  keyed_by c cfg (PendingDiagnostics.getOrderedFileSet m)
  /\ wf (PendingDiagnostics.getOrderedFileSet m).
Proof.
  intros [Hn Hc]. unfold PendingDiagnostics.getOrderedFileSet.
  apply fold_keeps; [intros; now apply set_keeps|].
  split; [now split | apply wf_create].
Qed.

Lemma orderedFileSet_ok cfg (s : t) :
  orch_inv cfg s ->
  keyed_by (client s) cfg (orderedFileSet s) /\ wf (orderedFileSet s).
Proof.
  intros (_ & B & _). unfold orderedFileSet.
  apply fold_keeps; [intros; now apply set_keeps|].
  pose proof (getOrderedFileSet_ok (client s) cfg (pendingDiagnostics s) B) as H0.
  destruct (pendingGetErr s) as [[id request]|]; [|exact H0].
  apply fold_keeps; [|exact H0].
  intros o e H.
  destruct (ResourceMap.get (syncedBuffers s) (ResourceMap.resource e));
    [now apply set_keeps | exact H].
Qed.

Lemma files_executeGetErrRequest (c : Client.t) (files : ResourceMap.t unit) :
  GetErrRequest.files (GetErrRequest.executeGetErrRequest c files) = files.
Proof.
  unfold GetErrRequest.executeGetErrRequest.
  destruct (negb _); [reflexivity|].
  now destruct (GetErrRequest.allFiles c files).
Qed.

Lemma cancelGetErr_fields (s : t) :
  synchronizer (cancelGetErr s) = synchronizer s
  /\ syncedBuffers (cancelGetErr s) = syncedBuffers s
  /\ pendingDiagnostics (cancelGetErr s) = pendingDiagnostics s
  /\ _tabResources (cancelGetErr s) = _tabResources s
  /\ requestCount (cancelGetErr s) = requestCount s
  /\ diagnosticDelayer (cancelGetErr s) = diagnosticDelayer s
  /\ fired (cancelGetErr s) = fired s.
Proof.
  unfold cancelGetErr. destruct (pendingGetErr s) as [[id request]|];
    repeat split.
Qed.

Lemma inv_sendPendingDiagnostics cfg (s : t) :
  orch_inv cfg s -> orch_inv cfg (sendPendingDiagnostics s).
Proof.
  intros Hinv. unfold sendPendingDiagnostics.
  destruct (orderedFileSet_ok cfg s Hinv) as [Hk Hw].
  set (s1 := with_pendingGetErr (cancelGetErr s) None).
  assert (H1 : orch_inv cfg s1)
    by (apply inv_clearGetErr; now apply inv_cancelGetErr).
  assert (Ec : client s1 = client s).
  { unfold client, s1. cbn. now rewrite (proj1 (cancelGetErr_fields s)). }
  destruct (0 <? ResourceMap.size (orderedFileSet s))%nat.
  - apply (inv_pending_clear cfg
             (mk (synchronizer s1) (_validateJavaScript s1)
                (_validateTypeScript s1) (modeIds s1) (syncedBuffers s1)
                (pendingDiagnostics s1) (diagnosticDelayer s1)
                (Some (requestCount s1,
                       GetErrRequest.executeGetErrRequest (client s1)
                         (orderedFileSet s)))
                (S (requestCount s1)) (listening s1) (_tabResources s1)
                (fired s1))).
    destruct H1 as (A & B & C & D & E & F & G & H & I & _).
    unfold orch_inv. cbn [synchronizer syncedBuffers pendingDiagnostics
                            _tabResources pendingGetErr requestCount].
    change (Orchestrator.client (mk (synchronizer s1) _ _ _ _ _ _ _ _ _ _ _))
      with (client s1).
    repeat (split; [assumption|]).
    rewrite files_executeGetErrRequest, Ec.
    split; [lia|]. now split.
  - now apply inv_pending_clear.
Qed.

Lemma reopen_step_eq
  (done : JsMap.t (ResourceMap.Entry SyncedBuffer.t))
  (sync : BufferSynchronizer.t)
  (kv : string * ResourceMap.Entry SyncedBuffer.t) :
  reopen_step (done, sync) kv
  = (done
     ++ [(fst kv,
          ResourceMap.mkEntry (ResourceMap.resource (snd kv))
            (SyncedBuffer.with_state (ResourceMap.value (snd kv))
               BufferState.Open))],
     snd (SyncedBuffer.open (ResourceMap.value (snd kv)) sync)).
Proof. reflexivity. Qed.

Lemma reopen_fold c0 cfg (l : JsMap.t (ResourceMap.Entry SyncedBuffer.t)) :
  forall done sync,
    fst (fold_left reopen_step l (done, sync))
    = done
      ++ map (fun kv =>
                (fst kv,
                 ResourceMap.mkEntry (ResourceMap.resource (snd kv))
                   (SyncedBuffer.with_state (ResourceMap.value (snd kv))
                      BufferState.Open)))
           l
    /\ (sync_inv c0 cfg sync ->
        sync_inv c0 cfg (snd (fold_left reopen_step l (done, sync)))).
Proof.
  induction l as [|kv l IH]; intros done sync; cbn [fold_left map].
  - split; [now rewrite app_nil_r | auto].
  - rewrite reopen_step_eq.
    destruct (IH (done
                  ++ [(fst kv,
                       ResourceMap.mkEntry (ResourceMap.resource (snd kv))
                         (SyncedBuffer.with_state (ResourceMap.value (snd kv))
                            BufferState.Open))])
                (snd (SyncedBuffer.open (ResourceMap.value (snd kv)) sync)))
      as [E1 E2].
    split.
    + etransitivity; [exact E1|]. now rewrite <- app_assoc.
    + intros H. apply E2. now apply sync_inv_buffer_open.
Qed.

Lemma inv_reinitialize cfg (s : t) :
  orch_inv cfg s -> orch_inv cfg (reinitialize s).
Proof.
  intros Hinv. unfold reinitialize.
  pose proof (inv_reset cfg s Hinv) as H1.
  set (s1 := reset s) in *.
  destruct (reopen_fold (client s1) cfg (ResourceMap._map (syncedBuffers s1))
              [] (synchronizer s1)) as [E1 E2].
  match goal with
  | |- context [fold_left reopen_step ?l ?a] =>
      remember (fold_left reopen_step l a) as res eqn:Er
  end.
  assert (E1' : fst res
                = map (fun kv =>
                         (fst kv,
                          ResourceMap.mkEntry (ResourceMap.resource (snd kv))
                            (SyncedBuffer.with_state (ResourceMap.value (snd kv))
                               BufferState.Open)))
                    (ResourceMap._map (syncedBuffers s1)))
    by (rewrite Er; exact E1).
  assert (E2' : sync_inv (client s1) cfg (synchronizer s1) ->
                sync_inv (client s1) cfg (snd res))
    by (rewrite Er; exact E2).
  clear E1 E2 Er. destruct res as [buffers sync].
  cbn [fst snd] in E1', E2'. subst buffers. rename E2' into E2.
  pose proof H1 as (A & _ & _ & _ & E & _ & _ & _ & I & _).
  apply inv_synchronizer.
  - apply inv_syncedBuffers; [exact H1 | exact A | |].
    + destruct E as [En Ek]. split.
      * unfold JsMap.keys. cbn. now rewrite map_map.
      * unfold keyed in *. cbn. rewrite Forall_map.
        eapply Forall_impl; [|exact Ek]. intros kv H. exact H.
    + unfold ResourceMap.entries, JsMap.values in *. cbn.
      rewrite map_map. cbn. rewrite Forall_map in *.
      eapply Forall_impl; [|exact I].
      intros kv (P & Q & R & S). now repeat split.
  - apply E2. now apply inv_sync_of.
Qed.

Lemma inv_create (client : Client.t) (modeIds : list LanguageId)
  (flag : bool) (allTabs : list Tab) (js ts : bool) :
  orch_inv {| onCaseInsensitiveFileSystem := flag |}
    (create client modeIds flag allTabs js ts).
Proof.
  unfold orch_inv, create. cbn.
  change (Orchestrator.client _) with client.
  destruct (create_tracker_inv client {| onCaseInsensitiveFileSystem := flag |}
              allTabs) as [Hi Hk].
  split; [now split|]. split; [now split|]. split; [now split|].
  split; [exact Hk|].
  split; [apply wf_create|]. split; [apply wf_create|].
  split; [apply wf_create|]. split; [exact Hi|].
  split; [constructor | exact I].
Qed.

Lemma inv_apply cfg (s : t) (e : OrchOps.Event) :
  orch_inv cfg s -> orch_inv cfg (OrchOps.apply s e).
Proof.
  intros H. destruct e; cbn.
  - now apply inv_openTextDocument.
  - now apply inv_closeResource.
  - now apply inv_onDidChangeTextDocument.
  - now apply inv_reset.
  - now apply inv_reinitialize.
  - now apply inv_beforeCommand.
  - now apply inv_requestAllDiagnostics.
  - now apply inv_getErr.
  - now apply inv_sendPendingDiagnostics.
  - now apply inv_onGetErrDone.
  - now apply inv_onDidChangeTabs.
  - now apply inv_onDidChangeVisibleTextEditors.
  - now apply inv_listen.
  - now apply inv_updateConfiguration.
Qed.

Lemma inv_run cfg (events : list OrchOps.Event) :
  forall s, orch_inv cfg s -> orch_inv cfg (OrchOps.run s events).
Proof.
  induction events as [|e events IH]; intros s H; [exact H|].
  cbn [OrchOps.run fold_left]. apply IH. now apply inv_apply.
Qed.

End OrchestratorInvariantRun.

Section OrchestratorFacts.
Import Orchestrator.

Lemma NoDup_entry_keys {T : Type} (m : ResourceMap.t T) :
  wf m ->
  NoDup (map (fun e => ResourceMap.toKey m (ResourceMap.resource e))
           (ResourceMap.entries m)).
Proof.
  intros W. rewrite (keys_of_entries _ W).
  generalize (JsMap.keys (ResourceMap._map m)) (proj1 W).
  intros ks Hks. induction Hks as [|k ks Hnot _ IH]; cbn; constructor;
    [|exact IH].
  rewrite in_map_iff. intros (k' & [= ->] & Hk'). contradiction.
Qed.

Lemma has_path {T : Type} (c : Client.t) (cfg : Config) (m : ResourceMap.t T)
  (r : Uri) :
  keyed_by c cfg m -> ResourceMap.has m r = true ->
  exists filepath,
    Client.toTsFilePath c r = Some filepath
    /\ JsString.truthy filepath = true.
Proof.
  intros [Hn _] Hh. unfold ResourceMap.has in Hh.
  destruct (ResourceMap.toKey m r) as [file|] eqn:K; [|discriminate].
  apply andb_prop in Hh as [Ht _].
  unfold ResourceMap.toKey in K.
  destruct (ResourceMap._normalizePath m r) as [p|] eqn:Hp; [|discriminate].
  exists p. split; [now rewrite <- Hn|].
  destruct (JsString.truthy p) eqn:Htp; [reflexivity|].
  cbn in K. injection K as <-. congruence.
Qed.

End OrchestratorFacts.

(** X20. What the orchestrator keeps. After any sequence of events on a new
    orchestrator: every tracked buffer is stored under its own URI, has the
    TS path of that URI as its file path, is open, and is found through its
    URI; no two tracked buffers have URIs of one key; a URI is handled only
    if it has a TS path; the four maps give a URI the same key; and the
    identity of the pending request is below the request count. *)
Theorem X20_orchestrator_invariant (client : Client.t)
  (modeIds : list LanguageId) (onCaseInsensitiveFileSystem : bool)
  (allTabs : list Tab) (js ts : bool) (events : list OrchOps.Event) :
  let s :=
    OrchOps.run
      (Orchestrator.create client modeIds onCaseInsensitiveFileSystem allTabs
         js ts)
      events in
  let c := Orchestrator.client s in
  (forall e, In e (ResourceMap.entries (Orchestrator.syncedBuffers s)) ->
     SyncedBuffer.resource (ResourceMap.value e) = ResourceMap.resource e
     /\ Client.toTsFilePath c (ResourceMap.resource e)
        = Some (SyncedBuffer.filepath (ResourceMap.value e))
     /\ JsString.truthy (SyncedBuffer.filepath (ResourceMap.value e)) = true
     /\ SyncedBuffer.state (ResourceMap.value e) = BufferState.Open
     /\ ResourceMap.get (Orchestrator.syncedBuffers s) (ResourceMap.resource e)
        = Some (ResourceMap.value e))
  /\ NoDup
       (map (fun e => ResourceMap.toKey (Orchestrator.syncedBuffers s)
                        (ResourceMap.resource e))
          (ResourceMap.entries (Orchestrator.syncedBuffers s)))
  /\ (forall r, Orchestrator.handles s r = true ->
        exists filepath,
          Client.toTsFilePath c r = Some filepath
          /\ JsString.truthy filepath = true)
  /\ (forall r,
        ResourceMap.toKey (Orchestrator.pendingDiagnostics s) r
        = ResourceMap.toKey (Orchestrator.syncedBuffers s) r
        /\ ResourceMap.toKey
             (BufferSynchronizer._pending (Orchestrator.synchronizer s)) r
           = ResourceMap.toKey (Orchestrator.syncedBuffers s) r
        /\ ResourceMap.toKey
             (TabResourceTracker._tabResources (Orchestrator._tabResources s)) r
           = ResourceMap.toKey (Orchestrator.syncedBuffers s) r)
  /\ (forall id request,
        Orchestrator.pendingGetErr s = Some (id, request) ->
        (id < Orchestrator.requestCount s)%nat).
Proof.
  intros s c.
  assert (Hinv : orch_inv (Build_Config onCaseInsensitiveFileSystem) s)
    by (apply inv_run, inv_create).
  destruct Hinv as (A & B & C & D & E & F & G & H & I & J).
  fold c in A, B, C, D, I, J.
  split; [|split; [|split; [|split]]].
  - intros e He. rewrite Forall_forall in I. destruct (I e He) as (P & Q & R & S).
    repeat (split; [assumption|]).
    exact (proj1 (get_entry _ e E He)).
  - now apply NoDup_entry_keys.
  - intros r Hr. exact (has_path c _ _ r A Hr).
  - intros r.
    split; [exact (keyed_by_toKey c _ _ _ r A B)|].
    split; [exact (keyed_by_toKey c _ _ _ r A C)
           | exact (keyed_by_toKey c _ _ _ r A D)].
  - intros id request Hp. rewrite Hp in J. exact (proj1 J).
Qed.

Section OrchestratorOpen.
Import Orchestrator.

Lemma requestDiagnostic_frame (s : t) (b : SyncedBuffer.t) (now : Z) :
  let s' := fst (requestDiagnostic s b now) in
  synchronizer s' = synchronizer s
  /\ modeIds s' = modeIds s
  /\ syncedBuffers s' = syncedBuffers s
  /\ pendingGetErr s' = pendingGetErr s
  /\ requestCount s' = requestCount s
  /\ fired s' = fired s
  /\ _tabResources s' = _tabResources s.
Proof.
  unfold requestDiagnostic, BufferSyncSupport.requestDiagnostic.
  destruct (negb (BufferSyncSupport.shouldValidate (core s) b)); cbn;
    repeat (split; [reflexivity|]); reflexivity.
Qed.

Lemma inv_reached (client0 : Client.t) (modeIds0 : list LanguageId)
  (flag : bool) (allTabs : list Tab) (js ts : bool)
  (events : list OrchOps.Event) :
  orch_inv {| onCaseInsensitiveFileSystem := flag |}
    (OrchOps.run (create client0 modeIds0 flag allTabs js ts) events).
Proof. apply inv_run, inv_create. Qed.

(** The result of [openTextDocument] on a state that keeps the invariant. *)
Lemma openTextDocument_cases cfg (s : t) (d : TextDocument) (now : Z) :
  orch_inv cfg s ->
  let accepted :=
    existsb (LanguageId_eqb (languageId d)) (modeIds s)
    && match Client.toTsFilePath (client s) (uri d) with
       | Some filepath => JsString.truthy filepath
       | None => false
       end in
  let res := openTextDocument s d now in
  snd res = accepted
  /\ (accepted = false \/ handles s (uri d) = true -> fst res = s)
  /\ handles (fst res) (uri d) = accepted || handles s (uri d)
  /\ (forall r, handles s r = true -> handles (fst res) r = true)
  /\ modeIds (fst res) = modeIds s
  /\ same_client (client s) (client (fst res)).
Proof.
  intros Hinv accepted res. subst accepted res.
  destruct (existsb (LanguageId_eqb (languageId d)) (modeIds s)) eqn:Hm;
    [|unfold openTextDocument; rewrite Hm; cbn;
      repeat (split; [reflexivity || tauto|]); apply same_client_refl].
  destruct (Client.toTsFilePath (client s) (uri d)) as [filepath|] eqn:Hp;
    [|unfold openTextDocument; rewrite Hm, Hp; cbn;
      repeat (split; [reflexivity || tauto|]); apply same_client_refl].
  destruct (JsString.truthy filepath) eqn:Ht;
    [|unfold openTextDocument; rewrite Hm, Hp, Ht; cbn;
      repeat (split; [reflexivity || tauto|]); apply same_client_refl].
  destruct (ResourceMap.has (syncedBuffers s) (uri d)) eqn:Hh.
  { unfold openTextDocument, handles. rewrite Hm, Hp, Ht, Hh. cbn.
    repeat (split; [reflexivity || tauto|]). apply same_client_refl. }
  rewrite (openTextDocument_new s d now filepath Hm Hp Ht Hh). cbn [fst snd].
  match goal with |- context [requestDiagnostic ?s1 ?b now] =>
    destruct (requestDiagnostic_frame s1 b now) as (F1 & F2 & F3 & _);
    set (s' := fst (requestDiagnostic s1 b now)) in *
  end.
  cbn in F1, F2, F3.
  pose proof Hinv as (A & _).
  destruct (keyed_by_resolves _ _ _ _ _ A Hp Ht) as (file & K & Hf).
  unfold handles. rewrite F3, Hh.
  split; [reflexivity|].
  split; [intros [?|?]; discriminate|].
  split; [exact (has_set_same _ _ _ _ K Hf)|].
  split; [intros r Hr; now apply has_set_mono|].
  split; [exact F2|].
  unfold client at 2. rewrite F1.
  exact (proj1 (sync_inv_open _ cfg _ _ _ (inv_sync_of cfg s Hinv))).
Qed.

End OrchestratorOpen.

(** X21. Opening a document. In any state that a new orchestrator reaches,
    [openTextDocument] answers true exactly when the language of the
    document is one of the mode ids and its URI has a TS path; a document
    that is refused, or one that is handled already, changes nothing; an
    accepted document is handled afterwards, every handled URI stays
    handled, and opening the same document again changes nothing and gives
    the same answer. *)
Theorem X21_open_document (client0 : Client.t)
  (modeIds0 : list LanguageId) (onCaseInsensitiveFileSystem : bool)
  (allTabs : list Tab) (js ts : bool) (events : list OrchOps.Event)
  (document : TextDocument) (now : Z) :
  let s :=
    OrchOps.run
      (Orchestrator.create client0 modeIds0 onCaseInsensitiveFileSystem
         allTabs js ts)
      events in
  let accepted :=
    existsb (LanguageId_eqb (languageId document)) (Orchestrator.modeIds s)
    && match Client.toTsFilePath (Orchestrator.client s) (uri document) with
       | Some filepath => JsString.truthy filepath
       | None => false
       end in
  let res := Orchestrator.openTextDocument s document now in
  snd res = accepted
  /\ (accepted = false \/ Orchestrator.handles s (uri document) = true ->
      fst res = s)
  /\ Orchestrator.handles (fst res) (uri document)
     = accepted || Orchestrator.handles s (uri document)
  /\ (forall r, Orchestrator.handles s r = true ->
                Orchestrator.handles (fst res) r = true)
  /\ (forall now',
        Orchestrator.openTextDocument (fst res) document now'
        = (fst res, snd res)).
Proof.
  intros s accepted res.
  set (cfg := (Build_Config onCaseInsensitiveFileSystem)).
  assert (Hinv : orch_inv cfg s) by apply inv_reached.
  destruct (openTextDocument_cases cfg s document now Hinv)
    as (R1 & R2 & R3 & R4 & R5 & R6).
  fold res accepted in R1, R2, R3, R4, R5, R6.
  repeat (split; [assumption|]).
  intros now'.
  assert (Hinv' : orch_inv cfg (fst res))
    by (apply inv_openTextDocument; exact Hinv).
  destruct (openTextDocument_cases cfg (fst res) document now' Hinv')
    as (S1 & S2 & _).
  assert (Hacc :
    existsb (LanguageId_eqb (languageId document))
      (Orchestrator.modeIds (fst res))
    && match Client.toTsFilePath (Orchestrator.client (fst res))
               (uri document) with
       | Some filepath => JsString.truthy filepath
       | None => false
       end = accepted).
  { rewrite R5. destruct R6 as (_ & _ & _ & _ & -> & _). reflexivity. }
  rewrite Hacc in S1, S2.
  rewrite (surjective_pairing
             (Orchestrator.openTextDocument (fst res) document now')).
  rewrite S1, <- R1. f_equal.
  apply S2. rewrite R3. destruct accepted; [right|left]; reflexivity.
Qed.

Section OrchestratorClose.
Import Orchestrator.

Lemma has_set_covers {T : Type} (m : ResourceMap.t T) (u0 : Uri) (v : T)
  (u : Uri) :
  ResourceMap.has (ResourceMap.set m u0 v) u
  = ResourceMap.has m u || coversb m u0 u.
Proof.
  unfold coversb. rewrite !has_get.
  destruct (resolvesb m u0) eqn:Hr; cbn [andb].
  - apply resolvesb_spec in Hr.
    destruct (sameKey m u u0) eqn:Hk.
    + apply sameKey_true in Hk.
      rewrite (get_set_same_key _ _ _ _ Hr Hk). now rewrite orb_true_r.
    + apply sameKey_false in Hk.
      rewrite (get_set_other_key _ _ _ _ Hk). now rewrite orb_false_r.
  - rewrite (set_unresolved_b _ _ _ Hr). now rewrite orb_false_r.
Qed.

Lemma has_delete_covers {T : Type} (m : ResourceMap.t T) (u0 u : Uri) :
  wf m ->
  ResourceMap.has (ResourceMap.delete m u0) u
  = ResourceMap.has m u && negb (sameKey m u u0).
Proof.
  intros W. rewrite !has_get.
  destruct (sameKey m u u0) eqn:Hk.
  - apply sameKey_true in Hk.
    rewrite (get_delete_same_key _ _ _ W Hk). now rewrite andb_false_r.
  - apply sameKey_false in Hk.
    rewrite (get_delete_other_key _ _ _ Hk). now rewrite andb_true_r.
Qed.

Lemma coversb_keyed {T T' : Type} (c : Client.t) (cfg : Config)
  (m : ResourceMap.t T) (m' : ResourceMap.t T') (u0 u : Uri) :
  keyed_by c cfg m -> keyed_by c cfg m' ->
  coversb m' u0 u = coversb m u0 u.
Proof.
  intros K K'. unfold coversb, resolvesb, sameKey.
  now rewrite !(keyed_by_toKey c cfg m m' _ K K').
Qed.


(** The loop of [requestAllDiagnostics] writes the pending diagnostics
    only, and adds the resources of the buffers that are validated. *)
Lemma requestAll_fold (times : nat -> Z) (l : list SyncedBuffer.t) :
  forall (s : t) (i : nat),
    let res := fst (fold_left (requestAll_step times) l (s, i)) in
    (exists p, res = with_pendingDiagnostics s p)
    /\ (forall r, ResourceMap.toKey (pendingDiagnostics res) r
                  = ResourceMap.toKey (pendingDiagnostics s) r)
    /\ (forall r,
          ResourceMap.has (pendingDiagnostics res) r
          = ResourceMap.has (pendingDiagnostics s) r
            || existsb
                 (fun b => shouldValidate s b
                           && coversb (pendingDiagnostics s)
                                (SyncedBuffer.resource b) r)
                 l).
Proof.
  induction l as [|b l IH]; intros s i; cbn [fold_left existsb].
  - cbn. split; [exists (pendingDiagnostics s); now destruct s|].
    split; [reflexivity|]. intros r. now rewrite orb_false_r.
  - destruct (shouldValidate s b) eqn:Hv; cbn [andb].
    + replace (requestAll_step times (s, i) b)
        with (with_pendingDiagnostics s
                (ResourceMap.set (pendingDiagnostics s)
                   (SyncedBuffer.resource b) (times i)), S i)
        by (unfold requestAll_step; now rewrite Hv).
      specialize (IH (with_pendingDiagnostics s
                        (ResourceMap.set (pendingDiagnostics s)
                           (SyncedBuffer.resource b) (times i))) (S i)).
      cbn zeta in IH. destruct IH as ((p & Ep) & Kp & Hp).
      split; [exists p; rewrite Ep; reflexivity|].
      split.
      * intros r. rewrite Kp. cbn. apply toKey_set.
      * intros r. rewrite Hp. cbn [pendingDiagnostics with_pendingDiagnostics].
        rewrite has_set_covers, <- orb_assoc. f_equal. f_equal.
        apply existsb_pointwise. intros b'. f_equal.
        apply coversb_ext. intros r'. apply toKey_set.
    + replace (requestAll_step times (s, i) b) with (s, S i)
        by (unfold requestAll_step; now rewrite Hv).
      specialize (IH s (S i)). cbn zeta in IH.
      destruct IH as (Ep & Kp & Hp).
      split; [exact Ep|]. split; [exact Kp|exact Hp].
Qed.

Lemma dropFromGetErr_frame (s : t) (r : Uri) :
  let s' := dropFromGetErr s r in
  synchronizer s' = synchronizer s
  /\ syncedBuffers s' = syncedBuffers s
  /\ pendingDiagnostics s' = pendingDiagnostics s
  /\ fired s' = fired s
  /\ modeIds s' = modeIds s
  /\ requestCount s' = requestCount s
  /\ option_map fst (pendingGetErr s') = option_map fst (pendingGetErr s)
  /\ (forall id request,
        pendingGetErr s' = Some (id, request) ->
        exists request0,
          pendingGetErr s = Some (id, request0)
          /\ GetErrRequest.files request
             = ResourceMap.delete (GetErrRequest.files request0) r).
Proof.
  unfold dropFromGetErr.
  destruct (pendingGetErr s) as [[id0 request0]|] eqn:E; cbn.
  - repeat (split; [reflexivity|]).
    intros id request [= <- <-]. exists request0. now split.
  - rewrite E. repeat (split; [reflexivity|]). discriminate.
Qed.

(** The buffers that stay tracked after [r] left have other keys. *)
Lemma others_do_not_cover cfg (s : t) (r : Uri) (f : SyncedBuffer.t -> bool) :
  orch_inv cfg s ->
  existsb
    (fun b => f b
              && coversb (syncedBuffers s) (SyncedBuffer.resource b) r)
    (ResourceMap.values (ResourceMap.delete (syncedBuffers s) r))
  = false.
Proof.
  intros (A & _ & _ & _ & E & _ & _ & _ & I & _).
  apply not_true_is_false. intros H.
  apply existsb_exists in H as (b & Hb & Hc).
  apply andb_prop in Hc as [_ Hc].
  unfold ResourceMap.values in Hb. apply in_map_iff in Hb as (e & <- & He).
  change (In e (ResourceMap.entries (ResourceMap.delete (syncedBuffers s) r)))
    in He.
  pose proof (wf_delete _ r E) as W'.
  destruct (get_entry _ e W' He) as [G _].
  rewrite Forall_forall in I.
  destruct (I e (entries_delete_in _ _ _ He)) as (P & _).
  rewrite P in Hc. unfold coversb in Hc. apply andb_prop in Hc as [_ Hk].
  apply sameKey_true in Hk.
  rewrite (get_delete_same_key _ _ _ E (eq_sym Hk)) in G. discriminate.
Qed.

(** What [closeResource] does to a state that keeps the invariant. *)
Lemma closeResource_facts cfg (s : t) (r : Uri) (times : nat -> Z) :
  orch_inv cfg s ->
  let s' := closeResource s r times in
  (handles s r = false -> s' = s)
  /\ syncedBuffers s' = ResourceMap.delete (syncedBuffers s) r
  /\ (handles s r = true ->
      hasPendingDiagnostics s' r = false
      /\ fired s' = fired s ++ [Fired_onDelete r]
      /\ option_map fst (pendingGetErr s') = option_map fst (pendingGetErr s)
      /\ (forall id request,
            pendingGetErr s' = Some (id, request) ->
            ResourceMap.has (GetErrRequest.files request) r = false)).
Proof.
  intros Hinv s'. subst s'. unfold handles. rewrite has_get.
  destruct (ResourceMap.get (syncedBuffers s) r) as [b|] eqn:G.
  2:{ split; [intros _; unfold closeResource; now rewrite G|].
      split; [|discriminate].
      unfold closeResource. rewrite G. symmetry. apply delete_absent.
      rewrite has_get. now rewrite G. }
  split; [discriminate|].
  rewrite (closeResource_tracked s r times b G).
  set (s1 := with_pendingDiagnostics s
               (ResourceMap.delete (pendingDiagnostics s) r)).
  destruct (dropFromGetErr_frame s1 r) as (D1 & D2 & D3 & D4 & D5 & D6 & D7 & D8).
  set (s2 := dropFromGetErr s1 r) in *.
  set (s3 := with_syncedBuffers s2 (ResourceMap.delete (syncedBuffers s2) r)).
  set (closed := SyncedBuffer.close b (synchronizer s3)).
  set (s4 := fire (with_synchronizer s3 (snd (fst closed))) (Fired_onDelete r)).
  assert (H1 : orch_inv cfg s1) by now apply inv_pending_delete.
  assert (H2 : orch_inv cfg s2) by now apply inv_dropFromGetErr.
  pose proof Hinv as (A & B & _ & _ & E & F & _ & _ & _ & J).
  assert (B4 : syncedBuffers s4 = ResourceMap.delete (syncedBuffers s) r)
    by (cbn; now rewrite D2).
  assert (P4 : pendingDiagnostics s4
               = ResourceMap.delete (pendingDiagnostics s) r)
    by (cbn; now rewrite D3).
  assert (F4 : fired s4 = fired s ++ [Fired_onDelete r])
    by (cbn; now rewrite D4).
  assert (G4 : pendingGetErr s4 = pendingGetErr s2) by reflexivity.
  assert (Hfiles : forall id request,
             pendingGetErr s4 = Some (id, request) ->
             ResourceMap.has (GetErrRequest.files request) r = false).
  { intros id request Hp. rewrite G4 in Hp.
    destruct (D8 id request Hp) as (request0 & Hp0 & ->).
    apply has_delete_same.
    change (pendingGetErr s1) with (pendingGetErr s) in Hp0.
    rewrite Hp0 in J. exact (proj2 (proj2 J)). }
  assert (Hhas4 : ResourceMap.has (pendingDiagnostics s4) r = false)
    by (rewrite P4; now apply has_delete_same).
  destruct (snd closed).
  - unfold requestAllDiagnostics.
    destruct (requestAll_fold times (ResourceMap.values (syncedBuffers s4))
                s4 0%nat) as ((p & Ep) & _ & Hp).
    cbn zeta in Ep, Hp.
    set (res := fst (fold_left _ _ _)) in *.
    split; [now rewrite Ep|].
    intros _. unfold hasPendingDiagnostics.
    split.
    + change (pendingDiagnostics (triggerDiagnostics res 200))
        with (pendingDiagnostics res).
      rewrite Hp, Hhas4, B4. cbn [orb].
      rewrite <- (others_do_not_cover cfg s r (shouldValidate s4) Hinv).
      apply existsb_pointwise. intros b'. f_equal.
      rewrite P4.
      rewrite (coversb_ext _ _ _ _ (fun r' => toKey_delete _ _ r')).
      exact (coversb_keyed _ cfg _ _ _ _ A B).
    + change (fired (triggerDiagnostics res 200)) with (fired res).
      change (pendingGetErr (triggerDiagnostics res 200))
        with (pendingGetErr res).
      rewrite Ep. cbn [fired pendingGetErr with_pendingDiagnostics].
      split; [exact F4|]. split; [|exact Hfiles].
      rewrite G4. exact D7.
  - split; [exact B4|]. intros _.
    split; [exact Hhas4|]. split; [exact F4|].
    split; [|exact Hfiles]. rewrite G4. exact D7.
Qed.

End OrchestratorClose.

(** X22. Closing a resource. In any state that a new orchestrator reaches,
    [closeResource] on a URI that is not handled changes nothing; after it
    the URI is not handled, a URI is handled exactly when it was and has
    another key; and for a URI that was handled it leaves no pending
    diagnostics for it, takes it out of the files of the pending request
    (which keeps its identity), and fires [onDelete] once, with that URI. *)
Theorem X22_close_resource (client0 : Client.t)
  (modeIds0 : list LanguageId) (onCaseInsensitiveFileSystem : bool)
  (allTabs : list Tab) (js ts : bool) (events : list OrchOps.Event)
  (resource : Uri) (times : nat -> Z) :
  let s :=
    OrchOps.run
      (Orchestrator.create client0 modeIds0 onCaseInsensitiveFileSystem
         allTabs js ts)
      events in
  let s' := Orchestrator.closeResource s resource times in
  (Orchestrator.handles s resource = false -> s' = s)
  /\ Orchestrator.handles s' resource = false
  /\ (forall r,
        Orchestrator.handles s' r
        = Orchestrator.handles s r
          && negb (sameKey (Orchestrator.syncedBuffers s) r resource))
  /\ (Orchestrator.handles s resource = true ->
      Orchestrator.hasPendingDiagnostics s' resource = false
      /\ Orchestrator.fired s'
         = Orchestrator.fired s ++ [Orchestrator.Fired_onDelete resource]
      /\ option_map fst (Orchestrator.pendingGetErr s')
         = option_map fst (Orchestrator.pendingGetErr s)
      /\ (forall id request,
            Orchestrator.pendingGetErr s' = Some (id, request) ->
            ResourceMap.has (GetErrRequest.files request) resource = false)).
Proof.
  intros s s'.
  set (cfg := (Build_Config onCaseInsensitiveFileSystem)).
  assert (Hinv : orch_inv cfg s) by apply inv_reached.
  destruct (closeResource_facts cfg s resource times Hinv) as (R1 & R2 & R3).
  fold s' in R1, R2, R3.
  pose proof Hinv as (_ & _ & _ & _ & E & _).
  split; [exact R1|].
  split; [unfold Orchestrator.handles; rewrite R2; now apply has_delete_same|].
  split; [|exact R3].
  intros r. unfold Orchestrator.handles. rewrite R2.
  now apply has_delete_covers.
Qed.

Section OrchestratorOpenClose.
Import Orchestrator.

(** [open] and then [close], in batching mode: what was pending for the
    resource is flushed by [open], and the two operations cancel out. *)
Lemma open_close_batching (x : BufferSynchronizer.t) (r : Uri)
  (a : protocol.OpenRequestArgs) (fp : string) :
  BufferSynchronizer.supportsBatching x = true ->
  resolves (BufferSynchronizer._pending x) r ->
  BufferSynchronizer.close (BufferSynchronizer.open x r a) r fp
  = (if ResourceMap.has (BufferSynchronizer._pending x) r
     then BufferSynchronizer.flush x else x,
     false).
Proof.
  intros Hb Hres.
  destruct (ResourceMap.has (BufferSynchronizer._pending x) r) eqn:Hhas;
    [|now apply open_close_elided].
  unfold BufferSynchronizer.open. rewrite Hb.
  unfold BufferSynchronizer.updatePending at 1.
  cbn [BufferOperation_type]. rewrite Hhas. cbn [fst].
  set (f := BufferSynchronizer.flush x).
  assert (Hbf : BufferSynchronizer.supportsBatching f = true)
    by (unfold f; now rewrite flush_supportsBatching).
  assert (Hrf : resolves (BufferSynchronizer._pending f) r).
  { destruct Hres as (file & K & Ht). exists file. split; [|exact Ht].
    destruct (sync_kept_flush x) as (_ & _ & _ & _ & Hk).
    unfold f. now rewrite Hk. }
  assert (Hhf : ResourceMap.has (BufferSynchronizer._pending f) r = false).
  { unfold ResourceMap.has. unfold f. rewrite flush_pending_empty.
    destruct (ResourceMap.toKey _ r); [apply andb_false_r | reflexivity]. }
  unfold BufferSynchronizer.close.
  replace (BufferSynchronizer.supportsBatching
             (BufferSynchronizer.with_pending f
                (ResourceMap.set (BufferSynchronizer._pending f) r
                   (OpenOperation a))))
    with true by (symmetry; exact Hbf).
  rewrite (updatePending_elides _ r a fp).
  - cbn. rewrite delete_set_absent by assumption. now destruct f.
  - cbn. now apply get_set_same_key.
Qed.

(** The synchronizer and the delayer after [closeResource] on a tracked
    buffer. *)
Lemma closeResource_synchronizer (s : t) (r : Uri) (times : nat -> Z)
  (b : SyncedBuffer.t) :
  ResourceMap.get (syncedBuffers s) r = Some b ->
  let closed := SyncedBuffer.close b (synchronizer s) in
  let s' := closeResource s r times in
  synchronizer s' = snd (fst closed)
  /\ Delayer.scheduled (diagnosticDelayer s')
     = if snd closed then Some 200%Z
       else Delayer.scheduled (diagnosticDelayer s).
Proof.
  intros G closed s'. subst s'.
  rewrite (closeResource_tracked s r times b G).
  set (s1 := with_pendingDiagnostics s
               (ResourceMap.delete (pendingDiagnostics s) r)).
  destruct (dropFromGetErr_frame s1 r) as (D1 & _).
  set (s2 := dropFromGetErr s1 r) in *.
  set (s3 := with_syncedBuffers s2 (ResourceMap.delete (syncedBuffers s2) r)).
  assert (E3 : synchronizer s3 = synchronizer s) by (cbn; now rewrite D1).
  rewrite E3. fold closed.
  set (s4 := fire (with_synchronizer s3 (snd (fst closed))) (Fired_onDelete r)).
  destruct (snd closed).
  - unfold requestAllDiagnostics.
    destruct (requestAll_fold times (ResourceMap.values (syncedBuffers s4))
                s4 0%nat) as ((p & Ep) & _).
    rewrite Ep. cbn. split; reflexivity.
  - cbn. split; [reflexivity|].
    unfold s2, dropFromGetErr.
    now destruct (pendingGetErr s1) as [[id request]|].
Qed.

End OrchestratorOpenClose.

(** X23. A document that is opened and closed again. In any state that a
    new orchestrator reaches, opening a new document that is accepted and
    then closing its URI leaves the tracked buffers as they were and fires
    one [onDelete]. In batching mode the back end is told about neither: the
    synchronizer is the one before, after the flush that [open] does when
    an operation was pending for the URI, and no diagnostics are requested.
    In the other mode [Open] and [Close] are sent, in this order, and
    diagnostics are requested for all buffers, with a delay of 200. *)
Theorem X23_open_then_close (client0 : Client.t)
  (modeIds0 : list LanguageId) (onCaseInsensitiveFileSystem : bool)
  (allTabs : list Tab) (js ts : bool) (events : list OrchOps.Event)
  (document : TextDocument) (filepath : string) (now : Z) (times : nat -> Z) :
  let s :=
    OrchOps.run
      (Orchestrator.create client0 modeIds0 onCaseInsensitiveFileSystem
         allTabs js ts)
      events in
  existsb (LanguageId_eqb (languageId document)) (Orchestrator.modeIds s)
  = true ->
  Client.toTsFilePath (Orchestrator.client s) (uri document) = Some filepath ->
  JsString.truthy filepath = true ->
  Orchestrator.handles s (uri document) = false ->
  let s1 := fst (Orchestrator.openTextDocument s document now) in
  let s2 := Orchestrator.closeResource s1 (uri document) times in
  let sync := Orchestrator.synchronizer s in
  Orchestrator.syncedBuffers s2 = Orchestrator.syncedBuffers s
  /\ Orchestrator.fired s2
     = Orchestrator.fired s ++ [Orchestrator.Fired_onDelete (uri document)]
  /\ (BufferSynchronizer.supportsBatching sync = true ->
      Orchestrator.synchronizer s2
      = (if ResourceMap.has (BufferSynchronizer._pending sync) (uri document)
         then BufferSynchronizer.flush sync else sync)
      /\ Delayer.scheduled (Orchestrator.diagnosticDelayer s2)
         = Delayer.scheduled (Orchestrator.diagnosticDelayer s1))
  /\ (BufferSynchronizer.supportsBatching sync = false ->
      Client.sent (Orchestrator.client s2)
      = Client.sent (Orchestrator.client s)
        ++ [Cmd_Open
              (spec_openArgs (SyncedBuffer.create document filepath)
                 (Orchestrator.client s));
            Cmd_Close filepath]
      /\ Delayer.scheduled (Orchestrator.diagnosticDelayer s2) = Some 200%Z).
Proof.
  intros s Hm Hp Ht Hh s1 s2 sync.
  set (cfg := (Build_Config onCaseInsensitiveFileSystem)).
  assert (Hinv : orch_inv cfg s) by apply inv_reached.
  assert (Hinv1 : orch_inv cfg s1)
    by (apply inv_openTextDocument; exact Hinv).
  pose proof Hinv as (A & _ & C & _).
  pose proof (keyed_by_resolves _ _ _ _ _ A Hp Ht) as Hres.
  pose proof (keyed_by_resolves _ _ _ _ _ C Hp Ht) as Hresp.
  set (b0 := SyncedBuffer.create document filepath).
  set (opened := SyncedBuffer.with_state b0 BufferState.Open).
  set (sync1 := BufferSynchronizer.open sync (uri document)
                  (spec_openArgs b0 (Orchestrator.client s))).
  assert (E1 : s1
               = fst (Orchestrator.requestDiagnostic
                        (Orchestrator.with_synchronizer
                           (Orchestrator.with_syncedBuffers s
                              (ResourceMap.set (Orchestrator.syncedBuffers s)
                                 (uri document) opened))
                           sync1)
                        opened now)).
  { unfold s1.
    now rewrite (openTextDocument_new s document now filepath Hm Hp Ht Hh). }
  match type of E1 with _ = fst (Orchestrator.requestDiagnostic ?x _ _) =>
    destruct (requestDiagnostic_frame x opened now)
      as (F1 & _ & F3 & _ & _ & F6 & _)
  end.
  rewrite <- E1 in F1, F3, F6. cbn in F1, F3, F6.
  assert (G1 : ResourceMap.get (Orchestrator.syncedBuffers s1) (uri document)
               = Some opened)
    by (rewrite F3; now apply get_set_same_key).
  assert (Hh1 : Orchestrator.handles s1 (uri document) = true)
    by (unfold Orchestrator.handles; rewrite has_get; now rewrite G1).
  destruct (closeResource_facts cfg s1 (uri document) times Hinv1)
    as (_ & R2 & R3).
  destruct (R3 Hh1) as (_ & R4 & _).
  destruct (closeResource_synchronizer s1 (uri document) times opened G1)
    as (Y1 & Y2).
  fold s2 in R2, R4, Y1, Y2. rewrite F1 in Y1, Y2.
  assert (Ec : SyncedBuffer.close opened sync1
               = (SyncedBuffer.with_state opened BufferState.Closed,
                  fst (BufferSynchronizer.close sync1 (uri document) filepath),
                  snd (BufferSynchronizer.close sync1 (uri document) filepath))).
  { unfold SyncedBuffer.close.
    replace (negb (SyncedBuffer.state opened =? BufferState.Open)%Z)
      with false by reflexivity.
    change (SyncedBuffer.resource opened) with (uri document).
    change (SyncedBuffer.filepath opened) with filepath.
    now destruct (BufferSynchronizer.close sync1 (uri document) filepath). }
  rewrite Ec in Y1, Y2. cbn [fst snd] in Y1, Y2.
  split; [rewrite R2, F3; now apply delete_set_absent|].
  split; [now rewrite R4, F6|].
  split.
  - intros Hb. unfold sync1 in Y1, Y2.
    rewrite (open_close_batching sync (uri document) _ filepath Hb Hresp)
      in Y1, Y2.
    cbn [fst snd] in Y1, Y2. now split.
  - intros Hb. unfold sync1, BufferSynchronizer.open in Y1, Y2.
    rewrite Hb in Y1, Y2.
    unfold BufferSynchronizer.close in Y1, Y2.
    change (BufferSynchronizer.supportsBatching
              (BufferSynchronizer.with_client sync _))
      with (BufferSynchronizer.supportsBatching sync) in Y1, Y2.
    rewrite Hb in Y1, Y2. cbn [fst snd] in Y1, Y2.
    split; [|exact Y2].
    unfold Orchestrator.client at 1. rewrite Y1. cbn.
    now rewrite <- app_assoc.
Qed.

Lemma X23_open_then_close_witness :
  let s :=
    OrchOps.run
      (Orchestrator.create (Sample.client API.v440) [typescript] false [] true
         true)
      [] in
  let s2 :=
    Orchestrator.closeResource
      (fst (Orchestrator.openTextDocument s (Sample.doc Sample.fileA 10) 0%Z))
      Sample.fileA (fun _ => 0%Z) in
  Orchestrator.syncedBuffers s2 = Orchestrator.syncedBuffers s
  /\ Orchestrator.fired s2 = [Orchestrator.Fired_onDelete Sample.fileA].
Proof.
  destruct (X23_open_then_close (Sample.client API.v440) [typescript] false []
              true true [] (Sample.doc Sample.fileA 10) "/src/a.ts" 0%Z
              (fun _ => 0%Z) eq_refl eq_refl eq_refl eq_refl)
    as (H1 & H2 & _).
  split; [exact H1 | exact H2].
Defined.

Section OrchestratorSend.
Import Orchestrator.

Lemma JsMap_set_same {V : Type} (m : JsMap.t V) (k : string) (v : V) :
  JsMap.get m k = Some v -> JsMap.set m k v = m.
Proof.
  induction m as [|[k' v'] m IH]; cbn; [discriminate|].
  destruct (String.eqb k' k) eqn:Ek.
  - intros [= ->]. reflexivity.
  - intros H. now rewrite (IH H).
Qed.

(** In a map of files, [set] keeps the entries and may add one. *)
Lemma entries_set_unit (o : ResourceMap.t unit) (r : Uri) :
  exists rest,
    ResourceMap.entries (ResourceMap.set o r tt) = ResourceMap.entries o ++ rest.
Proof.
  destruct (resolvesb o r) eqn:Hr.
  2:{ exists []. rewrite (set_unresolved_b _ _ _ Hr). now rewrite app_nil_r. }
  apply resolvesb_spec in Hr. destruct Hr as (file & K & Ht).
  unfold ResourceMap.entries. rewrite (set_resolved _ _ _ _ K Ht).
  destruct (JsMap.get (ResourceMap._map o) file) as [e|] eqn:G.
  - exists []. rewrite app_nil_r. f_equal. apply JsMap_set_same.
    rewrite G. now destruct e as [r0 []].
  - exists [ResourceMap.mkEntry r tt]. rewrite (JsMap_set_new _ _ _ G).
    unfold JsMap.values. now rewrite map_app.
Qed.

Lemma coversb_toKey {T T' : Type} (m : ResourceMap.t T) (m' : ResourceMap.t T')
  (u0 u : Uri) :
  (forall r, ResourceMap.toKey m' r = ResourceMap.toKey m r) ->
  coversb m' u0 u = coversb m u0 u.
Proof. intros K. unfold coversb, resolvesb, sameKey. now rewrite !K. Qed.

(** A loop of [set] calls on a map of files. *)
Lemma fold_sets {A : Type}
  (f : ResourceMap.t unit -> A -> ResourceMap.t unit)
  (sel : A -> bool) (u : A -> Uri) :
  (forall o a, f o a = if sel a then ResourceMap.set o (u a) tt else o) ->
  forall (l : list A) (o : ResourceMap.t unit),
    (forall r, ResourceMap.toKey (fold_left f l o) r = ResourceMap.toKey o r)
    /\ (forall r,
          ResourceMap.has (fold_left f l o) r
          = ResourceMap.has o r
            || existsb (fun a => sel a && coversb o (u a) r) l)
    /\ exists rest,
         ResourceMap.entries (fold_left f l o) = ResourceMap.entries o ++ rest.
Proof.
  intros Hf. induction l as [|a l IH]; intros o; cbn [fold_left existsb].
  - split; [reflexivity|].
    split; [intros r; now rewrite orb_false_r|].
    exists []. now rewrite app_nil_r.
  - rewrite Hf. destruct (sel a); cbn [andb]; [|exact (IH o)].
    destruct (IH (ResourceMap.set o (u a) tt)) as (K & H & rest & E).
    split; [intros r; rewrite K; apply toKey_set|].
    split.
    + intros r. rewrite H, has_set_covers, <- orb_assoc. f_equal. f_equal.
      apply existsb_pointwise. intros a'. f_equal.
      apply coversb_toKey. intros r'. apply toKey_set.
    + destruct (entries_set_unit o (u a)) as (rest0 & E0).
      exists (rest0 ++ rest). now rewrite E, E0, app_assoc.
Qed.

Lemma has_same_key {T : Type} (m : ResourceMap.t T) (u u' : Uri) :
  ResourceMap.toKey m u = ResourceMap.toKey m u' ->
  ResourceMap.has m u = ResourceMap.has m u'.
Proof. intros K. unfold ResourceMap.has. now rewrite K. Qed.

(** A URI is in the map exactly when the URI of an entry stands for it. *)
Lemma has_iff_entry {T : Type} (m : ResourceMap.t T) (r : Uri) :
  wf m ->
  ResourceMap.has m r = true
  <-> exists e, In e (ResourceMap.entries m)
                /\ coversb m (ResourceMap.resource e) r = true.
Proof.
  intros W. split.
  - intros H. pose proof H as H'. unfold ResourceMap.has in H'.
    destruct (ResourceMap.toKey m r) as [file|] eqn:K; [|discriminate].
    apply andb_prop in H' as [Ht Hj]. unfold JsMap.has in Hj.
    destruct (JsMap.get (ResourceMap._map m) file) as [e|] eqn:G;
      [|discriminate].
    exists e. split; [exact (binding_entries _ _ _ G)|].
    apply JsMap_get_in in G.
    destruct W as [_ Wk]. unfold keyed in Wk. rewrite Forall_forall in Wk.
    destruct (Wk _ G) as [_ Ke]. cbn in Ke.
    unfold coversb, resolvesb, sameKey. rewrite Ke, K, Ht.
    now rewrite String.eqb_refl.
  - intros (e & He & Hc). unfold coversb in Hc.
    apply andb_prop in Hc as [_ Hk]. apply sameKey_true in Hk.
    rewrite (has_same_key _ _ _ Hk), has_get.
    now rewrite (proj1 (get_entry _ e W He)).
Qed.

Lemma getOrderedFileSet_has (m : PendingDiagnostics.t) (r : Uri) :
  wf m ->
  (forall r', ResourceMap.toKey (PendingDiagnostics.getOrderedFileSet m) r'
              = ResourceMap.toKey m r')
  /\ ResourceMap.has (PendingDiagnostics.getOrderedFileSet m) r
     = ResourceMap.has m r.
Proof.
  intros W. unfold PendingDiagnostics.getOrderedFileSet.
  destruct (fold_sets (fun map resource => ResourceMap.set map resource tt)
              (fun _ => true) (fun x => x) (fun o a => eq_refl)
              (PendingDiagnostics.orderedResources m)
              (ResourceMap.create (ResourceMap._normalizePath m)
                 (ResourceMap.config m))) as (K & H & _).
  split; [intros r'; now rewrite K|].
  rewrite H. cbn [orb ResourceMap.has].
  replace (ResourceMap.has
             (ResourceMap.create (T := unit) (ResourceMap._normalizePath m)
                (ResourceMap.config m)) r) with false
    by (unfold ResourceMap.has;
        destruct (ResourceMap.toKey _ r); [now rewrite andb_false_r|easy]).
  cbn [orb]. apply eq_iff_eq_true.
  rewrite existsb_exists, (has_iff_entry m r W).
  unfold PendingDiagnostics.orderedResources. split.
  - intros (x & Hx & Hc). apply in_map_iff in Hx as (e & <- & He).
    exists e. split; [exact (Permutation_in _ (sort_perm _) He)|].
    cbn [andb] in Hc. rewrite <- Hc. symmetry. now apply coversb_toKey.
  - intros (e & He & Hc). exists (ResourceMap.resource e).
    split.
    + apply in_map.
      exact (Permutation_in _ (Permutation_sym (sort_perm _)) He).
    + cbn [andb]. rewrite <- Hc. now apply coversb_toKey.
Qed.

(** The files of the request that [sendPendingDiagnostics] builds. *)
Lemma orderedFileSet_has cfg (s : t) (r : Uri) :
  orch_inv cfg s ->
  ResourceMap.has (orderedFileSet s) r
  = hasPendingDiagnostics s r || handles s r.
Proof.
  intros (A & B & _ & _ & E & F & _ & _ & I & _).
  unfold orderedFileSet, hasPendingDiagnostics, handles.
  set (o0 := PendingDiagnostics.getOrderedFileSet (pendingDiagnostics s)).
  destruct (getOrderedFileSet_has (pendingDiagnostics s) r F) as (K0 & H0).
  fold o0 in K0, H0.
  set (step1 := fun (ordered : ResourceMap.t unit)
                    (entry : ResourceMap.Entry unit) =>
                  match ResourceMap.get (syncedBuffers s)
                          (ResourceMap.resource entry) with
                  | Some _ =>
                      ResourceMap.set ordered (ResourceMap.resource entry) tt
                  | None => ordered
                  end).
  set (o1 := match pendingGetErr s with
             | Some (_, request) =>
                 fold_left step1
                   (ResourceMap.entries (GetErrRequest.files request)) o0
             | None => o0
             end).
  assert (Kc : forall u0,
             coversb (pendingDiagnostics s) u0 r
             = coversb (syncedBuffers s) u0 r)
    by (intros u0; exact (coversb_keyed _ cfg _ _ _ _ A B)).
  assert (H1 : (forall r', ResourceMap.toKey o1 r'
                           = ResourceMap.toKey (pendingDiagnostics s) r')
               /\ (ResourceMap.has o1 r = true ->
                   ResourceMap.has (pendingDiagnostics s) r = true
                   \/ ResourceMap.has (syncedBuffers s) r = true)
               /\ (ResourceMap.has o0 r = true -> ResourceMap.has o1 r = true)).
  { unfold o1. destruct (pendingGetErr s) as [[id request]|].
    2:{ split; [exact K0|]. split; [rewrite H0; now left|easy]. }
    destruct (fold_sets step1
                (fun e => match ResourceMap.get (syncedBuffers s)
                                  (ResourceMap.resource e) with
                          | Some _ => true | None => false end)
                (@ResourceMap.resource unit)
                (fun o a => ltac:(unfold step1;
                                  now destruct (ResourceMap.get _ _)))
                (ResourceMap.entries (GetErrRequest.files request)) o0)
      as (K & H & _).
    split; [intros r'; now rewrite K, K0|].
    rewrite H, H0. split.
    - intros Hor. apply orb_prop in Hor as [Hl|Hx]; [now left|right].
      apply existsb_exists in Hx as (e & _ & Hc).
      apply andb_prop in Hc as [Hg Hc].
      rewrite (coversb_toKey _ _ _ _ K0), Kc in Hc.
      unfold coversb in Hc. apply andb_prop in Hc as [_ Hk].
      apply sameKey_true in Hk.
      rewrite (has_same_key _ _ _ Hk), has_get.
      now destruct (ResourceMap.get (syncedBuffers s) (ResourceMap.resource e)).
    - intros ->. reflexivity. }
  destruct H1 as (K1 & H1 & H1').
  destruct (fold_sets
              (fun ordered buffer =>
                 ResourceMap.set ordered (SyncedBuffer.resource buffer) tt)
              (fun _ => true) SyncedBuffer.resource (fun o a => eq_refl)
              (ResourceMap.values (syncedBuffers s)) o1) as (_ & H2 & _).
  rewrite H2. apply eq_iff_eq_true.
  rewrite !orb_true_iff, existsb_exists, (has_iff_entry _ r E).
  rewrite Forall_forall in I. split.
  - intros [Ho|(b & Hb & Hc)];
      [destruct (H1 Ho) as [Hp|Hs];
       [now left | right; now apply (has_iff_entry _ r E)]
      |right].
    unfold ResourceMap.values in Hb. apply in_map_iff in Hb as (e & <- & He).
    exists e. split; [exact He|].
    destruct (I e He) as (P & _). rewrite P in Hc. cbn [andb] in Hc.
    now rewrite (coversb_toKey _ _ _ _ K1), Kc in Hc.
  - intros [Hp|(e & He & Hc)].
    + left. apply H1'. now rewrite H0.
    + right. exists (ResourceMap.value e).
      split; [unfold ResourceMap.values; now apply in_map|].
      destruct (I e He) as (P & _). rewrite P. cbn [andb].
      now rewrite (coversb_toKey _ _ _ _ K1), Kc.
Qed.

(** The files of [getOrderedFileSet] are the ordered resources. *)
Lemma getOrderedFileSet_resources (m : PendingDiagnostics.t) :
  wf m ->
  map (@ResourceMap.resource unit)
    (ResourceMap.entries (PendingDiagnostics.getOrderedFileSet m))
  = PendingDiagnostics.orderedResources m.
Proof.
  intros W. unfold PendingDiagnostics.getOrderedFileSet.
  rewrite set_fresh_all.
  - cbn. rewrite map_map. cbn. apply map_id.
  - intros r Hr. unfold PendingDiagnostics.orderedResources in Hr.
    apply in_map_iff in Hr as (e & <- & He).
    apply (Permutation_in _ (sort_perm _)) in He.
    exact (proj2 (get_entry m e W He)).
  - cbn. unfold PendingDiagnostics.orderedResources. rewrite map_map.
    change (map (fun x => ResourceMap.toKey
                            (ResourceMap.create (T := unit)
                               (ResourceMap._normalizePath m)
                               (ResourceMap.config m))
                            (ResourceMap.resource x))
              (JsArray.sort PendingDiagnostics.byValue (ResourceMap.entries m)))
      with (map (fun e => ResourceMap.toKey m (ResourceMap.resource e))
              (JsArray.sort PendingDiagnostics.byValue (ResourceMap.entries m))).
    apply (Permutation_NoDup
             (l := map (fun e => ResourceMap.toKey m (ResourceMap.resource e))
                     (ResourceMap.entries m))).
    + apply Permutation_map. symmetry. apply sort_perm.
    + now apply NoDup_entry_keys.
Qed.

(** The pending files come first in the request. *)
Lemma orderedFileSet_prefix (s : t) :
  exists rest,
    ResourceMap.entries (orderedFileSet s)
    = ResourceMap.entries
        (PendingDiagnostics.getOrderedFileSet (pendingDiagnostics s))
      ++ rest.
Proof.
  unfold orderedFileSet.
  set (o0 := PendingDiagnostics.getOrderedFileSet (pendingDiagnostics s)).
  match goal with |- context [fold_left ?f ?l ?o1] =>
    destruct (fold_sets f (fun _ => true) SyncedBuffer.resource
                (fun o a => eq_refl) l o1) as (_ & _ & rest2 & E2)
  end.
  rewrite E2.
  destruct (pendingGetErr s) as [[id request]|].
  - match goal with |- context [fold_left ?f ?l o0] =>
      destruct (fold_sets f
                  (fun e => match ResourceMap.get (syncedBuffers s)
                                    (ResourceMap.resource e) with
                            | Some _ => true | None => false end)
                  (@ResourceMap.resource unit)
                  (fun o a =>
                     ltac:(cbv beta;
                           destruct (ResourceMap.get (syncedBuffers s)
                                       (ResourceMap.resource a));
                           reflexivity))
                  l o0) as (_ & _ & rest1 & E1)
    end.
    exists (rest1 ++ rest2). now rewrite E1, app_assoc.
  - now exists rest2.
Qed.

Lemma sendPendingDiagnostics_fields (s : t) :
  let files := orderedFileSet s in
  let s' := sendPendingDiagnostics s in
  pendingGetErr s'
  = (if (0 <? ResourceMap.size files)%nat
     then Some (requestCount s,
                GetErrRequest.executeGetErrRequest (client s) files)
     else None)
  /\ requestCount s'
     = (if (0 <? ResourceMap.size files)%nat
        then S (requestCount s) else requestCount s)
  /\ pendingDiagnostics s' = ResourceMap.clear (pendingDiagnostics s)
  /\ syncedBuffers s' = syncedBuffers s
  /\ synchronizer s' = synchronizer s
  /\ fired s' = fired s.
Proof.
  intros files s'. subst s'. unfold sendPendingDiagnostics. fold files.
  destruct (cancelGetErr_fields s) as (C1 & C2 & C3 & _ & C5 & _ & C7).
  destruct (0 <? ResourceMap.size files)%nat; cbn;
    unfold client; cbn; rewrite ?C1, ?C2, ?C3, ?C5, ?C7;
    repeat (split; [reflexivity|]); reflexivity.
Qed.

End OrchestratorSend.

(** X24. Sending the pending diagnostics. In any state that a new
    orchestrator reaches, the files of the request that
    [sendPendingDiagnostics] builds are the URIs with pending diagnostics
    and the handled URIs, those with pending diagnostics first, oldest
    first; a request is made exactly when there is such a URI, with the
    request count as its identity, so that the completion of an earlier
    request does not let go of it; nothing is pending afterwards; the
    buffers and the synchronizer are as before. *)
Theorem X24_send_pending_diagnostics (client0 : Client.t)
  (modeIds0 : list LanguageId) (onCaseInsensitiveFileSystem : bool)
  (allTabs : list Tab) (js ts : bool) (events : list OrchOps.Event) :
  let s :=
    OrchOps.run
      (Orchestrator.create client0 modeIds0 onCaseInsensitiveFileSystem
         allTabs js ts)
      events in
  let files := Orchestrator.orderedFileSet s in
  let s' := Orchestrator.sendPendingDiagnostics s in
  (forall r,
     ResourceMap.has files r
     = Orchestrator.hasPendingDiagnostics s r || Orchestrator.handles s r)
  /\ (exists rest,
        map (@ResourceMap.resource unit) (ResourceMap.entries files)
        = PendingDiagnostics.orderedResources (Orchestrator.pendingDiagnostics s)
          ++ rest)
  /\ (ResourceMap.size files = 0%nat
      <-> forall r, Orchestrator.hasPendingDiagnostics s r = false
                    /\ Orchestrator.handles s r = false)
  /\ Orchestrator.pendingGetErr s'
     = (if (0 <? ResourceMap.size files)%nat
        then Some (Orchestrator.requestCount s,
                   GetErrRequest.executeGetErrRequest (Orchestrator.client s)
                     files)
        else None)
  /\ Orchestrator.requestCount s'
     = (if (0 <? ResourceMap.size files)%nat
        then S (Orchestrator.requestCount s) else Orchestrator.requestCount s)
  /\ (forall id,
        (id < Orchestrator.requestCount s)%nat ->
        Orchestrator.onGetErrDone s' id = s')
  /\ (forall r, Orchestrator.hasPendingDiagnostics s' r = false)
  /\ Orchestrator.syncedBuffers s' = Orchestrator.syncedBuffers s
  /\ Orchestrator.synchronizer s' = Orchestrator.synchronizer s.
Proof.
  intros s files s'.
  set (cfg := (Build_Config onCaseInsensitiveFileSystem)).
  assert (Hinv : orch_inv cfg s) by apply inv_reached.
  destruct (sendPendingDiagnostics_fields s) as (S1 & S2 & S3 & S4 & S5 & _).
  fold files s' in S1, S2, S3, S4, S5.
  assert (Hhas : forall r,
             ResourceMap.has files r
             = Orchestrator.hasPendingDiagnostics s r
               || Orchestrator.handles s r)
    by (intros r; now apply (orderedFileSet_has cfg)).
  destruct (orderedFileSet_ok cfg s Hinv) as [_ Wf]. fold files in Wf.
  pose proof Hinv as (_ & _ & _ & _ & _ & F & _).
  split; [exact Hhas|].
  split.
  { destruct (orderedFileSet_prefix s) as (rest & E). fold files in E.
    exists (map (@ResourceMap.resource unit) rest).
    rewrite E, map_app. f_equal.
    now apply getOrderedFileSet_resources. }
  split.
  { split.
    - intros Hz r. apply orb_false_elim. rewrite <- Hhas.
      unfold ResourceMap.has. unfold ResourceMap.size, JsMap.size in Hz.
      destruct (ResourceMap._map files); [|discriminate Hz].
      destruct (ResourceMap.toKey files r); [apply andb_false_r|reflexivity].
    - intros Hall. unfold ResourceMap.size, JsMap.size.
      destruct (ResourceMap._map files) as [|[k e] m'] eqn:Em; [reflexivity|].
      exfalso.
      assert (He : In e (ResourceMap.entries files))
        by (unfold ResourceMap.entries; rewrite Em; now left).
      destruct (get_entry _ e Wf He) as [G _].
      pose proof (Hhas (ResourceMap.resource e)) as Hr.
      rewrite has_get, G in Hr.
      destruct (Hall (ResourceMap.resource e)) as [Ha Hb].
      rewrite Ha, Hb in Hr. discriminate Hr. }
  split; [exact S1|]. split; [exact S2|].
  split.
  { intros id Hid. unfold Orchestrator.onGetErrDone. rewrite S1.
    destruct (0 <? ResourceMap.size files)%nat; [|reflexivity].
    replace (Orchestrator.requestCount s =? id)%nat with false;
      [reflexivity|].
    symmetry. apply Nat.eqb_neq. lia. }
  split; [|split; [exact S4 | exact S5]].
  intros r. unfold Orchestrator.hasPendingDiagnostics. rewrite S3.
  unfold ResourceMap.has.
  destruct (ResourceMap.toKey _ r); [apply andb_false_r|reflexivity].
Qed.

Section OrchestratorRequests.
Import Orchestrator.

Lemma existsb_filter {A : Type} (p f : A -> bool) (l : list A) :
  existsb f (filter p l) = existsb (fun x => p x && f x) l.
Proof.
  induction l as [|a l IH]; cbn; [reflexivity|].
  destruct (p a); cbn; now rewrite IH.
Qed.

Lemma has_resolvesb {T : Type} (m : ResourceMap.t T) (u : Uri) :
  ResourceMap.has m u = true -> resolvesb m u = true.
Proof.
  intros H. destruct (resolvesb m u) eqn:Hr; [reflexivity|].
  now rewrite (has_unresolved _ _ Hr) in H.
Qed.

(** The loop of [getErr] writes the pending diagnostics only, and adds the
    resources of the list. *)
Lemma getErr_fold (times : nat -> Z) (l : list Uri) :
  forall (s : t) (i : nat),
    let res := fst (fold_left (getErr_step times) l (s, i)) in
    (exists p, res = with_pendingDiagnostics s p)
    /\ (forall r,
          ResourceMap.has (pendingDiagnostics res) r
          = ResourceMap.has (pendingDiagnostics s) r
            || existsb (fun u => coversb (pendingDiagnostics s) u r) l).
Proof.
  induction l as [|u l IH]; intros s i; cbn [fold_left existsb].
  - cbn. split; [exists (pendingDiagnostics s); now destruct s|].
    intros r. now rewrite orb_false_r.
  - change (getErr_step times (s, i) u)
      with (with_pendingDiagnostics s
              (ResourceMap.set (pendingDiagnostics s) u (times i)), S i).
    specialize (IH (with_pendingDiagnostics s
                      (ResourceMap.set (pendingDiagnostics s) u (times i)))
                  (S i)).
    cbn zeta in IH. destruct IH as ((p & Ep) & Hp).
    split; [exists p; rewrite Ep; reflexivity|].
    intros r. rewrite Hp. cbn [pendingDiagnostics with_pendingDiagnostics].
    rewrite has_set_covers, <- orb_assoc. f_equal. f_equal.
    apply existsb_pointwise. intros u'.
    apply coversb_ext. intros r'. apply toKey_set.
Qed.

(** Among the tracked buffers, the one of a URI is the only one whose URI
    has its key. *)
Lemma buffers_cover cfg (s : t) (f : SyncedBuffer.t -> bool) (r : Uri) :
  orch_inv cfg s ->
  existsb
    (fun b => f b && coversb (pendingDiagnostics s) (SyncedBuffer.resource b) r)
    (ResourceMap.values (syncedBuffers s))
  = match ResourceMap.get (syncedBuffers s) r with
    | Some b => f b
    | None => false
    end.
Proof.
  intros (A & B & _ & _ & E & _ & _ & _ & I & _).
  rewrite Forall_forall in I.
  apply eq_iff_eq_true. rewrite existsb_exists. split.
  - intros (b & Hb & Hc). apply andb_prop in Hc as [Hf Hc].
    unfold ResourceMap.values in Hb. apply in_map_iff in Hb as (e & <- & He).
    destruct (I e He) as (P & _). rewrite P in Hc.
    rewrite (coversb_keyed _ cfg _ _ _ _ A B) in Hc.
    unfold coversb in Hc. apply andb_prop in Hc as [_ Hk].
    apply sameKey_true in Hk.
    rewrite (get_same_key _ _ _ Hk), (proj1 (get_entry _ e E He)).
    exact Hf.
  - intros H.
    destruct (ResourceMap.get (syncedBuffers s) r) as [b|] eqn:G;
      [|discriminate].
    assert (Hh : ResourceMap.has (syncedBuffers s) r = true)
      by (rewrite has_get; now rewrite G).
    apply (has_iff_entry _ r E) in Hh as (e & He & Hc).
    pose proof Hc as Hc'. unfold coversb in Hc'.
    apply andb_prop in Hc' as [_ Hk]. apply sameKey_true in Hk.
    rewrite (get_same_key _ _ _ Hk), (proj1 (get_entry _ e E He)) in G.
    injection G as <-.
    exists (ResourceMap.value e).
    split; [unfold ResourceMap.values; now apply in_map|].
    destruct (I e He) as (P & _). rewrite P, H. cbn [andb].
    now rewrite (coversb_keyed _ cfg _ _ _ _ A B).
Qed.

End OrchestratorRequests.

(** X25. Requests for diagnostics. In any state that a new orchestrator
    reaches, after [getErr] a URI has pending diagnostics exactly when it
    had before or has the key of a handled URI of the list; with no handled
    URI in the list nothing changes, and otherwise the delayer is triggered
    with 200. After [requestAllDiagnostics] a URI has pending diagnostics
    exactly when it had before or its buffer is to be validated, and the
    delayer is triggered with 200. Both leave the buffers, the synchronizer
    and the pending request as they are. *)
Theorem X25_diagnostic_requests (client0 : Client.t)
  (modeIds0 : list LanguageId) (onCaseInsensitiveFileSystem : bool)
  (allTabs : list Tab) (js ts : bool) (events : list OrchOps.Event)
  (resources : list Uri) (times : nat -> Z) :
  let s :=
    OrchOps.run
      (Orchestrator.create client0 modeIds0 onCaseInsensitiveFileSystem
         allTabs js ts)
      events in
  let s1 := Orchestrator.getErr s resources times in
  let s2 := Orchestrator.requestAllDiagnostics s times in
  (forall r,
     Orchestrator.hasPendingDiagnostics s1 r
     = Orchestrator.hasPendingDiagnostics s r
       || existsb
            (fun u => Orchestrator.handles s u
                      && sameKey (Orchestrator.syncedBuffers s) r u)
            resources)
  /\ (existsb (Orchestrator.handles s) resources = false -> s1 = s)
  /\ (existsb (Orchestrator.handles s) resources = true ->
      Delayer.scheduled (Orchestrator.diagnosticDelayer s1) = Some 200%Z)
  /\ (forall r,
        Orchestrator.hasPendingDiagnostics s2 r
        = Orchestrator.hasPendingDiagnostics s r
          || match ResourceMap.get (Orchestrator.syncedBuffers s) r with
             | Some buffer => Orchestrator.shouldValidate s buffer
             | None => false
             end)
  /\ Delayer.scheduled (Orchestrator.diagnosticDelayer s2) = Some 200%Z
  /\ (Orchestrator.syncedBuffers s1 = Orchestrator.syncedBuffers s
      /\ Orchestrator.synchronizer s1 = Orchestrator.synchronizer s
      /\ Orchestrator.pendingGetErr s1 = Orchestrator.pendingGetErr s)
  /\ (Orchestrator.syncedBuffers s2 = Orchestrator.syncedBuffers s
      /\ Orchestrator.synchronizer s2 = Orchestrator.synchronizer s
      /\ Orchestrator.pendingGetErr s2 = Orchestrator.pendingGetErr s).
Proof.
  intros s s1 s2.
  set (cfg := (Build_Config onCaseInsensitiveFileSystem)).
  assert (Hinv : orch_inv cfg s) by apply inv_reached.
  pose proof Hinv as (A & B & _).
  assert (Hnone : existsb (Orchestrator.handles s) resources = false ->
                  filter (Orchestrator.handles s) resources = []).
  { intros H. induction resources as [|u l IH]; [reflexivity|].
    cbn in H |- *. apply orb_false_elim in H as [-> H]. now apply IH. }
  assert (Hsome : existsb (Orchestrator.handles s) resources = true ->
                  filter (Orchestrator.handles s) resources <> []).
  { intros H E. apply existsb_exists in H as (u & Hu & Hh).
    assert (Hin : In u (filter (Orchestrator.handles s) resources))
      by (apply filter_In; now split).
    now rewrite E in Hin. }
  destruct (getErr_fold times (filter (Orchestrator.handles s) resources)
              s 0%nat) as ((p1 & E1) & H1).
  cbn zeta in E1, H1.
  destruct (requestAll_fold times
              (ResourceMap.values (Orchestrator.syncedBuffers s)) s 0%nat)
    as ((p2 & E2) & _ & H2).
  cbn zeta in E2, H2.
  assert (S1 : (filter (Orchestrator.handles s) resources = [] /\ s1 = s)
               \/ (filter (Orchestrator.handles s) resources <> []
                   /\ s1 = Orchestrator.triggerDiagnostics
                             (Orchestrator.with_pendingDiagnostics s p1) 200)).
  { unfold s1, Orchestrator.getErr.
    destruct (filter (Orchestrator.handles s) resources) as [|u l] eqn:Ef;
      [left; now split|right].
    split; [discriminate|]. now rewrite E1. }
  split.
  { intros r. unfold Orchestrator.hasPendingDiagnostics.
    assert (Hx : existsb
                   (fun u => coversb (Orchestrator.pendingDiagnostics s) u r)
                   (filter (Orchestrator.handles s) resources)
                 = existsb
                     (fun u => Orchestrator.handles s u
                               && sameKey (Orchestrator.syncedBuffers s) r u)
                     resources).
    { rewrite existsb_filter. apply existsb_pointwise. intros u.
      destruct (Orchestrator.handles s u) eqn:Hu; [|reflexivity].
      cbn [andb]. rewrite (coversb_keyed _ cfg _ _ _ _ A B).
      unfold coversb. now rewrite (has_resolvesb _ _ Hu). }
    unfold s1, Orchestrator.getErr.
    destruct (filter (Orchestrator.handles s) resources) as [|u l] eqn:Ef.
    - rewrite <- Hx. cbn. now rewrite orb_false_r.
    - change (Orchestrator.pendingDiagnostics
                (Orchestrator.triggerDiagnostics ?x 200))
        with (Orchestrator.pendingDiagnostics x).
      now rewrite H1, Hx. }
  split.
  { intros H. unfold s1, Orchestrator.getErr. now rewrite (Hnone H). }
  split.
  { intros H. destruct S1 as [[Hf _]|[_ ->]]; [|reflexivity].
    exfalso. exact (Hsome H Hf). }
  split.
  { intros r. unfold Orchestrator.hasPendingDiagnostics, s2,
      Orchestrator.requestAllDiagnostics.
    change (Orchestrator.pendingDiagnostics
              (Orchestrator.triggerDiagnostics ?x 200))
      with (Orchestrator.pendingDiagnostics x).
    rewrite H2. f_equal.
    exact (buffers_cover cfg s (Orchestrator.shouldValidate s) r Hinv). }
  split; [reflexivity|].
  split.
  - destruct S1 as [[_ ->]|[_ ->]]; [now repeat split|]. now repeat split.
  - unfold s2, Orchestrator.requestAllDiagnostics. rewrite E2.
    now repeat split.
Qed.

Section OrchestratorReset.
Import Orchestrator.

Lemma spec_files_of_opens (l : list protocol.OpenRequestArgs) :
  spec_changedFiles (map OpenOperation l) = []
  /\ spec_closedFiles (map OpenOperation l) = []
  /\ spec_openFiles (map OpenOperation l) = l.
Proof.
  unfold spec_changedFiles, spec_closedFiles, spec_openFiles.
  induction l as [|a l (IH1 & IH2 & IH3)]; cbn; [now repeat split|].
  rewrite IH1, IH2, IH3. now repeat split.
Qed.

(** The operation with which [reinitialize] opens the buffer of an entry. *)
Lemma reopen_batching (c : Client.t)
  (l : JsMap.t (ResourceMap.Entry SyncedBuffer.t)) :
  forall done sync,
    BufferSynchronizer.client sync = c ->
    BufferSynchronizer.supportsBatching sync = true ->
    (forall u,
       In u (map (fun kv => SyncedBuffer.resource (ResourceMap.value (snd kv))) l)
       -> resolves (BufferSynchronizer._pending sync) u) ->
    NoDup (map Some (JsMap.keys
                       (ResourceMap._map (BufferSynchronizer._pending sync)))
           ++ map (ResourceMap.toKey (BufferSynchronizer._pending sync))
                (map (fun kv =>
                        SyncedBuffer.resource (ResourceMap.value (snd kv))) l)) ->
    snd (fold_left reopen_step l (done, sync))
    = BufferSynchronizer.with_pending sync
        (ResourceMapOps.setAll (BufferSynchronizer._pending sync)
           (map (fun kv =>
                   (SyncedBuffer.resource (ResourceMap.value (snd kv)),
                    OpenOperation (spec_openArgs (ResourceMap.value (snd kv)) c)))
              l)).
Proof.
  induction l as [|kv l IH]; intros done sync Hc Hb Hres Hnd;
    cbn [fold_left map].
  - cbn. now destruct sync.
  - rewrite reopen_step_eq.
    destruct (fresh_head (BufferSynchronizer._pending sync)
                (SyncedBuffer.resource (ResourceMap.value (snd kv)))
                (OpenOperation (spec_openArgs (ResourceMap.value (snd kv)) c))
                _ Hres Hnd) as (Hhas & Hres' & Hnd').
    assert (Eo : snd (SyncedBuffer.open (ResourceMap.value (snd kv)) sync)
                 = BufferSynchronizer.with_pending sync
                     (ResourceMap.set (BufferSynchronizer._pending sync)
                        (SyncedBuffer.resource (ResourceMap.value (snd kv)))
                        (OpenOperation
                           (spec_openArgs (ResourceMap.value (snd kv)) c)))).
    { unfold SyncedBuffer.open. cbn [snd].
      unfold BufferSynchronizer.open. rewrite Hb.
      rewrite (updatePending_fresh sync _ _ Hhas). cbn [fst].
      unfold spec_openArgs. now rewrite Hc. }
    rewrite Eo. rewrite IH; [reflexivity | exact Hc | exact Hb | |].
    + exact Hres'.
    + exact Hnd'.
Qed.

Lemma reopen_legacy (c : Client.t)
  (l : JsMap.t (ResourceMap.Entry SyncedBuffer.t)) :
  forall done sync,
    Client.getWorkspaceRootForResource (BufferSynchronizer.client sync)
    = Client.getWorkspaceRootForResource c ->
    BufferSynchronizer.supportsBatching sync = false ->
    let sync' := snd (fold_left reopen_step l (done, sync)) in
    Client.sent (BufferSynchronizer.client sync')
    = Client.sent (BufferSynchronizer.client sync)
      ++ map (fun kv => Cmd_Open (spec_openArgs (ResourceMap.value (snd kv)) c))
           l
    /\ BufferSynchronizer._pending sync' = BufferSynchronizer._pending sync.
Proof.
  induction l as [|kv l IH]; intros done sync Hc Hb; cbn [fold_left map].
  - cbn. split; [now rewrite app_nil_r | reflexivity].
  - rewrite reopen_step_eq.
    assert (Eo : snd (SyncedBuffer.open (ResourceMap.value (snd kv)) sync)
                 = BufferSynchronizer.with_client sync
                     (Client.execute (BufferSynchronizer.client sync)
                        (Cmd_Open
                           (spec_openArgs (ResourceMap.value (snd kv)) c)))).
    { unfold SyncedBuffer.open. cbn [snd].
      unfold BufferSynchronizer.open. rewrite Hb.
      unfold spec_openArgs. now rewrite Hc. }
    rewrite Eo.
    match goal with |- context [fold_left reopen_step l (?d, ?x)] =>
      destruct (IH d x Hc Hb) as [E1 E2]
    end.
    cbn zeta in E1, E2. split; [|exact E2].
    etransitivity; [exact E1|]. cbn. now rewrite <- app_assoc.
Qed.

(** The buffers are open already: opening them again writes nothing. *)
Lemma reopen_buffers cfg (s : t) :
  orch_inv cfg s ->
  ResourceMap.with_map (syncedBuffers s)
    (map (fun kv =>
            (fst kv,
             ResourceMap.mkEntry (ResourceMap.resource (snd kv))
               (SyncedBuffer.with_state (ResourceMap.value (snd kv))
                  BufferState.Open)))
       (ResourceMap._map (syncedBuffers s)))
  = syncedBuffers s.
Proof.
  intros (_ & _ & _ & _ & _ & _ & _ & _ & I & _).
  rewrite Forall_forall in I.
  transitivity (ResourceMap.with_map (syncedBuffers s)
                  (ResourceMap._map (syncedBuffers s)));
    [|now destruct (syncedBuffers s)].
  f_equal. rewrite <- (map_id (ResourceMap._map (syncedBuffers s))) at 2.
  apply map_ext_in. intros [k e] Hin.
  assert (He : In e (ResourceMap.entries (syncedBuffers s))).
  { unfold ResourceMap.entries, JsMap.values.
    apply in_map_iff. now exists (k, e). }
  destruct (I e He) as (_ & _ & _ & St). cbn [fst snd].
  destruct e as [r [d fp st]]. cbn in St |- *. now subst st.
Qed.

Lemma reset_fields (s : t) :
  syncedBuffers (reset s) = syncedBuffers s
  /\ pendingDiagnostics (reset s) = ResourceMap.clear (pendingDiagnostics s)
  /\ synchronizer (reset s) = BufferSynchronizer.reset (synchronizer s)
  /\ fired (reset s) = fired s
  /\ requestCount (reset s) = requestCount s
  /\ pendingGetErr (reset s)
     = match pendingGetErr s with
       | Some (id, request) => Some (id, GetErrRequest.cancel request)
       | None => None
       end.
Proof.
  unfold reset, cancelGetErr.
  destruct (pendingGetErr s) as [[id request]|] eqn:E; cbn;
    rewrite ?E; now repeat split.
Qed.

End OrchestratorReset.

(** X26. Reset and reinitialize. In any state that a new orchestrator
    reaches, [reset] keeps the tracked buffers, sends nothing, leaves no
    pending diagnostics and no pending operation, and cancels the pending
    request while keeping it. [reinitialize] also keeps the tracked buffers
    and leaves no pending diagnostics, and opens every tracked buffer again,
    once, in the order of iteration: in batching mode nothing is sent, the
    pending operations are the [Open]s of the buffers, and the command
    before which the synchronizer flushes is preceded by one [UpdateOpen]
    that opens them all; in the other mode one [Open] per buffer is sent. *)
Theorem X26_reset_and_reinitialize (client0 : Client.t)
  (modeIds0 : list LanguageId) (onCaseInsensitiveFileSystem : bool)
  (allTabs : list Tab) (js ts : bool) (events : list OrchOps.Event) :
  let s :=
    OrchOps.run
      (Orchestrator.create client0 modeIds0 onCaseInsensitiveFileSystem
         allTabs js ts)
      events in
  let s1 := Orchestrator.reset s in
  let s2 := Orchestrator.reinitialize s in
  let sync := Orchestrator.synchronizer s in
  let args :=
    map (fun b => spec_openArgs b (Orchestrator.client s))
      (ResourceMap.values (Orchestrator.syncedBuffers s)) in
  (Orchestrator.syncedBuffers s1 = Orchestrator.syncedBuffers s
   /\ (forall r, Orchestrator.hasPendingDiagnostics s1 r = false)
   /\ Orchestrator.synchronizer s1
      = BufferSynchronizer.with_pending sync
          (ResourceMap.clear (BufferSynchronizer._pending sync))
   /\ Orchestrator.pendingGetErr s1
      = match Orchestrator.pendingGetErr s with
        | Some (id, request) => Some (id, GetErrRequest.cancel request)
        | None => None
        end)
  /\ Orchestrator.syncedBuffers s2 = Orchestrator.syncedBuffers s
  /\ (forall r, Orchestrator.hasPendingDiagnostics s2 r = false)
  /\ Orchestrator.pendingGetErr s2 = Orchestrator.pendingGetErr s1
  /\ (BufferSynchronizer.supportsBatching sync = true ->
      Client.sent (Orchestrator.client s2) = Client.sent (Orchestrator.client s)
      /\ ResourceMap.values
           (BufferSynchronizer._pending (Orchestrator.synchronizer s2))
         = map OpenOperation args
      /\ (forall command,
            String.eqb command "updateOpen" = false ->
            Client.sent
              (Orchestrator.client (Orchestrator.beforeCommand s2 command))
            = Client.sent (Orchestrator.client s)
              ++ match args with
                 | [] => []
                 | _ :: _ =>
                     [Cmd_UpdateOpen
                        (protocol.mkUpdateOpenRequestArgs [] [] args)]
                 end))
  /\ (BufferSynchronizer.supportsBatching sync = false ->
      Client.sent (Orchestrator.client s2)
      = Client.sent (Orchestrator.client s) ++ map Cmd_Open args
      /\ ResourceMap.entries
           (BufferSynchronizer._pending (Orchestrator.synchronizer s2))
         = []).
Proof.
  intros s s1 s2 sync args.
  set (cfg := (Build_Config onCaseInsensitiveFileSystem)).
  assert (Hinv : orch_inv cfg s) by apply inv_reached.
  destruct (reset_fields s) as (R1 & R2 & R3 & _ & _ & R6).
  fold s1 sync in R1, R2, R3, R6.
  assert (Hclear : forall (m : PendingDiagnostics.t) r,
             ResourceMap.has (ResourceMap.clear m) r = false).
  { intros m r. unfold ResourceMap.has.
    destruct (ResourceMap.toKey _ r); [apply andb_false_r|reflexivity]. }
  split.
  { split; [exact R1|].
    split; [intros r; unfold Orchestrator.hasPendingDiagnostics;
            rewrite R2; apply Hclear|].
    split; [exact R3 | exact R6]. }
  (* reinitialize *)
  set (l := ResourceMap._map (Orchestrator.syncedBuffers s)).
  set (sync1 := BufferSynchronizer.with_pending sync
                  (ResourceMap.clear (BufferSynchronizer._pending sync))).
  assert (E2 : s2
               = Orchestrator.with_synchronizer
                   (Orchestrator.with_syncedBuffers s1
                      (ResourceMap.with_map (Orchestrator.syncedBuffers s)
                         (fst (fold_left Orchestrator.reopen_step l
                                 ([], sync1)))))
                   (snd (fold_left Orchestrator.reopen_step l ([], sync1)))).
  { unfold s2, Orchestrator.reinitialize. fold s1. rewrite R1, R3.
    fold l. change (BufferSynchronizer.reset sync) with sync1.
    now destruct (fold_left Orchestrator.reopen_step l ([], sync1)). }
  destruct (reopen_fold (Orchestrator.client s) cfg l [] sync1) as [F1 _].
  assert (B2 : Orchestrator.syncedBuffers s2 = Orchestrator.syncedBuffers s).
  { rewrite E2. cbn [Orchestrator.syncedBuffers Orchestrator.with_synchronizer
                       Orchestrator.with_syncedBuffers].
    etransitivity; [|exact (reopen_buffers cfg s Hinv)].
    f_equal. exact F1. }
  split; [exact B2|].
  split.
  { intros r. unfold Orchestrator.hasPendingDiagnostics. rewrite E2.
    cbn [Orchestrator.pendingDiagnostics Orchestrator.with_synchronizer
           Orchestrator.with_syncedBuffers].
    rewrite R2. apply Hclear. }
  split; [now rewrite E2|].
  pose proof Hinv as (A & _ & C & _ & E & _ & _ & _ & I & _).
  rewrite Forall_forall in I.
  assert (Hargs : map (fun kv =>
                         spec_openArgs (ResourceMap.value (snd kv))
                           (Orchestrator.client s)) l
                  = args).
  { unfold args, ResourceMap.values, JsMap.values, l.
    now rewrite !map_map. }
  split.
  - intros Hb.
    assert (Hres : forall u,
               In u (map (fun kv => SyncedBuffer.resource
                                      (ResourceMap.value (snd kv))) l) ->
               resolves (BufferSynchronizer._pending sync1) u).
    { intros u Hu. apply in_map_iff in Hu as ([k e] & <- & Hin).
      assert (He : In e (ResourceMap.entries (Orchestrator.syncedBuffers s)))
        by (unfold ResourceMap.entries, JsMap.values;
            apply in_map_iff; now exists (k, e)).
      destruct (I e He) as (_ & Q & R & _). cbn [snd].
      destruct (I e He) as (P & _). rewrite P.
      destruct (keyed_by_resolves _ _ _ _ _ C Q R) as (file & K & Ht).
      exists file. split; [exact K | exact Ht]. }
    assert (Hnd : NoDup
                    (map Some
                       (JsMap.keys
                          (ResourceMap._map (BufferSynchronizer._pending sync1)))
                     ++ map (ResourceMap.toKey (BufferSynchronizer._pending sync1))
                          (map (fun kv => SyncedBuffer.resource
                                            (ResourceMap.value (snd kv))) l))).
    { change (map Some
                (JsMap.keys
                   (ResourceMap._map (BufferSynchronizer._pending sync1))))
        with (@nil (option string)).
      cbn [app]. rewrite map_map.
      pose proof (NoDup_entry_keys _ E) as Hn.
      unfold ResourceMap.entries, JsMap.values in Hn. rewrite map_map in Hn.
      fold l in Hn.
      erewrite map_ext_in; [exact Hn|].
      intros [k e] Hin. cbn [snd].
      assert (He : In e (ResourceMap.entries (Orchestrator.syncedBuffers s)))
        by (unfold ResourceMap.entries, JsMap.values;
            apply in_map_iff; now exists (k, e)).
      destruct (I e He) as (P & _). rewrite P.
      exact (keyed_by_toKey _ cfg _ _ _ A C). }
    assert (Esync : snd (fold_left Orchestrator.reopen_step l ([], sync1))
                    = BufferSynchronizer.with_pending sync1
                        (ResourceMapOps.setAll
                           (BufferSynchronizer._pending sync1)
                           (map (fun kv =>
                                   (SyncedBuffer.resource
                                      (ResourceMap.value (snd kv)),
                                    OpenOperation
                                      (spec_openArgs
                                         (ResourceMap.value (snd kv))
                                         (Orchestrator.client s))))
                              l)))
      by exact (reopen_batching (Orchestrator.client s) l [] sync1 eq_refl Hb
                  Hres Hnd).
    assert (Eent : ResourceMap.entries
                     (BufferSynchronizer._pending (Orchestrator.synchronizer s2))
                   = map (fun p => ResourceMap.mkEntry (fst p) (snd p))
                       (map (fun kv =>
                               (SyncedBuffer.resource (ResourceMap.value (snd kv)),
                                OpenOperation
                                  (spec_openArgs (ResourceMap.value (snd kv))
                                     (Orchestrator.client s))))
                          l)).
    { rewrite E2. cbn [Orchestrator.synchronizer Orchestrator.with_synchronizer].
      rewrite Esync. cbn [BufferSynchronizer._pending
                            BufferSynchronizer.with_pending].
      assert (Hfst : map fst
                       (map (fun kv : string * ResourceMap.Entry SyncedBuffer.t =>
                               (SyncedBuffer.resource
                                  (ResourceMap.value (snd kv)),
                                OpenOperation
                                  (spec_openArgs (ResourceMap.value (snd kv))
                                     (Orchestrator.client s))))
                          l)
                     = map (fun kv => SyncedBuffer.resource
                                        (ResourceMap.value (snd kv))) l)
        by (rewrite map_map; reflexivity).
      rewrite setAll_fresh; [reflexivity | |].
      - intros u Hu. rewrite Hfst in Hu. now apply Hres.
      - rewrite Hfst. exact Hnd. }
    assert (Eval : ResourceMap.values
                     (BufferSynchronizer._pending (Orchestrator.synchronizer s2))
                   = map OpenOperation args).
    { unfold ResourceMap.values.
      change (JsMap.values (ResourceMap._map ?m)) with (ResourceMap.entries m).
      rewrite Eent, !map_map. cbn. now rewrite <- Hargs, map_map. }
    assert (Esent : Client.sent (Orchestrator.client s2)
                    = Client.sent (Orchestrator.client s)).
    { unfold Orchestrator.client at 1. rewrite E2.
      cbn [Orchestrator.synchronizer Orchestrator.with_synchronizer].
      now rewrite Esync. }
    split; [exact Esent|]. split; [exact Eval|].
    intros command Hcmd.
    unfold Orchestrator.client at 1, Orchestrator.beforeCommand.
    cbn [Orchestrator.synchronizer Orchestrator.with_synchronizer].
    unfold BufferSynchronizer.beforeCommand. rewrite Hcmd.
    rewrite flush_sent. fold (Orchestrator.client s2). rewrite Esent. f_equal.
    assert (Hb2 : BufferSynchronizer.supportsBatching
                    (Orchestrator.synchronizer s2) = true).
    { rewrite E2. cbn [Orchestrator.synchronizer Orchestrator.with_synchronizer].
      now rewrite Esync. }
    rewrite Hb2. cbn [andb].
    unfold ResourceMap.size, JsMap.size.
    rewrite Eval.
    replace (List.length
               (ResourceMap._map
                  (BufferSynchronizer._pending (Orchestrator.synchronizer s2))))
      with (List.length args).
    2:{ transitivity
          (List.length
             (ResourceMap.entries
                (BufferSynchronizer._pending (Orchestrator.synchronizer s2))));
          [|unfold ResourceMap.entries, JsMap.values; now rewrite length_map].
        rewrite Eent, <- Hargs, !length_map. reflexivity. }
    destruct args as [|a args']; [reflexivity|].
    cbn [List.length Nat.ltb Nat.leb].
    unfold spec_updateOpen.
    destruct (spec_files_of_opens (a :: args')) as (-> & -> & ->).
    reflexivity.
  - intros Hb.
    assert (L : Client.sent
                  (BufferSynchronizer.client
                     (snd (fold_left Orchestrator.reopen_step l ([], sync1))))
                = Client.sent (BufferSynchronizer.client sync1)
                  ++ map (fun kv =>
                            Cmd_Open
                              (spec_openArgs (ResourceMap.value (snd kv))
                                 (Orchestrator.client s)))
                       l
                /\ BufferSynchronizer._pending
                     (snd (fold_left Orchestrator.reopen_step l ([], sync1)))
                   = BufferSynchronizer._pending sync1)
      by exact (reopen_legacy (Orchestrator.client s) l [] sync1 eq_refl Hb).
    destruct L as [L1 L2].
    unfold Orchestrator.client at 1. rewrite E2.
    cbn [Orchestrator.synchronizer Orchestrator.with_synchronizer].
    rewrite L1, L2. split; [|reflexivity].
    f_equal. rewrite <- Hargs. now rewrite map_map.
Qed.

Section OrchestratorChange.
Import Orchestrator.

(** The buffer that is found through a URI stands for it. *)
Lemma tracked_covers cfg (s : t) (r : Uri) (b : SyncedBuffer.t) :
  orch_inv cfg s ->
  ResourceMap.get (syncedBuffers s) r = Some b ->
  coversb (pendingDiagnostics s) (SyncedBuffer.resource b) r = true.
Proof.
  intros Hinv G.
  pose proof (buffers_cover cfg s (fun _ => true) r Hinv) as H.
  rewrite G in H. apply existsb_exists in H as (b' & Hb' & Hc).
  cbn [andb] in Hc.
  pose proof Hinv as (A & B & _ & _ & E & _ & _ & _ & I & _).
  rewrite Forall_forall in I.
  unfold ResourceMap.values in Hb'. apply in_map_iff in Hb' as (e & <- & He).
  destruct (I e He) as (P & _).
  pose proof Hc as Hc'. rewrite P in Hc'.
  rewrite (coversb_keyed _ cfg _ _ _ _ A B) in Hc'.
  unfold coversb in Hc'. apply andb_prop in Hc' as [_ Hk].
  apply sameKey_true in Hk.
  rewrite (get_same_key _ _ _ Hk), (proj1 (get_entry _ e E He)) in G.
  injection G as <-. exact Hc.
Qed.

Lemma shouldValidate_same_client (s s' : t) (b : SyncedBuffer.t) :
  same_client (client s) (client s') ->
  _validateJavaScript s' = _validateJavaScript s ->
  _validateTypeScript s' = _validateTypeScript s ->
  _tabResources s' = _tabResources s ->
  shouldValidate s' b = shouldValidate s b.
Proof.
  intros (_ & _ & _ & Hp & _) Hj Ht Hr.
  unfold shouldValidate, BufferSyncSupport.shouldValidate. cbn.
  now rewrite Hp, Hj, Ht, Hr.
Qed.

End OrchestratorChange.


Section OrchestratorTabs.
Import Orchestrator.

(** A URI that the tracker does not show has no entry in it. *)
Lemma tracker_has_false (tr : TabResourceTracker.t) (u : Uri) :
  tracker_inv tr ->
  TabResourceTracker.has tr u = false ->
  ResourceMap.get (TabResourceTracker._tabResources tr) u = None.
Proof.
  intros [_ Hne] H. unfold TabResourceTracker.has in H.
  destruct (ResourceMap.get (TabResourceTracker._tabResources tr) u)
    as [entry|] eqn:G; [|reflexivity].
  apply get_in_entries in G as (e & He & <-).
  unfold tabs_nonempty in Hne. rewrite Forall_forall in Hne.
  specialize (Hne e He).
  destruct (TabResourceTracker.tabs (ResourceMap.value e)); [easy|discriminate].
Qed.

(** The first tab on a tracked document. *)
Lemma tab_opened (s : t) (tab : Tab) (u : Uri) (b : SyncedBuffer.t)
  (times : nat -> Z) :
  Client.enableProjectDiagnostics (client s) = false ->
  input tab = TabInputText u ->
  ResourceMap.get (syncedBuffers s) u = Some b ->
  ResourceMap.get (TabResourceTracker._tabResources (_tabResources s)) u
  = None ->
  onDidChangeTabs s (TabResourceTracker.mkTabChangeEvent [tab] []) times
  = fst (requestDiagnostic
           (with_tabResources s
              (TabResourceTracker.mk
                 (ResourceMap.set
                    (TabResourceTracker._tabResources (_tabResources s)) u
                    (TabResourceTracker.mkTabsEntry (TabSet.singleton tab)))))
           b (times 0%nat)).
Proof.
  intros Hp Hi G Gt.
  unfold onDidChangeTabs, TabResourceTracker.onDidChangeTabs,
    TabResourceTracker.flatMap_tabs, TabResourceTracker.add,
    TabResourceTracker.getResourcesForTab.
  cbn [TabResourceTracker.ev_closed TabResourceTracker.ev_opened fold_left
         fst snd].
  rewrite Hi. cbn [fold_left]. unfold TabResourceTracker.add_uri.
  rewrite Gt. cbn [app fst snd].
  unfold onTabsChanged.
  change (Client.enableProjectDiagnostics (client (with_tabResources s ?x)))
    with (Client.enableProjectDiagnostics (client s)).
  rewrite Hp. cbn [TabResourceTracker.closed TabResourceTracker.opened
                     fold_left].
  unfold tabs_opened_step. cbn [fst syncedBuffers with_tabResources].
  now rewrite G.
Qed.

(** The last tab on a tracked document. *)
Lemma tab_closed (s : t) (tab : Tab) (u : Uri) (b : SyncedBuffer.t)
  (times : nat -> Z) :
  Client.enableProjectDiagnostics (client s) = false ->
  input tab = TabInputText u ->
  ResourceMap.get (syncedBuffers s) u = Some b ->
  ResourceMap.get (TabResourceTracker._tabResources (_tabResources s)) u
  = Some (TabResourceTracker.mkTabsEntry (TabSet.singleton tab)) ->
  onDidChangeTabs s (TabResourceTracker.mkTabChangeEvent [] [tab]) times
  = dropFromGetErr
      (with_pendingDiagnostics
         (with_tabResources s
            (TabResourceTracker.mk
               (ResourceMap.delete
                  (TabResourceTracker._tabResources (_tabResources s)) u)))
         (ResourceMap.delete (pendingDiagnostics s) u))
      u.
Proof.
  intros Hp Hi G Gt.
  unfold onDidChangeTabs, TabResourceTracker.onDidChangeTabs,
    TabResourceTracker.flatMap_tabs, TabResourceTracker.delete,
    TabResourceTracker.getResourcesForTab.
  cbn [TabResourceTracker.ev_closed TabResourceTracker.ev_opened fold_left
         fst snd].
  rewrite Hi. cbn [fold_left]. unfold TabResourceTracker.delete_uri.
  rewrite Gt. cbn [TabResourceTracker.tabs TabSet.singleton TabSet.delete filter].
  rewrite Nat.eqb_refl. cbn [negb TabSet.size List.length Nat.eqb app fst snd].
  unfold onTabsChanged.
  change (Client.enableProjectDiagnostics (client (with_tabResources s ?x)))
    with (Client.enableProjectDiagnostics (client s)).
  rewrite Hp. cbn [TabResourceTracker.closed TabResourceTracker.opened
                     fold_left fst].
  unfold tabs_closed_step. cbn [syncedBuffers with_tabResources].
  now rewrite G.
Qed.

End OrchestratorTabs.

(** X28. Tabs and diagnostics. In any state that a new orchestrator
    reaches, with project diagnostics disabled, take a tracked document of a
    kind that is validated and that no tab shows: it is not to be validated.
    When a text tab opens on it, it is to be validated, its diagnostics
    become pending and the delayer is triggered with the delay of the
    buffer. When that tab closes again, the tracker is as before, the
    document is not to be validated, no diagnostics are pending for it, and
    it is not among the files of the pending request. *)
Theorem X28_tab_visibility (client0 : Client.t)
  (modeIds0 : list LanguageId) (onCaseInsensitiveFileSystem : bool)
  (allTabs : list Tab) (js ts : bool) (events : list OrchOps.Event)
  (tab : Tab) (u : Uri) (buffer : SyncedBuffer.t) (times times' : nat -> Z) :
  let s :=
    OrchOps.run
      (Orchestrator.create client0 modeIds0 onCaseInsensitiveFileSystem
         allTabs js ts)
      events in
  Client.enableProjectDiagnostics (Orchestrator.client s) = false ->
  input tab = TabInputText u ->
  ResourceMap.get (Orchestrator.syncedBuffers s) u = Some buffer ->
  match SyncedBuffer.kind buffer with
  | JavaScript => Orchestrator._validateJavaScript s
  | TypeScript => Orchestrator._validateTypeScript s
  end = true ->
  TabResourceTracker.has (Orchestrator._tabResources s) u = false ->
  let s1 :=
    Orchestrator.onDidChangeTabs s
      (TabResourceTracker.mkTabChangeEvent [tab] []) times in
  let s2 :=
    Orchestrator.onDidChangeTabs s1
      (TabResourceTracker.mkTabChangeEvent [] [tab]) times' in
  Orchestrator.shouldValidate s buffer = false
  /\ (Orchestrator.shouldValidate s1 buffer = true
      /\ Orchestrator.hasPendingDiagnostics s1 u = true
      /\ Delayer.scheduled (Orchestrator.diagnosticDelayer s1)
         = Some (BufferSyncSupport.requestDiagnostic_delay buffer))
  /\ (Orchestrator._tabResources s2 = Orchestrator._tabResources s
      /\ Orchestrator.shouldValidate s2 buffer = false
      /\ Orchestrator.hasPendingDiagnostics s2 u = false
      /\ (forall id request,
            Orchestrator.pendingGetErr s2 = Some (id, request) ->
            ResourceMap.has (GetErrRequest.files request) u = false)).
Proof.
  intros s Hp Hi G Hk Hv s1 s2.
  set (cfg := (Build_Config onCaseInsensitiveFileSystem)).
  assert (Hinv : orch_inv cfg s) by apply inv_reached.
  pose proof Hinv as (A & B & _ & D & _ & F & _ & H & _).
  set (m := TabResourceTracker._tabResources (Orchestrator._tabResources s)).
  pose proof (tracker_has_false _ u H Hv) as Gt. fold m in Gt.
  (* the key of [u] is the key of the URI of the buffer *)
  pose proof (tracked_covers cfg s u buffer Hinv G) as Hc.
  rewrite (coversb_keyed _ cfg _ _ _ _ D B) in Hc. fold m in Hc.
  unfold coversb in Hc. apply andb_prop in Hc as [Hr Hs].
  apply sameKey_true in Hs. apply resolvesb_spec in Hr.
  assert (Hru : resolves m u).
  { destruct Hr as (file & K & Ht). exists file. now rewrite Hs. }
  assert (Hv0 : Orchestrator.shouldValidate s buffer = false).
  { unfold Orchestrator.shouldValidate, BufferSyncSupport.shouldValidate.
    cbn [BufferSyncSupport.client BufferSyncSupport._tabResources
           Orchestrator.core].
    rewrite Hp. unfold TabResourceTracker.has. fold m.
    now rewrite <- (get_same_key _ _ _ Hs), Gt. }
  split; [exact Hv0|].
  set (entry := TabResourceTracker.mkTabsEntry (TabSet.singleton tab)).
  set (x := Orchestrator.with_tabResources s
              (TabResourceTracker.mk (ResourceMap.set m u entry))).
  assert (E1 : s1 = fst (Orchestrator.requestDiagnostic x buffer (times 0%nat)))
    by exact (tab_opened s tab u buffer times Hp Hi G Gt).
  assert (Hvx : Orchestrator.shouldValidate x buffer = true).
  { unfold Orchestrator.shouldValidate, BufferSyncSupport.shouldValidate.
    cbn [BufferSyncSupport.client BufferSyncSupport._tabResources
           BufferSyncSupport._validateJavaScript
           BufferSyncSupport._validateTypeScript Orchestrator.core].
    change (Orchestrator.client x) with (Orchestrator.client s).
    rewrite Hp. unfold TabResourceTracker.has.
    cbn [Orchestrator._tabResources x Orchestrator.with_tabResources
           TabResourceTracker._tabResources].
    rewrite (get_set_same_key _ _ _ _ Hru (eq_sym Hs)). cbn. exact Hk. }
  assert (E1' : s1
                = Orchestrator.with_core x
                    (BufferSyncSupport.triggerDiagnostics
                       (BufferSyncSupport.with_pendingDiagnostics
                          (Orchestrator.core x)
                          (ResourceMap.set (Orchestrator.pendingDiagnostics s)
                             (SyncedBuffer.resource buffer) (times 0%nat)))
                       (BufferSyncSupport.requestDiagnostic_delay buffer))).
  { rewrite E1. unfold Orchestrator.requestDiagnostic,
      BufferSyncSupport.requestDiagnostic.
    change (BufferSyncSupport.shouldValidate (Orchestrator.core x) buffer)
      with (Orchestrator.shouldValidate x buffer).
    now rewrite Hvx. }
  assert (Hinv1 : orch_inv cfg s1) by (apply inv_onDidChangeTabs; exact Hinv).
  split.
  { split; [rewrite E1'; exact Hvx|].
    split; [|now rewrite E1'].
    unfold Orchestrator.hasPendingDiagnostics. rewrite E1'. cbn.
    rewrite has_set_covers.
    rewrite (tracked_covers cfg s u buffer Hinv G). apply orb_true_r. }
  (* the tab closes *)
  assert (Gt1 : ResourceMap.get
                  (TabResourceTracker._tabResources
                     (Orchestrator._tabResources s1)) u
                = Some entry).
  { rewrite E1'. cbn. now apply get_set_same_key. }
  assert (G1 : ResourceMap.get (Orchestrator.syncedBuffers s1) u = Some buffer)
    by (rewrite E1'; exact G).
  assert (Hp1 : Client.enableProjectDiagnostics (Orchestrator.client s1) = false)
    by (rewrite E1'; exact Hp).
  pose proof (tab_closed s1 tab u buffer times' Hp1 Hi G1 Gt1) as E2.
  fold s2 in E2.
  assert (Em : ResourceMap.delete
                 (TabResourceTracker._tabResources
                    (Orchestrator._tabResources s1)) u
               = m).
  { rewrite E1'. cbn. apply delete_set_absent.
    rewrite has_get. now rewrite Gt. }
  rewrite Em in E2.
  match type of E2 with _ = Orchestrator.dropFromGetErr ?y u =>
    destruct (dropFromGetErr_frame y u) as (_ & _ & D3 & _ & _ & _ & _ & D8);
    set (y0 := y) in *
  end.
  rewrite <- E2 in D3, D8.
  assert (T2 : Orchestrator._tabResources s2 = Orchestrator._tabResources s).
  { rewrite E2. unfold Orchestrator.dropFromGetErr.
    destruct (Orchestrator.pendingGetErr y0) as [[id request]|]; cbn;
      unfold m; now destruct (Orchestrator._tabResources s). }
  pose proof Hinv1 as (_ & _ & _ & _ & _ & F1 & _ & _ & _ & J1).
  split; [exact T2|].
  split.
  { rewrite <- Hv0. apply shouldValidate_same_client.
    - rewrite E2. unfold Orchestrator.dropFromGetErr.
      destruct (Orchestrator.pendingGetErr y0) as [[id request]|];
        unfold y0; rewrite E1'; apply same_client_refl.
    - rewrite E2. unfold Orchestrator.dropFromGetErr.
      destruct (Orchestrator.pendingGetErr y0) as [[id request]|];
        unfold y0; rewrite E1'; reflexivity.
    - rewrite E2. unfold Orchestrator.dropFromGetErr.
      destruct (Orchestrator.pendingGetErr y0) as [[id request]|];
        unfold y0; rewrite E1'; reflexivity.
    - exact T2. }
  split.
  { unfold Orchestrator.hasPendingDiagnostics. rewrite D3. unfold y0. cbn.
    now apply has_delete_same. }
  intros id request Hreq.
  destruct (D8 id request Hreq) as (request0 & Hp0 & ->).
  apply has_delete_same.
  change (Orchestrator.pendingGetErr y0)
    with (Orchestrator.pendingGetErr s1) in Hp0.
  rewrite Hp0 in J1. exact (proj2 (proj2 J1)).
Qed.

Lemma X28_tab_visibility_witness :
  let s :=
    OrchOps.run
      (Orchestrator.create (Sample.client API.v440) [typescript] false [] true
         true)
      [OrchOps.E_open (Sample.doc Sample.fileA 10) 0%Z] in
  let tab := mkTab 1 (TabInputText Sample.fileA) in
  let s1 :=
    Orchestrator.onDidChangeTabs s
      (TabResourceTracker.mkTabChangeEvent [tab] []) (fun _ => 5%Z) in
  Orchestrator.hasPendingDiagnostics s Sample.fileA = false
  /\ Orchestrator.hasPendingDiagnostics s1 Sample.fileA = true.
Proof.
  split; [reflexivity|].
  exact (proj1 (proj2 (proj1 (proj2
           (X28_tab_visibility (Sample.client API.v440) [typescript] false []
              true true [OrchOps.E_open (Sample.doc Sample.fileA 10) 0%Z]
              (mkTab 1 (TabInputText Sample.fileA)) Sample.fileA
              (SyncedBuffer.with_state
                 (SyncedBuffer.create (Sample.doc Sample.fileA 10) "/src/a.ts")
                 BufferState.Open)
              (fun _ => 5%Z) (fun _ => 6%Z)
              eq_refl eq_refl eq_refl eq_refl eq_refl))))).
Defined.

Section OrchestratorResources.
Import Orchestrator.

(** Two tracked buffers of one file path are one buffer. *)
Lemma same_path_same_buffer cfg (s : t)
  (e e' : ResourceMap.Entry SyncedBuffer.t) :
  orch_inv cfg s ->
  In e (ResourceMap.entries (syncedBuffers s)) ->
  In e' (ResourceMap.entries (syncedBuffers s)) ->
  SyncedBuffer.filepath (ResourceMap.value e)
  = SyncedBuffer.filepath (ResourceMap.value e') ->
  ResourceMap.value e = ResourceMap.value e'.
Proof.
  intros ([Hn _] & _ & _ & _ & E & _ & _ & _ & I & _) He He' Hf.
  rewrite Forall_forall in I.
  destruct (I e He) as (_ & Q & _). destruct (I e' He') as (_ & Q' & _).
  assert (K : ResourceMap.toKey (syncedBuffers s) (ResourceMap.resource e)
              = ResourceMap.toKey (syncedBuffers s) (ResourceMap.resource e')).
  { unfold ResourceMap.toKey. now rewrite Hn, Q, Q', Hf. }
  pose proof (get_same_key _ _ _ K) as G.
  rewrite (proj1 (get_entry _ e E He)), (proj1 (get_entry _ e' E He')) in G.
  now injection G.
Qed.

(** What [toVsCodeResource] gives for a URI with the path of a buffer. *)
Lemma toVsCodeResource_tracked cfg (s : t) (r : Uri) (b : SyncedBuffer.t) :
  orch_inv cfg s ->
  In b (ResourceMap.values (syncedBuffers s)) ->
  Client.toTsFilePath (client s) r = Some (SyncedBuffer.filepath b) ->
  toVsCodeResource s r = SyncedBuffer.resource b.
Proof.
  intros Hinv Hb Hp. unfold toVsCodeResource. rewrite Hp.
  destruct (find _ (ResourceMap.values (syncedBuffers s))) as [b'|] eqn:Ef.
  - apply find_some in Ef as [Hb' Heq]. apply String.eqb_eq in Heq.
    unfold ResourceMap.values in Hb, Hb'.
    apply in_map_iff in Hb as (e & <- & He).
    apply in_map_iff in Hb' as (e' & <- & He').
    now rewrite (same_path_same_buffer cfg s e' e Hinv He' He Heq).
  - pose proof (find_none _ _ Ef b Hb) as H. cbn in H.
    now rewrite String.eqb_refl in H.
Qed.

End OrchestratorResources.

(** X29. The URI of a file for the editor. In any state that a new
    orchestrator reaches, [toVsCodeResource] gives a URI with the TS path of
    a tracked buffer the URI of that buffer, whichever buffer of that path
    is taken; it gives the URI of a tracked buffer that URI; what it gives
    is the URI itself or a handled URI of the same TS path; and applying it
    again changes nothing. *)
Theorem X29_toVsCodeResource (client0 : Client.t)
  (modeIds0 : list LanguageId) (onCaseInsensitiveFileSystem : bool)
  (allTabs : list Tab) (js ts : bool) (events : list OrchOps.Event)
  (resource : Uri) :
  let s :=
    OrchOps.run
      (Orchestrator.create client0 modeIds0 onCaseInsensitiveFileSystem
         allTabs js ts)
      events in
  let c := Orchestrator.client s in
  let resource' := Orchestrator.toVsCodeResource s resource in
  (forall buffer,
     In buffer (ResourceMap.values (Orchestrator.syncedBuffers s)) ->
     Client.toTsFilePath c resource = Some (SyncedBuffer.filepath buffer) ->
     resource' = SyncedBuffer.resource buffer)
  /\ (forall e,
        In e (ResourceMap.entries (Orchestrator.syncedBuffers s)) ->
        Orchestrator.toVsCodeResource s (ResourceMap.resource e)
        = ResourceMap.resource e)
  /\ (resource' = resource
      \/ (Orchestrator.handles s resource' = true
          /\ Client.toTsFilePath c resource' = Client.toTsFilePath c resource))
  /\ Orchestrator.toVsCodeResource s resource' = resource'.
Proof.
  intros s c resource'. subst c.
  set (cfg := (Build_Config onCaseInsensitiveFileSystem)).
  assert (Hinv : orch_inv cfg s) by apply inv_reached.
  pose proof Hinv as (_ & _ & _ & _ & E & _ & _ & _ & I & _).
  rewrite Forall_forall in I.
  assert (Htracked : forall e,
             In e (ResourceMap.entries (Orchestrator.syncedBuffers s)) ->
             Orchestrator.toVsCodeResource s (ResourceMap.resource e)
             = ResourceMap.resource e).
  { intros e He. destruct (I e He) as (P & Q & _).
    rewrite <- P at 2.
    apply (toVsCodeResource_tracked cfg); [exact Hinv | | exact Q].
    unfold ResourceMap.values. now apply in_map. }
  assert (Hcases : resource' = resource
                   \/ exists e,
                        In e (ResourceMap.entries (Orchestrator.syncedBuffers s))
                        /\ resource' = ResourceMap.resource e
                        /\ Client.toTsFilePath (Orchestrator.client s) resource
                           = Some (SyncedBuffer.filepath (ResourceMap.value e))).
  { unfold resource', Orchestrator.toVsCodeResource.
    destruct (Client.toTsFilePath (Orchestrator.client s) resource)
      as [filepath|]; [|now left].
    destruct (find _ (ResourceMap.values (Orchestrator.syncedBuffers s)))
      as [b|] eqn:Ef; [|now left].
    right. apply find_some in Ef as [Hb Heq]. apply String.eqb_eq in Heq.
    unfold ResourceMap.values in Hb. apply in_map_iff in Hb as (e & <- & He).
    exists e. destruct (I e He) as (P & _).
    split; [exact He|]. split; [exact P | now rewrite Heq]. }
  split.
  { intros b Hb Hp. now apply (toVsCodeResource_tracked cfg). }
  split; [exact Htracked|].
  split.
  - destruct Hcases as [H|(e & He & H & Hp)]; [now left|right].
    rewrite H. destruct (I e He) as (_ & Q & _).
    split; [|now rewrite Q, Hp].
    unfold Orchestrator.handles. rewrite has_get.
    now rewrite (proj1 (get_entry _ e E He)).
  - destruct Hcases as [H|(e & He & H & _)];
      [|rewrite H; now apply Htracked].
    rewrite H. exact H.
Qed.

Section OrchestratorListen.
Import Orchestrator.




End OrchestratorListen.

